(** * The two-stream (vision + language) Transformer encoder of ERNIE-ViL

    A shallow embedding of [ERNIE-Vil/model/vl_transformer_encoder.py]:
    [multi_head_attention], [positionwise_feed_forward],
    [pre_post_process_layer], [encoder_co_layer], [encoder_layer] and
    [encoder], over a model of the tensor operations of [paddle.fluid.layers]
    that the file calls.

    Tensors are a shape and a row-major buffer.  The arithmetic of the scalar
    type (floating point in the program) is kept abstract in the class
    [Kernels]: every result below holds for any interpretation of it. *)

From Stdlib Require Import String Ascii DecimalString.
From Stdlib Require Import ZArith QArith Arith Bool Lia List.
From Stdlib Require Import DecimalZ DecimalPos.
Import ListNotations.

Set Implicit Arguments.
Local Open Scope nat_scope.

(** ** Python exceptions and the result of a call

    [ValueError] is what the two [raise] statements of the file raise (its
    message without the shapes that the program formats into it); the next
    five are raised by the interpreter; [FrameworkError] stands for any
    exception raised inside a layer of the framework, on shapes or attributes
    that the layer rejects. *)

Inductive exn : Type :=
| ValueError (msg : string)
| ZeroDivisionError
| TypeError
| UnboundLocalError (var : string)
| KeyError (key : string)
| IndexError
| FrameworkError.

Inductive result (A : Type) : Type :=
| Ok (a : A)
| Raise (e : exn).

Arguments Ok {A} a.
Arguments Raise {A} e.

Definition bind {A B : Type} (m : result A) (f : A -> result B) : result B :=
  match m with
  | Ok a => f a
  | Raise e => Raise e
  end.

Notation "x <- m ;; k" := (bind m (fun x => k))
  (at level 61, m at next level, right associativity).
Notation "' p <- m ;; k" := (bind m (fun p => k))
  (at level 61, p pattern, m at next level, right associativity).

Definition is_ValueError {A : Type} (r : result A) : Prop :=
  exists msg, r = Raise (ValueError msg).

Notation "a +s b" := (String.append a b) (at level 50, left associativity).

(** [str(i)] for a Python int. *)
Definition str (i : Z) : string := NilZero.string_of_int (Z.to_int i).

(** [range(lo, hi)]. *)
Definition range (lo hi : Z) : list Z :=
  map (fun i => (lo + Z.of_nat i)%Z) (seq 0 (Z.to_nat (hi - lo))).

(** A Python [dict] with string keys, in insertion order. *)
Definition dict (V : Type) : Type := list (string * V).

Fixpoint dict_get {V : Type} (d : dict V) (k : string) : option V :=
  match d with
  | [] => None
  | (k', v) :: d' => if String.eqb k' k then Some v else dict_get d' k
  end.

Fixpoint dict_set {V : Type} (d : dict V) (k : string) (v : V) : dict V :=
  match d with
  | [] => [(k, v)]
  | (k', v') :: d' =>
      if String.eqb k' k then (k', v) :: d' else (k', v') :: dict_set d' k v
  end.

Definition dict_item {V : Type} (d : dict V) (k : string) : result V :=
  match dict_get d k with
  | Some v => Ok v
  | None => Raise (KeyError k)
  end.

(** ** Row-major buffers *)

Section Buffers.
Context {A : Type}.

(** [n] consecutive rows of width [w]. *)
Fixpoint chunk (w n : nat) (l : list A) : list (list A) :=
  match n with
  | 0 => []
  | S n' => firstn w l :: chunk w n' (skipn w l)
  end.

(** The [c] columns of a list of rows. *)
Definition transpose_ll (d : A) (c : nat) (m : list (list A)) : list (list A) :=
  map (fun j => map (fun r => nth j r d) m) (seq 0 c).

(** The columns [off, off + w) of a row. *)
Definition slice (off w : nat) (row : list A) : list A :=
  firstn w (skipn off row).

Fixpoint mapi_from {B : Type} (f : nat -> A -> B) (i : nat) (l : list A) : list B :=
  match l with
  | [] => []
  | a :: l' => f i a :: mapi_from f (S i) l'
  end.

(** [f 0, ..., f (n - 1)] *)
Definition tab (n : nat) (f : nat -> A) : list A := map f (seq 0 n).

Fixpoint zip_with {B C : Type} (f : A -> B -> C) (l : list A) (l' : list B) : list C :=
  match l, l' with
  | a :: t, b :: t' => f a b :: zip_with f t t'
  | _, _ => []
  end.
End Buffers.

Definition product (l : list nat) : nat := fold_right Nat.mul 1 l.

Definition shape_eqb (s s' : list nat) : bool :=
  if list_eq_dec Nat.eq_dec s s' then true else false.

(** ** Tensors *)

Record tensor (R : Type) : Type := mkT { shape : list nat; data : list R }.

Arguments mkT {R} shape data.
Arguments shape {R} t.
Arguments data {R} t.

Definition rank {R : Type} (t : tensor R) : nat := length (shape t).

(** A tensor of the framework holds [product (shape t)] scalars and has no
    empty axis: in a shape given to [reshape], [0] and [-1] are markers. *)
Definition wf {R : Type} (t : tensor R) : Prop :=
  length (data t) = product (shape t) /\ Forall (fun d => 0 < d) (shape t).

(** ** The scalar kernels of the framework *)

Class Kernels (R : Type) : Type := {
  r0 : R;
  r1 : R;
  radd : R -> R -> R;
  rmul : R -> R -> R;
  (** inner product of a row and a column *)
  dot : list R -> list R -> R;
  (** the Python float [d ** -0.5] for a positive int [d] *)
  pow_neg_half : Z -> R;
  softmax_row : list R -> list R;
  softmax_row_length : forall l, length (softmax_row l) = length l;
  (** the activation named [act], on a row *)
  act_row : string -> list R -> list R;
  act_row_length : forall a l, length (act_row a l) = length l;
  (** [(x - mean) / sqrt(var + epsilon)] on a row *)
  normalize_row : list R -> list R;
  normalize_row_length : forall l, length (normalize_row l) = length l;
  (** the factor ("upscale_in_train": 0 or 1 / (1 - p)) that dropout with
      probability [p] and seed [seed] puts on the [i]-th scalar *)
  dropout_mask : Q -> Z -> nat -> R;
  (** the initial value the framework gives a parameter (or a bias) of a
      shape when no initializer is named *)
  default_init : bool -> list nat -> list R;
  default_init_length :
    forall b shp, length (default_init b shp) = fold_right Nat.mul 1 shp
}.

(** Truth value of a Python number: [if dropout_rate:]. *)
Definition truthy (q : Q) : bool := negb (Qeq_bool q 0).

Section Framework.
Context {R : Type} {K : Kernels R}.

(** *** Parameters: [fluid.ParamAttr] and the scope that holds their values *)

Inductive initializer : Type :=
| Constant (c : R)
| Custom (f : list nat -> list R).

Record ParamAttr : Type := mkParamAttr {
  pname : string;
  pinit : option initializer
}.

Definition scope : Type := string -> option (tensor R).

Definition init_data (is_bias : bool) (i : option initializer) (shp : list nat) : list R :=
  match i with
  | Some (Constant c) => repeat c (product shp)
  | Some (Custom f) => f shp
  | None => default_init is_bias shp
  end.

(** The value of the parameter [pa] of shape [shp]: the one the scope holds
    under its name, or else its initial value. *)
Definition get_param (th : scope) (pa : ParamAttr) (is_bias : bool) (shp : list nat)
  : result (tensor R) :=
  match th (pname pa) with
  | Some t => if shape_eqb (shape t) shp then Ok t else Raise FrameworkError
  | None => Ok (mkT shp (init_data is_bias (pinit pa) shp))
  end.

(** *** [layers.reshape]

    In the target shape [0] copies the dimension of the input at the same
    index, [-1] is inferred from the others, any other entry is positive. *)

Definition resolve_dim (xs : list nat) (i : nat) (s : Z) : result (option nat) :=
  if (s =? 0)%Z then
    match nth_error xs i with
    | Some d => Ok (Some d)
    | None => Raise FrameworkError
    end
  else if (s =? -1)%Z then Ok None
  else if (0 <? s)%Z then Ok (Some (Z.to_nat s))
  else Raise FrameworkError.

Fixpoint resolve_dims (xs : list nat) (i : nat) (spec : list Z)
  : result (list (option nat)) :=
  match spec with
  | [] => Ok []
  | s :: spec' =>
      d <- resolve_dim xs i s ;;
      ds <- resolve_dims xs (S i) spec' ;;
      Ok (d :: ds)
  end.

Definition known_dim (d : option nat) : nat :=
  match d with Some k => k | None => 1 end.

Definition is_unknown (d : option nat) : bool :=
  match d with Some _ => false | None => true end.

Definition infer_dims (n : nat) (ds : list (option nat)) : result (list nat) :=
  let known := product (map known_dim ds) in
  match length (filter is_unknown ds) with
  | 0 => if known =? n then Ok (map known_dim ds) else Raise FrameworkError
  | 1 =>
      if (0 <? known) && (n mod known =? 0)
      then Ok (map (fun d => match d with Some k => k | None => n / known end) ds)
      else Raise FrameworkError
  | _ => Raise FrameworkError
  end.

Definition reshape (x : tensor R) (spec : list Z) : result (tensor R) :=
  ds <- resolve_dims (shape x) 0 spec ;;
  shp <- infer_dims (product (shape x)) ds ;;
  Ok (mkT shp (data x)).

(** *** [layers.transpose]

    [swap_axes k] exchanges the axes [k] and [k + 1]; a permutation of the
    axes is a sequence of such exchanges. *)

(** One block of [a] rows of [b] groups of [inner] scalars, as [b] rows of
    [a] groups. *)
Definition swap_block (a b inner : nat) (blk : list R) : list R :=
  concat (map (@concat R)
            (transpose_ll [] b (map (chunk inner b) (chunk (b * inner) a blk)))).

Definition swap_axes (k : nat) (x : tensor R) : tensor R :=
  let pre := firstn k (shape x) in
  match skipn k (shape x) with
  | a :: b :: post =>
      let inner := product post in
      mkT (pre ++ b :: a :: post)
        (concat (map (swap_block a b inner)
                   (chunk (a * b * inner) (product pre) (data x))))
  | _ => x
  end.

Fixpoint index_of (a : nat) (l : list nat) : nat :=
  match l with
  | [] => 0
  | x :: l' => if x =? a then 0 else S (index_of a l')
  end.

(** The axis at position [j] moves to position [i <= j]. *)
Definition move_to (i j : nat) (cur : list nat) : list nat :=
  firstn i cur ++ nth j cur 0 :: skipn i (firstn j cur) ++ skipn (S j) cur.

Fixpoint swaps_from (i : nat) (perm cur : list nat) : list nat :=
  match perm with
  | [] => []
  | p :: perm' =>
      let j := index_of p cur in
      rev (seq i (j - i)) ++ swaps_from (S i) perm' (move_to i j cur)
  end.

Definition is_perm (perm : list nat) (n : nat) : bool :=
  (length perm =? n) && forallb (fun i => existsb (Nat.eqb i) perm) (seq 0 n).

Definition transpose (x : tensor R) (perm : list nat) : result (tensor R) :=
  if is_perm perm (rank x)
  then Ok (fold_left (fun t k => swap_axes k t)
             (swaps_from 0 perm (seq 0 (rank x))) x)
  else Raise FrameworkError.

(** *** [layers.matmul], batched over the leading axes *)

(** The rows of the product of a matrix, given by its rows, and a matrix,
    given by its columns. *)
Definition rows_mul (xrows ycols : list (list R)) : list (list R) :=
  map (fun xr => map (fun yc => dot xr yc) ycols) xrows.

Definition mat_mul (xrows ycols : list (list R)) : list R :=
  concat (rows_mul xrows ycols).

Definition matmul (x y : tensor R) (transpose_y : bool) : result (tensor R) :=
  let bx := firstn (rank x - 2) (shape x) in
  let b_y := firstn (rank y - 2) (shape y) in
  match skipn (rank x - 2) (shape x), skipn (rank y - 2) (shape y) with
  | [m; k], [p; q] =>
      let k' := if transpose_y then q else p in
      let n := if transpose_y then p else q in
      if shape_eqb bx b_y && (k =? k') then
        Ok (mkT (bx ++ [m; n])
              (concat
                 (zip_with
                    (fun xm ym =>
                       mat_mul (chunk k m xm)
                         (if transpose_y then chunk k n ym
                          else transpose_ll r0 n (chunk n k ym)))
                    (chunk (m * k) (product bx) (data x))
                    (chunk (p * q) (product bx) (data y)))))
      else Raise FrameworkError
  | _, _ => Raise FrameworkError
  end.

(** *** Row-wise and element-wise layers *)

(** [f] on every row of the axes from [axis] on. *)
Definition map_rows (axis : nat) (f : list R -> list R) (x : tensor R) : list R :=
  concat (map f (chunk (product (skipn axis (shape x)))
                   (product (firstn axis (shape x))) (data x))).

Definition softmax (x : tensor R) : result (tensor R) :=
  match rank x with
  | 0 => Raise FrameworkError
  | S r => Ok (mkT (shape x) (map_rows r softmax_row x))
  end.

Definition scale (x : tensor R) (s : R) : tensor R :=
  mkT (shape x) (map (fun v => rmul v s) (data x)).

(** [layers.dropout] with [dropout_implementation="upscale_in_train"] and
    [is_test=False], in a program whose random seed is 0, where the seed of
    the operator is the seed of the call.  The operator takes a probability
    only; the function is total, and the theorems on calls that return have
    the check as a hypothesis. *)
Definition dropout (x : tensor R) (dropout_prob : Q) (seed : Z) : tensor R :=
  mkT (shape x)
    (mapi_from (fun i v => rmul v (dropout_mask dropout_prob seed i)) 0 (data x)).

(** [x + y], the operator [elementwise_add] with [axis=-1].  Operands of
    one shape are added scalar by scalar.  Otherwise [y] has at most the
    axes of [x] and is aligned with the last axes of [x]; two dimensions go
    together when they are equal or one of them is at most 1, the result
    has the larger one, and an operand is repeated along the axes where it
    has the smaller one. *)
Fixpoint broadcast_dims (xs ys : list nat) : option (list nat) :=
  match xs, ys with
  | [], [] => Some []
  | a :: xs', b :: ys' =>
      if (a =? b) || (a <=? 1) || (b <=? 1)
      then option_map (cons (Nat.max a b)) (broadcast_dims xs' ys')
      else None
  | _, _ => None
  end.

(** The buffer of a tensor of shape [src], repeated up to the shape [tgt]. *)
Fixpoint broadcast (src tgt : list nat) (dat : list R) : list R :=
  match src, tgt with
  | a :: src', b :: tgt' =>
      let blocks := map (broadcast src' tgt') (chunk (product src') a dat) in
      if a =? b then concat blocks else concat (repeat (hd [] blocks) b)
  | _, _ => dat
  end.

Definition elementwise_add (x y : tensor R) : result (tensor R) :=
  if shape_eqb (shape x) (shape y)
  then Ok (mkT (shape x) (zip_with radd (data x) (data y)))
  else if rank y <=? rank x then
    let ys := repeat 1 (rank x - rank y) ++ shape y in
    match broadcast_dims (shape x) ys with
    | Some shp =>
        Ok (mkT shp
              (zip_with radd (broadcast (shape x) shp (data x))
                 (broadcast ys shp (data y))))
    | None => Raise FrameworkError
    end
  else Raise FrameworkError.

(** [layers.layer_norm]: the axes from [begin_norm_axis] on are one row;
    the operator takes no [begin_norm_axis] before axis 1. *)
Definition layer_norm (th : scope) (x : tensor R) (begin_norm_axis : Z)
  (param_attr bias_attr : ParamAttr) : result (tensor R) :=
  if (0 <? begin_norm_axis)%Z && (begin_norm_axis <? Z.of_nat (rank x))%Z then
    let ax := Z.to_nat begin_norm_axis in
    let w := product (skipn ax (shape x)) in
    sc <- get_param th param_attr false [w] ;;
    bi <- get_param th bias_attr true [w] ;;
    Ok (mkT (shape x)
          (map_rows ax
             (fun row =>
                zip_with radd (zip_with rmul (normalize_row row) (data sc)) (data bi))
             x))
  else Raise FrameworkError.

(** The [sz] columns of a weight of [w] rows. *)
Definition columns (W : tensor R) (w sz : nat) : list (list R) :=
  transpose_ll r0 sz (chunk sz w (data W)).

(** The affine map of a fully connected layer on one row. *)
Definition affine (cols : list (list R)) (b : list R) (row : list R) : list R :=
  zip_with radd (map (fun c => dot row c) cols) b.

(** The activation of [layers.fc].  The framework raises on a name that
    is no operator; the function is total, and the theorems on calls that
    return have the check as a hypothesis. *)
Definition activate (act : option string) (row : list R) : list R :=
  match act with
  | Some a => act_row a row
  | None => row
  end.

(** [layers.fc]: the axes from [num_flatten_dims] on are one row. *)
Definition fc (th : scope) (input : tensor R) (size : Z) (num_flatten_dims : nat)
  (act : option string) (param_attr bias_attr : ParamAttr) : result (tensor R) :=
  if (0 <? num_flatten_dims) && (num_flatten_dims <? rank input) && (0 <? size)%Z then
    let w := product (skipn num_flatten_dims (shape input)) in
    let sz := Z.to_nat size in
    W <- get_param th param_attr false [w; sz] ;;
    b <- get_param th bias_attr true [sz] ;;
    let cols := columns W w sz in
    Ok (mkT (firstn num_flatten_dims (shape input) ++ [sz])
          (map_rows num_flatten_dims
             (fun row => activate act (affine cols (data b) row)) input))
  else Raise FrameworkError.

(** [layers.concat] of two tensors along [axis]. *)
Definition concat2 (x y : tensor R) (axis : nat) : result (tensor R) :=
  match skipn axis (shape x), skipn axis (shape y) with
  | a :: post, b :: post' =>
      if shape_eqb (firstn axis (shape x)) (firstn axis (shape y))
         && shape_eqb post post'
      then
        let pre := firstn axis (shape x) in
        let inner := product post in
        Ok (mkT (pre ++ (a + b) :: post)
              (concat
                 (zip_with (@app R)
                    (chunk (a * inner) (product pre) (data x))
                    (chunk (b * inner) (product pre) (data y)))))
      else Raise FrameworkError
  | _, _ => Raise FrameworkError
  end.
End Framework.

(** ** The biattention schedule

    The calls that the two id lists stand for, in the words of the
    specification: for the pairs [(v_layer_id, t_layer_id)] in turn, the text
    layers from where the last pair stopped up to [t_layer_id], the vision
    layers likewise, then one co-attention layer; after the last pair one more
    layer and one [pre_process_layer] per stream. *)

Inductive layer_call : Type :=
| TextLayer (idx : Z)
| VisionLayer (idx : Z)
| CoLayer (blk : Z)
| TextPost
| VisionPost.

Fixpoint schedule_blocks (pairs : list (Z * Z)) (v_from t_from blk : Z)
  : list layer_call :=
  match pairs with
  | [] => []
  | (v_layer_id, t_layer_id) :: pairs' =>
      map TextLayer (range t_from t_layer_id)
      ++ map VisionLayer (range v_from v_layer_id)
      ++ CoLayer blk :: schedule_blocks pairs' v_layer_id t_layer_id (blk + 1)%Z
  end.

Definition schedule (pairs : list (Z * Z)) : list layer_call :=
  let '(v_last, t_last) := last pairs (0, 0)%Z in
  schedule_blocks pairs 0 0 0
  ++ [TextLayer t_last; VisionLayer v_last; TextPost; VisionPost].

Definition is_text_layer (c : layer_call) : bool :=
  match c with TextLayer _ => true | _ => false end.

Definition is_vision_layer (c : layer_call) : bool :=
  match c with VisionLayer _ => true | _ => false end.

Definition is_co_layer (c : layer_call) : bool :=
  match c with CoLayer _ => true | _ => false end.

Definition calls (p : layer_call -> bool) (cs : list layer_call) : nat :=
  List.length (filter p cs).

(** The index of the last text (vision) layer of a list of calls. *)
Definition deepest_text (cs : list layer_call) : option Z :=
  fold_left (fun acc c => match c with TextLayer i => Some i | _ => acc end) cs None.

Definition deepest_vision (cs : list layer_call) : option Z :=
  fold_left (fun acc c => match c with VisionLayer i => Some i | _ => acc end) cs None.

(** ** The encoder: [vl_transformer_encoder.py] *)

Section Encoder.
Context {R : Type} {K : Kernels R}.

(** The values of the learned parameters, by name. *)
Variable th : @scope R.

(** What a function returns with [debug=False] and with [debug=True]. *)
Definition ret1 (debug : bool) : Type :=
  if debug then dict (tensor R) else tensor R.

Definition ret2 (debug : bool) : Type :=
  if debug then dict (tensor R) else (tensor R * tensor R)%type.

(** [x.shape[i]] *)
Definition shape_item (x : tensor R) (i : Z) : result Z :=
  let n := Z.of_nat (rank x) in
  let j := if (i <? 0)%Z then (n + i)%Z else i in
  if (0 <=? j)%Z && (j <? n)%Z
  then Ok (Z.of_nat (nth (Z.to_nat j) (shape x) 0))
  else Raise IndexError.

(** [a // b] *)
Definition floordiv (a b : Z) : result Z :=
  if (b =? 0)%Z then Raise ZeroDivisionError else Ok (a / b)%Z.

(** [d ** -0.5] for an int [d], as the [scale] attribute of [layers.scale]:
    zero cannot be raised to a negative power, and the power of a negative
    int is a complex number, which is no scale. *)
Definition pow_neg_half_attr (d : Z) : result R :=
  if (d =? 0)%Z then Raise ZeroDivisionError
  else if (d <? 0)%Z then Raise TypeError
  else Ok (pow_neg_half d).

(** *** [multi_head_attention] *)

Definition __compute_qkv (param_initializer : option (@initializer R)) (name : string)
  (queries keys values : tensor R) (n_head d_key d_value : Z)
  : result (tensor R * tensor R * tensor R) :=
  q <- fc th queries (d_key * n_head) 2 None
         (mkParamAttr (name +s "_query_fc.w_0") param_initializer)
         (mkParamAttr (name +s "_query_fc.b_0") None) ;;
  k <- fc th keys (d_key * n_head) 2 None
         (mkParamAttr (name +s "_key_fc.w_0") param_initializer)
         (mkParamAttr (name +s "_key_fc.b_0") None) ;;
  v <- fc th values (d_value * n_head) 2 None
         (mkParamAttr (name +s "_value_fc.w_0") param_initializer)
         (mkParamAttr (name +s "_value_fc.b_0") None) ;;
  Ok (q, k, v).

(** [reshaped] in [__split_heads]: with [inplace=True] it is also what the
    variable [x] holds afterwards. *)
Definition split_heads_reshaped (x : tensor R) (n_head : Z) : result (tensor R) :=
  hidden_size <- shape_item x (-1) ;;
  d <- floordiv hidden_size n_head ;;
  reshape x [0; 0; n_head; d]%Z.

Definition __split_heads (x : tensor R) (n_head : Z) : result (tensor R) :=
  reshaped <- split_heads_reshaped x n_head ;;
  transpose reshaped [0; 2; 1; 3].

Definition __combine_heads (x : tensor R) : result (tensor R) :=
  if rank x =? 3 then Ok x
  else if negb (rank x =? 4)
  then Raise (ValueError "Input(x) should be a 4-D Tensor.")
  else
    trans_x <- transpose x [0; 2; 1; 3] ;;
    s2 <- shape_item trans_x 2 ;;
    s3 <- shape_item trans_x 3 ;;
    reshape trans_x [0; 0; s2 * s3]%Z.

(** [if attn_bias:] is the test that [attn_bias] is not [None]: a variable of
    the framework is true. *)
Definition scaled_dot_product_attention (seed : Z) (q k v : tensor R)
  (attn_bias : option (tensor R)) (d_key : Z) (dropout_rate : Q)
  : result (tensor R) :=
  s <- pow_neg_half_attr d_key ;;
  let scaled_q := scale q s in
  product <- matmul scaled_q k true ;;
  product <- match attn_bias with
             | Some b => elementwise_add product b
             | None => Ok product
             end ;;
  weights <- softmax product ;;
  let weights :=
    if truthy dropout_rate then dropout weights dropout_rate seed else weights in
  matmul weights v false.

(** The branch [if cache is not None]: the keys and values of the earlier
    time steps are put before the new ones. *)
Definition use_cache (cache : option (dict (tensor R))) (d_model : Z) (k v : tensor R)
  : result (tensor R * tensor R * option (dict (tensor R))) :=
  match cache with
  | None => Ok (k, v, None)
  | Some c =>
      ck <- dict_item c "k" ;;
      rk <- reshape ck [0; 0; d_model]%Z ;;
      k <- concat2 rk k 1 ;;
      let c := dict_set c "k" k in
      cv <- dict_item c "v" ;;
      rv <- reshape cv [0; 0; d_model]%Z ;;
      v <- concat2 rv v 1 ;;
      let c := dict_set c "v" v in
      Ok (k, v, Some c)
  end.

(** The cache after the call: [cache["k"]] and [cache["v"]] are the
    variables [k] and [v], which [__split_heads] has reshaped in place. *)
Definition cache_after (cache : option (dict (tensor R))) (n_head : Z) (k v : tensor R)
  : result (option (dict (tensor R))) :=
  match cache with
  | None => Ok None
  | Some c =>
      k' <- split_heads_reshaped k n_head ;;
      v' <- split_heads_reshaped v n_head ;;
      Ok (Some (dict_set (dict_set c "k" k') "v" v'))
  end.

Definition multi_head_attention (queries : tensor R) (keys values : option (tensor R))
  (attn_bias : option (tensor R)) (d_key d_value d_model n_head : Z)
  (dropout_rate : Q) (cache : option (dict (tensor R)))
  (param_initializer : option (@initializer R)) (seed : Z) (name : string)
  (debug : bool) : result (ret1 debug * option (dict (tensor R))) :=
  let keys := match keys with None => queries | Some k => k end in
  let values := match values with None => keys | Some v => v end in
  if negb ((rank queries =? 3) && (rank keys =? 3) && (rank values =? 3))
  then Raise (ValueError "Inputs: quries, keys and values should all be 3-D tensors.")
  else
    '(q, k, v) <- __compute_qkv param_initializer name queries keys values
                    n_head d_key d_value ;;
    '(k, v, cache) <- use_cache cache d_model k v ;;
    _q <- __split_heads q n_head ;;
    _k <- __split_heads k n_head ;;
    _v <- __split_heads v n_head ;;
    cache <- cache_after cache n_head k v ;;
    ctx_multiheads <- scaled_dot_product_attention seed _q _k _v attn_bias d_key
                        dropout_rate ;;
    out <- __combine_heads ctx_multiheads ;;
    proj_out <- fc th out d_model 2 None
                  (mkParamAttr (name +s "_output_fc.w_0") param_initializer)
                  (mkParamAttr (name +s "_output_fc.b_0") None) ;;
    Ok (match debug as b return ret1 b with
        | true => [("proj_out"%string, proj_out)]
        | false => proj_out
        end, cache).

(** *** [positionwise_feed_forward] *)

Definition positionwise_feed_forward (x : tensor R) (d_inner_hid d_hid : Z)
  (dropout_rate : Q) (hidden_act : option string)
  (param_initializer : option (@initializer R)) (seed : Z) (name : string)
  (debug : bool) : result (ret1 debug) :=
  hidden <- fc th x d_inner_hid 2 hidden_act
              (mkParamAttr (name +s "_fc_0.w_0") param_initializer)
              (mkParamAttr (name +s "_fc_0.b_0") None) ;;
  let hidden :=
    if truthy dropout_rate then dropout hidden dropout_rate seed else hidden in
  out <- fc th hidden d_hid 2 None
           (mkParamAttr (name +s "_fc_1.w_0") param_initializer)
           (mkParamAttr (name +s "_fc_1.b_0") None) ;;
  Ok (match debug as b return ret1 b with
      | true => [("hidden"%string, hidden); ("out"%string, out)]
      | false => out
      end).

(** *** [pre_post_process_layer] *)

(** One command of [process_cmd] on [out]; [if prev_out] is the test that
    [prev_out] is not [None]. *)
Definition process_cmd_step (prev_out : option (tensor R)) (dropout_rate : Q)
  (seed : Z) (name : string) (cmd : ascii) (out : tensor R) : result (tensor R) :=
  if Ascii.eqb cmd "a" then
    match prev_out with
    | Some p => elementwise_add out p
    | None => Ok out
    end
  else if Ascii.eqb cmd "n" then
    layer_norm th out (Z.of_nat (rank out) - 1)
      (mkParamAttr (name +s "_layer_norm_scale") (Some (Constant r1)))
      (mkParamAttr (name +s "_layer_norm_bias") (Some (Constant r0)))
  else if Ascii.eqb cmd "d" then
    if truthy dropout_rate then Ok (dropout out dropout_rate seed) else Ok out
  else Ok out.

(** The loop [for cmd in process_cmd], on the locals [out] and [debug_dict]. *)
Fixpoint process_cmd_loop (prev_out : option (tensor R)) (dropout_rate : Q)
  (seed : Z) (name : string) (debug : bool) (process_cmd : string)
  (out : tensor R) (debug_dict : dict (tensor R))
  : result (tensor R * dict (tensor R)) :=
  match process_cmd with
  | EmptyString => Ok (out, debug_dict)
  | String cmd rest =>
      out <- process_cmd_step prev_out dropout_rate seed name cmd out ;;
      let debug_dict :=
        if debug then dict_set debug_dict ("out_" +s String cmd EmptyString) out
        else debug_dict in
      process_cmd_loop prev_out dropout_rate seed name debug rest out debug_dict
  end.

Definition pre_post_process_layer (prev_out : option (tensor R)) (out : tensor R)
  (process_cmd : string) (dropout_rate : Q) (seed : Z) (name : string)
  (debug : bool) : result (ret1 debug) :=
  '(out, debug_dict) <- process_cmd_loop prev_out dropout_rate seed name debug
                          process_cmd out [] ;;
  Ok (match debug as b return ret1 b with
      | true => dict_set debug_dict "out" out
      | false => out
      end).

Definition pre_process_layer := pre_post_process_layer None.

Definition post_process_layer := pre_post_process_layer.

(** *** [encoder_co_layer] *)

Definition encoder_co_layer (enc_input enc_vl_input attn_vl_bias : tensor R)
  (co_head co_key co_value co_model d_model d_inner_hid v_model v_inner_hid : Z)
  (prepostprocess_dropout attention_dropout relu_dropout : Q)
  (hidden_act : option string) (preprocess_cmd postprocess_cmd : string)
  (param_initializer : option (@initializer R)) (seed : Z) (name : string)
  (debug : bool) : result (ret2 debug) :=
  enc_input_pre <- pre_process_layer enc_input preprocess_cmd
                     prepostprocess_dropout seed (name +s "_pre_att") false ;;
  enc_input_vl_pre <- pre_process_layer enc_vl_input preprocess_cmd
                        prepostprocess_dropout seed (name +s "_vl_pre_att") false ;;
  bias_t <- transpose attn_vl_bias [0; 1; 3; 2] ;;
  '(attn_output, _) <-
    multi_head_attention enc_input_pre (Some enc_input_vl_pre) (Some enc_input_vl_pre)
      (Some bias_t) co_key co_value d_model co_head attention_dropout None
      param_initializer seed (name +s "_multi_head_att") false ;;
  '(attn_vl_output, _) <-
    multi_head_attention enc_input_vl_pre (Some enc_input_pre) (Some enc_input_pre)
      (Some attn_vl_bias) co_key co_value v_model co_head attention_dropout None
      param_initializer seed (name +s "_vl_multi_head_att") false ;;
  attn_output <- post_process_layer (Some enc_input) attn_output postprocess_cmd
                   prepostprocess_dropout seed (name +s "_post_att") false ;;
  attn_vl_output <- post_process_layer (Some enc_vl_input) attn_vl_output
                      postprocess_cmd prepostprocess_dropout seed
                      (name +s "_vl_post_att") false ;;
  pre_ffn <- pre_process_layer attn_output preprocess_cmd prepostprocess_dropout
               seed (name +s "_pre_ffn") false ;;
  ffd_output <- positionwise_feed_forward pre_ffn d_inner_hid d_model relu_dropout
                  hidden_act param_initializer seed (name +s "_ffn") false ;;
  pre_vl_ffn <- pre_process_layer attn_vl_output preprocess_cmd
                  prepostprocess_dropout seed (name +s "_pre_vl_ffn") false ;;
  ffd_vl_output <- positionwise_feed_forward pre_vl_ffn v_inner_hid v_model
                     relu_dropout hidden_act param_initializer seed
                     (name +s "_vl_ffn") false ;;
  enc_output <- post_process_layer (Some attn_output) ffd_output postprocess_cmd
                  prepostprocess_dropout seed (name +s "_post_ffn") false ;;
  enc_vl_output <- post_process_layer (Some attn_vl_output) ffd_vl_output
                     postprocess_cmd prepostprocess_dropout seed
                     (name +s "_vl_post_ffn") false ;;
  Ok (match debug as b return ret2 b with
      | true => [("enc_output"%string, enc_output);
                 ("enc_vl_output"%string, enc_vl_output)]
      | false => (enc_output, enc_vl_output)
      end).

(** *** [encoder_layer] *)

Definition encoder_layer (enc_input : tensor R) (attn_bias : option (tensor R))
  (n_head d_key d_value d_model d_inner_hid : Z)
  (prepostprocess_dropout attention_dropout relu_dropout : Q)
  (hidden_act : option string) (preprocess_cmd postprocess_cmd : string)
  (param_initializer : option (@initializer R)) (seed : Z) (name : string)
  (debug : bool) : result (ret1 debug) :=
  pre_att <- pre_process_layer enc_input preprocess_cmd prepostprocess_dropout
               seed (name +s "_pre_att") false ;;
  '(attn_output, _) <-
    multi_head_attention pre_att None None attn_bias d_key d_value d_model n_head
      attention_dropout None param_initializer seed (name +s "_multi_head_att")
      false ;;
  attn_output <- post_process_layer (Some enc_input) attn_output postprocess_cmd
                   prepostprocess_dropout seed (name +s "_post_att") false ;;
  pre_ffn <- pre_process_layer attn_output preprocess_cmd prepostprocess_dropout
               seed (name +s "_pre_ffn") false ;;
  ffd_output <- positionwise_feed_forward pre_ffn d_inner_hid d_model relu_dropout
                  hidden_act param_initializer seed (name +s "_ffn") false ;;
  post_ffd <- post_process_layer (Some attn_output) ffd_output postprocess_cmd
                prepostprocess_dropout seed (name +s "_post_ffn") false ;;
  Ok (match debug as b return ret1 b with
      | true => [("attn_output"%string, attn_output); ("post_ffd"%string, post_ffd)]
      | false => post_ffd
      end).

(** *** [encoder] *)

(** The local variables of [encoder] that the loops assign; [None] is a
    variable not yet bound. *)
Record locals : Type := mkLocals {
  enc_input : tensor R;
  enc_vl_input : tensor R;
  v_start : Z;
  t_start : Z;
  block : Z;
  v_end : option Z;
  t_end : option Z;
  enc_output : option (tensor R);
  enc_vl_output : option (tensor R)
}.

(** Reading a local variable. *)
Definition local {A : Type} (var : string) (v : option A) : result A :=
  match v with
  | Some a => Ok a
  | None => Raise (UnboundLocalError var)
  end.

Section Stack.
Variables (attn_bias attn_image_bias : option (tensor R)) (attn_vl_bias : tensor R).
Variables (n_head d_key d_value d_model d_inner_hid : Z).
Variables (v_head v_key v_value v_model v_inner_hid : Z).
Variables (co_head co_key co_value co_model : Z).
Variables (prepostprocess_dropout attention_dropout relu_dropout : Q).
Variables (hidden_act : option string) (preprocess_cmd postprocess_cmd : string).
Variables (param_initializer : option (@initializer R)) (seed : Z) (name : string).

Definition text_layer (idx : Z) (x : tensor R) : result (tensor R) :=
  encoder_layer x attn_bias n_head d_key d_value d_model d_inner_hid
    prepostprocess_dropout attention_dropout relu_dropout hidden_act
    preprocess_cmd postprocess_cmd param_initializer seed
    (name +s "_layer_" +s str idx) false.

Definition vision_layer (idx : Z) (x : tensor R) : result (tensor R) :=
  encoder_layer x attn_image_bias v_head v_key v_value v_model v_inner_hid
    prepostprocess_dropout attention_dropout relu_dropout hidden_act
    preprocess_cmd postprocess_cmd param_initializer seed
    (name +s "_vlayer_" +s str idx) false.

Definition co_layer (blk : Z) (x vx : tensor R) : result (tensor R * tensor R) :=
  encoder_co_layer x vx attn_vl_bias co_head co_key co_value co_model d_model
    d_inner_hid v_model v_inner_hid prepostprocess_dropout attention_dropout
    relu_dropout hidden_act preprocess_cmd postprocess_cmd param_initializer
    seed (name +s "_colayer_" +s str blk) false.

(** [for idx in range(t_start, t_end)] *)
Fixpoint text_loop (idxs : list Z) (l : locals) : result locals :=
  match idxs with
  | [] => Ok l
  | idx :: idxs' =>
      out <- text_layer idx (enc_input l) ;;
      text_loop idxs'
        (mkLocals out (enc_vl_input l) (v_start l) (t_start l) (block l)
           (v_end l) (t_end l) (Some out) (enc_vl_output l))
  end.

(** [for idx in range(v_start, v_end)] *)
Fixpoint vision_loop (idxs : list Z) (l : locals) : result locals :=
  match idxs with
  | [] => Ok l
  | idx :: idxs' =>
      out <- vision_layer idx (enc_vl_input l) ;;
      vision_loop idxs'
        (mkLocals (enc_input l) out (v_start l) (t_start l) (block l)
           (v_end l) (t_end l) (enc_output l) (Some out))
  end.

(** The body of [for v_layer_id, t_layer_id in zip(...)]. *)
Definition block_body (ids : Z * Z) (l : locals) : result locals :=
  let '(v_layer_id, t_layer_id) := ids in
  let l := mkLocals (enc_input l) (enc_vl_input l) (v_start l) (t_start l)
             (block l) (Some v_layer_id) (Some t_layer_id)
             (enc_output l) (enc_vl_output l) in
  l <- text_loop (range (t_start l) t_layer_id) l ;;
  l <- vision_loop (range (v_start l) v_layer_id) l ;;
  '(out, vl_out) <- co_layer (block l) (enc_input l) (enc_vl_input l) ;;
  Ok (mkLocals out vl_out v_layer_id t_layer_id (block l + 1)%Z
        (Some v_layer_id) (Some t_layer_id) (Some out) (Some vl_out)).

Fixpoint block_loop (pairs : list (Z * Z)) (l : locals) : result locals :=
  match pairs with
  | [] => Ok l
  | ids :: pairs' =>
      l <- block_body ids l ;;
      block_loop pairs' l
  end.

Definition encoder_tail (l : locals) (debug : bool) : result (ret2 debug) :=
  x <- local "enc_output" (enc_output l) ;;
  te <- local "t_end" (t_end l) ;;
  out <- text_layer te x ;;
  vx <- local "enc_vl_output" (enc_vl_output l) ;;
  ve <- local "v_end" (v_end l) ;;
  vl_out <- vision_layer ve vx ;;
  out <- pre_process_layer out preprocess_cmd prepostprocess_dropout seed
           "post_encoder" false ;;
  vl_out <- pre_process_layer vl_out preprocess_cmd prepostprocess_dropout seed
              "vl_post_encoder" false ;;
  Ok (match debug as b return ret2 b with
      | true => [("enc_output"%string, out); ("enc_vl_output"%string, vl_out)]
      | false => (out, vl_out)
      end).


(** One call of the schedule on the pair of streams. *)
Definition run_call (c : layer_call) (s : tensor R * tensor R)
  : result (tensor R * tensor R) :=
  match c with
  | TextLayer idx => x <- text_layer idx (fst s) ;; Ok (x, snd s)
  | VisionLayer idx => vx <- vision_layer idx (snd s) ;; Ok (fst s, vx)
  | CoLayer blk => co_layer blk (fst s) (snd s)
  | TextPost =>
      x <- pre_process_layer (fst s) preprocess_cmd prepostprocess_dropout seed
             "post_encoder" false ;;
      Ok (x, snd s)
  | VisionPost =>
      vx <- pre_process_layer (snd s) preprocess_cmd prepostprocess_dropout seed
              "vl_post_encoder" false ;;
      Ok (fst s, vx)
  end.

Fixpoint run_schedule (cs : list layer_call) (s : tensor R * tensor R)
  : result (tensor R * tensor R) :=
  match cs with
  | [] => Ok s
  | c :: cs' => s' <- run_call c s ;; run_schedule cs' s'
  end.
End Stack.

(** The defaults of [v_biattention_id] and [t_biattention_id]. *)
Definition default_v_biattention_id : list Z := [0; 1; 2; 3; 4; 5]%Z.
Definition default_t_biattention_id : list Z := [18; 19; 20; 21; 22; 23]%Z.

Definition encoder (enc_input enc_vl_input : tensor R)
  (attn_bias attn_image_bias : option (tensor R)) (attn_vl_bias : tensor R)
  (n_layer n_head d_key d_value d_model d_inner_hid : Z)
  (v_head v_key v_value v_model v_inner_hid : Z)
  (co_head co_key co_value co_model co_inner_hid : Z)
  (prepostprocess_dropout attention_dropout relu_dropout : Q)
  (hidden_act : option string) (preprocess_cmd postprocess_cmd : string)
  (param_initializer : option (@initializer R))
  (v_biattention_id t_biattention_id : list Z)
  (seed : Z) (name : string) (debug : bool) : result (ret2 debug) :=
  l <- block_loop attn_bias attn_image_bias attn_vl_bias
         n_head d_key d_value d_model d_inner_hid
         v_head v_key v_value v_model v_inner_hid
         co_head co_key co_value co_model
         prepostprocess_dropout attention_dropout relu_dropout
         hidden_act preprocess_cmd postprocess_cmd param_initializer seed name
         (combine v_biattention_id t_biattention_id)
         (mkLocals enc_input enc_vl_input 0 0 0 None None None None) ;;
  encoder_tail attn_bias attn_image_bias
    n_head d_key d_value d_model d_inner_hid
    v_head v_key v_value v_model v_inner_hid
    prepostprocess_dropout attention_dropout relu_dropout
    hidden_act preprocess_cmd postprocess_cmd param_initializer seed name
    l debug.

(** *** The state of the loops of [encoder]

    What the locals hold after each loop, from the pair of streams [s] that
    the calls of the loop have produced. *)

Definition streams (l : locals) : tensor R * tensor R :=
  (enc_input l, enc_vl_input l).

Definition text_after (idxs : list Z) (l : locals) (s : tensor R * tensor R) : locals :=
  match idxs with
  | [] => l
  | _ :: _ =>
      mkLocals (fst s) (enc_vl_input l) (v_start l) (t_start l) (block l)
        (v_end l) (t_end l) (Some (fst s)) (enc_vl_output l)
  end.

Definition vision_after (idxs : list Z) (l : locals) (s : tensor R * tensor R) : locals :=
  match idxs with
  | [] => l
  | _ :: _ =>
      mkLocals (enc_input l) (snd s) (v_start l) (t_start l) (block l)
        (v_end l) (t_end l) (enc_output l) (Some (snd s))
  end.

Definition block_after (ids : Z * Z) (blk : Z) (s : tensor R * tensor R) : locals :=
  mkLocals (fst s) (snd s) (fst ids) (snd ids) blk
    (Some (fst ids)) (Some (snd ids)) (Some (fst s)) (Some (snd s)).

Definition loop_after (pairs : list (Z * Z)) (l : locals) (s : tensor R * tensor R)
  : locals :=
  match pairs with
  | [] => l
  | _ :: _ =>
      block_after (last pairs (0, 0)%Z) (block l + Z.of_nat (length pairs))%Z s
  end.

(** What [encoder] returns for the pair of streams [s]. *)
Definition ret2_of (debug : bool) (s : tensor R * tensor R) : ret2 debug :=
  match debug as b return ret2 b with
  | true => [("enc_output"%string, fst s); ("enc_vl_output"%string, snd s)]
  | false => s
  end.
End Encoder.

(** ** The co-attention layer, stream by stream

    [encoder_co_layer] in the words of the specification: each stream attends
    to the other one, and its attention result is post-processed, passed
    through its own feed-forward network and post-processed again. *)

Section CoLayerSpec.
Context {R : Type} {K : Kernels R}.
Variable th : @scope R.
Variables (co_head co_key co_value : Z).
Variables (prepostprocess_dropout attention_dropout relu_dropout : Q).
Variables (hidden_act : option string) (preprocess_cmd postprocess_cmd : string).
Variables (param_initializer : option (@initializer R)) (seed : Z).

(** The stream [x] (its preprocessed form [x_pre] as queries) attends to the
    preprocessed other stream [y_pre] (keys and values) under [bias]. *)
Definition cross_attention (x x_pre y_pre bias : tensor R) (model : Z)
  (att_name post_name : string) : result (tensor R) :=
  '(att, _) <- multi_head_attention th x_pre (Some y_pre) (Some y_pre) (Some bias)
                 co_key co_value model co_head attention_dropout None
                 param_initializer seed att_name false ;;
  post_process_layer th (Some x) att postprocess_cmd prepostprocess_dropout seed
    post_name false.

(** The feed-forward network of a stream, of widths [inner_hid] and [model],
    around its pre- and post-processing. *)
Definition feed_forward_block (att : tensor R) (inner_hid model : Z)
  (pre_name ffn_name post_name : string) : result (tensor R) :=
  pre <- pre_process_layer th att preprocess_cmd prepostprocess_dropout seed
           pre_name false ;;
  ffd <- positionwise_feed_forward th pre inner_hid model relu_dropout hidden_act
           param_initializer seed ffn_name false ;;
  post_process_layer th (Some att) ffd postprocess_cmd prepostprocess_dropout seed
    post_name false.

Definition encoder_co_layer_spec (enc_input enc_vl_input attn_vl_bias : tensor R)
  (d_model d_inner_hid v_model v_inner_hid : Z) (name : string)
  : result (tensor R * tensor R) :=
  lang_pre <- pre_process_layer th enc_input preprocess_cmd prepostprocess_dropout
                seed (name +s "_pre_att") false ;;
  vis_pre <- pre_process_layer th enc_vl_input preprocess_cmd prepostprocess_dropout
               seed (name +s "_vl_pre_att") false ;;
  bias_t <- transpose attn_vl_bias [0; 1; 3; 2] ;;
  lang_att <- cross_attention enc_input lang_pre vis_pre bias_t d_model
                (name +s "_multi_head_att") (name +s "_post_att") ;;
  enc_output <- feed_forward_block lang_att d_inner_hid d_model
                  (name +s "_pre_ffn") (name +s "_ffn") (name +s "_post_ffn") ;;
  vis_att <- cross_attention enc_vl_input vis_pre lang_pre attn_vl_bias v_model
               (name +s "_vl_multi_head_att") (name +s "_vl_post_att") ;;
  enc_vl_output <- feed_forward_block vis_att v_inner_hid v_model
                     (name +s "_pre_vl_ffn") (name +s "_vl_ffn")
                     (name +s "_vl_post_ffn") ;;
  Ok (enc_output, enc_vl_output).
End CoLayerSpec.

(** ** Nested lists

    The matrices of a 4-D tensor, by batch element and head. *)

Section NestedDefs.
Context {A : Type}.

(** A matrix of [S] rows of width [d]; [H] such matrices; [B] such groups. *)
Definition rect2 (S d : nat) (M : list (list A)) : Prop :=
  length M = S /\ Forall (fun r => length r = d) M.

Definition rect3 (H S d : nat) (g : list (list (list A))) : Prop :=
  length g = H /\ Forall (rect2 S d) g.

Definition rect4 (B H S d : nat) (G : list (list (list (list A)))) : Prop :=
  length G = B /\ Forall (rect3 H S d) G.

(** The row-major buffer of a group of matrices, and of groups. *)
Definition flat3 (g : list (list (list A))) : list A :=
  concat (map (@concat A) g).

Definition flat4 (G : list (list (list (list A)))) : list A :=
  concat (map flat3 G).
End NestedDefs.

(** ** The feed-forward network and the attention, position by position and
    head by head

    The functions that the specification names, on rows and on matrices (a
    matrix is the list of its rows). *)

Section Formulas.
Context {R : Type} {K : Kernels R}.

(** Every tensor of the scope holds as many scalars as its shape says. *)
Definition wf_scope (th : @scope R) : Prop :=
  forall name t, th name = Some t -> length (data t) = product (shape t).

(** What [positionwise_feed_forward] does at one position: the linear map
    [W0], [b0] to the inner width with the activation, then the linear map
    [W1], [b1] to the output width. *)
Definition ffn_position (W0 b0 W1 b1 : tensor R) (d_in inner d_out : nat)
  (hidden_act : option string) (row : list R) : list R :=
  affine (columns W1 inner d_out) (data b1)
    (activate hidden_act (affine (columns W0 d_in inner) (data b0) row)).

(** The [H] heads of the rows of one batch element: head [h] is the slice of
    width [d] at [h * d] of every row. *)
Definition split_rows (H d : nat) (rows : list (list R)) : list (list (list R)) :=
  tab H (fun h => map (slice (h * d) d) rows).

(** The [B] batch elements of a 3-D buffer, each [S] rows of width [w]. *)
Definition batches (B S w : nat) (dat : list R) : list (list (list R)) :=
  map (chunk w S) (chunk (S * w) B dat).

Definition heads (B S H d : nat) (dat : list R) : list (list (list (list R))) :=
  map (split_rows H d) (batches B S (H * d) dat).

(** The [B] by [H] matrices, of [S] rows of width [d], of a 4-D buffer. *)
Definition nest4 (B H S d : nat) (dat : list R) : list (list (list (list R))) :=
  map (fun blk => map (chunk d S) (chunk (S * d) H blk)) (chunk (H * (S * d)) B dat).

(** [(Q * s) K^T], with [K] given by its rows. *)
Definition scaled_logits (s : R) (Q K : list (list R)) : list (list R) :=
  rows_mul (map (map (fun x => rmul x s)) Q) K.

(** The dropout of the attention weights, applied to their buffer when
    [dropout_rate] is not zero. *)
Definition attention_dropout (B H Sq Sk : nat) (dropout_rate : Q) (seed : Z)
  (weights : list (list (list (list R)))) : list (list (list (list R))) :=
  if truthy dropout_rate
  then nest4 B H Sq Sk
         (data (dropout (mkT [B; H; Sq; Sk] (flat4 weights)) dropout_rate seed))
  else weights.

(** [softmax((Q * s) K^T + attn_bias) V] for every batch element and head,
    with the dropout of the weights. *)
Definition attention_heads (B Sq Sk H dk dv : nat) (s : R) (q k v : list R)
  (attn_bias : option (list R)) (dropout_rate : Q) (seed : Z)
  : list (list (list (list R))) :=
  let logits :=
    zip_with (zip_with (scaled_logits s)) (heads B Sq H dk q) (heads B Sk H dk k) in
  let logits :=
    match attn_bias with
    | Some bd =>
        zip_with (zip_with (zip_with (zip_with radd))) logits (nest4 B H Sq Sk bd)
    | None => logits
    end in
  let weights :=
    attention_dropout B H Sq Sk dropout_rate seed
      (map (map (map softmax_row)) logits) in
  zip_with (zip_with (fun W V => rows_mul W (transpose_ll r0 dv V)))
    weights (heads B Sk H dv v).

(** The rows of one batch element from its heads: row [i] is row [i] of
    every head, one after the other. *)
Definition concat_heads (S : nat) (g : list (list (list R))) : list (list R) :=
  tab S (fun i => concat (map (fun m => nth i m []) g)).

(** [multi_head_attention] in the words of the specification. *)
Definition multi_head_attention_spec (th : @scope R) (queries keys values : tensor R)
  (attn_bias : option (tensor R)) (d_key d_value d_model n_head : Z)
  (dropout_rate : Q) (param_initializer : option (@initializer R)) (seed : Z)
  (name : string) : result (tensor R) :=
  q <- fc th queries (d_key * n_head) 2 None
         (mkParamAttr (name +s "_query_fc.w_0") param_initializer)
         (mkParamAttr (name +s "_query_fc.b_0") None) ;;
  k <- fc th keys (d_key * n_head) 2 None
         (mkParamAttr (name +s "_key_fc.w_0") param_initializer)
         (mkParamAttr (name +s "_key_fc.b_0") None) ;;
  v <- fc th values (d_value * n_head) 2 None
         (mkParamAttr (name +s "_value_fc.w_0") param_initializer)
         (mkParamAttr (name +s "_value_fc.b_0") None) ;;
  let B := nth 0 (shape queries) 0 in
  let Sq := nth 1 (shape queries) 0 in
  let Sk := nth 1 (shape keys) 0 in
  let H := Z.to_nat n_head in
  let dk := Z.to_nat d_key in
  let dv := Z.to_nat d_value in
  let ctx := attention_heads B Sq Sk H dk dv (pow_neg_half d_key)
               (data q) (data k) (data v) (option_map data attn_bias)
               dropout_rate seed in
  fc th (mkT [B; Sq; H * dv] (concat (concat (map (concat_heads Sq) ctx))))
    d_model 2 None
    (mkParamAttr (name +s "_output_fc.w_0") param_initializer)
    (mkParamAttr (name +s "_output_fc.b_0") None).
End Formulas.

(** ** Which exceptions a call can raise *)

(** [raises_in P r]: when [r] is an exception, it is one of [P]. *)
Definition raises_in {A : Type} (P : exn -> Prop) (r : result A) : Prop :=
  forall e, r = Raise e -> P e.

(** The exceptions other than an unbound local variable. *)
Definition bound (e : exn) : Prop :=
  match e with UnboundLocalError _ => False | _ => True end.

(** The exceptions that no [raise] of the file makes: those of the
    interpreter and of the framework. *)
Definition internal (e : exn) : Prop :=
  match e with ValueError _ | UnboundLocalError _ => False | _ => True end.

(** What an exception of a call tells: [value], [zero], [negative], [key k]
    and [unbound v] are what holds when the call raises a [ValueError], a
    [ZeroDivisionError], a [TypeError], [KeyError(k)] and an
    [UnboundLocalError] on [v]; an [IndexError] is never raised, and an
    exception of the framework tells nothing. *)
Definition raises_only (value zero negative : Prop) (key unbound : string -> Prop)
  (e : exn) : Prop :=
  match e with
  | ValueError _ => value
  | ZeroDivisionError => zero
  | TypeError => negative
  | KeyError k => key k
  | UnboundLocalError v => unbound v
  | IndexError => False
  | FrameworkError => True
  end.

(** The exceptions of the layers of the framework. *)
Definition framework (e : exn) : Prop :=
  match e with FrameworkError => True | _ => False end.

(** The exceptions of the steps of an attention on tensors that have the
    axes the steps read: [hidden_size // n_head] and [d_key ** -0.5]. *)
Definition heads_raises (n_head d_key : Z) : exn -> Prop :=
  raises_only False (n_head = 0 \/ d_key = 0)%Z (d_key < 0)%Z
    (fun _ => False) (fun _ => False).

(** What a [KeyError] of [multi_head_attention] tells: the cache has no
    entry under the key, ["k"] or ["v"]. *)
Definition cache_lacks {R : Type} (cache : option (dict (tensor R))) (key : string)
  : Prop :=
  exists c, cache = Some c /\ (key = "k" \/ key = "v")%string /\ dict_get c key = None.

(** ** The commands of [process_cmd] and the entries of [debug_dict] *)

(** [cmd in process_cmd] *)
Definition has_cmd (cmd : ascii) (process_cmd : string) : bool :=
  existsb (Ascii.eqb cmd) (list_ascii_of_string process_cmd).

(** The key [f"out_{cmd}"] of the entry that the command [cmd] leaves. *)
Definition debug_key (cmd : ascii) : string := "out_" +s String cmd EmptyString.

(** ** Ascending id lists *)

(** The ids ascend from [from]: each one is at least the one before. *)
Fixpoint ascending (from : Z) (ids : list Z) : Prop :=
  match ids with
  | [] => True
  | i :: ids' => (from <= i)%Z /\ ascending i ids'
  end.

(** ** The parameters of the layers

    The names under which the functions ask the framework for their
    parameters, with the shapes that the parameters have for 3-D inputs of
    the widths given: [Dq], [Dk] and [Dv] for the queries, keys and values of
    an attention, [d_in] for the input of a feed-forward network, the width
    of the model for a layer. *)

Definition multi_head_attention_params (name : string) (Dq Dk Dv : nat)
  (d_key d_value d_model n_head : Z) : list (string * list nat) :=
  [(name +s "_query_fc.w_0", [Dq; Z.to_nat (d_key * n_head)]);
   (name +s "_query_fc.b_0", [Z.to_nat (d_key * n_head)]);
   (name +s "_key_fc.w_0", [Dk; Z.to_nat (d_key * n_head)]);
   (name +s "_key_fc.b_0", [Z.to_nat (d_key * n_head)]);
   (name +s "_value_fc.w_0", [Dv; Z.to_nat (d_value * n_head)]);
   (name +s "_value_fc.b_0", [Z.to_nat (d_value * n_head)]);
   (name +s "_output_fc.w_0", [Z.to_nat n_head * Z.to_nat d_value; Z.to_nat d_model]);
   (name +s "_output_fc.b_0", [Z.to_nat d_model])].

Definition positionwise_feed_forward_params (name : string) (d_in : nat)
  (d_inner_hid d_hid : Z) : list (string * list nat) :=
  [(name +s "_fc_0.w_0", [d_in; Z.to_nat d_inner_hid]);
   (name +s "_fc_0.b_0", [Z.to_nat d_inner_hid]);
   (name +s "_fc_1.w_0", [Z.to_nat d_inner_hid; Z.to_nat d_hid]);
   (name +s "_fc_1.b_0", [Z.to_nat d_hid])].

(** The scale and the bias of the layer normalization, asked for when
    [process_cmd] has the command ["n"]. *)
Definition pre_post_process_layer_params (process_cmd name : string) (w : nat)
  : list (string * list nat) :=
  if has_cmd "n" process_cmd
  then [(name +s "_layer_norm_scale", [w]); (name +s "_layer_norm_bias", [w])]
  else [].

Definition encoder_layer_params (name preprocess_cmd postprocess_cmd : string)
  (n_head d_key d_value d_model d_inner_hid : Z) : list (string * list nat) :=
  let w := Z.to_nat d_model in
  pre_post_process_layer_params preprocess_cmd (name +s "_pre_att") w
  ++ multi_head_attention_params (name +s "_multi_head_att") w w w
       d_key d_value d_model n_head
  ++ pre_post_process_layer_params postprocess_cmd (name +s "_post_att") w
  ++ pre_post_process_layer_params preprocess_cmd (name +s "_pre_ffn") w
  ++ positionwise_feed_forward_params (name +s "_ffn") w d_inner_hid d_model
  ++ pre_post_process_layer_params postprocess_cmd (name +s "_post_ffn") w.

Definition encoder_co_layer_params (name preprocess_cmd postprocess_cmd : string)
  (co_head co_key co_value d_model d_inner_hid v_model v_inner_hid : Z)
  : list (string * list nat) :=
  let w := Z.to_nat d_model in
  let vw := Z.to_nat v_model in
  pre_post_process_layer_params preprocess_cmd (name +s "_pre_att") w
  ++ pre_post_process_layer_params preprocess_cmd (name +s "_vl_pre_att") vw
  ++ multi_head_attention_params (name +s "_multi_head_att") w vw vw
       co_key co_value d_model co_head
  ++ multi_head_attention_params (name +s "_vl_multi_head_att") vw w w
       co_key co_value v_model co_head
  ++ pre_post_process_layer_params postprocess_cmd (name +s "_post_att") w
  ++ pre_post_process_layer_params postprocess_cmd (name +s "_vl_post_att") vw
  ++ pre_post_process_layer_params preprocess_cmd (name +s "_pre_ffn") w
  ++ positionwise_feed_forward_params (name +s "_ffn") w d_inner_hid d_model
  ++ pre_post_process_layer_params preprocess_cmd (name +s "_pre_vl_ffn") vw
  ++ positionwise_feed_forward_params (name +s "_vl_ffn") vw v_inner_hid v_model
  ++ pre_post_process_layer_params postprocess_cmd (name +s "_post_ffn") w
  ++ pre_post_process_layer_params postprocess_cmd (name +s "_vl_post_ffn") vw.

Section StackParams.
Variables (n_head d_key d_value d_model d_inner_hid : Z).
Variables (v_head v_key v_value v_model v_inner_hid : Z).
Variables (co_head co_key co_value : Z).
Variables (preprocess_cmd postprocess_cmd name : string).

(** The parameters of one call of the schedule. *)
Definition call_params (c : layer_call) : list (string * list nat) :=
  match c with
  | TextLayer idx =>
      encoder_layer_params (name +s "_layer_" +s str idx) preprocess_cmd postprocess_cmd
        n_head d_key d_value d_model d_inner_hid
  | VisionLayer idx =>
      encoder_layer_params (name +s "_vlayer_" +s str idx) preprocess_cmd postprocess_cmd
        v_head v_key v_value v_model v_inner_hid
  | CoLayer blk =>
      encoder_co_layer_params (name +s "_colayer_" +s str blk) preprocess_cmd
        postprocess_cmd co_head co_key co_value d_model d_inner_hid v_model v_inner_hid
  | TextPost =>
      pre_post_process_layer_params preprocess_cmd "post_encoder" (Z.to_nat d_model)
  | VisionPost =>
      pre_post_process_layer_params preprocess_cmd "vl_post_encoder" (Z.to_nat v_model)
  end.

Definition encoder_params (v_biattention_id t_biattention_id : list Z)
  : list (string * list nat) :=
  flat_map call_params (schedule (combine v_biattention_id t_biattention_id)).
End StackParams.

(** Two scopes with the same values under the names [names]. *)
Definition agree_on {R : Type} (names : list string) (th th' : @scope R)
  : Prop :=
  forall n, In n names -> th n = th' n.

(** The scope holds, under each of the names, nothing or a tensor of the
    shape that goes with the name. *)
Definition fits {R : Type} (th : @scope R)
  (ps : list (string * list nat)) : Prop :=
  forall n shp t, In (n, shp) ps -> th n = Some t -> shape t = shp.

(** The scope holds a value under each of the names. *)
Definition loaded {R : Type} (th : @scope R) (names : list string)
  : Prop :=
  forall n, In n names -> th n <> None.

(** A bias of an attention, when there is one, has the shape [shp]. *)
Definition bias_fits {R : Type} (bias : option (tensor R)) (shp : list nat) : Prop :=
  match bias with
  | Some b => shape b = shp
  | None => True
  end.

(** A rate that [layers.dropout] takes: a probability.  The operator
    raises on a rate below 0 or above 1, a check that [dropout] does not
    make: the theorems on calls that return have it as a hypothesis. *)
Definition valid_rate (p : Q) : Prop := (0 <= p)%Q /\ (p <= 1)%Q.

(** Activations that are operators of the framework.  [layers.fc] raises
    on a name that is no operator, a check that [activate] does not make:
    the theorems on calls that return have it as a hypothesis. *)
Definition activations : list string := ["relu"; "gelu"; "tanh"; "sigmoid"]%string.

Definition known_act (act : option string) : Prop :=
  match act with
  | Some a => In a activations
  | None => True
  end.

(** A bias of an attention, when there is one, is 4-D, with [B] entries on
    its first axis and [Sq] on its third: the batch size and the length of
    the queries.  The second and the last axis are free, and the sum
    [product += attn_bias] broadcasts over them. *)
Definition bias_rows {R : Type} (bias : option (tensor R)) (B Sq : nat) : Prop :=
  match bias with
  | Some b => exists m Sk, shape b = [B; m; Sq; Sk]
  | None => True
  end.

(** An interpretation of the kernels over the integers, to run the
    definitions on small tensors. *)
#[export] Instance ZKernels : Kernels Z := {|
  r0 := 0%Z;
  r1 := 1%Z;
  radd := Z.add;
  rmul := Z.mul;
  dot := fun a b => fold_right Z.add 0%Z (zip_with Z.mul a b);
  pow_neg_half := fun d => d;
  softmax_row := fun l => l;
  softmax_row_length := fun l => eq_refl;
  act_row := fun _ l => l;
  act_row_length := fun _ l => eq_refl;
  normalize_row := fun l => l;
  normalize_row_length := fun l => eq_refl;
  dropout_mask := fun _ _ _ => 1%Z;
  default_init := fun _ shp => repeat 1%Z (product shp);
  default_init_length := fun _ shp => repeat_length 1%Z (product shp)
|}.

(** A scope with no loaded parameter: every parameter has its initial value. *)
Definition empty_scope : @scope Z := fun _ => None.

Definition ones (shp : list nat) : tensor Z := mkT shp (repeat 1%Z (product shp)).

(** [encoder] on two small streams, with two heads of width one. *)
Definition small_encoder (n_layer : Z) (v_biattention_id t_biattention_id : list Z)
  (debug : bool) : result (ret2 (R := Z) debug) :=
  encoder empty_scope (ones [1; 1; 2]) (ones [1; 2; 2])
    (Some (ones [1; 2; 1; 1])) (Some (ones [1; 2; 2; 2])) (ones [1; 2; 2; 1])
    n_layer 2 1 1 2 4 2 1 1 2 4 2 1 1 2 4 0 0 0 (Some "gelu"%string)
    "n"%string "da"%string None v_biattention_id t_biattention_id 0
    "encoder"%string debug.

(** A scope in which the parameters [ps] are loaded, each one with ones. *)
Definition scope_of (ps : list (string * list nat)) : @scope Z :=
  fun n => option_map ones (dict_get ps n).

(** A scope with a value under a name that no layer asks for. *)
Definition other_scope : @scope Z :=
  fun n => if String.eqb n "unused" then Some (ones [1]) else None.

(** * Properties *)

(** ** The monad *)

Lemma bind_Ok {A B : Type} (a : A) (f : A -> result B) : bind (Ok a) f = f a.
Proof. reflexivity. Qed.

Lemma bind_Raise {A B : Type} (e : exn) (f : A -> result B) : bind (Raise e) f = Raise e.
Proof. reflexivity. Qed.

Lemma bind_assoc {A B C : Type} (m : result A) (f : A -> result B) (g : B -> result C) :
  bind (bind m f) g = bind m (fun a => bind (f a) g).
Proof. destruct m; reflexivity. Qed.

Lemma bind_ext {A B : Type} (m : result A) (f g : A -> result B) :
  (forall a, f a = g a) -> bind m f = bind m g.
Proof. intros H; destruct m; simpl; auto. Qed.

Lemma bind_Ok_r {A : Type} (m : result A) : bind m Ok = m.
Proof. destruct m; reflexivity. Qed.

Lemma bind_Ok_inv {A B : Type} (m : result A) (f : A -> result B) (b : B) :
  bind m f = Ok b -> exists a, m = Ok a /\ f a = Ok b.
Proof. destruct m; simpl; [eauto | discriminate]. Qed.

(** ** Which exceptions a call can raise *)

Lemma raises_in_Ok {A : Type} (P : exn -> Prop) (a : A) : raises_in P (Ok a).
Proof. intros e H; discriminate. Qed.

Lemma raises_in_Raise {A : Type} (P : exn -> Prop) (e : exn) :
  P e -> raises_in P (@Raise A e).
Proof. intros H e' E; inversion E; subst; exact H. Qed.

Lemma raises_in_bind_eq {A B : Type} (P : exn -> Prop) (m : result A) (f : A -> result B) :
  raises_in P m -> (forall a, m = Ok a -> raises_in P (f a)) -> raises_in P (bind m f).
Proof.
  intros Hm Hf e E. destruct m as [a|e']; simpl in E.
  - exact (Hf a eq_refl e E).
  - inversion E; subst. apply Hm; reflexivity.
Qed.

Lemma raises_in_bind {A B : Type} (P : exn -> Prop) (m : result A) (f : A -> result B) :
  raises_in P m -> (forall a, raises_in P (f a)) -> raises_in P (bind m f).
Proof. intros Hm Hf. apply raises_in_bind_eq; auto. Qed.

Lemma raises_in_weaken {A : Type} (P Q : exn -> Prop) (r : result A) :
  (forall e, P e -> Q e) -> raises_in P r -> raises_in Q r.
Proof. intros HPQ Hr e E. apply HPQ, Hr, E. Qed.

Lemma internal_bound {A : Type} (r : result A) : raises_in internal r -> raises_in bound r.
Proof. apply raises_in_weaken. intros []; simpl; auto. Qed.

Create HintDb raises discriminated.
#[local] Hint Resolve raises_in_Ok : raises.
#[local] Hint Extern 1 (raises_in _ (Raise _)) =>
  (apply raises_in_Raise; exact I) : raises.
#[local] Hint Extern 5 (raises_in bound _) => (apply internal_bound) : raises.

Ltac raises_step :=
  match goal with
  | |- raises_in _ (bind _ _) => apply raises_in_bind; [|intros]
  | |- raises_in _ (if ?b then _ else _) => destruct b
  | |- raises_in _ (match ?x with _ => _ end) => destruct x
  | |- raises_in _ (let _ := _ in _) => cbv zeta
  | |- _ => solve [auto with raises]
  end.

Ltac raises := repeat raises_step.

Section Raises.
Context {R : Type} {K : Kernels R}.
Variable th : @scope R.

Lemma get_param_internal pa b shp : raises_in internal (get_param th pa b shp).
Proof. unfold get_param; raises. Qed.

Lemma resolve_dims_internal xs spec : forall i, raises_in internal (resolve_dims xs i spec).
Proof.
  induction spec as [|s spec IH]; intros i; simpl; [raises|].
  apply raises_in_bind; [unfold resolve_dim; raises|intros].
  apply raises_in_bind; [apply IH|intros; raises].
Qed.

Lemma reshape_internal (x : tensor R) spec : raises_in internal (reshape x spec).
Proof.
  unfold reshape. apply raises_in_bind; [apply resolve_dims_internal|intros].
  unfold infer_dims; raises.
Qed.

Lemma transpose_internal (x : tensor R) perm : raises_in internal (transpose x perm).
Proof. unfold transpose; raises. Qed.

Lemma matmul_internal (x y : tensor R) b : raises_in internal (matmul x y b).
Proof. unfold matmul; raises. Qed.

Lemma softmax_internal (x : tensor R) : raises_in internal (softmax x).
Proof. unfold softmax; raises. Qed.

Lemma elementwise_add_internal (x y : tensor R) : raises_in internal (elementwise_add x y).
Proof. unfold elementwise_add; raises. Qed.

#[local] Hint Resolve get_param_internal reshape_internal transpose_internal
  matmul_internal softmax_internal elementwise_add_internal : raises.

Lemma layer_norm_internal (x : tensor R) ax pa ba :
  raises_in internal (layer_norm th x ax pa ba).
Proof. unfold layer_norm; raises. Qed.

Lemma fc_internal (x : tensor R) size nfd act pa ba :
  raises_in internal (fc th x size nfd act pa ba).
Proof. unfold fc; raises. Qed.

Lemma concat2_internal (x y : tensor R) axis : raises_in internal (concat2 x y axis).
Proof. unfold concat2; raises. Qed.

#[local] Hint Resolve layer_norm_internal fc_internal concat2_internal : raises.

Lemma split_heads_reshaped_internal (x : tensor R) n :
  raises_in internal (split_heads_reshaped x n).
Proof. unfold split_heads_reshaped, shape_item, floordiv; raises. Qed.

#[local] Hint Resolve split_heads_reshaped_internal : raises.

Lemma compute_qkv_internal pinit name (q k v : tensor R) nh dk dv :
  raises_in internal (__compute_qkv th pinit name q k v nh dk dv).
Proof. unfold __compute_qkv; raises. Qed.

Lemma use_cache_internal cache dm (k v : tensor R) :
  raises_in internal (use_cache cache dm k v).
Proof. unfold use_cache, dict_item; raises. Qed.

Lemma split_heads_internal (x : tensor R) n : raises_in internal (__split_heads x n).
Proof. unfold __split_heads; raises. Qed.

Lemma cache_after_internal cache n (k v : tensor R) :
  raises_in internal (cache_after cache n k v).
Proof. unfold cache_after; raises. Qed.

Lemma scaled_dot_product_attention_internal seed (q k v : tensor R) bias dk rate :
  raises_in internal (scaled_dot_product_attention seed q k v bias dk rate).
Proof. unfold scaled_dot_product_attention, pow_neg_half_attr; raises. Qed.

Lemma combine_heads_bound (x : tensor R) : raises_in bound (__combine_heads x).
Proof. unfold __combine_heads, shape_item; raises. Qed.

#[local] Hint Resolve compute_qkv_internal use_cache_internal split_heads_internal
  cache_after_internal scaled_dot_product_attention_internal combine_heads_bound : raises.

Lemma multi_head_attention_bound q k v bias dk dv dm nh rate cache pinit seed name debug :
  raises_in bound
    (multi_head_attention th q k v bias dk dv dm nh rate cache pinit seed name debug).
Proof. unfold multi_head_attention; raises. Qed.

Lemma positionwise_feed_forward_internal x di dh rate act pinit seed name debug :
  raises_in internal (positionwise_feed_forward th x di dh rate act pinit seed name debug).
Proof. unfold positionwise_feed_forward; raises. Qed.

Lemma process_cmd_loop_internal prev rate seed name debug cmds :
  forall out dd,
    raises_in internal (process_cmd_loop th prev rate seed name debug cmds out dd).
Proof.
  induction cmds as [|c cmds IH]; intros out dd; simpl; [raises|].
  apply raises_in_bind; [unfold process_cmd_step; raises|intros; apply IH].
Qed.

Lemma pre_post_process_layer_internal prev out cmds rate seed name debug :
  raises_in internal (pre_post_process_layer th prev out cmds rate seed name debug).
Proof.
  unfold pre_post_process_layer.
  apply raises_in_bind; [apply process_cmd_loop_internal|intros; raises].
Qed.

#[local] Hint Resolve multi_head_attention_bound positionwise_feed_forward_internal
  pre_post_process_layer_internal : raises.

Lemma encoder_layer_bound x bias nh dk dv dm di r1 r2 r3 act pre post pinit seed name debug :
  raises_in bound
    (encoder_layer th x bias nh dk dv dm di r1 r2 r3 act pre post pinit seed name debug).
Proof.
  unfold encoder_layer, pre_process_layer, post_process_layer; raises.
Qed.

Lemma encoder_co_layer_bound x vx bias ch ck cv cm dm di vm vi r1 r2 r3 act pre post
  pinit seed name debug :
  raises_in bound
    (encoder_co_layer th x vx bias ch ck cv cm dm di vm vi r1 r2 r3 act pre post
       pinit seed name debug).
Proof.
  unfold encoder_co_layer, pre_process_layer, post_process_layer; raises.
Qed.
End Raises.

(** ** The stack of layers in [encoder] *)

Section StackProperties.
Context {R : Type} {K : Kernels R}.
Variable th : @scope R.
Variables (attn_bias attn_image_bias : option (tensor R)) (attn_vl_bias : tensor R).
Variables (n_head d_key d_value d_model d_inner_hid : Z).
Variables (v_head v_key v_value v_model v_inner_hid : Z).
Variables (co_head co_key co_value co_model : Z).
Variables (prepostprocess_dropout attention_dropout relu_dropout : Q).
Variables (hidden_act : option string) (preprocess_cmd postprocess_cmd : string).
Variables (param_initializer : option (@initializer R)) (seed : Z) (name : string).

Let run := run_schedule th attn_bias attn_image_bias attn_vl_bias
             n_head d_key d_value d_model d_inner_hid
             v_head v_key v_value v_model v_inner_hid
             co_head co_key co_value co_model
             prepostprocess_dropout attention_dropout relu_dropout
             hidden_act preprocess_cmd postprocess_cmd param_initializer seed name.
Let tloop := text_loop th attn_bias n_head d_key d_value d_model d_inner_hid
               prepostprocess_dropout attention_dropout relu_dropout
               hidden_act preprocess_cmd postprocess_cmd param_initializer seed name.
Let vloop := vision_loop th attn_image_bias v_head v_key v_value v_model v_inner_hid
               prepostprocess_dropout attention_dropout relu_dropout
               hidden_act preprocess_cmd postprocess_cmd param_initializer seed name.
Let body := block_body th attn_bias attn_image_bias attn_vl_bias
             n_head d_key d_value d_model d_inner_hid
             v_head v_key v_value v_model v_inner_hid
             co_head co_key co_value co_model
             prepostprocess_dropout attention_dropout relu_dropout
             hidden_act preprocess_cmd postprocess_cmd param_initializer seed name.
Let bloop := block_loop th attn_bias attn_image_bias attn_vl_bias
             n_head d_key d_value d_model d_inner_hid
             v_head v_key v_value v_model v_inner_hid
             co_head co_key co_value co_model
             prepostprocess_dropout attention_dropout relu_dropout
             hidden_act preprocess_cmd postprocess_cmd param_initializer seed name.
Let tail := @encoder_tail R K th attn_bias attn_image_bias
             n_head d_key d_value d_model d_inner_hid
             v_head v_key v_value v_model v_inner_hid
             prepostprocess_dropout attention_dropout relu_dropout
             hidden_act preprocess_cmd postprocess_cmd param_initializer seed name.


Lemma run_app (cs cs' : list layer_call) (s : tensor R * tensor R) :
  run (cs ++ cs') s = (s' <- run cs s ;; run cs' s').
Proof.
  revert s; induction cs as [|c cs IH]; intros s; simpl; [reflexivity|].
  unfold run in *; simpl.
  rewrite bind_assoc. apply bind_ext; intros s'. apply IH.
Qed.


Lemma text_loop_run (idxs : list Z) :
  forall l, tloop idxs l
            = (s <- run (map TextLayer idxs) (streams l) ;; Ok (text_after idxs l s)).
Proof.
  induction idxs as [|idx idxs IH]; intros l.
  - destruct l; reflexivity.
  - unfold tloop, run in *; simpl.
    rewrite !bind_assoc.
    apply bind_ext; intros out; simpl.
    rewrite IH; unfold streams; simpl.
    destruct idxs as [|idx' idxs]; [reflexivity|].
    apply bind_ext; intros s; reflexivity.
Qed.


Lemma vision_loop_run (idxs : list Z) :
  forall l, vloop idxs l
            = (s <- run (map VisionLayer idxs) (streams l) ;; Ok (vision_after idxs l s)).
Proof.
  induction idxs as [|idx idxs IH]; intros l.
  - destruct l; reflexivity.
  - unfold vloop, run in *; simpl.
    rewrite !bind_assoc.
    apply bind_ext; intros out; simpl.
    rewrite IH; unfold streams; simpl.
    destruct idxs as [|idx' idxs]; [reflexivity|].
    apply bind_ext; intros s; reflexivity.
Qed.

Lemma run_text_snd (idxs : list Z) :
  forall s s', run (map TextLayer idxs) s = Ok s' -> snd s' = snd s.
Proof.
  induction idxs as [|idx idxs IH]; intros s s' H.
  - inversion H; reflexivity.
  - unfold run in *; simpl in H.
    apply bind_Ok_inv in H as (s1 & H1 & H).
    apply bind_Ok_inv in H1 as (x & _ & H1).
    inversion H1; subst s1. apply IH in H. exact H.
Qed.

Lemma run_vision_fst (idxs : list Z) :
  forall s s', run (map VisionLayer idxs) s = Ok s' -> fst s' = fst s.
Proof.
  induction idxs as [|idx idxs IH]; intros s s' H.
  - inversion H; reflexivity.
  - unfold run in *; simpl in H.
    apply bind_Ok_inv in H as (s1 & H1 & H).
    apply bind_Ok_inv in H1 as (x & _ & H1).
    inversion H1; subst s1. apply IH in H. exact H.
Qed.

Lemma streams_text_after (idxs : list Z) (l : locals) (s : tensor R * tensor R) :
  run (map TextLayer idxs) (streams l) = Ok s -> streams (text_after idxs l s) = s.
Proof.
  intros H. destruct idxs as [|idx idxs].
  - inversion H; reflexivity.
  - apply run_text_snd in H. unfold streams in *; simpl in *.
    rewrite <- H. destruct s; reflexivity.
Qed.

Lemma streams_vision_after (idxs : list Z) (l : locals) (s : tensor R * tensor R) :
  run (map VisionLayer idxs) (streams l) = Ok s -> streams (vision_after idxs l s) = s.
Proof.
  intros H. destruct idxs as [|idx idxs].
  - inversion H; reflexivity.
  - apply run_vision_fst in H. unfold streams in *; simpl in *.
    rewrite <- H. destruct s; reflexivity.
Qed.


Lemma block_body_run (ids : Z * Z) (l : locals) :
  body ids l
  = (s <- run (map TextLayer (range (t_start l) (snd ids))
               ++ map VisionLayer (range (v_start l) (fst ids))
               ++ [CoLayer (block l)]) (streams l) ;;
     Ok (block_after ids (block l + 1) s)).
Proof.
  destruct ids as [v t]; unfold body, block_body; simpl fst; simpl snd.
  cbn [t_start v_start block].
  fold tloop vloop.
  rewrite text_loop_run, !run_app, !bind_assoc.
  replace (streams (mkLocals (enc_input l) (enc_vl_input l) (v_start l) (t_start l)
                      (block l) (Some v) (Some t) (enc_output l) (enc_vl_output l)))
    with (streams l) by reflexivity.
  destruct (run (map TextLayer (range (t_start l) t)) (streams l)) as [s1|e] eqn:E1;
    [|reflexivity].
  cbn [bind].
  rewrite vision_loop_run, run_app, !bind_assoc.
  assert (Hs : streams (text_after (range (t_start l) t)
                 (mkLocals (enc_input l) (enc_vl_input l) (v_start l) (t_start l)
                    (block l) (Some v) (Some t) (enc_output l) (enc_vl_output l)) s1)
               = s1) by (apply streams_text_after; exact E1).
  rewrite Hs.
  assert (Hv : forall idxs (l0 : @locals R) s0, v_start (text_after idxs l0 s0) = v_start l0)
    by (intros [|] ? ?; reflexivity).
  assert (Hb : forall idxs (l0 : @locals R) s0, block (text_after idxs l0 s0) = block l0)
    by (intros [|] ? ?; reflexivity).
  rewrite Hv; cbn [v_start].
  destruct (run (map VisionLayer (range (v_start l) v)) s1) as [s2|e] eqn:E2;
    [|reflexivity].
  cbn [bind].
  rewrite <- Hs in E2.
  apply streams_vision_after in E2.
  assert (Hb' : forall idxs (l0 : @locals R) s0, block (vision_after idxs l0 s0) = block l0)
    by (intros [|] ? ?; reflexivity).
  rewrite Hb', Hb; cbn [block].
  pose proof (f_equal fst E2) as E3; pose proof (f_equal snd E2) as E4.
  unfold streams in E3, E4; cbn [fst snd] in E3, E4. rewrite E3, E4.
  unfold run; simpl.
  match goal with
  | |- context [co_layer ?a1 ?a2 ?a3 ?a4 ?a5 ?a6 ?a7 ?a8 ?a9 ?a10 ?a11 ?a12 ?a13 ?a14
                  ?a15 ?a16 ?a17 ?a18 ?a19 ?a20 (fst s2) (snd s2)] =>
      destruct (co_layer a1 a2 a3 a4 a5 a6 a7 a8 a9 a10 a11 a12 a13 a14
                  a15 a16 a17 a18 a19 a20 (fst s2) (snd s2)) as [[out vl_out]|e]
  end; reflexivity.
Qed.


Lemma block_loop_run (pairs : list (Z * Z)) :
  forall l, bloop pairs l
            = (s <- run (schedule_blocks pairs (v_start l) (t_start l) (block l))
                      (streams l) ;;
               Ok (loop_after pairs l s)).
Proof.
  induction pairs as [|ids pairs IH]; intros l.
  - reflexivity.
  - unfold bloop in *; cbn [block_loop]. fold body.
    rewrite block_body_run.
    destruct ids as [v t]; cbn [schedule_blocks fst snd].
    replace (map TextLayer (range (t_start l) t)
             ++ map VisionLayer (range (v_start l) v)
             ++ CoLayer (block l) :: schedule_blocks pairs v t (block l + 1))
      with ((map TextLayer (range (t_start l) t)
             ++ map VisionLayer (range (v_start l) v) ++ [CoLayer (block l)])
            ++ schedule_blocks pairs v t (block l + 1))
      by (rewrite <- !app_assoc; reflexivity).
    set (body_calls := map TextLayer (range (t_start l) t)
                       ++ map VisionLayer (range (v_start l) v)
                       ++ [CoLayer (block l)]).
    rewrite (run_app body_calls), !bind_assoc.
    apply bind_ext; intros s; cbn [bind].
    rewrite IH.
    unfold block_after at 1 2 3 4; unfold streams;
      cbn [v_start t_start block enc_input enc_vl_input fst snd].
    rewrite <- surjective_pairing.
    destruct pairs as [|p pairs]; [reflexivity|].
    apply bind_ext; intros s'.
    unfold loop_after. cbn [block_after block].
    change (last ((v, t) :: p :: pairs) (0, 0)%Z) with (last (p :: pairs) (0, 0)%Z).
    do 2 f_equal.
    change (length ((v, t) :: p :: pairs)) with (S (length (p :: pairs))).
    lia.
Qed.


Lemma encoder_tail_run (ids : Z * Z) (blk : Z) (s : tensor R * tensor R) (debug : bool) :
  tail (block_after ids blk s) debug
  = (s' <- run [TextLayer (snd ids); VisionLayer (fst ids); TextPost; VisionPost] s ;;
     Ok (ret2_of debug s')).
Proof.
  unfold tail, encoder_tail, run; cbn [run_schedule run_call block_after local bind
    enc_output enc_vl_output t_end v_end].
  rewrite !bind_assoc. apply bind_ext; intros x; cbn [bind fst snd].
  rewrite !bind_assoc. apply bind_ext; intros vx; cbn [bind fst snd].
  rewrite !bind_assoc. apply bind_ext; intros x'; cbn [bind fst snd].
  rewrite !bind_assoc. apply bind_ext; intros vx'; cbn [bind fst snd].
  destruct debug; reflexivity.
Qed.

Lemma encoder_run_schedule (x vx : tensor R) (n_layer co_inner_hid : Z)
  (v_biattention_id t_biattention_id : list Z) (debug : bool) :
  combine v_biattention_id t_biattention_id <> [] ->
  encoder th x vx attn_bias attn_image_bias attn_vl_bias
    n_layer n_head d_key d_value d_model d_inner_hid
    v_head v_key v_value v_model v_inner_hid
    co_head co_key co_value co_model co_inner_hid
    prepostprocess_dropout attention_dropout relu_dropout
    hidden_act preprocess_cmd postprocess_cmd param_initializer
    v_biattention_id t_biattention_id seed name debug
  = (s <- run (schedule (combine v_biattention_id t_biattention_id)) (x, vx) ;;
     Ok (ret2_of debug s)).
Proof.
  intros Hne. unfold encoder. fold bloop tail.
  rewrite block_loop_run. unfold streams. cbn [v_start t_start block enc_input enc_vl_input].
  unfold schedule.
  destruct (last (combine v_biattention_id t_biattention_id) (0, 0)%Z) as [v t] eqn:El.
  rewrite run_app, !bind_assoc.
  apply bind_ext; intros s; cbn [bind].
  unfold loop_after.
  destruct (combine v_biattention_id t_biattention_id) as [|p ps] eqn:Ec;
    [contradiction|].
  rewrite El. apply encoder_tail_run.
Qed.

Lemma run_schedule_bound (cs : list layer_call) :
  forall s, raises_in bound (run cs s).
Proof.
  induction cs as [|c cs IH]; intros s; unfold run in *; simpl.
  - apply raises_in_Ok.
  - apply raises_in_bind; [|intros; apply IH].
    destruct c; simpl; unfold text_layer, vision_layer, co_layer, pre_process_layer.
    + apply raises_in_bind;
        [apply encoder_layer_bound with (debug := false)|intros; apply raises_in_Ok].
    + apply raises_in_bind;
        [apply encoder_layer_bound with (debug := false)|intros; apply raises_in_Ok].
    + apply encoder_co_layer_bound with (debug := false).
    + apply raises_in_bind;
        [apply internal_bound, pre_post_process_layer_internal with (debug := false)
        |intros; apply raises_in_Ok].
    + apply raises_in_bind;
        [apply internal_bound, pre_post_process_layer_internal with (debug := false)
        |intros; apply raises_in_Ok].
Qed.

Lemma deepest_text_schedule (pairs : list (Z * Z)) :
  deepest_text (schedule pairs) = Some (snd (last pairs (0, 0)%Z)).
Proof.
  unfold schedule, deepest_text.
  destruct (last pairs (0, 0)%Z) as [v t].
  rewrite fold_left_app. reflexivity.
Qed.

Lemma deepest_vision_schedule (pairs : list (Z * Z)) :
  deepest_vision (schedule pairs) = Some (fst (last pairs (0, 0)%Z)).
Proof.
  unfold schedule, deepest_vision.
  destruct (last pairs (0, 0)%Z) as [v t].
  rewrite fold_left_app. reflexivity.
Qed.

Lemma last_combine (v t : list Z) :
  length v = length t -> v <> [] ->
  last (combine v t) (0, 0)%Z = (last v 0%Z, last t 0%Z).
Proof.
  revert t; induction v as [|a v IH]; intros [|b t] Hlen Hne;
    try discriminate; try contradiction.
  destruct v as [|a' v]; destruct t as [|b' t]; try discriminate; [reflexivity|].
  change (last (combine (a :: a' :: v) (b :: b' :: t)) (0, 0)%Z)
    with (last (combine (a' :: v) (b' :: t)) (0, 0)%Z).
  rewrite IH by (simpl in *; congruence || discriminate).
  reflexivity.
Qed.

(** C2. [encoder] makes the calls of the schedule of its two id lists, each
    on the streams the call before has left: for every zipped pair the text
    layers from [t_start] up to [t_layer_id], then the vision layers from
    [v_start] up to [v_layer_id], then one co-attention layer; after the
    loop one more layer per stream, at the last [t_layer_id] and
    [v_layer_id], and one [pre_process_layer] per stream.  With the default
    lists these are 24 text layers, 6 vision layers and 6 co-attention
    layers. *)
Theorem encoder_biattention_schedule (x vx : tensor R) (n_layer co_inner_hid : Z)
  (v_biattention_id t_biattention_id : list Z) (debug : bool) :
  combine v_biattention_id t_biattention_id <> [] ->
  encoder th x vx attn_bias attn_image_bias attn_vl_bias
    n_layer n_head d_key d_value d_model d_inner_hid
    v_head v_key v_value v_model v_inner_hid
    co_head co_key co_value co_model co_inner_hid
    prepostprocess_dropout attention_dropout relu_dropout
    hidden_act preprocess_cmd postprocess_cmd param_initializer
    v_biattention_id t_biattention_id seed name debug
  = (s <- run (schedule (combine v_biattention_id t_biattention_id)) (x, vx) ;;
     Ok (ret2_of debug s))
  /\ calls is_text_layer
       (schedule (combine default_v_biattention_id default_t_biattention_id)) = 24
  /\ calls is_co_layer
       (schedule (combine default_v_biattention_id default_t_biattention_id)) = 6
  /\ calls is_vision_layer
       (schedule (combine default_v_biattention_id default_t_biattention_id)) = 6.
Proof.
  intros Hne. split; [apply encoder_run_schedule; exact Hne|].
  repeat split; reflexivity.
Qed.

(** C9, as amended.  The result of [encoder] is the same for any two values
    of [n_layer]: the calls are those of the schedule of the zipped id
    lists.  The last text layer is the one at the text id of the last
    zipped pair and the last vision layer the one at its vision id; these
    are the last elements of [t_biattention_id] and [v_biattention_id] when
    the two lists have one length. *)
Theorem encoder_ignores_n_layer (x vx : tensor R) (n_layer n_layer' co_inner_hid : Z)
  (v_biattention_id t_biattention_id : list Z) (debug : bool) :
  encoder th x vx attn_bias attn_image_bias attn_vl_bias
    n_layer n_head d_key d_value d_model d_inner_hid
    v_head v_key v_value v_model v_inner_hid
    co_head co_key co_value co_model co_inner_hid
    prepostprocess_dropout attention_dropout relu_dropout
    hidden_act preprocess_cmd postprocess_cmd param_initializer
    v_biattention_id t_biattention_id seed name debug
  = encoder th x vx attn_bias attn_image_bias attn_vl_bias
      n_layer' n_head d_key d_value d_model d_inner_hid
      v_head v_key v_value v_model v_inner_hid
      co_head co_key co_value co_model co_inner_hid
      prepostprocess_dropout attention_dropout relu_dropout
      hidden_act preprocess_cmd postprocess_cmd param_initializer
      v_biattention_id t_biattention_id seed name debug
  /\ (combine v_biattention_id t_biattention_id <> [] ->
      encoder th x vx attn_bias attn_image_bias attn_vl_bias
        n_layer n_head d_key d_value d_model d_inner_hid
        v_head v_key v_value v_model v_inner_hid
        co_head co_key co_value co_model co_inner_hid
        prepostprocess_dropout attention_dropout relu_dropout
        hidden_act preprocess_cmd postprocess_cmd param_initializer
        v_biattention_id t_biattention_id seed name debug
      = (s <- run (schedule (combine v_biattention_id t_biattention_id)) (x, vx) ;;
         Ok (ret2_of debug s))
      /\ deepest_text (schedule (combine v_biattention_id t_biattention_id))
         = Some (snd (last (combine v_biattention_id t_biattention_id) (0, 0)%Z))
      /\ deepest_vision (schedule (combine v_biattention_id t_biattention_id))
         = Some (fst (last (combine v_biattention_id t_biattention_id) (0, 0)%Z)))
  /\ (length v_biattention_id = length t_biattention_id ->
      v_biattention_id <> [] ->
      deepest_text (schedule (combine v_biattention_id t_biattention_id))
      = Some (last t_biattention_id 0%Z)
      /\ deepest_vision (schedule (combine v_biattention_id t_biattention_id))
         = Some (last v_biattention_id 0%Z)).
Proof.
  split; [reflexivity|]. split.
  - intros Hne. split; [apply encoder_run_schedule; exact Hne|].
    split; [apply deepest_text_schedule | apply deepest_vision_schedule].
  - intros Hlen Hne.
    rewrite deepest_text_schedule, deepest_vision_schedule, last_combine by assumption.
    split; reflexivity.
Qed.

(** C10. With no zipped pair [encoder] stops at the first post-loop call, on
    the unbound variable [enc_output].  With a zipped pair the locals that
    the loop leaves have [enc_output], [enc_vl_output], [t_end] and [v_end]
    bound, and no exception of [encoder] is an unbound variable. *)
Theorem encoder_unbound_iff_no_pair (x vx : tensor R) (n_layer co_inner_hid : Z)
  (v_biattention_id t_biattention_id : list Z) (debug : bool) :
  (combine v_biattention_id t_biattention_id = [] ->
   encoder th x vx attn_bias attn_image_bias attn_vl_bias
     n_layer n_head d_key d_value d_model d_inner_hid
     v_head v_key v_value v_model v_inner_hid
     co_head co_key co_value co_model co_inner_hid
     prepostprocess_dropout attention_dropout relu_dropout
     hidden_act preprocess_cmd postprocess_cmd param_initializer
     v_biattention_id t_biattention_id seed name debug
   = Raise (UnboundLocalError "enc_output"))
  /\ (combine v_biattention_id t_biattention_id <> [] ->
      (forall l,
          bloop (combine v_biattention_id t_biattention_id)
            (mkLocals x vx 0 0 0 None None None None) = Ok l ->
          enc_output l <> None /\ enc_vl_output l <> None
          /\ t_end l <> None /\ v_end l <> None)
      /\ raises_in bound
           (encoder th x vx attn_bias attn_image_bias attn_vl_bias
              n_layer n_head d_key d_value d_model d_inner_hid
              v_head v_key v_value v_model v_inner_hid
              co_head co_key co_value co_model co_inner_hid
              prepostprocess_dropout attention_dropout relu_dropout
              hidden_act preprocess_cmd postprocess_cmd param_initializer
              v_biattention_id t_biattention_id seed name debug)).
Proof.
  split.
  - intros He. unfold encoder. rewrite He. reflexivity.
  - intros Hne. split.
    + intros l Hl. rewrite block_loop_run in Hl.
      apply bind_Ok_inv in Hl as (s & _ & Hl).
      inversion Hl as [El]; clear Hl.
      destruct (combine v_biattention_id t_biattention_id); [contradiction|].
      repeat split; discriminate.
    + rewrite encoder_run_schedule by exact Hne.
      apply raises_in_bind; [apply run_schedule_bound|intros; apply raises_in_Ok].
Qed.
End StackProperties.

Lemma encoder_biattention_schedule_witness :
  small_encoder 24 [0]%Z [1]%Z false
  = run_schedule empty_scope (Some (ones [1; 2; 1; 1])) (Some (ones [1; 2; 2; 2]))
      (ones [1; 2; 2; 1]) 2 1 1 2 4 2 1 1 2 4 2 1 1 2 0 0 0 (Some "gelu"%string)
      "n"%string "da"%string None 0 "encoder"%string
      [TextLayer 0; CoLayer 0; TextLayer 1; VisionLayer 0; TextPost; VisionPost]
      (ones [1; 1; 2], ones [1; 2; 2]).
Proof.
  unfold small_encoder.
  refine (eq_trans
            (proj1 (encoder_biattention_schedule empty_scope _ _ _ _ _ _ _ _ _ _ _ _ _
                      _ _ _ _ _ _ _ _ _ _ _ _ _ _ _ _ _ [0]%Z [1]%Z false _)) _).
  - discriminate.
  - cbn [combine schedule]. apply bind_Ok_r.
Defined.

Lemma encoder_ignores_n_layer_witness :
  small_encoder 24 [0; 1]%Z [1; 2]%Z false = small_encoder 6 [0; 1]%Z [1; 2]%Z false
  /\ deepest_text (schedule (combine [0; 1] [1; 2]))%Z = Some 2%Z
  /\ deepest_vision (schedule (combine [0; 1] [1; 2]))%Z = Some 1%Z.
Proof.
  unfold small_encoder.
  pose proof
    (encoder_ignores_n_layer empty_scope (Some (ones [1; 2; 1; 1]))
       (Some (ones [1; 2; 2; 2])) (ones [1; 2; 2; 1]) 2 1 1 2 4 2 1 1 2 4 2 1 1 2
       0 0 0 (Some "gelu"%string) "n"%string "da"%string None 0 "encoder"%string
       (ones [1; 1; 2]) (ones [1; 2; 2]) 24 6 4 [0; 1]%Z [1; 2]%Z false)
    as (H1 & _ & H3).
  split; [exact H1|].
  apply H3; [reflexivity | discriminate].
Defined.

(** With [v_biattention_id = [0]] and [t_biattention_id = [1, 2]] the one
    zipped pair is [(0, 1)]: [encoder] does what it does for the text list
    [[1]], and its last text layer is the one at index 1, not at the last
    element 2 of [t_biattention_id]. *)
Lemma encoder_deepest_layer_counterexample :
  small_encoder 24 [0]%Z [1; 2]%Z false = small_encoder 24 [0]%Z [1]%Z false
  /\ small_encoder 24 [0]%Z [1; 2]%Z false
     = run_schedule empty_scope (Some (ones [1; 2; 1; 1])) (Some (ones [1; 2; 2; 2]))
         (ones [1; 2; 2; 1]) 2 1 1 2 4 2 1 1 2 4 2 1 1 2 0 0 0 (Some "gelu"%string)
         "n"%string "da"%string None 0 "encoder"%string
         [TextLayer 0; CoLayer 0; TextLayer 1; VisionLayer 0; TextPost; VisionPost]
         (ones [1; 1; 2], ones [1; 2; 2])
  /\ deepest_text
       [TextLayer 0; CoLayer 0; TextLayer 1; VisionLayer 0; TextPost; VisionPost]
     <> Some (last [1; 2]%Z 0%Z).
Proof.
  split; [|split].
  - unfold small_encoder, encoder.
    change (combine [0] [1; 2])%Z with (combine [0] [1])%Z. reflexivity.
  - unfold small_encoder. rewrite encoder_run_schedule by discriminate.
    cbn [combine schedule]. apply bind_Ok_r.
  - cbv [deepest_text fold_left last]. discriminate.
Qed.

Lemma encoder_unbound_iff_no_pair_witness :
  small_encoder 24 []%Z [1]%Z false = Raise (UnboundLocalError "enc_output")
  /\ raises_in bound (small_encoder 24 [0]%Z [1]%Z false).
Proof.
  unfold small_encoder. split.
  - refine (proj1 (encoder_unbound_iff_no_pair empty_scope _ _ _ _ _ _ _ _ _ _ _ _ _
                     _ _ _ _ _ _ _ _ _ _ _ _ _ _ _ _ _ []%Z [1]%Z false) _).
    reflexivity.
  - refine (proj2 (proj2 (encoder_unbound_iff_no_pair empty_scope _ _ _ _ _ _ _ _ _ _ _
                            _ _ _ _ _ _ _ _ _ _ _ _ _ _ _ _ _ _ _ [0]%Z [1]%Z false) _)).
    discriminate.
Defined.

(** ** [pre_post_process_layer] *)

Section ProcessProperties.
Context {R : Type} {K : Kernels R}.
Variable th : @scope R.
Variables (dropout_rate : Q) (seed : Z) (name : string).

Lemma process_cmd_loop_app (prev_out : option (tensor R)) (debug : bool) (c1 c2 : string) :
  forall out dd,
    process_cmd_loop th prev_out dropout_rate seed name debug (c1 +s c2) out dd
    = ('(o, dd') <- process_cmd_loop th prev_out dropout_rate seed name debug c1 out dd ;;
       process_cmd_loop th prev_out dropout_rate seed name debug c2 o dd').
Proof.
  induction c1 as [|c c1 IH]; intros out dd; [reflexivity|].
  cbn [String.append process_cmd_loop].
  rewrite bind_assoc. apply bind_ext; intros o. apply IH.
Qed.

Lemma process_cmd_loop_no_debug (prev_out : option (tensor R)) (cmds : string) :
  forall out dd,
    process_cmd_loop th prev_out dropout_rate seed name false cmds out dd
    = (o <- pre_post_process_layer th prev_out out cmds dropout_rate seed name false ;;
       Ok (o, dd)).
Proof.
  unfold pre_post_process_layer.
  induction cmds as [|c cmds IH]; intros out dd; [reflexivity|].
  cbn [process_cmd_loop]. rewrite !bind_assoc. apply bind_ext; intros o.
  rewrite IH, (IH o []), !bind_assoc. apply bind_ext; intros o'. reflexivity.
Qed.

Lemma pre_post_process_layer_app (prev_out : option (tensor R)) (out : tensor R)
  (c1 c2 : string) :
  pre_post_process_layer th prev_out out (c1 +s c2) dropout_rate seed name false
  = (o <- pre_post_process_layer th prev_out out c1 dropout_rate seed name false ;;
     pre_post_process_layer th prev_out o c2 dropout_rate seed name false).
Proof.
  unfold pre_post_process_layer at 1.
  rewrite process_cmd_loop_app, process_cmd_loop_no_debug, !bind_assoc.
  apply bind_ext; intros o. cbn [bind].
  rewrite process_cmd_loop_no_debug, bind_assoc.
  rewrite <- (bind_Ok_r (pre_post_process_layer th prev_out o c2 dropout_rate seed name false)) at 2.
  apply bind_ext; intros o'. reflexivity.
Qed.

Lemma pre_post_process_layer_one (prev_out : option (tensor R)) (out : tensor R) (c : ascii) :
  pre_post_process_layer th prev_out out (String c EmptyString) dropout_rate seed name false
  = process_cmd_step th prev_out dropout_rate seed name c out.
Proof.
  unfold pre_post_process_layer; cbn [process_cmd_loop].
  rewrite bind_assoc.
  rewrite <- (bind_Ok_r (process_cmd_step th prev_out dropout_rate seed name c out)) at 2.
  apply bind_ext; intros o. reflexivity.
Qed.

(** The tensor that the loop computes is the same with and without [debug]. *)
Lemma process_cmd_loop_debug (prev_out : option (tensor R)) (cmds : string) :
  forall out dd,
    (o <- pre_post_process_layer th prev_out out cmds dropout_rate seed name false ;;
     Ok o)
    = ('(o, _) <- process_cmd_loop th prev_out dropout_rate seed name true cmds out dd ;;
       Ok o).
Proof.
  unfold pre_post_process_layer.
  induction cmds as [|c cmds IH]; intros out dd; [reflexivity|].
  cbn [process_cmd_loop]. rewrite !bind_assoc. apply bind_ext; intros o.
  rewrite <- IH. rewrite !bind_assoc. reflexivity.
Qed.

Lemma dict_get_set {V : Type} (d : dict V) (k : string) (v : V) :
  dict_get (dict_set d k v) k = Some v.
Proof.
  induction d as [|[k' v'] d IH]; simpl.
  - rewrite String.eqb_refl; reflexivity.
  - destruct (String.eqb k' k) eqn:E; simpl; rewrite E; [reflexivity|exact IH].
Qed.

Lemma layer_norm_last_axis (out : tensor R) (lead : list nat) (w : nat) (pa ba : ParamAttr) :
  shape out = lead ++ [w] -> lead <> [] ->
  th (pname pa) = None -> th (pname ba) = None ->
  layer_norm th out (Z.of_nat (rank out) - 1) pa ba
  = Ok (mkT (shape out)
          (concat (map (fun row =>
                          zip_with radd
                            (zip_with rmul (normalize_row row)
                               (init_data false (pinit pa) [w]))
                            (init_data true (pinit ba) [w]))
                     (chunk w (product lead) (data out))))).
Proof.
  intros Hs Hl Hp Hb. unfold layer_norm, rank, get_param, map_rows.
  rewrite Hs, Hp, Hb, length_app; cbn [length].
  replace (Z.of_nat (length lead + 1) - 1)%Z with (Z.of_nat (length lead)) by lia.
  rewrite Nat2Z.id.
  assert (0 < length lead) by (destruct lead; [contradiction|cbn; lia]).
  replace ((0 <? Z.of_nat (length lead))%Z && (Z.of_nat (length lead) <? Z.of_nat (length lead + 1))%Z)
    with true by (symmetry; apply andb_true_iff; split; apply Z.ltb_lt; lia).
  rewrite skipn_app, firstn_app, skipn_all, firstn_all, Nat.sub_diag.
  cbn [skipn firstn app bind product fold_right data].
  rewrite Nat.mul_1_r, app_nil_r. reflexivity.
Qed.

(** The sum of two operands of one shape. *)
Lemma elementwise_add_same_shape (x y : tensor R) :
  shape y = shape x ->
  elementwise_add x y = Ok (mkT (shape x) (zip_with radd (data x) (data y))).
Proof.
  intros H. unfold elementwise_add, shape_eqb. rewrite H.
  destruct (list_eq_dec Nat.eq_dec (shape x) (shape x)); [reflexivity|contradiction].
Qed.

(** C4. [pre_post_process_layer] runs the commands of [process_cmd] from left
    to right on [out]: ["a"] adds [prev_out] when there is one (for a
    [prev_out] of the shape of [out], scalar by scalar), so that
    [pre_process_layer], whose [prev_out] is [None], never adds it; ["n"] is
    the layer normalization from the last axis on, with a scale of initial
    value 1 and a bias of initial value 0 (on an [out] of two axes or more,
    every row of the last axis normalized); ["d"] is the dropout when
    [dropout_rate], a probability, is not zero, and nothing when it is zero;
    any other command and the empty string leave [out] as it is.  With
    [debug] the same tensor is the entry ["out"] of the dictionary returned. *)
Theorem pre_post_process_layer_commands (prev_out : option (tensor R))
  (p out : tensor R) (c1 c2 : string) (c : ascii) (lead : list nat) (w : nat) :
  pre_post_process_layer th prev_out out (c1 +s c2) dropout_rate seed name false
  = (o <- pre_post_process_layer th prev_out out c1 dropout_rate seed name false ;;
     pre_post_process_layer th prev_out o c2 dropout_rate seed name false)
  /\ (shape p = shape out ->
      pre_post_process_layer th (Some p) out "a" dropout_rate seed name false
      = Ok (mkT (shape out) (zip_with radd (data out) (data p))))
  /\ pre_process_layer th out (c1 +s "a" +s c2) dropout_rate seed name false
     = pre_process_layer th out (c1 +s c2) dropout_rate seed name false
  /\ pre_post_process_layer th prev_out out "n" dropout_rate seed name false
     = layer_norm th out (Z.of_nat (rank out) - 1)
         (mkParamAttr (name +s "_layer_norm_scale") (Some (Constant r1)))
         (mkParamAttr (name +s "_layer_norm_bias") (Some (Constant r0)))
  /\ (shape out = lead ++ [w] -> lead <> [] ->
      th (name +s "_layer_norm_scale") = None ->
      th (name +s "_layer_norm_bias") = None ->
      pre_post_process_layer th prev_out out "n" dropout_rate seed name false
      = Ok (mkT (shape out)
              (concat (map (fun row =>
                              zip_with radd
                                (zip_with rmul (normalize_row row) (repeat r1 w))
                                (repeat r0 w))
                         (chunk w (product lead) (data out))))))
  /\ ((0 <= dropout_rate)%Q -> (dropout_rate <= 1)%Q ->
      pre_post_process_layer th prev_out out "d" dropout_rate seed name false
      = Ok (if truthy dropout_rate then dropout out dropout_rate seed else out))
  /\ (dropout_rate == 0 ->
      pre_post_process_layer th prev_out out "d" dropout_rate seed name false = Ok out)
  /\ (c <> "a"%char -> c <> "n"%char -> c <> "d"%char ->
      pre_post_process_layer th prev_out out (String c EmptyString)
        dropout_rate seed name false = Ok out)
  /\ pre_post_process_layer th prev_out out EmptyString dropout_rate seed name false
     = Ok out
  /\ (forall d,
         pre_post_process_layer th prev_out out (c1 +s c2) dropout_rate seed name true
         = Ok d ->
         exists o,
           pre_post_process_layer th prev_out out (c1 +s c2) dropout_rate seed name false
           = Ok o
           /\ dict_get d "out" = Some o).
Proof.
  assert (Hd : pre_post_process_layer th prev_out out "d" dropout_rate seed name false
               = Ok (if truthy dropout_rate then dropout out dropout_rate seed else out)).
  { rewrite pre_post_process_layer_one. unfold process_cmd_step; cbn [Ascii.eqb Bool.eqb].
    destruct (truthy dropout_rate); reflexivity. }
  assert (Hn : pre_post_process_layer th prev_out out "n" dropout_rate seed name false
               = layer_norm th out (Z.of_nat (rank out) - 1)
                   (mkParamAttr (name +s "_layer_norm_scale") (Some (Constant r1)))
                   (mkParamAttr (name +s "_layer_norm_bias") (Some (Constant r0)))).
  { rewrite pre_post_process_layer_one. reflexivity. }
  split; [apply pre_post_process_layer_app|].
  split.
  { intros Hp. rewrite pre_post_process_layer_one. unfold process_cmd_step.
    cbn [Ascii.eqb Bool.eqb]. apply elementwise_add_same_shape, Hp. }
  split.
  { unfold pre_process_layer.
    rewrite (pre_post_process_layer_app None out (c1 +s "a") c2).
    rewrite (pre_post_process_layer_app None out c1 "a").
    rewrite (pre_post_process_layer_app None out c1 c2).
    rewrite bind_assoc. apply bind_ext; intros o.
    rewrite pre_post_process_layer_one. reflexivity. }
  split; [exact Hn|].
  split.
  { intros Hs Hl Hsc Hbi. rewrite Hn.
    rewrite layer_norm_last_axis with (lead := lead) (w := w) by assumption.
    cbn [init_data pinit product fold_right]. rewrite Nat.mul_1_r. reflexivity. }
  split; [intros _ _; exact Hd|].
  split.
  { intros Hz. rewrite Hd. unfold truthy.
    apply Qeq_bool_iff in Hz. rewrite Hz. reflexivity. }
  split.
  { intros Ha Hn' Hd'. rewrite pre_post_process_layer_one. unfold process_cmd_step.
    apply Ascii.eqb_neq in Ha, Hn', Hd'. rewrite Ha, Hn', Hd'. reflexivity. }
  split; [reflexivity|].
  intros d Hdbg. unfold pre_post_process_layer in Hdbg.
  apply bind_Ok_inv in Hdbg as ([o dd] & Hl & Hd').
  exists o. split.
  - pose proof (process_cmd_loop_debug prev_out (c1 +s c2) out []) as E.
    rewrite Hl in E. cbn [bind] in E. rewrite bind_Ok_r in E. exact E.
  - inversion Hd'. apply dict_get_set.
Qed.
End ProcessProperties.

Lemma pre_post_process_layer_commands_witness :
  pre_post_process_layer empty_scope (Some (ones [1; 2; 2])) (ones [1; 2; 2]) "a" (1 # 2)%Q
    0 "x" false
  = Ok (mkT [1; 2; 2] (zip_with radd (data (ones [1; 2; 2])) (data (ones [1; 2; 2]))))
  /\ pre_post_process_layer empty_scope (Some (ones [1; 2; 2])) (ones [1; 2; 2]) "n"
       (1 # 2)%Q 0 "x" false
     = Ok (mkT [1; 2; 2]
             (concat (map (fun row =>
                             zip_with radd
                               (zip_with rmul (normalize_row row) (repeat r1 2))
                               (repeat r0 2))
                        (chunk 2 (product [1; 2]) (data (ones [1; 2; 2]))))))
  /\ pre_post_process_layer empty_scope (Some (ones [1; 2; 2])) (ones [1; 2; 2]) "d"
       (1 # 2)%Q 0 "x" false
     = Ok (dropout (ones [1; 2; 2]) (1 # 2)%Q 0)
  /\ pre_post_process_layer empty_scope None (ones [1; 2; 2]) "d" 0 0 "x" false
     = Ok (ones [1; 2; 2])
  /\ pre_post_process_layer empty_scope None (ones [1; 2; 2]) "x" 0 0 "x" false
     = Ok (ones [1; 2; 2])
  /\ exists o,
       pre_post_process_layer empty_scope None (ones [1; 2; 2]) ("d" +s "an") 0 0 "x" false
       = Ok o
       /\ dict_get [("out_d", ones [1; 2; 2]); ("out_a", ones [1; 2; 2]);
                    ("out_n", ones [1; 2; 2]); ("out", ones [1; 2; 2])]%string "out"
          = Some o.
Proof.
  pose proof (pre_post_process_layer_commands empty_scope (1 # 2)%Q 0 "x"
                (Some (ones [1; 2; 2])) (ones [1; 2; 2]) (ones [1; 2; 2]) "d" "an" "x"
                [1; 2] 2)
    as (_ & Ha & _ & _ & Hn & Hd & _).
  pose proof (pre_post_process_layer_commands empty_scope 0 0 "x" None
                (ones [1; 2; 2]) (ones [1; 2; 2]) "d" "an" "x" [1; 2] 2)
    as (_ & _ & _ & _ & _ & _ & Hz & Hx & _ & Hdbg).
  split; [apply Ha; reflexivity|].
  split; [apply Hn; [reflexivity|discriminate|reflexivity|reflexivity]|].
  split; [apply Hd; unfold Qle; cbn; lia|].
  split; [apply Hz; reflexivity|].
  split; [apply Hx; discriminate|].
  apply Hdbg. reflexivity.
Defined.

(** ** Row-major buffers *)

Lemma nth_map_seq {B : Type} (f : nat -> B) (c j : nat) (d : B) :
  j < c -> nth j (map f (seq 0 c)) d = f j.
Proof.
  intros Hj. rewrite nth_indep with (d' := f 0) by (rewrite length_map, length_seq; exact Hj).
  rewrite map_nth, seq_nth by exact Hj. reflexivity.
Qed.

Lemma nth_map_in {A B : Type} (f : A -> B) (l : list A) (i : nat) (d : B) (d' : A) :
  i < length l -> nth i (map f l) d = f (nth i l d').
Proof.
  intros Hi. rewrite nth_indep with (d' := f d') by (rewrite length_map; exact Hi).
  apply map_nth.
Qed.

Section BufferProperties.
Context {A : Type}.

Lemma chunk_length (w n : nat) : forall l : list A, length (chunk w n l) = n.
Proof. induction n as [|n IH]; intros l; simpl; [reflexivity|]. rewrite IH; reflexivity. Qed.

Lemma concat_chunk (w n : nat) :
  forall l : list A, length l <= n * w -> concat (chunk w n l) = l.
Proof.
  induction n as [|n IH]; intros l Hl; simpl in *.
  - destruct l; [reflexivity|simpl in Hl; lia].
  - rewrite IH; [apply firstn_skipn|].
    rewrite length_skipn. lia.
Qed.

Lemma chunk_concat (w : nat) (ll : list (list A)) :
  Forall (fun r => length r = w) ll -> chunk w (length ll) (concat ll) = ll.
Proof.
  induction 1 as [|r ll Hr _ IH]; simpl; [reflexivity|].
  rewrite firstn_app, skipn_app, Hr, Nat.sub_diag, firstn_all2, skipn_all2 by lia.
  simpl. rewrite app_nil_r, IH. reflexivity.
Qed.

Lemma chunk_concat_n (w n : nat) (ll : list (list A)) :
  length ll = n -> Forall (fun r => length r = w) ll -> chunk w n (concat ll) = ll.
Proof. intros <-. apply chunk_concat. Qed.

Lemma chunk_rows (w n : nat) :
  forall l : list A, length l = n * w -> Forall (fun r => length r = w) (chunk w n l).
Proof.
  induction n as [|n IH]; intros l Hl; simpl in *; constructor.
  - rewrite length_firstn. lia.
  - apply IH. rewrite length_skipn. lia.
Qed.

Lemma length_concat_rows (w : nat) (ll : list (list A)) :
  Forall (fun r => length r = w) ll -> length (concat ll) = length ll * w.
Proof.
  induction 1 as [|r ll Hr _ IH]; simpl; [reflexivity|].
  rewrite length_app, IH, Hr. reflexivity.
Qed.

Lemma Forall_chunk (P : list A -> Prop) (w n : nat) :
  forall l : list A,
    (forall r, length r = w -> P r) -> length l = n * w -> Forall P (chunk w n l).
Proof.
  intros l HP Hl. eapply Forall_impl; [|apply chunk_rows; exact Hl].
  intros r Hr; apply HP; exact Hr.
Qed.

(** *** Transposition *)


Lemma transpose_ll_length (d : A) (c : nat) (m : list (list A)) :
  length (transpose_ll d c m) = c.
Proof. unfold transpose_ll. rewrite length_map, length_seq. reflexivity. Qed.

Lemma transpose_ll_rows (d : A) (c : nat) (m : list (list A)) :
  Forall (fun r => length r = length m) (transpose_ll d c m).
Proof.
  unfold transpose_ll. apply Forall_map, Forall_forall. intros j _.
  apply length_map.
Qed.

Lemma transpose_ll_entries (P : A -> Prop) (d : A) (c : nat) (m : list (list A)) :
  Forall (fun r => length r = c) m -> Forall (Forall P) m ->
  Forall (Forall P) (transpose_ll d c m).
Proof.
  intros Hlen HP. unfold transpose_ll.
  apply Forall_map, Forall_forall. intros j Hj. apply in_seq in Hj.
  apply Forall_map, Forall_forall. intros r Hr.
  rewrite Forall_forall in Hlen, HP.
  pose proof (HP r Hr) as HPr. rewrite Forall_forall in HPr.
  apply HPr, nth_In. rewrite (Hlen r Hr). lia.
Qed.

Lemma nth_transpose_ll (d : A) (c : nat) (m : list (list A)) (j : nat) (dr : list A) :
  j < c -> nth j (transpose_ll d c m) dr = map (fun r => nth j r d) m.
Proof.
  intros Hj. unfold transpose_ll.
  rewrite nth_map_seq by exact Hj. reflexivity.
Qed.

Lemma transpose_ll_involutive (d : A) (c : nat) (m : list (list A)) :
  Forall (fun r => length r = c) m ->
  transpose_ll d (length m) (transpose_ll d c m) = m.
Proof.
  intros Hlen.
  apply nth_ext with (d := []) (d' := []).
  - apply transpose_ll_length.
  - intros i Hi. rewrite transpose_ll_length in Hi.
    rewrite nth_transpose_ll by exact Hi.
    unfold transpose_ll. rewrite map_map.
    assert (Hc : length (nth i m []) = c).
    { rewrite Forall_forall in Hlen. apply Hlen, nth_In, Hi. }
    apply nth_ext with (d := d) (d' := d).
    + rewrite length_map, length_seq, Hc. reflexivity.
    + intros j Hj. rewrite length_map, length_seq in Hj.
      rewrite nth_map_seq by exact Hj.
      rewrite nth_map_in with (d' := []) by exact Hi. reflexivity.
Qed.
End BufferProperties.

Lemma product_app (l l' : list nat) : product (l ++ l') = product l * product l'.
Proof.
  induction l as [|a l IH]; simpl; [lia|]. rewrite IH. lia.
Qed.

Lemma shape_eqb_refl (s : list nat) : shape_eqb s s = true.
Proof. unfold shape_eqb. destruct (list_eq_dec Nat.eq_dec s s); congruence. Qed.

Lemma shape_eqb_eq (s s' : list nat) : shape_eqb s s' = true -> s = s'.
Proof. unfold shape_eqb. destruct (list_eq_dec Nat.eq_dec s s'); congruence. Qed.

(** ** Tensor layers *)

Section LayerProperties.
Context {R : Type} {K : Kernels R}.

Lemma swap_block_length (a b inner : nat) (blk : list R) :
  length blk = a * b * inner -> length (swap_block a b inner blk) = b * a * inner.
Proof.
  intros Hl. unfold swap_block.
  rewrite length_concat_rows with (w := a * inner).
  - rewrite length_map, transpose_ll_length. lia.
  - apply Forall_map.
    assert (Hrows : Forall (fun r : list (list R) => length r = a)
                      (transpose_ll [] b (map (chunk inner b) (chunk (b * inner) a blk)))).
    { eapply Forall_impl; [|apply transpose_ll_rows].
      intros r Hr. rewrite Hr, length_map, chunk_length. reflexivity. }
    assert (Hent : Forall (Forall (fun e : list R => length e = inner))
                     (transpose_ll [] b (map (chunk inner b) (chunk (b * inner) a blk)))).
    { apply transpose_ll_entries.
      - apply Forall_map, Forall_forall. intros r _. apply chunk_length.
      - apply Forall_map. apply Forall_chunk; [|lia].
        intros r Hr. apply chunk_rows. lia. }
    rewrite Forall_forall in *. intros r Hin.
    rewrite length_concat_rows with (w := inner) by (apply Hent; exact Hin).
    rewrite (Hrows r Hin). reflexivity.
Qed.

Lemma swap_block_involutive (a b inner : nat) (blk : list R) :
  length blk = a * b * inner ->
  swap_block b a inner (swap_block a b inner blk) = blk.
Proof.
  intros Hl. unfold swap_block.
  set (M := map (chunk inner b) (chunk (b * inner) a blk)).
  set (T := transpose_ll [] b M).
  assert (HM : length M = a) by (unfold M; rewrite length_map; apply chunk_length).
  assert (HMrows : Forall (fun r : list (list R) => length r = b) M).
  { unfold M. apply Forall_map, Forall_forall. intros r _. apply chunk_length. }
  assert (HMent : Forall (Forall (fun e : list R => length e = inner)) M).
  { unfold M. apply Forall_map. apply Forall_chunk; [|lia].
    intros r Hr. apply chunk_rows. lia. }
  assert (HT : length T = b) by apply transpose_ll_length.
  assert (HTrows : Forall (fun r : list (list R) => length r = a) T).
  { eapply Forall_impl; [|apply transpose_ll_rows]. intros r Hr. rewrite Hr. exact HM. }
  assert (HTent : Forall (Forall (fun e : list R => length e = inner)) T)
    by (apply transpose_ll_entries; assumption).
  rewrite chunk_concat_n with (ll := map (@concat R) T).
  - rewrite map_map.
    rewrite map_ext_in with (g := fun r => r).
    + rewrite map_id. unfold T. rewrite <- HM at 1.
      rewrite transpose_ll_involutive by exact HMrows.
      unfold M. rewrite map_map.
      rewrite map_ext_in with (g := fun r => r).
      * rewrite map_id. apply concat_chunk. lia.
      * intros r Hin. apply concat_chunk.
        assert (Hr : Forall (fun r : list R => length r = b * inner) (chunk (b * inner) a blk))
          by (apply chunk_rows; lia).
        rewrite Forall_forall in Hr. rewrite (Hr r Hin). lia.
    + intros r Hin. rewrite Forall_forall in HTrows, HTent.
      apply chunk_concat_n; [apply HTrows | apply HTent]; exact Hin.
  - rewrite length_map. exact HT.
  - apply Forall_map. rewrite Forall_forall in *. intros r Hin.
    rewrite length_concat_rows with (w := inner) by (apply HTent; exact Hin).
    rewrite (HTrows r Hin). reflexivity.
Qed.

Lemma swap_axes_at (x : tensor R) (pre : list nat) (a b : nat) (post : list nat) :
  shape x = pre ++ a :: b :: post ->
  swap_axes (length pre) x
  = mkT (pre ++ b :: a :: post)
      (concat (map (swap_block a b (product post))
                 (chunk (a * b * product post) (product pre) (data x)))).
Proof.
  intros Hs. unfold swap_axes.
  rewrite Hs, skipn_app, firstn_app, skipn_all, firstn_all, Nat.sub_diag.
  cbn [skipn firstn app]. rewrite app_nil_r. reflexivity.
Qed.

Lemma swap_axes_involutive (x : tensor R) (pre : list nat) (a b : nat) (post : list nat) :
  shape x = pre ++ a :: b :: post ->
  length (data x) = product (shape x) ->
  swap_axes (length pre) (swap_axes (length pre) x) = x.
Proof.
  intros Hs Hl.
  rewrite (swap_axes_at x pre a b post Hs).
  rewrite swap_axes_at with (pre := pre) (a := b) (b := a) (post := post) by reflexivity.
  cbn [data].
  rewrite Hs, product_app in Hl. cbn [product fold_right] in Hl. fold (product post) in Hl.
  assert (Hblk : Forall (fun r : list R => length r = a * b * product post)
                   (chunk (a * b * product post) (product pre) (data x)))
    by (apply chunk_rows; lia).
  rewrite chunk_concat_n
    with (ll := map (swap_block a b (product post))
                  (chunk (a * b * product post) (product pre) (data x))).
  - rewrite map_map, map_ext_in with (g := fun r => r).
    + rewrite map_id, concat_chunk by lia. destruct x; simpl in *. congruence.
    + intros r Hin. rewrite Forall_forall in Hblk.
      apply swap_block_involutive, Hblk, Hin.
  - rewrite length_map. apply chunk_length.
  - apply Forall_map. eapply Forall_impl; [|exact Hblk].
    intros r Hr. apply swap_block_length, Hr.
Qed.

Lemma transpose_0213 (x : tensor R) (b s h d : nat) :
  shape x = [b; s; h; d] -> transpose x [0; 2; 1; 3] = Ok (swap_axes 1 x).
Proof. intros Hs. unfold transpose, rank. rewrite Hs. reflexivity. Qed.

Lemma transpose_0132 (x : tensor R) (b h s d : nat) :
  shape x = [b; h; s; d] -> transpose x [0; 1; 3; 2] = Ok (swap_axes 2 x).
Proof. intros Hs. unfold transpose, rank. rewrite Hs. reflexivity. Qed.

Lemma resolve_dim_positive (xs : list nat) (i : nat) (n : Z) :
  (0 < n)%Z -> resolve_dim xs i n = Ok (Some (Z.to_nat n)).
Proof.
  intros Hn. unfold resolve_dim.
  destruct (n =? 0)%Z eqn:E0; [apply Z.eqb_eq in E0; lia|].
  destruct (n =? -1)%Z eqn:E1; [apply Z.eqb_eq in E1; lia|].
  destruct (0 <? n)%Z eqn:E2; [reflexivity|apply Z.ltb_ge in E2; lia].
Qed.

(** The last axis of a 3-D tensor split in two. *)
Lemma reshape_split (x : tensor R) (b s hd : nat) (n d : Z) :
  shape x = [b; s; hd] -> (0 < n)%Z -> (0 < d)%Z -> (n * d = Z.of_nat hd)%Z ->
  reshape x [0; 0; n; d]%Z = Ok (mkT [b; s; Z.to_nat n; Z.to_nat d] (data x)).
Proof.
  intros Hs Hn Hd Hnd. unfold reshape. rewrite Hs.
  cbn [resolve_dims].
  rewrite resolve_dim_positive with (n := n), resolve_dim_positive with (n := d)
    by assumption.
  cbn [resolve_dim Z.eqb nth_error bind].
  unfold infer_dims. cbn [filter is_unknown length map known_dim product fold_right].
  replace (b * (s * (Z.to_nat n * (Z.to_nat d * 1))) =? b * (s * (hd * 1))) with true;
    [reflexivity|].
  symmetry. apply Nat.eqb_eq.
  assert (Z.to_nat n * Z.to_nat d = hd) by nia. nia.
Qed.

(** The last two axes of a 4-D tensor merged. *)
Lemma reshape_merge (x : tensor R) (b s n d : nat) (m : Z) :
  shape x = [b; s; n; d] -> (0 < m)%Z -> m = Z.of_nat (n * d) ->
  reshape x [0; 0; m]%Z = Ok (mkT [b; s; n * d] (data x)).
Proof.
  intros Hs Hm Hnd. unfold reshape. rewrite Hs.
  cbn [resolve_dims]. rewrite resolve_dim_positive with (n := m) by assumption.
  cbn [resolve_dim Z.eqb nth_error bind].
  unfold infer_dims. cbn [filter is_unknown length map known_dim product fold_right].
  subst m. rewrite Nat2Z.id.
  replace (b * (s * (n * d * 1)) =? b * (s * (n * (d * 1)))) with true;
    [reflexivity|].
  symmetry. apply Nat.eqb_eq. lia.
Qed.
End LayerProperties.

(** ** Heads *)

Section HeadProperties.
Context {R : Type} {K : Kernels R}.

Lemma shape_item_at (x : tensor R) (i : nat) :
  i < rank x -> shape_item x (Z.of_nat i) = Ok (Z.of_nat (nth i (shape x) 0)).
Proof.
  intros Hi. unfold shape_item.
  destruct (Z.of_nat i <? 0)%Z eqn:E; [apply Z.ltb_lt in E; lia|].
  replace ((0 <=? Z.of_nat i)%Z && (Z.of_nat i <? Z.of_nat (rank x))%Z) with true
    by (symmetry; apply andb_true_iff; split; [apply Z.leb_le|apply Z.ltb_lt]; lia).
  rewrite Nat2Z.id. reflexivity.
Qed.

Lemma split_heads_reshaped_ok (x : tensor R) (b s hd : nat) (n_head : Z) :
  shape x = [b; s; hd] -> 0 < hd -> (0 < n_head)%Z ->
  (Z.of_nat hd mod n_head = 0)%Z ->
  split_heads_reshaped x n_head
  = Ok (mkT [b; s; Z.to_nat n_head; Z.to_nat (Z.of_nat hd / n_head)] (data x)).
Proof.
  intros Hs Hhd Hn Hmod. unfold split_heads_reshaped, shape_item, floordiv, rank.
  rewrite Hs. cbn [length Z.ltb Z.compare Z.of_nat].
  cbn -[Z.div reshape].
  destruct (n_head =? 0)%Z eqn:E0; [apply Z.eqb_eq in E0; lia|].
  cbn [bind].
  pose proof (Z.div_exact (Z.of_nat hd) n_head ltac:(lia)) as Hex.
  apply Hex in Hmod.
  apply reshape_split with (hd := hd); [exact Hs|exact Hn| |lia].
  assert (0 < Z.of_nat hd)%Z by lia. nia.
Qed.

Lemma split_heads_ok (x : tensor R) (b s hd : nat) (n_head : Z) :
  shape x = [b; s; hd] -> 0 < hd -> (0 < n_head)%Z ->
  (Z.of_nat hd mod n_head = 0)%Z ->
  __split_heads x n_head
  = Ok (swap_axes 1
          (mkT [b; s; Z.to_nat n_head; Z.to_nat (Z.of_nat hd / n_head)] (data x))).
Proof.
  intros Hs Hhd Hn Hmod. unfold __split_heads.
  rewrite split_heads_reshaped_ok with (b := b) (s := s) (hd := hd) by assumption.
  cbn [bind]. apply transpose_0213 with (b := b) (s := s) (h := Z.to_nat n_head)
                (d := Z.to_nat (Z.of_nat hd / n_head)).
  reflexivity.
Qed.

(** C8. For a 3-D tensor whose last dimension is a multiple of [n_head],
    [__combine_heads] gives back the tensor that [__split_heads] was given. *)
Theorem combine_heads_split_heads (x : tensor R) (n_head : Z) :
  wf x -> rank x = 3 -> (0 < n_head)%Z ->
  (Z.of_nat (last (shape x) 0%nat) mod n_head = 0)%Z ->
  (y <- __split_heads x n_head ;; __combine_heads y) = Ok x.
Proof.
  intros [Hl Hpos] Hr Hn Hmod. unfold rank in Hr.
  destruct x as [shp dat]; cbn [shape data] in *.
  destruct shp as [|b [|s [|hd [|? ?]]]]; try discriminate. clear Hr.
  cbn [last] in Hmod.
  assert (Hhd : 0 < hd).
  { rewrite Forall_forall in Hpos. apply Hpos. simpl; auto. }
  set (n := Z.to_nat n_head). set (d := Z.to_nat (Z.of_nat hd / n_head)).
  assert (Hnd : n * d = hd).
  { pose proof (Z.div_exact (Z.of_nat hd) n_head ltac:(lia)) as Hex.
    apply Hex in Hmod. unfold n, d.
    assert (0 <= Z.of_nat hd / n_head)%Z by (apply Z.div_pos; lia). nia. }
  rewrite split_heads_ok with (b := b) (s := s) (hd := hd) by (assumption || reflexivity).
  fold n d. cbn [bind data].
  set (r := mkT [b; s; n; d] dat).
  assert (Hrs : shape r = [b] ++ s :: n :: [d]) by reflexivity.
  assert (Hrl : length (data r) = product (shape r)).
  { cbn [r shape data product fold_right] in *. rewrite Hl, <- Hnd. lia. }
  pose proof (swap_axes_at r [b] s n [d] Hrs) as Hsw. cbn [length] in Hsw.
  assert (Hsh : shape (swap_axes 1 r) = [b; n; s; d]) by (rewrite Hsw; reflexivity).
  unfold __combine_heads, rank. rewrite Hsh. cbn [length Nat.eqb negb].
  rewrite transpose_0213 with (b := b) (s := n) (h := s) (d := d) by exact Hsh.
  cbn [bind].
  pose proof (swap_axes_involutive r [b] s n [d] Hrs Hrl) as Hinv. cbn [length] in Hinv.
  rewrite Hinv.
  change 2%Z with (Z.of_nat 2). change 3%Z with (Z.of_nat 3).
  rewrite !shape_item_at by (unfold rank; cbn; lia).
  cbn [r shape nth bind].
  rewrite reshape_merge with (b := b) (s := s) (n := n) (d := d);
    [rewrite Hnd; reflexivity|reflexivity| |apply eq_sym, Nat2Z.inj_mul].
  rewrite <- Nat2Z.inj_mul. lia.
Qed.
End HeadProperties.

Lemma combine_heads_split_heads_witness :
  (y <- __split_heads (ones [1; 2; 4]) 2 ;; __combine_heads y) = Ok (ones [1; 2; 4]).
Proof.
  apply combine_heads_split_heads.
  - split; [reflexivity|]. repeat constructor.
  - reflexivity.
  - reflexivity.
  - reflexivity.
Defined.

(** ** The ranks in [multi_head_attention] *)

Section RankProperties.
Context {R : Type} {K : Kernels R}.
Variable th : @scope R.

Lemma rank_swap_axes (k : nat) (x : tensor R) : rank (swap_axes k x) = rank x.
Proof.
  unfold swap_axes, rank.
  destruct (skipn k (shape x)) as [|a [|b post]] eqn:E; try reflexivity.
  cbn [shape]. rewrite <- (firstn_skipn k (shape x)) at 2. rewrite E.
  rewrite !length_app. reflexivity.
Qed.

Lemma rank_swaps (ks : list nat) :
  forall x : tensor R, rank (fold_left (fun t k => swap_axes k t) ks x) = rank x.
Proof.
  induction ks as [|k ks IH]; intros x; [reflexivity|].
  cbn [fold_left]. rewrite IH. apply rank_swap_axes.
Qed.

Lemma rank_transpose (x y : tensor R) (perm : list nat) :
  transpose x perm = Ok y -> rank y = rank x.
Proof.
  unfold transpose. destruct (is_perm perm (rank x)); [|discriminate].
  intros E; inversion E. apply rank_swaps.
Qed.

Lemma resolve_dims_length (xs : list nat) (spec : list Z) :
  forall i ds, resolve_dims xs i spec = Ok ds -> length ds = length spec.
Proof.
  induction spec as [|s spec IH]; intros i ds E; simpl in E.
  - inversion E; reflexivity.
  - apply bind_Ok_inv in E as (d & _ & E).
    apply bind_Ok_inv in E as (ds' & E' & E).
    inversion E. simpl. erewrite IH by exact E'. reflexivity.
Qed.

Lemma rank_reshape (x y : tensor R) (spec : list Z) :
  reshape x spec = Ok y -> rank y = length spec.
Proof.
  unfold reshape. intros E.
  apply bind_Ok_inv in E as (ds & Eds & E).
  apply bind_Ok_inv in E as (shp & Eshp & E).
  inversion E; subst y; clear E. unfold rank; cbn [shape].
  rewrite <- (resolve_dims_length _ _ _ Eds).
  unfold infer_dims in Eshp.
  destruct (length (filter is_unknown ds)) as [|[|n]]; [| |discriminate].
  - destruct (_ =? _); inversion Eshp. apply length_map.
  - destruct (_ && _); inversion Eshp. apply length_map.
Qed.

Lemma rank_matmul (x y z : tensor R) (b : bool) :
  matmul x y b = Ok z -> rank z = rank x.
Proof.
  unfold matmul. intros E.
  destruct (skipn (rank x - 2) (shape x)) as [|m [|k [|? ?]]] eqn:Ex; try discriminate.
  destruct (skipn (rank y - 2) (shape y)) as [|p [|q [|? ?]]]; try discriminate.
  destruct (_ && _); [|discriminate].
  inversion E; subst z; clear E. unfold rank at 1; cbn [shape].
  rewrite length_app. cbn [length].
  assert (Hl : length (skipn (rank x - 2) (shape x)) = 2) by (rewrite Ex; reflexivity).
  rewrite length_skipn in Hl. fold (rank x) in Hl.
  rewrite length_firstn. fold (rank x). lia.
Qed.

Lemma rank_softmax (x y : tensor R) : softmax x = Ok y -> rank y = rank x.
Proof.
  unfold softmax. destruct (rank x) eqn:E; [discriminate|].
  intros H; inversion H. unfold rank in *. cbn [shape]. exact E.
Qed.

Lemma broadcast_dims_length (xs : list nat) :
  forall ys shp, broadcast_dims xs ys = Some shp -> length shp = length xs.
Proof.
  induction xs as [|a xs IH]; intros [|b ys] shp H; cbn [broadcast_dims] in H;
    try discriminate.
  - inversion H. reflexivity.
  - destruct (_ || _); [|discriminate].
    destruct (broadcast_dims xs ys) as [s|] eqn:E; [|discriminate].
    inversion H. cbn [length]. f_equal. eapply IH, E.
Qed.

(** The sum has the axes of its first operand, broadcast or not. *)
Lemma rank_elementwise_add (x y z : tensor R) :
  elementwise_add x y = Ok z -> rank z = rank x.
Proof.
  unfold elementwise_add. destruct (shape_eqb _ _).
  - intros H; inversion H. reflexivity.
  - destruct (rank y <=? rank x); [|discriminate].
    destruct (broadcast_dims _ _) as [shp|] eqn:E; [|discriminate].
    intros H; inversion H. unfold rank at 1. cbn [shape].
    eapply broadcast_dims_length, E.
Qed.

Lemma rank_split_heads (x y : tensor R) (n_head : Z) :
  __split_heads x n_head = Ok y -> rank y = 4.
Proof.
  unfold __split_heads, split_heads_reshaped. intros E.
  apply bind_Ok_inv in E as (r & Er & E).
  apply bind_Ok_inv in Er as (hs & _ & Er).
  apply bind_Ok_inv in Er as (d & _ & Er).
  apply rank_transpose in E. apply rank_reshape in Er.
  rewrite E, Er. reflexivity.
Qed.

Lemma rank_scaled_dot_product_attention (seed : Z) (q k v ctx : tensor R)
  (attn_bias : option (tensor R)) (d_key : Z) (dropout_rate : Q) :
  scaled_dot_product_attention seed q k v attn_bias d_key dropout_rate = Ok ctx ->
  rank ctx = rank q.
Proof.
  unfold scaled_dot_product_attention. intros E.
  apply bind_Ok_inv in E as (s & _ & E).
  apply bind_Ok_inv in E as (p & Ep & E).
  apply bind_Ok_inv in E as (p' & Ep' & E).
  apply bind_Ok_inv in E as (w & Ew & E).
  apply rank_matmul in E, Ep. apply rank_softmax in Ew.
  assert (Hp' : rank p' = rank p).
  { destruct attn_bias; [apply rank_elementwise_add in Ep'; exact Ep'|].
    inversion Ep'; reflexivity. }
  rewrite E.
  assert (Hd : rank (if truthy dropout_rate then dropout w dropout_rate seed else w)
               = rank w) by (destruct (truthy dropout_rate); reflexivity).
  rewrite Hd, Ew, Hp', Ep. reflexivity.
Qed.

Lemma combine_heads_internal (x : tensor R) :
  rank x = 4 -> raises_in internal (__combine_heads x).
Proof.
  intros Hr. unfold __combine_heads. rewrite Hr. cbn [Nat.eqb negb].
  assert (Hitem : forall (t : tensor R) i, raises_in internal (shape_item t i)).
  { intros t i. unfold shape_item.
    destruct (_ && _); [apply raises_in_Ok|apply raises_in_Raise; exact I]. }
  apply raises_in_bind; [apply transpose_internal|intros t].
  apply raises_in_bind; [apply Hitem|intros s2].
  apply raises_in_bind; [apply Hitem|intros s3].
  apply reshape_internal.
Qed.

(** C6. [multi_head_attention] raises [ValueError] exactly when [queries],
    [keys] and [values] (the last two with their defaults) are not all 3-D.
    What [__split_heads] returns is 4-D and so is the result of
    [scaled_dot_product_attention] on it, for which [__combine_heads] raises
    no [ValueError]. *)
Theorem multi_head_attention_value_error (queries : tensor R)
  (keys values attn_bias : option (tensor R)) (d_key d_value d_model n_head : Z)
  (dropout_rate : Q) (cache : option (dict (tensor R)))
  (param_initializer : option (@initializer R)) (seed : Z) (name : string)
  (debug : bool) :
  (is_ValueError
     (multi_head_attention th queries keys values attn_bias d_key d_value d_model
        n_head dropout_rate cache param_initializer seed name debug)
   <-> ~ (rank queries = 3
          /\ rank (match keys with None => queries | Some k => k end) = 3
          /\ rank (match values with
                   | None => match keys with None => queries | Some k => k end
                   | Some v => v
                   end) = 3))
  /\ (forall x y : tensor R, __split_heads x n_head = Ok y -> rank y = 4)
  /\ (forall q k v ctx : tensor R,
         rank q = 4 ->
         scaled_dot_product_attention seed q k v attn_bias d_key dropout_rate = Ok ctx ->
         rank ctx = 4 /\ ~ is_ValueError (__combine_heads ctx)).
Proof.
  assert (Hcomb : forall ctx : tensor R, rank ctx = 4 -> ~ is_ValueError (__combine_heads ctx)).
  { intros ctx Hr [msg E]. apply (combine_heads_internal ctx Hr) in E. exact E. }
  split; [|split].
  - unfold multi_head_attention.
    set (k := match keys with None => queries | Some k => k end).
    set (v := match values with None => k | Some v => v end).
    destruct ((rank queries =? 3) && (rank k =? 3) && (rank v =? 3)) eqn:E3; cbn [negb].
    + apply andb_true_iff in E3 as [E3 Ev]. apply andb_true_iff in E3 as [Eq Ek].
      apply Nat.eqb_eq in Eq, Ek, Ev.
      split; [|intros H; exfalso; apply H; auto].
      intros [msg E]. exfalso. revert E.
      match goal with |- ?r = _ -> False =>
        assert (Hin : raises_in internal r); [|intros E; exact (Hin _ E)] end.
      apply raises_in_bind; [apply compute_qkv_internal|intros [[q1 k1] v1]].
      apply raises_in_bind; [apply use_cache_internal|intros [[k2 v2] c2]].
      apply raises_in_bind_eq; [apply split_heads_internal|intros _q E_q].
      apply raises_in_bind; [apply split_heads_internal|intros _k].
      apply raises_in_bind; [apply split_heads_internal|intros _v].
      apply raises_in_bind; [apply cache_after_internal|intros c3].
      apply raises_in_bind_eq;
        [apply scaled_dot_product_attention_internal|intros ctx Ectx].
      apply raises_in_bind.
      * apply combine_heads_internal.
        apply rank_scaled_dot_product_attention in Ectx.
        apply rank_split_heads in E_q. congruence.
      * intros out. apply raises_in_bind; [apply fc_internal|intros; apply raises_in_Ok].
    + split; [|intros _; eexists; reflexivity].
      intros _ (Hq & Hk & Hv).
      rewrite Hq, Hk, Hv in E3. discriminate.
  - intros x y E. apply rank_split_heads in E. exact E.
  - intros q k v ctx Hq E.
    assert (Hr : rank ctx = 4)
      by (apply rank_scaled_dot_product_attention in E; congruence).
    split; [exact Hr|apply Hcomb, Hr].
Qed.
End RankProperties.

Lemma multi_head_attention_value_error_witness :
  is_ValueError
    (multi_head_attention empty_scope (ones [2; 4]) None None None 2 2 4 2 0 None None
       0 "att" false)
  /\ rank (ones [1; 2; 2; 2]) = 4.
Proof.
  split.
  - apply (proj1 (multi_head_attention_value_error empty_scope (ones [2; 4]) None None
                    None 2 2 4 2 0 None None 0 "att" false)).
    intros (H & _). discriminate H.
  - refine (proj1 (proj2 (multi_head_attention_value_error empty_scope (ones [2; 4])
                            None None None 2 2 4 2 0 None None 0 "att" false))
              (ones [1; 2; 4]) _ _).
    reflexivity.
Defined.

(** ** [encoder_co_layer] *)

(** Every call of a sequence that returns has returned. *)
Ltac invert_binds :=
  repeat match goal with
         | H : bind _ _ = Ok _ |- _ =>
             let a := fresh "a" in
             let E := fresh "E" in
             apply bind_Ok_inv in H as (a & E & H); cbv beta in H
         | H : context [match ?p with (_, _) => _ end] |- _ => is_var p; destruct p
         end.

(** The calls that are known to return, in the goal. *)
Ltac replay_calls :=
  cbv beta iota delta [ret1 ret2] in *;
  repeat match goal with
         | E : ?c = Ok _ |- context [?c] => rewrite E; cbn [bind]; cbv beta iota
         end.

Section CoLayerProperties.
Context {R : Type} {K : Kernels R}.
Variable th : @scope R.

(** C3. [encoder_co_layer] returns the pair of streams of the co-attention
    stream by stream: the language stream has its preprocessed input as
    queries and the preprocessed vision input as keys and values, under the
    bias [transpose(attn_vl_bias, [0, 1, 3, 2])]; the vision stream has them
    the other way round, under [attn_vl_bias]; each attention result is
    post-processed, passed through the feed-forward network of its stream
    ([d_inner_hid] and [d_model], [v_inner_hid] and [v_model]) and
    post-processed again. *)
Theorem encoder_co_layer_streams (enc_input enc_vl_input attn_vl_bias : tensor R)
  (co_head co_key co_value co_model d_model d_inner_hid v_model v_inner_hid : Z)
  (prepostprocess_dropout attention_dropout relu_dropout : Q)
  (hidden_act : option string) (preprocess_cmd postprocess_cmd : string)
  (param_initializer : option (@initializer R)) (seed : Z) (name : string)
  (debug : bool) (res : ret2 debug) :
  encoder_co_layer th enc_input enc_vl_input attn_vl_bias co_head co_key co_value
    co_model d_model d_inner_hid v_model v_inner_hid prepostprocess_dropout
    attention_dropout relu_dropout hidden_act preprocess_cmd postprocess_cmd
    param_initializer seed name debug = Ok res
  <-> exists outs,
      encoder_co_layer_spec th co_head co_key co_value prepostprocess_dropout
        attention_dropout relu_dropout hidden_act preprocess_cmd postprocess_cmd
        param_initializer seed enc_input enc_vl_input attn_vl_bias
        d_model d_inner_hid v_model v_inner_hid name = Ok outs
      /\ res = ret2_of debug outs.
Proof.
  unfold encoder_co_layer, encoder_co_layer_spec, cross_attention, feed_forward_block.
  split.
  - intros H. invert_binds.
    eexists. split.
    + replay_calls. reflexivity.
    + inversion H. destruct debug; reflexivity.
  - intros (outs & H & ->). invert_binds.
    replay_calls. inversion H. destruct debug; reflexivity.
Qed.
End CoLayerProperties.

(** ** Equal steps of a computation *)

Lemma bind_cong {A B : Type} (m m' : result A) (f f' : A -> result B) :
  m = m' -> (forall a, f a = f' a) -> bind m f = bind m' f'.
Proof. intros -> H. apply bind_ext, H. Qed.

(** ** Fully connected layers *)

Lemma zip_with_length {A B C : Type} (f : A -> B -> C) (l : list A) :
  forall l' : list B, length (zip_with f l l') = Nat.min (length l) (length l').
Proof.
  induction l as [|a l IH]; intros [|b l']; simpl; try reflexivity.
  rewrite IH. reflexivity.
Qed.

Section FcProperties.
Context {R : Type} {K : Kernels R}.
Variable th : @scope R.

Lemma columns_length (W : tensor R) (w sz : nat) : length (columns W w sz) = sz.
Proof. apply transpose_ll_length. Qed.

Lemma affine_length (cols : list (list R)) (b row : list R) :
  length cols = length b -> length (affine cols b row) = length b.
Proof.
  intros H. unfold affine. rewrite zip_with_length, length_map, H. apply Nat.min_id.
Qed.

Lemma activate_length (act : option string) (row : list R) :
  length (activate act row) = length row.
Proof. destruct act; [apply act_row_length|reflexivity]. Qed.

(** A bias of the scope, or its initial value, holds [sz] scalars. *)
Lemma get_param_bias_length (name : string) (sz : nat) (t : tensor R) :
  wf_scope th ->
  get_param th (mkParamAttr name None) true [sz] = Ok t -> length (data t) = sz.
Proof.
  intros Hwf. unfold get_param. cbn [pname pinit].
  destruct (th name) as [t'|] eqn:E.
  - destruct (shape_eqb (shape t') [sz]) eqn:Es; [|discriminate].
    intros H; inversion H; subst t'.
    rewrite (Hwf _ _ E), (shape_eqb_eq _ _ Es). simpl. lia.
  - intros H; inversion H. cbn [data init_data].
    rewrite default_init_length. simpl. lia.
Qed.

(** [fc] with [num_flatten_dims=2] on a 3-D tensor: one affine map and the
    activation on every row. *)
Lemma fc_rows (x : tensor R) (b s w : nat) (size : Z) (act : option string)
  (wa ba : ParamAttr) :
  shape x = [b; s; w] ->
  fc th x size 2 act wa ba
  = if (0 <? size)%Z then
      W <- get_param th wa false [w; Z.to_nat size] ;;
      bb <- get_param th ba true [Z.to_nat size] ;;
      Ok (mkT [b; s; Z.to_nat size]
            (concat (map (fun row =>
                            activate act
                              (affine (columns W w (Z.to_nat size)) (data bb) row))
                       (chunk w (b * s) (data x)))))
    else Raise FrameworkError.
Proof.
  intros Hs. unfold fc, rank, map_rows. rewrite Hs.
  cbn [length Nat.ltb Nat.leb andb skipn firstn product fold_right app].
  rewrite !Nat.mul_1_r. reflexivity.
Qed.

Lemma fc_shape (x y : tensor R) (b s w : nat) (size : Z) (act : option string)
  (wa : ParamAttr) (bname : string) :
  wf_scope th -> shape x = [b; s; w] ->
  fc th x size 2 act wa (mkParamAttr bname None) = Ok y ->
  (0 < size)%Z /\ shape y = [b; s; Z.to_nat size]
  /\ length (data y) = b * s * Z.to_nat size.
Proof.
  intros Hwf Hs E. rewrite fc_rows with (b := b) (s := s) (w := w) in E by exact Hs.
  destruct (0 <? size)%Z eqn:Ez; [|discriminate]. apply Z.ltb_lt in Ez.
  apply bind_Ok_inv in E as (W & _ & E).
  apply bind_Ok_inv in E as (bb & Eb & E).
  inversion E; subst y; clear E. cbn [shape data].
  split; [exact Ez|]. split; [reflexivity|].
  apply get_param_bias_length in Eb; [|exact Hwf].
  rewrite length_concat_rows with (w := Z.to_nat size).
  - rewrite length_map, chunk_length. reflexivity.
  - apply Forall_map, Forall_forall. intros row _.
    rewrite activate_length, affine_length; rewrite ?columns_length; congruence.
Qed.

(** C5. On a 3-D tensor [positionwise_feed_forward] is the linear map to
    [d_inner_hid] with the activation [hidden_act] on every position, the
    dropout of the hidden tensor when [dropout_rate] is not zero, and the
    linear map to [d_hid] on every position; with [dropout_rate = 0] it is one
    and the same function, [ffn_position], on the row of every batch element
    and position. *)
Theorem positionwise_feed_forward_positions (x : tensor R) (b s d_in : nat)
  (d_inner_hid d_hid : Z) (dropout_rate : Q) (hidden_act : option string)
  (param_initializer : option (@initializer R)) (seed : Z) (name : string)
  (W0 b0 W1 b1 : tensor R) :
  wf_scope th ->
  shape x = [b; s; d_in] ->
  (0 < d_inner_hid)%Z -> (0 < d_hid)%Z ->
  get_param th (mkParamAttr (name +s "_fc_0.w_0") param_initializer) false
    [d_in; Z.to_nat d_inner_hid] = Ok W0 ->
  get_param th (mkParamAttr (name +s "_fc_0.b_0") None) true [Z.to_nat d_inner_hid]
  = Ok b0 ->
  get_param th (mkParamAttr (name +s "_fc_1.w_0") param_initializer) false
    [Z.to_nat d_inner_hid; Z.to_nat d_hid] = Ok W1 ->
  get_param th (mkParamAttr (name +s "_fc_1.b_0") None) true [Z.to_nat d_hid] = Ok b1 ->
  positionwise_feed_forward th x d_inner_hid d_hid dropout_rate hidden_act
    param_initializer seed name false
  = Ok (let hidden :=
          mkT [b; s; Z.to_nat d_inner_hid]
            (concat (map (fun row =>
                            activate hidden_act
                              (affine (columns W0 d_in (Z.to_nat d_inner_hid))
                                 (data b0) row))
                       (chunk d_in (b * s) (data x)))) in
        mkT [b; s; Z.to_nat d_hid]
          (concat (map (affine (columns W1 (Z.to_nat d_inner_hid) (Z.to_nat d_hid))
                          (data b1))
                     (chunk (Z.to_nat d_inner_hid) (b * s)
                        (data (if truthy dropout_rate
                               then dropout hidden dropout_rate seed
                               else hidden))))))
  /\ (dropout_rate == 0 ->
      positionwise_feed_forward th x d_inner_hid d_hid dropout_rate hidden_act
        param_initializer seed name false
      = Ok (mkT [b; s; Z.to_nat d_hid]
              (concat (map (ffn_position W0 b0 W1 b1 d_in (Z.to_nat d_inner_hid)
                              (Z.to_nat d_hid) hidden_act)
                         (chunk d_in (b * s) (data x)))))).
Proof.
  intros Hwf Hs Hi Ho EW0 Eb0 EW1 Eb1.
  assert (Hgen :
    positionwise_feed_forward th x d_inner_hid d_hid dropout_rate hidden_act
      param_initializer seed name false
    = Ok (let hidden :=
            mkT [b; s; Z.to_nat d_inner_hid]
              (concat (map (fun row =>
                              activate hidden_act
                                (affine (columns W0 d_in (Z.to_nat d_inner_hid))
                                   (data b0) row))
                         (chunk d_in (b * s) (data x)))) in
          mkT [b; s; Z.to_nat d_hid]
            (concat (map (affine (columns W1 (Z.to_nat d_inner_hid) (Z.to_nat d_hid))
                            (data b1))
                       (chunk (Z.to_nat d_inner_hid) (b * s)
                          (data (if truthy dropout_rate
                                 then dropout hidden dropout_rate seed
                                 else hidden))))))).
  { unfold positionwise_feed_forward.
    rewrite fc_rows with (b := b) (s := s) (w := d_in) by exact Hs.
    replace (0 <? d_inner_hid)%Z with true by (symmetry; apply Z.ltb_lt; exact Hi).
    rewrite EW0, Eb0. cbn [bind].
    rewrite fc_rows with (b := b) (s := s) (w := Z.to_nat d_inner_hid)
      by (destruct (truthy dropout_rate); reflexivity).
    replace (0 <? d_hid)%Z with true by (symmetry; apply Z.ltb_lt; exact Ho).
    rewrite EW1, Eb1. reflexivity. }
  split; [exact Hgen|].
  intros Hz. rewrite Hgen. cbv zeta.
  assert (Ht : truthy dropout_rate = false).
  { unfold truthy. apply Qeq_bool_iff in Hz. rewrite Hz. reflexivity. }
  rewrite Ht. cbn [data]. do 2 f_equal.
  apply get_param_bias_length in Eb0; [|exact Hwf].
  rewrite chunk_concat_n.
  - rewrite map_map. reflexivity.
  - rewrite length_map. apply chunk_length.
  - apply Forall_map, Forall_forall. intros row _.
    rewrite activate_length, affine_length; rewrite ?columns_length; congruence.
Qed.
End FcProperties.

Lemma positionwise_feed_forward_positions_witness :
  positionwise_feed_forward empty_scope (ones [1; 2; 2]) 3 2 0 (Some "gelu"%string) None 0
    "ffn" false
  = Ok (mkT [1; 2; 2]
          (concat (map (ffn_position (ones [2; 3]) (ones [3]) (ones [3; 2]) (ones [2])
                          2 3 2 (Some "gelu"%string))
                     (chunk 2 (1 * 2) (data (ones [1; 2; 2])))))).
Proof.
  refine (proj2 (@positionwise_feed_forward_positions Z ZKernels empty_scope
                   (ones [1; 2; 2]) 1 2 2 3 2 0 (Some "gelu"%string) None 0 "ffn"
                   (ones [2; 3]) (ones [3]) (ones [3; 2]) (ones [2])
                   _ _ _ _ _ _ _ _) _).
  - intros name t E. discriminate E.
  - reflexivity.
  - reflexivity.
  - reflexivity.
  - reflexivity.
  - reflexivity.
  - reflexivity.
  - reflexivity.
  - reflexivity.
Defined.

(** ** Nested lists and their buffers *)

Section ZipProperties.
Context {A B C : Type}.

Lemma zip_with_app (f : A -> B -> C) (l1 : list A) :
  forall (l2 : list A) (l' : list B),
    zip_with f (l1 ++ l2) l'
    = zip_with f l1 (firstn (length l1) l') ++ zip_with f l2 (skipn (length l1) l').
Proof.
  induction l1 as [|a l1 IH]; intros l2 l'; simpl.
  - destruct l2; reflexivity.
  - destruct l' as [|b l']; simpl.
    + destruct l2; reflexivity.
    + rewrite IH. reflexivity.
Qed.

Lemma zip_with_ext_Forall (P : A -> Prop) (Q : B -> Prop) (f g : A -> B -> C)
  (l : list A) :
  forall l' : list B,
    (forall a b, P a -> Q b -> f a b = g a b) ->
    Forall P l -> Forall Q l' -> zip_with f l l' = zip_with g l l'.
Proof.
  induction l as [|a l IH]; intros [|b l'] Hfg HP HQ; simpl; try reflexivity.
  inversion HP; inversion HQ; subst.
  rewrite Hfg, IH by assumption. reflexivity.
Qed.

Lemma Forall_zip_with (P : A -> Prop) (Q : B -> Prop) (S : C -> Prop)
  (f : A -> B -> C) (l : list A) :
  forall l' : list B,
    (forall a b, P a -> Q b -> S (f a b)) ->
    Forall P l -> Forall Q l' -> Forall S (zip_with f l l').
Proof.
  induction l as [|a l IH]; intros [|b l'] Hf HP HQ; simpl; try constructor.
  - inversion HP; inversion HQ; subst. apply Hf; assumption.
  - inversion HP; inversion HQ; subst. apply IH; assumption.
Qed.

Lemma zip_with_same_length (f : A -> B -> C) (l : list A) (l' : list B) (n : nat) :
  length l = n -> length l' = n -> length (zip_with f l l') = n.
Proof. intros H1 H2. rewrite zip_with_length, H1, H2. apply Nat.min_id. Qed.
End ZipProperties.

Lemma zip_with_map {A A' B B' C : Type} (f : A' -> B' -> C) (g : A -> A') (g' : B -> B')
  (l : list A) :
  forall l' : list B,
    zip_with f (map g l) (map g' l') = zip_with (fun a b => f (g a) (g' b)) l l'.
Proof.
  induction l as [|a l IH]; intros [|b l']; simpl; try reflexivity.
  rewrite IH. reflexivity.
Qed.

Lemma zip_with_map_r {A B B' C : Type} (f : A -> B' -> C) (g' : B -> B') (l : list A)
  (l' : list B) :
  zip_with f l (map g' l') = zip_with (fun a b => f a (g' b)) l l'.
Proof.
  rewrite <- (map_id l) at 1. rewrite zip_with_map. reflexivity.
Qed.

Lemma map_zip_with {A B C D : Type} (g : C -> D) (f : A -> B -> C) (l : list A) :
  forall l' : list B, map g (zip_with f l l') = zip_with (fun a b => g (f a b)) l l'.
Proof.
  induction l as [|a l IH]; intros [|b l']; simpl; try reflexivity.
  rewrite IH. reflexivity.
Qed.

Section ConcatProperties.
Context {A : Type}.

Lemma concat_concat_map (X : list (list (list A))) :
  concat (concat X) = concat (map (@concat A) X).
Proof.
  induction X as [|x X IH]; simpl; [reflexivity|].
  rewrite concat_app, IH. reflexivity.
Qed.

Lemma chunk_map {B : Type} (g : A -> B) (w n : nat) :
  forall l : list A, chunk w n (map g l) = map (map g) (chunk w n l).
Proof.
  induction n as [|n IH]; intros l; simpl; [reflexivity|].
  rewrite firstn_map, skipn_map, IH. reflexivity.
Qed.

Lemma nth_chunk (w n h : nat) :
  forall l : list A, h < n -> nth h (chunk w n l) [] = slice (h * w) w l.
Proof.
  revert n; induction h as [|h IH]; intros [|n] l Hh; try lia; simpl.
  - reflexivity.
  - rewrite IH by lia. unfold slice. rewrite skipn_skipn.
    replace (h * w + w) with (w + h * w) by lia. reflexivity.
Qed.

(** Zipping a buffer of rows with a buffer: row by row. *)
Lemma zip_with_concat_chunk {B C : Type} (f : A -> B -> C) (w : nat)
  (ll : list (list A)) :
  forall l' : list B,
    Forall (fun r => length r = w) ll ->
    zip_with f (concat ll) l'
    = concat (zip_with (zip_with f) ll (chunk w (length ll) l')).
Proof.
  induction ll as [|r ll IH]; intros l' Hw; simpl; [reflexivity|].
  apply Forall_cons_iff in Hw as [Hr Hll].
  rewrite zip_with_app, Hr, IH by exact Hll. reflexivity.
Qed.

Lemma zip_with_concat {B C : Type} (f : A -> B -> C) (n : nat) (X : list (list A)) :
  forall Y : list (list B),
    Forall (fun r => length r = n) X -> Forall (fun r => length r = n) Y ->
    zip_with f (concat X) (concat Y) = concat (zip_with (zip_with f) X Y).
Proof.
  induction X as [|x X IH]; intros Y HX HY; simpl; [reflexivity|].
  apply Forall_cons_iff in HX as [Hx HX'].
  destruct Y as [|y Y]; simpl.
  - destruct (x ++ concat X); reflexivity.
  - apply Forall_cons_iff in HY as [Hy HY'].
    rewrite zip_with_app, firstn_app, skipn_app, Hx, Hy, Nat.sub_diag.
    rewrite firstn_all2, skipn_all2 by lia. simpl. rewrite app_nil_r.
    rewrite IH by assumption. reflexivity.
Qed.
End ConcatProperties.

Section RectProperties.
Context {A : Type}.

Lemma rect2_flat (S d : nat) (M : list (list A)) :
  rect2 S d M -> length (concat M) = S * d.
Proof. intros [Hl Hr]. rewrite (length_concat_rows Hr), Hl. reflexivity. Qed.

Lemma rect3_flat (H S d : nat) (g : list (list (list A))) :
  rect3 H S d g -> length (flat3 g) = H * (S * d).
Proof.
  intros [Hl Hr]. unfold flat3.
  rewrite length_concat_rows with (w := S * d).
  - rewrite length_map, Hl. reflexivity.
  - apply Forall_map. eapply Forall_impl; [|exact Hr]. intros M; apply rect2_flat.
Qed.

Lemma rect4_concat (B H S d : nat) (G : list (list (list (list A)))) :
  rect4 B H S d G -> length (concat G) = B * H /\ Forall (rect2 S d) (concat G).
Proof.
  intros [Hl Hr]. split.
  - rewrite length_concat_rows with (w := H).
    + rewrite Hl. reflexivity.
    + eapply Forall_impl; [|exact Hr]. intros g [Hg _]; exact Hg.
  - apply Forall_concat. eapply Forall_impl; [|exact Hr]. intros g [_ Hg]; exact Hg.
Qed.

Lemma flat4_matrices (G : list (list (list (list A)))) :
  flat4 G = concat (map (@concat A) (concat G)).
Proof.
  unfold flat4, flat3. rewrite concat_map, concat_concat_map, map_map.
  reflexivity.
Qed.

Lemma flat4_rows (G : list (list (list (list A)))) :
  flat4 G = concat (concat (concat G)).
Proof. rewrite flat4_matrices, concat_concat_map. reflexivity. Qed.

(** The matrices of the buffer of a nested list. *)
Lemma chunk_flat4_matrices (B H S d : nat) (G : list (list (list (list A)))) :
  rect4 B H S d G ->
  chunk (S * d) (B * H) (flat4 G) = map (@concat A) (concat G).
Proof.
  intros HG. destruct (rect4_concat HG) as [Hl Hr].
  rewrite flat4_matrices. apply chunk_concat_n.
  - rewrite length_map. exact Hl.
  - apply Forall_map. eapply Forall_impl; [|exact Hr]. intros M; apply rect2_flat.
Qed.

Lemma chunk_flat4_groups (B H S d : nat) (G : list (list (list (list A)))) :
  rect4 B H S d G -> chunk (H * (S * d)) B (flat4 G) = map flat3 G.
Proof.
  intros [Hl Hr]. unfold flat4. apply chunk_concat_n.
  - rewrite length_map. exact Hl.
  - apply Forall_map. eapply Forall_impl; [|exact Hr]. intros g; apply rect3_flat.
Qed.

Lemma chunk_flat4_rows (B H S d : nat) (G : list (list (list (list A)))) :
  rect4 B H S d G -> chunk d (B * H * S) (flat4 G) = concat (concat G).
Proof.
  intros HG. destruct (rect4_concat HG) as [Hl Hr].
  rewrite flat4_rows. apply chunk_concat_n.
  - rewrite length_concat_rows with (w := S).
    + rewrite Hl. reflexivity.
    + eapply Forall_impl; [|exact Hr]. intros M [HM _]; exact HM.
  - apply Forall_concat. eapply Forall_impl; [|exact Hr]. intros M [_ HM]; exact HM.
Qed.

Lemma rect4_zip_with {A1 A2 : Type} (B H S1 d1 S2 d2 S d : nat)
  (f : list (list A1) -> list (list A2) -> list (list A))
  (X : list (list (list (list A1)))) (Y : list (list (list (list A2)))) :
  (forall M N, rect2 S1 d1 M -> rect2 S2 d2 N -> rect2 S d (f M N)) ->
  rect4 B H S1 d1 X -> rect4 B H S2 d2 Y ->
  rect4 B H S d (zip_with (zip_with f) X Y).
Proof.
  intros Hf [HX1 HX2] [HY1 HY2]. split.
  - apply zip_with_same_length; assumption.
  - eapply Forall_zip_with; [|exact HX2|exact HY2].
    intros g g' [Hg1 Hg2] [Hg1' Hg2']. split.
    + apply zip_with_same_length; assumption.
    + eapply Forall_zip_with; [|exact Hg2|exact Hg2']. exact Hf.
Qed.

Lemma rect4_map {A1 : Type} (B H S d d' : nat) (f : list A1 -> list A)
  (X : list (list (list (list A1)))) :
  (forall r, length r = d -> length (f r) = d') ->
  rect4 B H S d X -> rect4 B H S d' (map (map (map f)) X).
Proof.
  intros Hf [HX1 HX2]. split; [rewrite length_map; exact HX1|].
  apply Forall_map. eapply Forall_impl; [|exact HX2].
  intros g [Hg1 Hg2]. split; [rewrite length_map; exact Hg1|].
  apply Forall_map. eapply Forall_impl; [|exact Hg2].
  intros M [HM1 HM2]. split; [rewrite length_map; exact HM1|].
  apply Forall_map. eapply Forall_impl; [|exact HM2]. exact Hf.
Qed.
End RectProperties.

Lemma zip_with_map_l {A A' B C : Type} (f : A' -> B -> C) (g : A -> A') (l : list A)
  (l' : list B) :
  zip_with f (map g l) l' = zip_with (fun a b => f (g a) b) l l'.
Proof.
  rewrite <- (map_id l') at 1. rewrite zip_with_map. reflexivity.
Qed.

Lemma map_flat4 {A B : Type} (f : A -> B) (G : list (list (list (list A)))) :
  map f (flat4 G) = flat4 (map (map (map (map f))) G).
Proof. rewrite !flat4_rows, !concat_map. reflexivity. Qed.

Lemma concat_map_rows {A B : Type} (f : list A -> list B)
  (G : list (list (list (list A)))) :
  concat (map f (concat (concat G))) = flat4 (map (map (map f)) G).
Proof. rewrite flat4_rows, <- !concat_map. reflexivity. Qed.

(** ** The layers of the attention on nested lists *)

Section NestedLayers.
Context {R : Type} {K : Kernels R}.

Lemma concat_zip_matrices (B H m k p q : nat) (f : list R -> list R -> list R)
  (g : list (list R) -> list (list R) -> list (list R))
  (X Y : list (list (list (list R)))) :
  rect4 B H m k X -> rect4 B H p q Y ->
  (forall M N, rect2 m k M -> rect2 p q N -> f (concat M) (concat N) = concat (g M N)) ->
  concat (zip_with f (chunk (m * k) (B * H) (flat4 X)) (chunk (p * q) (B * H) (flat4 Y)))
  = flat4 (zip_with (zip_with g) X Y).
Proof.
  intros HX HY Hfg.
  rewrite (chunk_flat4_matrices HX), (chunk_flat4_matrices HY), zip_with_map.
  destruct (rect4_concat HX) as [_ HXm]. destruct (rect4_concat HY) as [_ HYm].
  rewrite zip_with_ext_Forall
    with (P := rect2 m k) (Q := rect2 p q) (g := fun M N => concat (g M N))
    by assumption.
  rewrite <- map_zip_with, flat4_matrices. do 2 f_equal.
  destruct HX as [_ HX], HY as [_ HY].
  apply zip_with_concat with (n := H).
  - eapply Forall_impl; [|exact HX]. intros x [Hx _]; exact Hx.
  - eapply Forall_impl; [|exact HY]. intros y [Hy _]; exact Hy.
Qed.

Lemma matmul_transposed (B H m n k : nat) (X Y : list (list (list (list R)))) :
  rect4 B H m k X -> rect4 B H n k Y ->
  matmul (mkT [B; H; m; k] (flat4 X)) (mkT [B; H; n; k] (flat4 Y)) true
  = Ok (mkT [B; H; m; n] (flat4 (zip_with (zip_with (@rows_mul R K)) X Y))).
Proof.
  intros HX HY. unfold matmul, rank.
  cbn [shape data length Nat.sub firstn skipn app product fold_right].
  rewrite shape_eqb_refl, Nat.eqb_refl, Nat.mul_1_r. cbn [andb].
  do 2 f_equal. unfold mat_mul.
  apply concat_zip_matrices; [exact HX|exact HY|].
  intros M N [HM1 HM2] [HN1 HN2].
  rewrite !chunk_concat_n by assumption. reflexivity.
Qed.

Lemma matmul_plain (B H m n k : nat) (X Y : list (list (list (list R)))) :
  rect4 B H m k X -> rect4 B H k n Y ->
  matmul (mkT [B; H; m; k] (flat4 X)) (mkT [B; H; k; n] (flat4 Y)) false
  = Ok (mkT [B; H; m; n]
          (flat4 (zip_with (zip_with (fun W V => rows_mul W (transpose_ll r0 n V)))
                    X Y))).
Proof.
  intros HX HY. unfold matmul, rank.
  cbn [shape data length Nat.sub firstn skipn app product fold_right].
  rewrite shape_eqb_refl, Nat.eqb_refl, Nat.mul_1_r. cbn [andb].
  do 2 f_equal. unfold mat_mul.
  apply concat_zip_matrices
    with (g := fun W V => rows_mul W (transpose_ll r0 n V)); [exact HX|exact HY|].
  intros M N [HM1 HM2] [HN1 HN2].
  rewrite !chunk_concat_n by assumption. reflexivity.
Qed.

Lemma rect2_rows_mul (m k n : nat) (M N : list (list R)) :
  length M = m -> length N = n -> rect2 m n (rows_mul M N).
Proof.
  intros HM HN. unfold rows_mul. split; [rewrite length_map; exact HM|].
  apply Forall_map, Forall_forall. intros r _. rewrite length_map. exact HN.
Qed.

Lemma zip_with_flat4 (f : R -> R -> R) (B H S d : nat)
  (G : list (list (list (list R)))) (bd : list R) :
  rect4 B H S d G ->
  zip_with f (flat4 G) bd
  = flat4 (zip_with (zip_with (zip_with (zip_with f))) G (nest4 B H S d bd)).
Proof.
  intros [HG1 HG2]. unfold flat4 at 1.
  rewrite zip_with_concat_chunk with (w := H * (S * d))
    by (apply Forall_map; eapply Forall_impl; [|exact HG2];
        intros g; apply rect3_flat).
  rewrite length_map, HG1, zip_with_map_l.
  unfold flat4, nest4. rewrite map_zip_with, zip_with_map_r. f_equal.
  apply zip_with_ext_Forall with (P := rect3 H S d) (Q := fun _ => True);
    [|exact HG2|apply Forall_forall; intros; exact I].
  intros g blk [Hg1 Hg2] _. unfold flat3 at 1.
  rewrite zip_with_concat_chunk with (w := S * d)
    by (apply Forall_map; eapply Forall_impl; [|exact Hg2];
        intros M; apply rect2_flat).
  rewrite length_map, Hg1, zip_with_map_l.
  unfold flat3. rewrite map_zip_with, zip_with_map_r. f_equal.
  apply zip_with_ext_Forall with (P := rect2 S d) (Q := fun _ => True);
    [|exact Hg2|apply Forall_forall; intros; exact I].
  intros M mb [HM1 HM2] _.
  rewrite zip_with_concat_chunk with (w := d) by exact HM2.
  rewrite HM1. reflexivity.
Qed.

Lemma rect4_nest4 (B H S d : nat) (bd : list R) :
  length bd = B * (H * (S * d)) -> rect4 B H S d (nest4 B H S d bd).
Proof.
  intros Hl. unfold nest4. split; [rewrite length_map; apply chunk_length|].
  apply Forall_map. apply Forall_chunk; [|lia].
  intros blk Hblk. split; [rewrite length_map; apply chunk_length|].
  apply Forall_map. apply Forall_chunk; [|lia].
  intros mb Hmb. split; [apply chunk_length|]. apply chunk_rows. lia.
Qed.

Lemma rect4_flat (B H S d : nat) (G : list (list (list (list R)))) :
  rect4 B H S d G -> length (flat4 G) = B * (H * (S * d)).
Proof.
  intros [HG1 HG2]. unfold flat4.
  rewrite length_concat_rows with (w := H * (S * d)).
  - rewrite length_map, HG1. reflexivity.
  - apply Forall_map. eapply Forall_impl; [|exact HG2]. intros g. apply rect3_flat.
Qed.

Lemma flat4_nest4 (B H S d : nat) (bd : list R) :
  length bd = B * (H * (S * d)) -> flat4 (nest4 B H S d bd) = bd.
Proof.
  intros Hl. unfold flat4, nest4. rewrite map_map.
  rewrite map_ext_in with (g := fun blk => blk).
  - rewrite map_id. apply concat_chunk. lia.
  - intros blk Hblk.
    assert (Hb : length blk = H * (S * d)).
    { pose proof (@chunk_rows R (H * (S * d)) B bd ltac:(lia)) as Hr.
      rewrite Forall_forall in Hr. apply Hr, Hblk. }
    unfold flat3. rewrite map_map.
    rewrite map_ext_in with (g := fun mb => mb).
    + rewrite map_id. apply concat_chunk. lia.
    + intros mb Hmb. apply concat_chunk.
      pose proof (@chunk_rows R (S * d) H blk ltac:(lia)) as Hr.
      rewrite Forall_forall in Hr. rewrite (Hr mb Hmb). lia.
Qed.

Lemma mapi_from_length {B : Type} (f : nat -> R -> B) (l : list R) :
  forall i, length (mapi_from f i l) = length l.
Proof. induction l as [|a l IH]; intros i; simpl; [reflexivity|]. rewrite IH; reflexivity. Qed.

Lemma softmax_nested (B H S d : nat) (G : list (list (list (list R)))) :
  rect4 B H S d G ->
  softmax (mkT [B; H; S; d] (flat4 G))
  = Ok (mkT [B; H; S; d] (flat4 (map (map (map softmax_row)) G))).
Proof.
  intros HG. unfold softmax, rank, map_rows.
  cbn [shape data length firstn skipn product fold_right].
  rewrite !Nat.mul_1_r, !Nat.mul_assoc, (chunk_flat4_rows HG), concat_map_rows.
  reflexivity.
Qed.
End NestedLayers.

(** ** Splitting and combining heads on nested lists *)

Lemma zip_with_ext {A B C : Type} (f g : A -> B -> C) (l : list A) (l' : list B) :
  (forall a b, f a b = g a b) -> zip_with f l l' = zip_with g l l'.
Proof.
  intros Hfg.
  apply zip_with_ext_Forall with (P := fun _ => True) (Q := fun _ => True);
    [intros; apply Hfg|apply Forall_forall; intros; exact I
    |apply Forall_forall; intros; exact I].
Qed.

Section NestedHeads.
Context {R : Type} {K : Kernels R}.

Lemma swap_block_split (S H d : nat) (blk : list R) :
  swap_block S H d blk = flat3 (split_rows H d (chunk (H * d) S blk)).
Proof.
  unfold swap_block, flat3, split_rows, tab, transpose_ll. do 2 f_equal.
  apply map_ext_in. intros h Hh. apply in_seq in Hh.
  rewrite map_map. apply map_ext. intros row. apply nth_chunk. lia.
Qed.

Lemma split_nested (B S H d : nat) (qd : list R) :
  swap_axes 1 (mkT [B; S; H; d] qd) = mkT [B; H; S; d] (flat4 (heads B S H d qd)).
Proof.
  pose proof (@swap_axes_at R (mkT [B; S; H; d] qd) [B] S H [d] eq_refl) as E.
  cbn [length] in E. rewrite E. clear E.
  cbn [app data product fold_right]. rewrite !Nat.mul_1_r. f_equal.
  unfold flat4, heads, batches. rewrite !map_map. f_equal.
  replace (S * H * d) with (S * (H * d)) by lia.
  apply map_ext. intros blk. apply swap_block_split.
Qed.

Lemma rect4_heads (B S H d : nat) (qd : list R) :
  length qd = B * (S * (H * d)) -> rect4 B H S d (heads B S H d qd).
Proof.
  intros Hl. unfold heads, batches.
  split; [rewrite !length_map; apply chunk_length|].
  rewrite map_map. apply Forall_map. apply Forall_chunk; [|lia].
  intros blk Hblk. unfold split_rows, tab.
  split; [rewrite length_map, length_seq; reflexivity|].
  apply Forall_map, Forall_forall. intros h Hh. apply in_seq in Hh.
  split; [rewrite length_map; apply chunk_length|].
  apply Forall_map. apply Forall_chunk; [|lia].
  intros row Hrow. unfold slice. rewrite length_firstn, length_skipn, Hrow.
  assert (h * d + d <= H * d) by nia. lia.
Qed.

Lemma swap_block_combine (H S d : nat) (g : list (list (list R))) :
  rect3 H S d g -> swap_block H S d (flat3 g) = concat (concat_heads S g).
Proof.
  intros [Hg1 Hg2]. unfold swap_block, flat3.
  rewrite chunk_concat_n with (ll := map (@concat R) g).
  - rewrite map_map, map_ext_in with (g := fun M => M).
    + rewrite map_id. unfold transpose_ll, concat_heads, tab. rewrite map_map.
      reflexivity.
    + intros M HM. rewrite Forall_forall in Hg2. destruct (Hg2 M HM) as [HM1 HM2].
      apply chunk_concat_n; assumption.
  - rewrite length_map. exact Hg1.
  - apply Forall_map. eapply Forall_impl; [|exact Hg2]. intros M. apply rect2_flat.
Qed.

Lemma combine_nested (B H S d : nat) (G : list (list (list (list R)))) :
  rect4 B H S d G ->
  swap_axes 1 (mkT [B; H; S; d] (flat4 G))
  = mkT [B; S; H; d] (concat (concat (map (concat_heads S) G))).
Proof.
  intros HG.
  pose proof (@swap_axes_at R (mkT [B; H; S; d] (flat4 G)) [B] H S [d] eq_refl) as E.
  cbn [length] in E. rewrite E. clear E.
  cbn [app data product fold_right]. rewrite !Nat.mul_1_r. f_equal.
  replace (H * S * d) with (H * (S * d)) by lia.
  rewrite (chunk_flat4_groups HG), map_map, concat_concat_map, map_map.
  f_equal. destruct HG as [_ HG].
  apply map_ext_in. intros g Hg. rewrite Forall_forall in HG.
  apply swap_block_combine, HG, Hg.
Qed.

Lemma split_heads_nested (x : tensor R) (B S : nat) (n_head d : Z) :
  shape x = [B; S; Z.to_nat (d * n_head)] ->
  (0 < n_head)%Z -> (0 < d)%Z ->
  __split_heads x n_head
  = Ok (mkT [B; Z.to_nat n_head; S; Z.to_nat d]
          (flat4 (heads B S (Z.to_nat n_head) (Z.to_nat d) (data x)))).
Proof.
  intros Hs Hn Hd.
  assert (Hpos : (0 < d * n_head)%Z) by nia.
  rewrite split_heads_ok with (b := B) (s := S) (hd := Z.to_nat (d * n_head));
    [|exact Hs|lia|exact Hn|].
  - rewrite Z2Nat.id, Z.div_mul by lia. f_equal. apply split_nested.
  - rewrite Z2Nat.id by lia. apply Z.mod_mul. lia.
Qed.

Lemma combine_heads_nested (B H S d : nat) (G : list (list (list (list R)))) :
  rect4 B H S d G -> 0 < H * d ->
  __combine_heads (mkT [B; H; S; d] (flat4 G))
  = Ok (mkT [B; S; H * d] (concat (concat (map (concat_heads S) G)))).
Proof.
  intros HG Hpos. unfold __combine_heads, rank. cbn [shape length Nat.eqb negb].
  rewrite transpose_0213 with (b := B) (s := H) (h := S) (d := d) by reflexivity.
  cbn [bind]. rewrite (combine_nested HG).
  change 2%Z with (Z.of_nat 2). change 3%Z with (Z.of_nat 3).
  rewrite !shape_item_at by (unfold rank; cbn; lia).
  cbn [shape nth bind].
  apply reshape_merge; [reflexivity| |apply eq_sym, Nat2Z.inj_mul].
  rewrite <- Nat2Z.inj_mul. lia.
Qed.

Lemma rect2_zip_with (f : R -> R -> R) (S d : nat) (M N : list (list R)) :
  rect2 S d M -> rect2 S d N -> rect2 S d (zip_with (zip_with f) M N).
Proof.
  intros [HM1 HM2] [HN1 HN2]. split; [apply zip_with_same_length; assumption|].
  eapply Forall_zip_with; [|exact HM2|exact HN2].
  intros r r' Hr Hr'. apply zip_with_same_length; assumption.
Qed.
End NestedHeads.

(** ** [multi_head_attention] *)

Section AttentionProperties.
Context {R : Type} {K : Kernels R}.
Variable th : @scope R.

Lemma scaled_dot_product_attention_nested (seed : Z) (B H Sq Sk dk dv : nat)
  (Qn Kn Vn : list (list (list (list R)))) (attn_bias : option (tensor R))
  (d_key : Z) (dropout_rate : Q) :
  rect4 B H Sq dk Qn -> rect4 B H Sk dk Kn -> rect4 B H Sk dv Vn ->
  (0 < d_key)%Z ->
  match attn_bias with
  | Some b => shape b = [B; H; Sq; Sk] /\ length (data b) = B * (H * (Sq * Sk))
  | None => True
  end ->
  let logits := zip_with (zip_with (scaled_logits (pow_neg_half d_key))) Qn Kn in
  let logits :=
    match option_map data attn_bias with
    | Some bd =>
        zip_with (zip_with (zip_with (zip_with radd))) logits (nest4 B H Sq Sk bd)
    | None => logits
    end in
  let ctx :=
    zip_with (zip_with (fun W Vh => rows_mul W (transpose_ll r0 dv Vh)))
      (attention_dropout B H Sq Sk dropout_rate seed
         (map (map (map softmax_row)) logits))
      Vn in
  scaled_dot_product_attention seed (mkT [B; H; Sq; dk] (flat4 Qn))
    (mkT [B; H; Sk; dk] (flat4 Kn)) (mkT [B; H; Sk; dv] (flat4 Vn))
    attn_bias d_key dropout_rate
  = Ok (mkT [B; H; Sq; dv] (flat4 ctx)) /\ rect4 B H Sq dv ctx.
Proof.
  intros HQ HK HV Hd Hbias. cbv zeta.
  set (s := pow_neg_half d_key).
  set (L := zip_with (zip_with (scaled_logits s)) Qn Kn).
  assert (HL : rect4 B H Sq Sk L).
  { unfold L. eapply rect4_zip_with; [|exact HQ|exact HK].
    intros M N [HM _] [HN _]. unfold scaled_logits.
    apply rect2_rows_mul with (k := dk); [rewrite length_map; exact HM|exact HN]. }
  set (L' := match option_map data attn_bias with
             | Some bd =>
                 zip_with (zip_with (zip_with (zip_with radd))) L (nest4 B H Sq Sk bd)
             | None => L
             end).
  assert (HL' : rect4 B H Sq Sk L').
  { unfold L'. destruct attn_bias as [b|]; cbn [option_map]; [|exact HL].
    destruct Hbias as [_ Hlen].
    eapply rect4_zip_with; [|exact HL|apply rect4_nest4; exact Hlen].
    intros M N. apply rect2_zip_with. }
  assert (HW : rect4 B H Sq Sk (map (map (map softmax_row)) L'))
    by (eapply rect4_map; [|exact HL']; intros r Hr; rewrite softmax_row_length; exact Hr).
  set (W := map (map (map softmax_row)) L') in *.
  assert (HD : rect4 B H Sq Sk (attention_dropout B H Sq Sk dropout_rate seed W)).
  { unfold attention_dropout. destruct (truthy dropout_rate); [|exact HW].
    apply rect4_nest4. cbn [dropout data].
    rewrite mapi_from_length. apply rect4_flat, HW. }
  split.
  - unfold scaled_dot_product_attention, pow_neg_half_attr.
    replace (d_key =? 0)%Z with false by (symmetry; apply Z.eqb_neq; lia).
    replace (d_key <? 0)%Z with false by (symmetry; apply Z.ltb_ge; lia).
    cbn [bind]. fold s.
    unfold scale. cbn [shape data]. rewrite map_flat4.
    rewrite matmul_transposed with (k := dk);
      [|eapply rect4_map; [|exact HQ]; intros r Hr; rewrite length_map; exact Hr
       |exact HK].
    cbn [bind].
    assert (EL : zip_with (zip_with (@rows_mul R K))
                   (map (map (map (map (fun v => rmul v s)))) Qn) Kn = L).
    { unfold L. rewrite zip_with_map_l. apply zip_with_ext. intros g g'.
      rewrite zip_with_map_l. reflexivity. }
    rewrite EL.
    assert (Eadd :
      match attn_bias with
      | Some b => elementwise_add (mkT [B; H; Sq; Sk] (flat4 L)) b
      | None => Ok (mkT [B; H; Sq; Sk] (flat4 L))
      end = Ok (mkT [B; H; Sq; Sk] (flat4 L'))).
    { unfold L'. destruct attn_bias as [b|]; cbn [option_map]; [|reflexivity].
      destruct Hbias as [Hshape _]. unfold elementwise_add. cbn [shape data].
      rewrite Hshape, shape_eqb_refl, (zip_with_flat4 radd (data b) HL).
      reflexivity. }
    rewrite Eadd. cbn [bind].
    rewrite (softmax_nested HL'). cbn [bind]. fold W.
    assert (ED : (if truthy dropout_rate
                  then dropout (mkT [B; H; Sq; Sk] (flat4 W)) dropout_rate seed
                  else mkT [B; H; Sq; Sk] (flat4 W))
                 = mkT [B; H; Sq; Sk]
                     (flat4 (attention_dropout B H Sq Sk dropout_rate seed W))).
    { unfold attention_dropout. destruct (truthy dropout_rate); [|reflexivity].
      rewrite flat4_nest4; [reflexivity|].
      cbn [dropout data]. rewrite mapi_from_length. apply rect4_flat, HW. }
    rewrite ED. apply matmul_plain; assumption.
  - eapply rect4_zip_with; [|exact HD|exact HV].
    intros M N [HM _] _. apply rect2_rows_mul with (k := Sk); [exact HM|].
    apply transpose_ll_length.
Qed.

(** C1. For 3-D [queries], [keys] and [values] (the last two with their
    defaults), [multi_head_attention] is the output projection to [d_model]
    of the rows that put the heads one after the other, where head [h] of a
    batch element is [softmax((Q * d_key ** -0.5) K^T + attn_bias) V] on the
    slices at [h] of width [d_key] (and [d_value]) of the projected queries,
    keys and values; the bias is added, before the softmax, when [attn_bias]
    is not [None]; the weights go through the dropout, which leaves them as
    they are when [dropout_rate = 0]. *)
Theorem multi_head_attention_formula (queries : tensor R)
  (keys values attn_bias : option (tensor R)) (d_key d_value d_model n_head : Z)
  (dropout_rate : Q) (param_initializer : option (@initializer R)) (seed : Z)
  (name : string) (B Sq Sk Dq Dk Dv : nat) :
  wf_scope th ->
  shape queries = [B; Sq; Dq] ->
  shape (match keys with None => queries | Some k => k end) = [B; Sk; Dk] ->
  shape (match values with
         | None => match keys with None => queries | Some k => k end
         | Some v => v
         end) = [B; Sk; Dv] ->
  (0 < n_head)%Z -> (0 < d_key)%Z -> (0 < d_value)%Z ->
  match attn_bias with
  | Some b =>
      shape b = [B; Z.to_nat n_head; Sq; Sk]
      /\ length (data b) = B * (Z.to_nat n_head * (Sq * Sk))
  | None => True
  end ->
  multi_head_attention th queries keys values attn_bias d_key d_value d_model n_head
    dropout_rate None param_initializer seed name false
  = (r <- multi_head_attention_spec th queries
            (match keys with None => queries | Some k => k end)
            (match values with
             | None => match keys with None => queries | Some k => k end
             | Some v => v
             end)
            attn_bias d_key d_value d_model n_head dropout_rate param_initializer
            seed name ;;
     Ok (r, None))
  /\ (dropout_rate == 0 ->
      forall weights,
        attention_dropout B (Z.to_nat n_head) Sq Sk dropout_rate seed weights = weights).
Proof.
  intros Hwf Hq Hk Hv Hn Hdk Hdv Hbias.
  split;
    [|intros Hrate weights; unfold attention_dropout, truthy;
      apply Qeq_bool_iff in Hrate; rewrite Hrate; reflexivity].
  set (ks := match keys with None => queries | Some k => k end) in *.
  set (vs := match values with None => ks | Some v => v end) in *.
  unfold multi_head_attention, multi_head_attention_spec, __compute_qkv.
  fold ks. fold vs. unfold rank. rewrite Hq, Hk, Hv. cbn [length Nat.eqb andb negb nth].
  rewrite !bind_assoc.
  destruct (fc th queries (d_key * n_head) 2 None _ _) as [q|e] eqn:Eq; [|reflexivity].
  cbn [bind]. rewrite !bind_assoc.
  destruct (fc th ks (d_key * n_head) 2 None _ _) as [k|e] eqn:Ek; [|reflexivity].
  cbn [bind]. rewrite !bind_assoc.
  destruct (fc th vs (d_value * n_head) 2 None _ _) as [v|e] eqn:Ev; [|reflexivity].
  cbn [bind use_cache].
  apply fc_shape with (b := B) (s := Sq) (w := Dq) in Eq as (_ & Hqs & Hql);
    [|exact Hwf|exact Hq].
  apply fc_shape with (b := B) (s := Sk) (w := Dk) in Ek as (_ & Hks & Hkl);
    [|exact Hwf|exact Hk].
  apply fc_shape with (b := B) (s := Sk) (w := Dv) in Ev as (_ & Hvs & Hvl);
    [|exact Hwf|exact Hv].
  set (H := Z.to_nat n_head) in *. set (dk := Z.to_nat d_key).
  set (dv := Z.to_nat d_value).
  assert (Hqk : Z.to_nat (d_key * n_head) = H * dk)
    by (unfold H, dk; rewrite Z2Nat.inj_mul by lia; lia).
  assert (Hvv : Z.to_nat (d_value * n_head) = H * dv)
    by (unfold H, dv; rewrite Z2Nat.inj_mul by lia; lia).
  rewrite split_heads_nested with (x := q) (B := B) (S := Sq) (d := d_key)
    by assumption.
  cbn [bind].
  rewrite split_heads_nested with (x := k) (B := B) (S := Sk) (d := d_key)
    by assumption.
  cbn [bind].
  rewrite split_heads_nested with (x := v) (B := B) (S := Sk) (d := d_value)
    by assumption.
  cbn [bind cache_after].
  fold H dk dv.
  assert (HQ : rect4 B H Sq dk (heads B Sq H dk (data q)))
    by (apply rect4_heads; rewrite Hql, Hqk; lia).
  assert (HK : rect4 B H Sk dk (heads B Sk H dk (data k)))
    by (apply rect4_heads; rewrite Hkl, Hqk; lia).
  assert (HV : rect4 B H Sk dv (heads B Sk H dv (data v)))
    by (apply rect4_heads; rewrite Hvl, Hvv; lia).
  destruct (scaled_dot_product_attention_nested seed attn_bias dropout_rate
              HQ HK HV Hdk Hbias) as [Esd Hctx].
  cbv zeta in Esd, Hctx. rewrite Esd. cbn [bind].
  rewrite (combine_heads_nested Hctx) by (unfold H, dv; nia).
  cbn [bind]. unfold attention_heads.
  apply bind_ext. intros r. reflexivity.
Qed.
End AttentionProperties.

Lemma multi_head_attention_formula_witness :
  multi_head_attention empty_scope (ones [1; 2; 3]) None None (Some (ones [1; 2; 2; 2]))
    1 1 3 2 0 None None 0 "att" false
  = (r <- multi_head_attention_spec empty_scope (ones [1; 2; 3]) (ones [1; 2; 3])
            (ones [1; 2; 3]) (Some (ones [1; 2; 2; 2])) 1 1 3 2 0 None 0 "att" ;;
     Ok (r, None))
  /\ forall weights, attention_dropout 1 2 2 2 0 0 weights = weights.
Proof.
  pose proof (@multi_head_attention_formula Z ZKernels empty_scope (ones [1; 2; 3])
                None None (Some (ones [1; 2; 2; 2])) 1 1 3 2 0 None 0 "att"
                1 2 2 3 3 3) as H.
  destruct H as [Hf Hd].
  - intros name t E. discriminate E.
  - reflexivity.
  - reflexivity.
  - reflexivity.
  - reflexivity.
  - reflexivity.
  - reflexivity.
  - split; reflexivity.
  - split; [exact Hf|]. apply Hd. reflexivity.
Defined.

(** ** The shapes of the results *)

Section ShapeProperties.
Context {R : Type} {K : Kernels R}.
Variable th : @scope R.

Lemma shape_get_param (pa : ParamAttr) (b : bool) (shp : list nat) (t : tensor R) :
  get_param th pa b shp = Ok t -> shape t = shp.
Proof.
  unfold get_param. destruct (th (pname pa)) as [t'|].
  - destruct (shape_eqb (shape t') shp) eqn:E; [|discriminate].
    intros H; inversion H; subst. apply shape_eqb_eq, E.
  - intros H; inversion H; reflexivity.
Qed.

Lemma shape_fc (x y : tensor R) (size : Z) (n : nat) (act : option string)
  (pa ba : ParamAttr) :
  fc th x size n act pa ba = Ok y ->
  shape y = firstn n (shape x) ++ [Z.to_nat size]
  /\ (0 < size)%Z /\ 0 < n < rank x.
Proof.
  unfold fc.
  destruct ((0 <? n) && (n <? rank x) && (0 <? size)%Z) eqn:E; [|discriminate].
  apply andb_true_iff in E as [E E3]. apply andb_true_iff in E as [E1 E2].
  apply Nat.ltb_lt in E1, E2. apply Z.ltb_lt in E3.
  intros H. invert_binds. inversion H; subst. cbn [shape]. auto.
Qed.

Lemma shape_layer_norm (x y : tensor R) (ax : Z) (pa ba : ParamAttr) :
  layer_norm th x ax pa ba = Ok y -> shape y = shape x.
Proof.
  unfold layer_norm. destruct (_ && _); [|discriminate].
  intros H. invert_binds. inversion H; reflexivity.
Qed.

Lemma shape_elementwise_add (x y z : tensor R) :
  shape y = shape x -> elementwise_add x y = Ok z -> shape z = shape x.
Proof.
  intros Hs. rewrite (elementwise_add_same_shape x y Hs).
  intros H; inversion H; reflexivity.
Qed.

(** The sum with a 4-D operand that has the first and the third axis of
    [x] keeps these two axes, whatever is broadcast on the other two. *)
Lemma shape_elementwise_add_rows (x y z : tensor R) (a b c d b' d' : nat) :
  shape x = [a; b; c; d] -> shape y = [a; b'; c; d'] ->
  elementwise_add x y = Ok z -> exists b'' d'', shape z = [a; b''; c; d''].
Proof.
  intros Hx Hy. unfold elementwise_add, rank. rewrite Hx, Hy.
  destruct (shape_eqb _ _).
  - intros H; inversion H; subst. cbn [shape]. eauto.
  - cbn [length Nat.leb Nat.sub repeat app broadcast_dims].
    rewrite !Nat.eqb_refl. cbn [orb].
    destruct ((b =? b') || (b <=? 1) || (b' <=? 1)); [|discriminate].
    destruct ((d =? d') || (d <=? 1) || (d' <=? 1)); [|discriminate].
    cbn [option_map]. rewrite !Nat.max_id.
    intros H; inversion H; subst. cbn [shape]. eauto.
Qed.

Lemma shape_process_cmd_step prev rate seed name c (out o : tensor R) :
  (forall p, prev = Some p -> shape p = shape out) ->
  process_cmd_step th prev rate seed name c out = Ok o -> shape o = shape out.
Proof.
  intros Hp. unfold process_cmd_step.
  destruct (Ascii.eqb c "a").
  { destruct prev as [p|]; [apply shape_elementwise_add, Hp; reflexivity|].
    intros H; inversion H; reflexivity. }
  destruct (Ascii.eqb c "n"); [apply shape_layer_norm|].
  destruct (Ascii.eqb c "d").
  - destruct (truthy rate); intros H; inversion H; reflexivity.
  - intros H; inversion H; reflexivity.
Qed.

Lemma shape_process_cmd_loop prev rate seed name debug cmds :
  forall (out o : tensor R) dd dd',
    (forall p, prev = Some p -> shape p = shape out) ->
    process_cmd_loop th prev rate seed name debug cmds out dd = Ok (o, dd') ->
    shape o = shape out.
Proof.
  induction cmds as [|c cmds IH]; intros out o dd dd' Hp H; cbn [process_cmd_loop] in H.
  - inversion H; reflexivity.
  - apply bind_Ok_inv in H as (o1 & E & H).
    apply shape_process_cmd_step in E; [|exact Hp].
    apply IH in H; [congruence|].
    intros p Ep. rewrite E. apply Hp, Ep.
Qed.

Lemma shape_pre_post_process_layer prev (out o : tensor R) cmds rate seed name :
  (forall p, prev = Some p -> shape p = shape out) ->
  pre_post_process_layer th prev out cmds rate seed name false = Ok o ->
  shape o = shape out.
Proof.
  unfold pre_post_process_layer. intros Hp H.
  apply bind_Ok_inv in H as ([o1 dd] & E & H). inversion H; subst.
  eapply shape_process_cmd_loop; [exact Hp|exact E].
Qed.

Lemma shape_pre_process_layer (out o : tensor R) cmds rate seed name :
  pre_post_process_layer th None out cmds rate seed name false = Ok o ->
  shape o = shape out.
Proof. apply shape_pre_post_process_layer. discriminate. Qed.

(** The axes, which a residual addition that broadcasts keeps too. *)
Lemma rank_process_cmd_step prev rate seed name c (out o : tensor R) :
  process_cmd_step th prev rate seed name c out = Ok o -> rank o = rank out.
Proof.
  unfold process_cmd_step.
  destruct (Ascii.eqb c "a").
  { destruct prev as [p|]; [apply rank_elementwise_add|].
    intros H; inversion H; reflexivity. }
  destruct (Ascii.eqb c "n").
  { intros H. apply shape_layer_norm in H. unfold rank. congruence. }
  destruct (Ascii.eqb c "d").
  - destruct (truthy rate); intros H; inversion H; reflexivity.
  - intros H; inversion H; reflexivity.
Qed.

Lemma rank_process_cmd_loop prev rate seed name debug cmds :
  forall (out o : tensor R) dd dd',
    process_cmd_loop th prev rate seed name debug cmds out dd = Ok (o, dd') ->
    rank o = rank out.
Proof.
  induction cmds as [|c cmds IH]; intros out o dd dd' H; cbn [process_cmd_loop] in H.
  - inversion H; reflexivity.
  - apply bind_Ok_inv in H as (o1 & E & H).
    apply IH in H. apply rank_process_cmd_step in E. congruence.
Qed.

Lemma rank_pre_post_process_layer prev (out o : tensor R) cmds rate seed name :
  pre_post_process_layer th prev out cmds rate seed name false = Ok o ->
  rank o = rank out.
Proof.
  unfold pre_post_process_layer. intros H.
  apply bind_Ok_inv in H as ([o1 dd] & E & H). inversion H; subst.
  eapply rank_process_cmd_loop, E.
Qed.

(** *** reshape *)

Lemma infer_dims_shape (n : nat) (ds : list (option nat)) (shp : list nat) :
  infer_dims n ds = Ok shp ->
  length shp = length ds
  /\ forall i k, nth_error ds i = Some (Some k) -> nth_error shp i = Some k.
Proof.
  unfold infer_dims.
  destruct (length (filter is_unknown ds)) as [|[|]]; [| |discriminate].
  - destruct (_ =? _); [|discriminate]. intros H; inversion H; subst.
    rewrite length_map. split; [reflexivity|].
    intros i k E. rewrite nth_error_map, E. reflexivity.
  - destruct (_ && _); [|discriminate]. intros H; inversion H; subst.
    rewrite length_map. split; [reflexivity|].
    intros i k E. rewrite nth_error_map, E. reflexivity.
Qed.

Lemma reshape_copy2 (x y : tensor R) (rest : list Z) :
  reshape x (0 :: 0 :: rest)%Z = Ok y ->
  exists b s tl tl',
    shape x = b :: s :: tl /\ shape y = b :: s :: tl'
    /\ length tl' = length rest.
Proof.
  unfold reshape. intros H.
  apply bind_Ok_inv in H as (ds & E & H).
  apply bind_Ok_inv in H as (shp & E' & H). inversion H; subst; clear H.
  cbn [resolve_dims resolve_dim Z.eqb] in E.
  destruct (shape x) as [|b [|s tl]] eqn:Es; cbn [nth_error bind] in E; try discriminate.
  apply bind_Ok_inv in E as (ds1 & E & E1). inversion E1; subst; clear E1.
  apply bind_Ok_inv in E as (ds2 & E & E1). inversion E1; subst; clear E1.
  apply resolve_dims_length in E.
  apply infer_dims_shape in E' as [Hl Hn].
  pose proof (Hn 0 b eq_refl) as H0. pose proof (Hn 1 s eq_refl) as H1.
  destruct shp as [|b' [|s' tl']]; cbn in H0, H1; try discriminate.
  inversion H0; inversion H1; subst.
  exists b, s, tl, tl'. cbn [shape]. repeat split.
  cbn [length] in Hl. lia.
Qed.

(** *** transpose of a 4-D tensor *)

Lemma shape_transpose_0213 (x y : tensor R) (a b c d : nat) :
  shape x = [a; b; c; d] -> transpose x [0; 2; 1; 3] = Ok y -> shape y = [a; c; b; d].
Proof.
  intros Hs H. rewrite (transpose_0213 x Hs) in H. inversion H; subst.
  pose proof (@swap_axes_at R x [a] b c [d] Hs) as E. cbn [length] in E.
  rewrite E. reflexivity.
Qed.

Lemma shape_matmul (x y z : tensor R) (t : bool) (a b c d : nat) :
  shape x = [a; b; c; d] -> matmul x y t = Ok z -> exists n, shape z = [a; b; c; n].
Proof.
  intros Hs. unfold matmul, rank. rewrite Hs. cbn [length Nat.sub firstn skipn].
  destruct (skipn _ (shape y)) as [|p [|q [|]]]; try discriminate.
  destruct (_ && _); [|discriminate].
  intros H; inversion H; subst. cbn [shape app]. eauto.
Qed.

Lemma shape_softmax (x y : tensor R) : softmax x = Ok y -> shape y = shape x.
Proof.
  unfold softmax. destruct (rank x); [discriminate|].
  intros H; inversion H; reflexivity.
Qed.

Lemma shape_split_heads (x y : tensor R) (n_head : Z) (b s hd : nat) :
  shape x = [b; s; hd] -> __split_heads x n_head = Ok y ->
  exists n d, shape y = [b; n; s; d].
Proof.
  intros Hs H. unfold __split_heads, split_heads_reshaped in H.
  apply bind_Ok_inv in H as (r & Er & H).
  apply bind_Ok_inv in Er as (hidden & _ & Er).
  apply bind_Ok_inv in Er as (dd & _ & Er).
  apply reshape_copy2 in Er as (b' & s' & tl & tl' & Ex & Ey & El).
  rewrite Hs in Ex. inversion Ex; subst.
  destruct tl' as [|n [|d [|]]]; cbn [length] in El; try discriminate.
  exists n, d. eapply shape_transpose_0213; eassumption.
Qed.

Lemma shape_scaled_dot_product_attention (seed : Z) (q k v ctx : tensor R)
  (attn_bias : option (tensor R)) (d_key : Z) (dropout_rate : Q) (a b c d : nat) :
  shape q = [a; b; c; d] -> bias_rows attn_bias a c ->
  scaled_dot_product_attention seed q k v attn_bias d_key dropout_rate = Ok ctx ->
  exists b' d', shape ctx = [a; b'; c; d'].
Proof.
  intros Hs Hb H. unfold scaled_dot_product_attention in H.
  apply bind_Ok_inv in H as (sc & _ & H).
  apply bind_Ok_inv in H as (p & Ep & H).
  apply bind_Ok_inv in H as (p' & Ep' & H).
  apply bind_Ok_inv in H as (w & Ew & H).
  apply shape_matmul with (a := a) (b := b) (c := c) (d := d) in Ep as [n Ep];
    [|exact Hs].
  assert (E4 : exists b' n', shape p' = [a; b'; c; n']).
  { destruct attn_bias as [bias|].
    - destruct Hb as (m & Sk & Hb).
      eapply shape_elementwise_add_rows; [exact Ep|exact Hb|exact Ep'].
    - inversion Ep'; subst. eauto. }
  destruct E4 as (b' & n' & E4).
  apply shape_softmax in Ew.
  eapply shape_matmul with (a := a) (b := b') (c := c) (d := n') in H as [d' H];
    [eauto|].
  destruct (truthy dropout_rate); cbn [dropout shape]; congruence.
Qed.

Lemma shape_combine_heads (x y : tensor R) (a b c d : nat) :
  shape x = [a; b; c; d] -> __combine_heads x = Ok y -> exists m, shape y = [a; c; m].
Proof.
  intros Hs H. unfold __combine_heads, rank in H. rewrite Hs in H.
  cbn [length Nat.eqb negb] in H.
  apply bind_Ok_inv in H as (t & E & H).
  apply bind_Ok_inv in H as (s2 & _ & H).
  apply bind_Ok_inv in H as (s3 & _ & H).
  apply shape_transpose_0213 with (a := a) (b := b) (c := c) (d := d) in E; [|exact Hs].
  apply reshape_copy2 in H as (b' & s' & tl & tl' & E3 & E4 & El).
  rewrite E in E3. inversion E3; subst.
  destruct tl' as [|m [|]]; cbn [length] in El; try discriminate.
  exists m. exact E4.
Qed.

Lemma rank3_shape (x : tensor R) :
  rank x = 3 -> exists b s w, shape x = [b; s; w].
Proof.
  unfold rank. destruct (shape x) as [|b [|s [|w [|]]]]; try discriminate.
  intros _. eauto.
Qed.

Lemma shape_multi_head_attention (queries : tensor R)
  (keys values attn_bias : option (tensor R)) (d_key d_value d_model n_head : Z)
  (dropout_rate : Q) (cache cache' : option (dict (tensor R)))
  (param_initializer : option (@initializer R)) (seed : Z) (name : string)
  (out : tensor R) (B Sq Dq : nat) :
  shape queries = [B; Sq; Dq] -> bias_rows attn_bias B Sq ->
  multi_head_attention th queries keys values attn_bias d_key d_value d_model n_head
    dropout_rate cache param_initializer seed name false = Ok (out, cache') ->
  shape out = [B; Sq; Z.to_nat d_model] /\ (0 < d_model)%Z.
Proof.
  unfold multi_head_attention. intros Hq Hb H.
  destruct (rank queries =? 3); [|discriminate].
  destruct (negb _); [discriminate|].
  apply bind_Ok_inv in H as ([[q k] v] & Eqkv & H).
  apply bind_Ok_inv in H as ([[k1 v1] c1] & _ & H).
  apply bind_Ok_inv in H as (_q & Esq & H).
  apply bind_Ok_inv in H as (_k & _ & H).
  apply bind_Ok_inv in H as (_v & _ & H).
  apply bind_Ok_inv in H as (c2 & _ & H).
  apply bind_Ok_inv in H as (ctx & Ectx & H).
  apply bind_Ok_inv in H as (o & Eo & H).
  apply bind_Ok_inv in H as (p & Ep & H).
  inversion H; subst; clear H.
  unfold __compute_qkv in Eqkv.
  apply bind_Ok_inv in Eqkv as (q0 & Eq0 & Eqkv).
  apply bind_Ok_inv in Eqkv as (k0 & _ & Eqkv).
  apply bind_Ok_inv in Eqkv as (v0 & _ & Eqkv).
  inversion Eqkv; subst; clear Eqkv.
  apply shape_fc in Eq0 as (Eq0 & _ & _). rewrite Hq in Eq0. cbn [firstn app] in Eq0.
  eapply shape_split_heads in Esq as (n & d & E1); [|exact Eq0].
  eapply shape_scaled_dot_product_attention in Ectx as (n' & d' & E2);
    [|exact E1|exact Hb].
  eapply shape_combine_heads in Eo as (m & E3); [|exact E2].
  apply shape_fc in Ep as (Ep & Hd & _). rewrite E3 in Ep. cbn [firstn app] in Ep.
  auto.
Qed.

Lemma shape_positionwise_feed_forward (x out : tensor R) (d_inner_hid d_hid : Z)
  (dropout_rate : Q) (hidden_act : option string)
  (param_initializer : option (@initializer R)) (seed : Z) (name : string) :
  positionwise_feed_forward th x d_inner_hid d_hid dropout_rate hidden_act
    param_initializer seed name false = Ok out ->
  2 < rank x /\ shape out = firstn 2 (shape x) ++ [Z.to_nat d_hid]
  /\ (0 < d_inner_hid)%Z /\ (0 < d_hid)%Z.
Proof.
  unfold positionwise_feed_forward. intros H.
  apply bind_Ok_inv in H as (h & Eh & H).
  apply bind_Ok_inv in H as (o & Eo & H). inversion H; subst; clear H.
  apply shape_fc in Eh as (Eh & Hi & Hr).
  apply shape_fc in Eo as (Eo & Hh & _).
  assert (E : shape (if truthy dropout_rate then dropout h dropout_rate seed else h)
              = shape h) by (destruct (truthy dropout_rate); reflexivity).
  rewrite E, Eh in Eo.
  rewrite firstn_app, firstn_firstn in Eo.
  replace (2 - length (firstn 2 (shape x))) with 0 in Eo
    by (rewrite length_firstn; unfold rank in Hr; lia).
  cbn [firstn Nat.min] in Eo. rewrite app_nil_r in Eo. repeat split; try assumption. lia.
Qed.

(** The widths of the results, which need no hypothesis on the biases. *)
Lemma rank_positionwise_feed_forward (x out : tensor R) (d_inner_hid d_hid : Z)
  (dropout_rate : Q) (hidden_act : option string)
  (param_initializer : option (@initializer R)) (seed : Z) (name : string) :
  positionwise_feed_forward th x d_inner_hid d_hid dropout_rate hidden_act
    param_initializer seed name false = Ok out ->
  rank out = 3.
Proof.
  intros H. apply shape_positionwise_feed_forward in H as (Hr & E & _).
  unfold rank in *. rewrite E, length_app, length_firstn. cbn [length]. lia.
Qed.

Lemma rank_encoder_layer (enc_input out : tensor R) (attn_bias : option (tensor R))
  (n_head d_key d_value d_model d_inner_hid : Z)
  (prepostprocess_dropout attention_dropout relu_dropout : Q)
  (hidden_act : option string) (preprocess_cmd postprocess_cmd : string)
  (param_initializer : option (@initializer R)) (seed : Z) (name : string) :
  encoder_layer th enc_input attn_bias n_head d_key d_value d_model d_inner_hid
    prepostprocess_dropout attention_dropout relu_dropout hidden_act
    preprocess_cmd postprocess_cmd param_initializer seed name false = Ok out ->
  rank out = 3.
Proof.
  unfold encoder_layer, pre_process_layer, post_process_layer. intros H.
  apply bind_Ok_inv in H as (pre & _ & H).
  apply bind_Ok_inv in H as ([att c] & _ & H).
  apply bind_Ok_inv in H as (att' & _ & H).
  apply bind_Ok_inv in H as (pre' & _ & H).
  apply bind_Ok_inv in H as (ffd & Effd & H).
  apply bind_Ok_inv in H as (post & Epost & H). inversion H; subst; clear H.
  apply rank_pre_post_process_layer in Epost.
  apply rank_positionwise_feed_forward in Effd. congruence.
Qed.

Lemma rank_encoder_co_layer (enc_input enc_vl_input attn_vl_bias out vl_out : tensor R)
  (co_head co_key co_value co_model d_model d_inner_hid v_model v_inner_hid : Z)
  (prepostprocess_dropout attention_dropout relu_dropout : Q)
  (hidden_act : option string) (preprocess_cmd postprocess_cmd : string)
  (param_initializer : option (@initializer R)) (seed : Z) (name : string) :
  encoder_co_layer th enc_input enc_vl_input attn_vl_bias co_head co_key co_value
    co_model d_model d_inner_hid v_model v_inner_hid prepostprocess_dropout
    attention_dropout relu_dropout hidden_act preprocess_cmd postprocess_cmd
    param_initializer seed name false = Ok (out, vl_out) ->
  rank out = 3 /\ rank vl_out = 3.
Proof.
  unfold encoder_co_layer, pre_process_layer, post_process_layer. intros H.
  apply bind_Ok_inv in H as (pre & _ & H).
  apply bind_Ok_inv in H as (vpre & _ & H).
  apply bind_Ok_inv in H as (bt & _ & H).
  apply bind_Ok_inv in H as ([att c] & _ & H).
  apply bind_Ok_inv in H as ([vatt vc] & _ & H).
  apply bind_Ok_inv in H as (att' & _ & H).
  apply bind_Ok_inv in H as (vatt' & _ & H).
  apply bind_Ok_inv in H as (pre' & _ & H).
  apply bind_Ok_inv in H as (ffd & Effd & H).
  apply bind_Ok_inv in H as (vpre' & _ & H).
  apply bind_Ok_inv in H as (vffd & Evffd & H).
  apply bind_Ok_inv in H as (post & Epost & H).
  apply bind_Ok_inv in H as (vpost & Evpost & H). inversion H; subst; clear H.
  apply rank_pre_post_process_layer in Epost, Evpost.
  apply rank_positionwise_feed_forward in Effd, Evffd. split; congruence.
Qed.

Lemma shape_encoder_layer (enc_input out : tensor R) (attn_bias : option (tensor R))
  (n_head d_key d_value d_model d_inner_hid : Z)
  (prepostprocess_dropout attention_dropout relu_dropout : Q)
  (hidden_act : option string) (preprocess_cmd postprocess_cmd : string)
  (param_initializer : option (@initializer R)) (seed : Z) (name : string)
  (B S : nat) :
  shape enc_input = [B; S; Z.to_nat d_model] -> bias_rows attn_bias B S ->
  encoder_layer th enc_input attn_bias n_head d_key d_value d_model d_inner_hid
    prepostprocess_dropout attention_dropout relu_dropout hidden_act
    preprocess_cmd postprocess_cmd param_initializer seed name false = Ok out ->
  shape out = [B; S; Z.to_nat d_model].
Proof.
  unfold encoder_layer, pre_process_layer, post_process_layer. intros Hx Hb H.
  apply bind_Ok_inv in H as (pre & Epre & H).
  apply bind_Ok_inv in H as ([att c] & Eatt & H).
  apply bind_Ok_inv in H as (att' & Eatt' & H).
  apply bind_Ok_inv in H as (pre' & Epre' & H).
  apply bind_Ok_inv in H as (ffd & Effd & H).
  apply bind_Ok_inv in H as (post & Epost & H). inversion H; subst; clear H.
  apply shape_pre_process_layer in Epre, Epre'.
  rewrite Hx in Epre.
  eapply shape_multi_head_attention in Eatt as (E2 & _); [|exact Epre|exact Hb].
  apply shape_pre_post_process_layer in Eatt';
    [|intros p Ep; inversion Ep; subst; congruence].
  apply shape_positionwise_feed_forward in Effd as (_ & E3 & _).
  rewrite Epre', Eatt', E2 in E3. cbn [firstn app] in E3.
  apply shape_pre_post_process_layer in Epost;
    [|intros p Ep; inversion Ep; subst; congruence].
  congruence.
Qed.

Lemma shape_transpose_0132 (x y : tensor R) (a b c d : nat) :
  shape x = [a; b; c; d] -> transpose x [0; 1; 3; 2] = Ok y -> shape y = [a; b; d; c].
Proof.
  intros Hs H. rewrite (transpose_0132 x Hs) in H. inversion H; subst.
  pose proof (@swap_axes_at R x [a; b] c d [] Hs) as E. cbn [length app] in E.
  rewrite E. reflexivity.
Qed.

Lemma shape_encoder_co_layer (enc_input enc_vl_input attn_vl_bias out vl_out : tensor R)
  (co_head co_key co_value co_model d_model d_inner_hid v_model v_inner_hid : Z)
  (prepostprocess_dropout attention_dropout relu_dropout : Q)
  (hidden_act : option string) (preprocess_cmd postprocess_cmd : string)
  (param_initializer : option (@initializer R)) (seed : Z) (name : string)
  (B S Sv m : nat) :
  shape enc_input = [B; S; Z.to_nat d_model] ->
  shape enc_vl_input = [B; Sv; Z.to_nat v_model] ->
  shape attn_vl_bias = [B; m; Sv; S] ->
  encoder_co_layer th enc_input enc_vl_input attn_vl_bias co_head co_key co_value
    co_model d_model d_inner_hid v_model v_inner_hid prepostprocess_dropout
    attention_dropout relu_dropout hidden_act preprocess_cmd postprocess_cmd
    param_initializer seed name false = Ok (out, vl_out) ->
  shape out = [B; S; Z.to_nat d_model] /\ shape vl_out = [B; Sv; Z.to_nat v_model].
Proof.
  unfold encoder_co_layer, pre_process_layer, post_process_layer. intros Hx Hv Hb H.
  apply bind_Ok_inv in H as (pre & Epre & H).
  apply bind_Ok_inv in H as (vpre & Evpre & H).
  apply bind_Ok_inv in H as (bt & Ebt & H).
  apply bind_Ok_inv in H as ([att c] & Eatt & H).
  apply bind_Ok_inv in H as ([vatt vc] & Evatt & H).
  apply bind_Ok_inv in H as (att' & Eatt' & H).
  apply bind_Ok_inv in H as (vatt' & Evatt' & H).
  apply bind_Ok_inv in H as (pre' & Epre' & H).
  apply bind_Ok_inv in H as (ffd & Effd & H).
  apply bind_Ok_inv in H as (vpre' & Evpre' & H).
  apply bind_Ok_inv in H as (vffd & Evffd & H).
  apply bind_Ok_inv in H as (post & Epost & H).
  apply bind_Ok_inv in H as (vpost & Evpost & H). inversion H; subst; clear H.
  apply shape_pre_process_layer in Epre, Evpre, Epre', Evpre'.
  rewrite Hx in Epre. rewrite Hv in Evpre.
  eapply shape_transpose_0132 in Ebt; [|exact Hb].
  eapply shape_multi_head_attention in Eatt as (E2 & _);
    [|exact Epre|cbn [bias_rows]; eauto].
  eapply shape_multi_head_attention in Evatt as (E2' & _);
    [|exact Evpre|cbn [bias_rows]; eauto].
  apply shape_pre_post_process_layer in Eatt';
    [|intros p Ep; inversion Ep; subst; congruence].
  apply shape_pre_post_process_layer in Evatt';
    [|intros p Ep; inversion Ep; subst; congruence].
  apply shape_positionwise_feed_forward in Effd as (_ & E3 & _).
  apply shape_positionwise_feed_forward in Evffd as (_ & E3' & _).
  rewrite Epre', Eatt', E2 in E3. cbn [firstn app] in E3.
  rewrite Evpre', Evatt', E2' in E3'. cbn [firstn app] in E3'.
  apply shape_pre_post_process_layer in Epost;
    [|intros p Ep; inversion Ep; subst; congruence].
  apply shape_pre_post_process_layer in Evpost;
    [|intros p Ep; inversion Ep; subst; congruence].
  split; congruence.
Qed.

(** X1. When [multi_head_attention] returns on queries of the shape
    [B; Sq; Dq] with [B] and [Sq] positive, with no bias or with a 4-D
    bias that has [B] entries on its first axis and [Sq] on its third, the
    result has the batch size and the length of the queries and the width
    [d_model]: [B; Sq; d_model], whatever the keys, the values and the
    cache are.  A bias with another first or third axis is broadcast by
    [product += attn_bias] and can change these two axes. *)
Theorem multi_head_attention_output_shape (queries : tensor R)
  (keys values attn_bias : option (tensor R)) (d_key d_value d_model n_head : Z)
  (dropout_rate : Q) (cache cache' : option (dict (tensor R)))
  (param_initializer : option (@initializer R)) (seed : Z) (name : string)
  (out : tensor R) (B Sq Dq : nat) :
  shape queries = [B; Sq; Dq] -> 0 < B /\ 0 < Sq -> bias_rows attn_bias B Sq ->
  multi_head_attention th queries keys values attn_bias d_key d_value d_model n_head
    dropout_rate cache param_initializer seed name false = Ok (out, cache') ->
  shape out = [B; Sq; Z.to_nat d_model].
Proof.
  intros Hq _ Hb H.
  eapply shape_multi_head_attention in H as [H _]; [exact H|exact Hq|exact Hb].
Qed.

(** X2. When [positionwise_feed_forward] returns, its input has more than
    two axes, the two widths are positive, and the result has the first two
    axes of the input followed by one axis of [d_hid] entries. *)
Theorem positionwise_feed_forward_output_shape (x out : tensor R)
  (d_inner_hid d_hid : Z) (dropout_rate : Q) (hidden_act : option string)
  (param_initializer : option (@initializer R)) (seed : Z) (name : string) :
  positionwise_feed_forward th x d_inner_hid d_hid dropout_rate hidden_act
    param_initializer seed name false = Ok out ->
  2 < rank x /\ shape out = firstn 2 (shape x) ++ [Z.to_nat d_hid]
  /\ (0 < d_inner_hid)%Z /\ (0 < d_hid)%Z.
Proof. intros H. eapply shape_positionwise_feed_forward. exact H. Qed.

(** X3. [pre_post_process_layer] keeps the shape of [out], for every
    command string, when there is no [prev_out] or [prev_out] has the shape
    of [out]: residual addition of a tensor of the same shape, layer
    normalization and dropout return a tensor of the shape of their input.
    A [prev_out] of another shape is broadcast by [out + prev_out]. *)
Theorem pre_post_process_layer_keeps_shape (prev_out : option (tensor R))
  (out o : tensor R) (process_cmd : string) (dropout_rate : Q) (seed : Z)
  (name : string) :
  (forall p, prev_out = Some p -> shape p = shape out) ->
  pre_post_process_layer th prev_out out process_cmd dropout_rate seed name false
  = Ok o ->
  shape o = shape out.
Proof. intros Hp H. eapply shape_pre_post_process_layer; eassumption. Qed.

(** X4. When [encoder_layer] returns on an input of the shape
    [B; S; d_model] with [B] and [S] positive, with no bias or with a 4-D
    bias that has [B] entries on its first axis and [S] on its third, the
    result has the shape of the input, [B; S; d_model]. *)
Theorem encoder_layer_output_shape (enc_input out : tensor R)
  (attn_bias : option (tensor R)) (n_head d_key d_value d_model d_inner_hid : Z)
  (prepostprocess_dropout attention_dropout relu_dropout : Q)
  (hidden_act : option string) (preprocess_cmd postprocess_cmd : string)
  (param_initializer : option (@initializer R)) (seed : Z) (name : string)
  (B S : nat) :
  shape enc_input = [B; S; Z.to_nat d_model] -> 0 < B /\ 0 < S ->
  bias_rows attn_bias B S ->
  encoder_layer th enc_input attn_bias n_head d_key d_value d_model d_inner_hid
    prepostprocess_dropout attention_dropout relu_dropout hidden_act
    preprocess_cmd postprocess_cmd param_initializer seed name false = Ok out ->
  shape out = [B; S; Z.to_nat d_model].
Proof. intros Hx _ Hb H. eapply shape_encoder_layer; eassumption. Qed.

(** X5. When [encoder_co_layer] returns on a text input of the shape
    [B; S; d_model], an image input of the shape [B; Sv; v_model] and a
    bias of a shape [B; m; Sv; S], with [B], [S] and [Sv] positive, each
    result has the shape of the input of its stream: [B; S; d_model] for
    the text and [B; Sv; v_model] for the image. *)
Theorem encoder_co_layer_output_shape
  (enc_input enc_vl_input attn_vl_bias out vl_out : tensor R)
  (co_head co_key co_value co_model d_model d_inner_hid v_model v_inner_hid : Z)
  (prepostprocess_dropout attention_dropout relu_dropout : Q)
  (hidden_act : option string) (preprocess_cmd postprocess_cmd : string)
  (param_initializer : option (@initializer R)) (seed : Z) (name : string)
  (B S Sv m : nat) :
  shape enc_input = [B; S; Z.to_nat d_model] ->
  shape enc_vl_input = [B; Sv; Z.to_nat v_model] ->
  shape attn_vl_bias = [B; m; Sv; S] -> 0 < B /\ 0 < S /\ 0 < Sv ->
  encoder_co_layer th enc_input enc_vl_input attn_vl_bias co_head co_key co_value
    co_model d_model d_inner_hid v_model v_inner_hid prepostprocess_dropout
    attention_dropout relu_dropout hidden_act preprocess_cmd postprocess_cmd
    param_initializer seed name false = Ok (out, vl_out) ->
  shape out = [B; S; Z.to_nat d_model] /\ shape vl_out = [B; Sv; Z.to_nat v_model].
Proof. intros Hx Hv Hb _ H. eapply shape_encoder_co_layer; eassumption. Qed.

End ShapeProperties.

Lemma multi_head_attention_output_shape_witness :
  exists out,
    multi_head_attention empty_scope (ones [1; 2; 3]) None None
      (Some (ones [1; 1; 2; 2])) 1 1 3 2 0 None None 0 "att" false = Ok (out, None)
    /\ shape out = [1; 2; 3].
Proof.
  destruct (multi_head_attention empty_scope (ones [1; 2; 3]) None None
              (Some (ones [1; 1; 2; 2])) 1 1 3 2 0 None None 0 "att" false)
    as [[out c]|e] eqn:E; [|vm_compute in E; discriminate E].
  assert (Hc : c = None) by (vm_compute in E; inversion E; reflexivity). subst c.
  exists out. split; [reflexivity|].
  pose proof E as H.
  apply multi_head_attention_output_shape with (B := 1) (Sq := 2) (Dq := 3) in H;
    [exact H|reflexivity|lia|].
  exists 1, 2. reflexivity.
Defined.

Lemma positionwise_feed_forward_output_shape_witness :
  exists out,
    positionwise_feed_forward empty_scope (ones [1; 2; 3]) 4 2 0 (Some "gelu"%string)
      None 0 "ffn" false = Ok out
    /\ shape out = [1; 2; 2].
Proof.
  destruct (positionwise_feed_forward empty_scope (ones [1; 2; 3]) 4 2 0
              (Some "gelu"%string) None 0 "ffn" false) as [out|e] eqn:E;
    [|vm_compute in E; discriminate E].
  exists out. split; [reflexivity|].
  pose proof E as H. apply positionwise_feed_forward_output_shape in H as (_ & H & _).
  exact H.
Defined.

Lemma pre_post_process_layer_keeps_shape_witness :
  exists o,
    pre_post_process_layer empty_scope (Some (ones [1; 1; 2])) (ones [1; 1; 2]) "dan" 0 0
      "post" false = Ok o
    /\ shape o = [1; 1; 2].
Proof.
  destruct (pre_post_process_layer empty_scope (Some (ones [1; 1; 2])) (ones [1; 1; 2])
              "dan" 0 0 "post" false) as [o|e] eqn:E;
    [|vm_compute in E; discriminate E].
  exists o. split; [reflexivity|].
  pose proof E as H. apply pre_post_process_layer_keeps_shape in H; [exact H|].
  intros p Ep. inversion Ep. reflexivity.
Defined.

Lemma encoder_layer_output_shape_witness :
  exists out,
    encoder_layer empty_scope (ones [1; 1; 2]) (Some (ones [1; 1; 1; 1])) 2 1 1 2 4 0 0 0
      (Some "gelu"%string) "n" "da" None 0 "encoder_layer_0" false = Ok out
    /\ shape out = [1; 1; 2].
Proof.
  destruct (encoder_layer empty_scope (ones [1; 1; 2]) (Some (ones [1; 1; 1; 1])) 2 1 1 2
              4 0 0 0 (Some "gelu"%string) "n" "da" None 0 "encoder_layer_0" false)
    as [out|e] eqn:E; [|vm_compute in E; discriminate E].
  exists out. split; [reflexivity|].
  pose proof E as H.
  apply encoder_layer_output_shape with (B := 1) (S := 1) in H;
    [exact H|reflexivity|lia|].
  exists 1, 1. reflexivity.
Defined.

Lemma encoder_co_layer_output_shape_witness :
  exists out vl_out,
    encoder_co_layer empty_scope (ones [1; 1; 2]) (ones [1; 2; 2]) (ones [1; 2; 2; 1])
      2 1 1 2 2 4 2 4 0 0 0 (Some "gelu"%string) "n" "da" None 0 "encoder_colayer_0"
      false = Ok (out, vl_out)
    /\ shape out = [1; 1; 2] /\ shape vl_out = [1; 2; 2].
Proof.
  destruct (encoder_co_layer empty_scope (ones [1; 1; 2]) (ones [1; 2; 2])
              (ones [1; 2; 2; 1]) 2 1 1 2 2 4 2 4 0 0 0 (Some "gelu"%string) "n" "da"
              None 0 "encoder_colayer_0" false)
    as [[out vl_out]|e] eqn:E; [|vm_compute in E; discriminate E].
  exists out, vl_out. split; [reflexivity|].
  pose proof E as H.
  apply encoder_co_layer_output_shape with (B := 1) (S := 1) (Sv := 2) (m := 2) in H;
    [exact H|reflexivity|reflexivity|reflexivity|lia].
Defined.

Section StackShapes.
Context {R : Type} {K : Kernels R}.
Variable th : @scope R.
Variables (attn_bias attn_image_bias : option (tensor R)) (attn_vl_bias : tensor R).
Variables (n_head d_key d_value d_model d_inner_hid : Z).
Variables (v_head v_key v_value v_model v_inner_hid : Z).
Variables (co_head co_key co_value co_model : Z).
Variables (prepostprocess_dropout attention_dropout relu_dropout : Q).
Variables (hidden_act : option string) (preprocess_cmd postprocess_cmd : string).
Variables (param_initializer : option (@initializer R)) (seed : Z) (name : string).
Variables (B S Sv m : nat).

Let run := run_schedule th attn_bias attn_image_bias attn_vl_bias
             n_head d_key d_value d_model d_inner_hid
             v_head v_key v_value v_model v_inner_hid
             co_head co_key co_value co_model
             prepostprocess_dropout attention_dropout relu_dropout
             hidden_act preprocess_cmd postprocess_cmd param_initializer seed name.

(** The shapes of the two streams. *)
Let shaped (s : tensor R * tensor R) : Prop :=
  shape (fst s) = [B; S; Z.to_nat d_model] /\ shape (snd s) = [B; Sv; Z.to_nat v_model].

Lemma run_call_shaped (c : layer_call) (s s' : tensor R * tensor R) :
  bias_rows attn_bias B S -> bias_rows attn_image_bias B Sv ->
  shape attn_vl_bias = [B; m; Sv; S] ->
  shaped s -> run [c] s = Ok s' -> shaped s'.
Proof.
  unfold run, shaped. cbn [run_schedule]. intros Hb Hvb Hvl [Hx Hv] H.
  apply bind_Ok_inv in H as (s1 & H & E). inversion E; subst s1; clear E.
  destruct c; cbn [run_call] in H.
  - apply bind_Ok_inv in H as (x & Ex & H). inversion H; subst; clear H. cbn [fst snd].
    unfold text_layer in Ex.
    eapply shape_encoder_layer in Ex; [|exact Hx|exact Hb]. split; assumption.
  - apply bind_Ok_inv in H as (x & Ex & H). inversion H; subst; clear H. cbn [fst snd].
    unfold vision_layer in Ex.
    eapply shape_encoder_layer in Ex; [|exact Hv|exact Hvb]. split; assumption.
  - destruct s' as [out vl_out]. unfold co_layer in H. cbn [fst snd].
    eapply shape_encoder_co_layer in H; [exact H|exact Hx|exact Hv|exact Hvl].
  - apply bind_Ok_inv in H as (x & Ex & H). inversion H; subst; clear H. cbn [fst snd].
    apply shape_pre_process_layer in Ex. rewrite Ex. split; assumption.
  - apply bind_Ok_inv in H as (x & Ex & H). inversion H; subst; clear H. cbn [fst snd].
    apply shape_pre_process_layer in Ex. rewrite Ex. split; assumption.
Qed.

Lemma run_shaped (cs : list layer_call) :
  bias_rows attn_bias B S -> bias_rows attn_image_bias B Sv ->
  shape attn_vl_bias = [B; m; Sv; S] ->
  forall s s', shaped s -> run cs s = Ok s' -> shaped s'.
Proof.
  intros Hb Hvb Hvl.
  induction cs as [|c cs IH]; intros s s' Hs H.
  - inversion H; subst. exact Hs.
  - change (c :: cs) with ([c] ++ cs) in H. unfold run in H. rewrite run_app in H.
    apply bind_Ok_inv in H as (s1 & H1 & H).
    eapply IH; [|exact H]. eapply run_call_shaped; eassumption.
Qed.

(** X6. When [encoder] returns on a text input of the shape
    [B; S; d_model] and an image input of the shape [B; Sv; v_model], with
    [B], [S] and [Sv] positive, with a bias of a shape [B; m; Sv; S]
    between the streams and, for each stream, no bias or a 4-D bias that
    has [B] entries on its first axis and the length of the stream on its
    third, each of the two results has the shape of the input of its
    stream: the layers of the schedule keep the shapes of the two
    streams. *)
Theorem encoder_output_shape (x vx out vl_out : tensor R) (n_layer co_inner_hid : Z)
  (v_biattention_id t_biattention_id : list Z) :
  shape x = [B; S; Z.to_nat d_model] -> shape vx = [B; Sv; Z.to_nat v_model] ->
  0 < B /\ 0 < S /\ 0 < Sv ->
  bias_rows attn_bias B S -> bias_rows attn_image_bias B Sv ->
  shape attn_vl_bias = [B; m; Sv; S] ->
  encoder th x vx attn_bias attn_image_bias attn_vl_bias
    n_layer n_head d_key d_value d_model d_inner_hid
    v_head v_key v_value v_model v_inner_hid
    co_head co_key co_value co_model co_inner_hid
    prepostprocess_dropout attention_dropout relu_dropout
    hidden_act preprocess_cmd postprocess_cmd param_initializer
    v_biattention_id t_biattention_id seed name false = Ok (out, vl_out) ->
  shape out = [B; S; Z.to_nat d_model] /\ shape vl_out = [B; Sv; Z.to_nat v_model].
Proof.
  intros Hx Hv _ Hb Hvb Hvl H.
  destruct (combine v_biattention_id t_biattention_id) as [|p ps] eqn:Ec.
  { unfold encoder in H. rewrite Ec in H. discriminate H. }
  rewrite encoder_run_schedule in H by (rewrite Ec; discriminate).
  apply bind_Ok_inv in H as (s & H & E). inversion E; subst s; clear E.
  eapply run_shaped with (s := (x, vx)) in H; [exact H|assumption..|].
  split; assumption.
Qed.
End StackShapes.

Lemma encoder_output_shape_witness :
  exists out vl_out,
    small_encoder 24 [0%Z] [1%Z] false = Ok (out, vl_out)
    /\ shape out = [1; 1; 2] /\ shape vl_out = [1; 2; 2].
Proof.
  unfold small_encoder.
  destruct (encoder empty_scope (ones [1; 1; 2]) (ones [1; 2; 2])
    (Some (ones [1; 2; 1; 1])) (Some (ones [1; 2; 2; 2])) (ones [1; 2; 2; 1])
    24 2 1 1 2 4 2 1 1 2 4 2 1 1 2 4 0 0 0 (Some "gelu"%string)
    "n"%string "da"%string None [0%Z] [1%Z] 0 "encoder"%string false)
    as [[out vl_out]|e] eqn:E; [|vm_compute in E; discriminate E].
  exists out, vl_out. split; [reflexivity|].
  pose proof E as H.
  apply encoder_output_shape with (B := 1) (S := 1) (Sv := 2) (m := 2) in H;
    [exact H|reflexivity|reflexivity|lia| | |reflexivity].
  - exists 2, 1. reflexivity.
  - exists 2, 2. reflexivity.
Defined.

(** ** The seed and the arguments that are not used *)

Lemma truthy_zero (q : Q) : q == 0 -> truthy q = false.
Proof. intros H. unfold truthy. apply Qeq_bool_iff in H. rewrite H. reflexivity. Qed.

Section SeedProperties.
Context {R : Type} {K : Kernels R}.
Variable th : @scope R.
Variables seed seed' : Z.

Lemma multi_head_attention_seed q k v bias dk dv dm nh rate cache pinit name debug :
  truthy rate = false ->
  multi_head_attention th q k v bias dk dv dm nh rate cache pinit seed name debug
  = multi_head_attention th q k v bias dk dv dm nh rate cache pinit seed' name debug.
Proof.
  intros Hr. unfold multi_head_attention, scaled_dot_product_attention.
  rewrite Hr. reflexivity.
Qed.

Lemma positionwise_feed_forward_seed x di dh rate act pinit name debug :
  truthy rate = false ->
  positionwise_feed_forward th x di dh rate act pinit seed name debug
  = positionwise_feed_forward th x di dh rate act pinit seed' name debug.
Proof. intros Hr. unfold positionwise_feed_forward. rewrite Hr. reflexivity. Qed.

Lemma process_cmd_loop_seed prev rate name debug cmds :
  truthy rate = false ->
  forall out dd,
    process_cmd_loop th prev rate seed name debug cmds out dd
    = process_cmd_loop th prev rate seed' name debug cmds out dd.
Proof.
  intros Hr. induction cmds as [|c cmds IH]; intros out dd; [reflexivity|].
  cbn [process_cmd_loop]. apply bind_cong; [|intros o; apply IH].
  unfold process_cmd_step. rewrite Hr. reflexivity.
Qed.

Lemma pre_post_process_layer_seed prev out cmds rate name debug :
  truthy rate = false ->
  pre_post_process_layer th prev out cmds rate seed name debug
  = pre_post_process_layer th prev out cmds rate seed' name debug.
Proof.
  intros Hr. unfold pre_post_process_layer.
  apply bind_cong; [apply process_cmd_loop_seed, Hr|reflexivity].
Qed.

Lemma encoder_layer_seed x bias nh dk dv dm di r1 r2 r3 act pre post pinit name debug :
  truthy r1 = false -> truthy r2 = false -> truthy r3 = false ->
  encoder_layer th x bias nh dk dv dm di r1 r2 r3 act pre post pinit seed name debug
  = encoder_layer th x bias nh dk dv dm di r1 r2 r3 act pre post pinit seed' name debug.
Proof.
  intros H1 H2 H3. unfold encoder_layer, pre_process_layer, post_process_layer.
  repeat (apply bind_cong;
          [first [apply pre_post_process_layer_seed with (debug := false); assumption
                 |apply multi_head_attention_seed with (debug := false); assumption
                 |apply positionwise_feed_forward_seed with (debug := false); assumption]
          |intros]).
  repeat match goal with |- context [match ?p with (_, _) => _ end] => destruct p end.
  repeat (apply bind_cong;
          [first [apply pre_post_process_layer_seed with (debug := false); assumption
                 |apply multi_head_attention_seed with (debug := false); assumption
                 |apply positionwise_feed_forward_seed with (debug := false); assumption]
          |intros]).
  reflexivity.
Qed.

Lemma encoder_co_layer_seed x vx bias ch ck cv cm dm di vm vi r1 r2 r3 act pre post
  pinit name debug :
  truthy r1 = false -> truthy r2 = false -> truthy r3 = false ->
  encoder_co_layer th x vx bias ch ck cv cm dm di vm vi r1 r2 r3 act pre post
    pinit seed name debug
  = encoder_co_layer th x vx bias ch ck cv cm dm di vm vi r1 r2 r3 act pre post
      pinit seed' name debug.
Proof.
  intros H1 H2 H3. unfold encoder_co_layer, pre_process_layer, post_process_layer.
  repeat first
    [ apply bind_cong;
      [first [apply pre_post_process_layer_seed with (debug := false); assumption
             |apply multi_head_attention_seed with (debug := false); assumption
             |apply positionwise_feed_forward_seed with (debug := false); assumption
             |reflexivity]
      |intros]
    | match goal with |- context [match ?p with (_, _) => _ end] => destruct p end ].
  reflexivity.
Qed.

Lemma run_schedule_seed bias ibias vbias nh dk dv dm di vh vk vv vm vi ch ck cv cm
  r1 r2 r3 act pre post pinit name cs :
  truthy r1 = false -> truthy r2 = false -> truthy r3 = false ->
  forall s,
    run_schedule th bias ibias vbias nh dk dv dm di vh vk vv vm vi ch ck cv cm
      r1 r2 r3 act pre post pinit seed name cs s
    = run_schedule th bias ibias vbias nh dk dv dm di vh vk vv vm vi ch ck cv cm
        r1 r2 r3 act pre post pinit seed' name cs s.
Proof.
  intros H1 H2 H3.
  induction cs as [|c cs IH]; intros s; [reflexivity|].
  cbn [run_schedule]. apply bind_cong; [|intros; apply IH].
  destruct c; unfold run_call, text_layer, vision_layer, co_layer, pre_process_layer.
  - apply bind_cong; [apply encoder_layer_seed with (debug := false)|]; auto.
  - apply bind_cong; [apply encoder_layer_seed with (debug := false)|]; auto.
  - apply encoder_co_layer_seed with (debug := false); auto.
  - apply bind_cong; [apply pre_post_process_layer_seed with (debug := false)|]; auto.
  - apply bind_cong; [apply pre_post_process_layer_seed with (debug := false)|]; auto.
Qed.

(** X7. With the three dropout rates equal to zero, the results of
    [encoder], [encoder_layer] and [encoder_co_layer] do not depend on the
    seed: every use of the seed is in a dropout that [if dropout_rate:]
    guards. *)
Theorem encoder_seed_without_dropout (x vx : tensor R)
  (attn_bias attn_image_bias : option (tensor R)) (attn_vl_bias : tensor R)
  (n_layer n_head d_key d_value d_model d_inner_hid : Z)
  (v_head v_key v_value v_model v_inner_hid : Z)
  (co_head co_key co_value co_model co_inner_hid : Z)
  (prepostprocess_dropout attention_dropout relu_dropout : Q)
  (hidden_act : option string) (preprocess_cmd postprocess_cmd : string)
  (param_initializer : option (@initializer R))
  (v_biattention_id t_biattention_id : list Z) (name : string) (debug : bool) :
  prepostprocess_dropout == 0 -> attention_dropout == 0 -> relu_dropout == 0 ->
  encoder th x vx attn_bias attn_image_bias attn_vl_bias
    n_layer n_head d_key d_value d_model d_inner_hid
    v_head v_key v_value v_model v_inner_hid
    co_head co_key co_value co_model co_inner_hid
    prepostprocess_dropout attention_dropout relu_dropout
    hidden_act preprocess_cmd postprocess_cmd param_initializer
    v_biattention_id t_biattention_id seed name debug
  = encoder th x vx attn_bias attn_image_bias attn_vl_bias
      n_layer n_head d_key d_value d_model d_inner_hid
      v_head v_key v_value v_model v_inner_hid
      co_head co_key co_value co_model co_inner_hid
      prepostprocess_dropout attention_dropout relu_dropout
      hidden_act preprocess_cmd postprocess_cmd param_initializer
      v_biattention_id t_biattention_id seed' name debug
  /\ encoder_layer th x attn_bias n_head d_key d_value d_model d_inner_hid
       prepostprocess_dropout attention_dropout relu_dropout hidden_act
       preprocess_cmd postprocess_cmd param_initializer seed name debug
     = encoder_layer th x attn_bias n_head d_key d_value d_model d_inner_hid
         prepostprocess_dropout attention_dropout relu_dropout hidden_act
         preprocess_cmd postprocess_cmd param_initializer seed' name debug
  /\ encoder_co_layer th x vx attn_vl_bias co_head co_key co_value co_model d_model
       d_inner_hid v_model v_inner_hid prepostprocess_dropout attention_dropout
       relu_dropout hidden_act preprocess_cmd postprocess_cmd param_initializer
       seed name debug
     = encoder_co_layer th x vx attn_vl_bias co_head co_key co_value co_model d_model
         d_inner_hid v_model v_inner_hid prepostprocess_dropout attention_dropout
         relu_dropout hidden_act preprocess_cmd postprocess_cmd param_initializer
         seed' name debug.
Proof.
  intros H1 H2 H3. apply truthy_zero in H1, H2, H3.
  split; [|split; [apply encoder_layer_seed|apply encoder_co_layer_seed]; assumption].
  destruct (combine v_biattention_id t_biattention_id) as [|p ps] eqn:E.
  - unfold encoder. rewrite E. reflexivity.
  - rewrite !encoder_run_schedule by (rewrite E; discriminate).
    apply bind_cong; [apply run_schedule_seed; assumption|reflexivity].
Qed.
End SeedProperties.

Lemma encoder_seed_without_dropout_witness :
  small_encoder 24 [0%Z] [1%Z] false
  = encoder empty_scope (ones [1; 1; 2]) (ones [1; 2; 2])
      (Some (ones [1; 2; 1; 1])) (Some (ones [1; 2; 2; 2])) (ones [1; 2; 2; 1])
      24 2 1 1 2 4 2 1 1 2 4 2 1 1 2 4 0 0 0 (Some "gelu"%string)
      "n"%string "da"%string None [0%Z] [1%Z] 7 "encoder"%string false.
Proof.
  refine (proj1 (@encoder_seed_without_dropout Z ZKernels empty_scope 0 7
                   (ones [1; 1; 2]) (ones [1; 2; 2])
                   (Some (ones [1; 2; 1; 1])) (Some (ones [1; 2; 2; 2]))
                   (ones [1; 2; 2; 1])
                   24 2 1 1 2 4 2 1 1 2 4 2 1 1 2 4 0 0 0 (Some "gelu"%string)
                   "n"%string "da"%string None [0%Z] [1%Z] "encoder"%string false
                   _ _ _)); reflexivity.
Defined.

Section UnusedArguments.
Context {R : Type} {K : Kernels R}.
Variable th : @scope R.

Lemma block_loop_co_model bias ibias vbias nh dk dv dm di vh vk vv vm vi ch ck cv cm cm'
  r1 r2 r3 act pre post pinit seed name pairs :
  forall l,
    block_loop th bias ibias vbias nh dk dv dm di vh vk vv vm vi ch ck cv cm
      r1 r2 r3 act pre post pinit seed name pairs l
    = block_loop th bias ibias vbias nh dk dv dm di vh vk vv vm vi ch ck cv cm'
        r1 r2 r3 act pre post pinit seed name pairs l.
Proof.
  induction pairs as [|ids pairs IH]; intros l; [reflexivity|].
  cbn [block_loop]. apply bind_cong; [reflexivity|intros; apply IH].
Qed.

(** X8. [encoder] makes no use of its arguments [co_model] and
    [co_inner_hid], and [encoder_co_layer] none of [co_model]: the results
    are the same for any two values of them. *)
Theorem encoder_unused_arguments (x vx : tensor R)
  (attn_bias attn_image_bias : option (tensor R)) (attn_vl_bias : tensor R)
  (n_layer n_head d_key d_value d_model d_inner_hid : Z)
  (v_head v_key v_value v_model v_inner_hid : Z)
  (co_head co_key co_value co_model co_inner_hid co_model' co_inner_hid' : Z)
  (prepostprocess_dropout attention_dropout relu_dropout : Q)
  (hidden_act : option string) (preprocess_cmd postprocess_cmd : string)
  (param_initializer : option (@initializer R))
  (v_biattention_id t_biattention_id : list Z) (seed : Z) (name : string)
  (debug : bool) :
  encoder th x vx attn_bias attn_image_bias attn_vl_bias
    n_layer n_head d_key d_value d_model d_inner_hid
    v_head v_key v_value v_model v_inner_hid
    co_head co_key co_value co_model co_inner_hid
    prepostprocess_dropout attention_dropout relu_dropout
    hidden_act preprocess_cmd postprocess_cmd param_initializer
    v_biattention_id t_biattention_id seed name debug
  = encoder th x vx attn_bias attn_image_bias attn_vl_bias
      n_layer n_head d_key d_value d_model d_inner_hid
      v_head v_key v_value v_model v_inner_hid
      co_head co_key co_value co_model' co_inner_hid'
      prepostprocess_dropout attention_dropout relu_dropout
      hidden_act preprocess_cmd postprocess_cmd param_initializer
      v_biattention_id t_biattention_id seed name debug
  /\ encoder_co_layer th x vx attn_vl_bias co_head co_key co_value co_model d_model
       d_inner_hid v_model v_inner_hid prepostprocess_dropout attention_dropout
       relu_dropout hidden_act preprocess_cmd postprocess_cmd param_initializer
       seed name debug
     = encoder_co_layer th x vx attn_vl_bias co_head co_key co_value co_model' d_model
         d_inner_hid v_model v_inner_hid prepostprocess_dropout attention_dropout
         relu_dropout hidden_act preprocess_cmd postprocess_cmd param_initializer
         seed name debug.
Proof.
  split; [|reflexivity].
  unfold encoder. apply bind_cong; [apply block_loop_co_model|reflexivity].
Qed.

End UnusedArguments.

(** ** The dictionaries of [debug=True] *)

Lemma dict_get_set_other {V : Type} (d : dict V) (k k' : string) (v : V) :
  k <> k' -> dict_get (dict_set d k v) k' = dict_get d k'.
Proof.
  intros Hne. induction d as [|[k0 v0] d IH]; simpl.
  - destruct (String.eqb k k') eqn:E; [apply String.eqb_eq in E; contradiction|reflexivity].
  - destruct (String.eqb k0 k) eqn:E; simpl.
    + apply String.eqb_eq in E; subst k0.
      destruct (String.eqb k k') eqn:E'; [apply String.eqb_eq in E'; contradiction|].
      reflexivity.
    + destruct (String.eqb k0 k'); [reflexivity|exact IH].
Qed.

Ltac same_calls :=
  repeat first
    [ progress rewrite !bind_assoc
    | apply bind_ext; intros
    | match goal with |- context [match ?p with (_, _) => _ end] => destruct p end
    | progress cbn [bind fst snd] ].

Section DebugProperties.
Context {R : Type} {K : Kernels R}.
Variable th : @scope R.

(** X9. With [debug=True] the layers compute what they compute with
    [debug=False], and return it in a dictionary: [multi_head_attention]
    its result under ["proj_out"], [positionwise_feed_forward] under
    ["out"] after ["hidden"], [encoder_layer] under ["post_ffd"] after
    ["attn_output"], [encoder_co_layer] and [encoder] their two results
    under ["enc_output"] and ["enc_vl_output"]; they raise the same
    exceptions. *)
Theorem debug_returns_the_same_tensors (queries x vx attn_vl_bias : tensor R)
  (keys values attn_bias attn_image_bias : option (tensor R))
  (n_layer n_head d_key d_value d_model d_inner_hid : Z)
  (v_head v_key v_value v_model v_inner_hid : Z)
  (co_head co_key co_value co_model co_inner_hid : Z)
  (prepostprocess_dropout attention_dropout relu_dropout : Q)
  (cache : option (dict (tensor R)))
  (hidden_act : option string) (preprocess_cmd postprocess_cmd : string)
  (param_initializer : option (@initializer R))
  (v_biattention_id t_biattention_id : list Z) (seed : Z) (name : string) :
  multi_head_attention th queries keys values attn_bias d_key d_value d_model n_head
    attention_dropout cache param_initializer seed name true
  = ('(proj_out, cache') <-
       multi_head_attention th queries keys values attn_bias d_key d_value d_model
         n_head attention_dropout cache param_initializer seed name false ;;
     Ok ([("proj_out"%string, proj_out)], cache'))
  /\ (d <- positionwise_feed_forward th x d_inner_hid d_model relu_dropout hidden_act
             param_initializer seed name true ;;
      Ok (map fst d, dict_get d "out"))
     = (out <- positionwise_feed_forward th x d_inner_hid d_model relu_dropout
                 hidden_act param_initializer seed name false ;;
        Ok (["hidden"; "out"]%string, Some out))
  /\ (d <- encoder_layer th x attn_bias n_head d_key d_value d_model d_inner_hid
             prepostprocess_dropout attention_dropout relu_dropout hidden_act
             preprocess_cmd postprocess_cmd param_initializer seed name true ;;
      Ok (map fst d, dict_get d "post_ffd"))
     = (post_ffd <- encoder_layer th x attn_bias n_head d_key d_value d_model
                      d_inner_hid prepostprocess_dropout attention_dropout
                      relu_dropout hidden_act preprocess_cmd postprocess_cmd
                      param_initializer seed name false ;;
        Ok (["attn_output"; "post_ffd"]%string, Some post_ffd))
  /\ encoder_co_layer th x vx attn_vl_bias co_head co_key co_value co_model d_model
       d_inner_hid v_model v_inner_hid prepostprocess_dropout attention_dropout
       relu_dropout hidden_act preprocess_cmd postprocess_cmd param_initializer
       seed name true
     = ('(enc_output, enc_vl_output) <-
          encoder_co_layer th x vx attn_vl_bias co_head co_key co_value co_model
            d_model d_inner_hid v_model v_inner_hid prepostprocess_dropout
            attention_dropout relu_dropout hidden_act preprocess_cmd postprocess_cmd
            param_initializer seed name false ;;
        Ok [("enc_output"%string, enc_output); ("enc_vl_output"%string, enc_vl_output)])
  /\ encoder th x vx attn_bias attn_image_bias attn_vl_bias
       n_layer n_head d_key d_value d_model d_inner_hid
       v_head v_key v_value v_model v_inner_hid
       co_head co_key co_value co_model co_inner_hid
       prepostprocess_dropout attention_dropout relu_dropout
       hidden_act preprocess_cmd postprocess_cmd param_initializer
       v_biattention_id t_biattention_id seed name true
     = ('(enc_output, enc_vl_output) <-
          encoder th x vx attn_bias attn_image_bias attn_vl_bias
            n_layer n_head d_key d_value d_model d_inner_hid
            v_head v_key v_value v_model v_inner_hid
            co_head co_key co_value co_model co_inner_hid
            prepostprocess_dropout attention_dropout relu_dropout
            hidden_act preprocess_cmd postprocess_cmd param_initializer
            v_biattention_id t_biattention_id seed name false ;;
        Ok [("enc_output"%string, enc_output); ("enc_vl_output"%string, enc_vl_output)]).
Proof.
  split; [|split; [|split; [|split]]].
  - unfold multi_head_attention. destruct (negb _); [reflexivity|].
    same_calls. reflexivity.
  - unfold positionwise_feed_forward. same_calls. reflexivity.
  - unfold encoder_layer. same_calls. reflexivity.
  - unfold encoder_co_layer. same_calls. reflexivity.
  - unfold encoder, encoder_tail. same_calls. reflexivity.
Qed.

Lemma debug_key_inj (c c' : ascii) : debug_key c = debug_key c' -> c = c'.
Proof. unfold debug_key. cbn. intros H. inversion H. reflexivity. Qed.

Lemma process_cmd_loop_keeps (prev : option (tensor R)) rate seed name (c : ascii) cmds :
  has_cmd c cmds = false ->
  forall out dd o dd',
    process_cmd_loop th prev rate seed name true cmds out dd = Ok (o, dd') ->
    dict_get dd' (debug_key c) = dict_get dd (debug_key c).
Proof.
  unfold has_cmd.
  induction cmds as [|c0 cmds IH]; intros Hc out dd o dd' H; cbn [process_cmd_loop] in H.
  - inversion H; reflexivity.
  - cbn [list_ascii_of_string existsb] in Hc. apply orb_false_iff in Hc as [Hc0 Hc].
    apply bind_Ok_inv in H as (o1 & _ & H).
    apply IH in H; [|exact Hc]. rewrite H.
    apply dict_get_set_other. intros E. apply debug_key_inj in E. subst c0.
    rewrite Ascii.eqb_refl in Hc0. discriminate.
Qed.

(** X10. The dictionary that [pre_post_process_layer] returns with
    [debug=True] holds, under [f"out_{cmd}"], the value of [out] after the
    last occurrence of the command [cmd]: what the call returns with
    [debug=False] for the commands up to that occurrence. *)
Theorem pre_post_process_layer_debug_entries (prev_out : option (tensor R))
  (out : tensor R) (c1 c2 : string) (cmd : ascii) (dropout_rate : Q) (seed : Z)
  (name : string) (d : dict (tensor R)) :
  has_cmd cmd c2 = false ->
  pre_post_process_layer th prev_out out (c1 +s String cmd c2) dropout_rate seed name
    true = Ok d ->
  exists o,
    pre_post_process_layer th prev_out out (c1 +s String cmd EmptyString) dropout_rate
      seed name false = Ok o
    /\ dict_get d (debug_key cmd) = Some o.
Proof.
  intros Hc H. unfold pre_post_process_layer in H.
  apply bind_Ok_inv in H as ([o2 dd2] & H & E). inversion E; subst d; clear E.
  rewrite process_cmd_loop_app in H.
  apply bind_Ok_inv in H as ([o0 dd0] & H0 & H).
  cbn [process_cmd_loop] in H.
  apply bind_Ok_inv in H as (o1 & H1 & H).
  exists o1. split.
  - rewrite pre_post_process_layer_app.
    pose proof (process_cmd_loop_debug th dropout_rate seed name prev_out c1 out []) as E.
    rewrite H0 in E. cbn [bind] in E.
    destruct (pre_post_process_layer th prev_out out c1 dropout_rate seed name false)
      as [o|e]; [|discriminate E].
    cbn [bind] in E. inversion E; subst o. cbn [bind].
    rewrite pre_post_process_layer_one. exact H1.
  - rewrite dict_get_set_other by (unfold debug_key; cbn; discriminate).
    erewrite process_cmd_loop_keeps; [|exact Hc|exact H].
    apply dict_get_set.
Qed.
End DebugProperties.

Lemma pre_post_process_layer_debug_entries_witness :
  exists d o,
    pre_post_process_layer empty_scope (Some (ones [1; 1; 2])) (ones [1; 1; 2]) "dan" 0 0
      "post" true = Ok d
    /\ pre_post_process_layer empty_scope (Some (ones [1; 1; 2])) (ones [1; 1; 2]) "da"
         0 0 "post" false = Ok o
    /\ dict_get d "out_a" = Some o.
Proof.
  destruct (pre_post_process_layer empty_scope (Some (ones [1; 1; 2])) (ones [1; 1; 2])
              "dan" 0 0 "post" true) as [d|e] eqn:E;
    [|vm_compute in E; discriminate E].
  pose proof E as H.
  apply (@pre_post_process_layer_debug_entries Z ZKernels empty_scope
           (Some (ones [1; 1; 2])) (ones [1; 1; 2]) "d" "n" "a"%char 0 0 "post" d) in H
    as (o & H1 & H2); [|reflexivity].
  exists d, o. auto.
Defined.

(** ** The cache of the keys and values of the earlier time steps *)

Section CacheProperties.
Context {R : Type} {K : Kernels R}.
Variable th : @scope R.

Lemma product_cons (a : nat) (l : list nat) : product (a :: l) = a * product l.
Proof. reflexivity. Qed.

Lemma infer_known (q : nat) (l : list (option nat)) :
  length (filter is_unknown l) = 0 ->
  map (fun d => match d with Some k => k | None => q end) l = map known_dim l.
Proof.
  induction l as [|[k|] l IH]; cbn [filter is_unknown length map]; intros Hl;
    [reflexivity| |discriminate].
  rewrite IH by exact Hl. reflexivity.
Qed.

Lemma product_inferred (q : nat) (l : list (option nat)) :
  length (filter is_unknown l) = 1 ->
  product (map (fun d => match d with Some k => k | None => q end) l)
  = product (map known_dim l) * q.
Proof.
  induction l as [|[k|] l IH]; cbn [filter is_unknown length map]; intros Hl;
    [discriminate| |].
  - rewrite !product_cons, IH by exact Hl. cbn [known_dim]. lia.
  - rewrite !product_cons, infer_known by lia. cbn [known_dim]. lia.
Qed.

Lemma infer_dims_product (n : nat) (ds : list (option nat)) (shp : list nat) :
  infer_dims n ds = Ok shp -> product shp = n.
Proof.
  unfold infer_dims.
  destruct (length (filter is_unknown ds)) as [|[|]] eqn:El; [| |discriminate].
  - destruct (_ =? _) eqn:E; [|discriminate]. intros H; inversion H; subst.
    apply Nat.eqb_eq, E.
  - destruct (_ && _) eqn:E; [|discriminate]. intros H; inversion H; subst; clear H.
    apply andb_true_iff in E as [E1 E2].
    apply Nat.ltb_lt in E1. apply Nat.eqb_eq in E2.
    rewrite product_inferred by exact El.
    pose proof (Nat.div_mod_eq n (product (map known_dim ds))) as Hd.
    rewrite E2 in Hd. lia.
Qed.

Lemma reshape_product (x y : tensor R) (spec : list Z) :
  reshape x spec = Ok y -> product (shape y) = product (shape x) /\ data y = data x.
Proof.
  unfold reshape. intros H.
  apply bind_Ok_inv in H as (ds & _ & H).
  apply bind_Ok_inv in H as (shp & E & H). inversion H; subst; clear H.
  apply infer_dims_product in E. auto.
Qed.

(** The reshape of the cache: [shape=[0, 0, d_model]]. *)
Lemma reshape_flatten_inv (x y : tensor R) (m : Z) :
  reshape x [0; 0; m]%Z = Ok y -> (0 < m)%Z ->
  exists b s tl, shape x = b :: s :: tl /\ y = mkT [b; s; Z.to_nat m] (data x).
Proof.
  intros H Hm. unfold reshape in H.
  destruct (shape x) as [|b [|s tl]] eqn:Es; [discriminate H|discriminate H|].
  cbn [resolve_dims] in H. unfold resolve_dim at 1 2 in H.
  cbn [Z.eqb nth_error bind] in H.
  rewrite resolve_dim_positive in H by exact Hm. cbn [bind] in H.
  unfold infer_dims in H. cbn [filter is_unknown length map known_dim] in H.
  destruct (_ =? _); [|discriminate]. cbn [bind] in H. inversion H; subst.
  exists b, s, tl. auto.
Qed.

Lemma reshape_flatten (x : tensor R) (b s : nat) (tl : list nat) (m : Z) :
  shape x = b :: s :: tl -> (0 < m)%Z ->
  product (shape x) = b * (s * Z.to_nat m) ->
  reshape x [0; 0; m]%Z = Ok (mkT [b; s; Z.to_nat m] (data x)).
Proof.
  intros Hs Hm Hp. unfold reshape. rewrite Hp, Hs.
  cbn [resolve_dims]. unfold resolve_dim at 1 2. cbn [Z.eqb nth_error bind].
  rewrite resolve_dim_positive by exact Hm. cbn [bind].
  unfold infer_dims. cbn [filter is_unknown length map known_dim].
  replace (product [b; s; Z.to_nat m] =? b * (s * Z.to_nat m)) with true
    by (symmetry; apply Nat.eqb_eq; cbn [product fold_right]; lia).
  reflexivity.
Qed.

Lemma concat2_time_inv (x y z : tensor R) (b s m b' s' m' : nat) :
  concat2 x y 1 = Ok z -> shape x = [b; s; m] -> shape y = [b'; s'; m'] ->
  b = b' /\ m = m' /\ shape z = [b; s + s'; m].
Proof.
  unfold concat2. intros H Hx Hy. rewrite Hx, Hy in H. cbn [skipn firstn] in H.
  destruct (shape_eqb [b] [b'] && shape_eqb [m] [m']) eqn:E; [|discriminate].
  apply andb_true_iff in E as [E1 E2].
  apply shape_eqb_eq in E1, E2. inversion E1; inversion E2; subst.
  inversion H; subst. cbn [shape app]. auto.
Qed.

Lemma split_heads_reshaped_inv (x y : tensor R) (n_head : Z) (b s hd : nat) :
  split_heads_reshaped x n_head = Ok y -> shape x = [b; s; hd] ->
  exists n d, y = mkT [b; s; n; d] (data x) /\ product [b; s; n; d] = product [b; s; hd].
Proof.
  unfold split_heads_reshaped. intros H Hs.
  apply bind_Ok_inv in H as (h & _ & H).
  apply bind_Ok_inv in H as (d & _ & H).
  pose proof (reshape_product _ _ H) as [Hp Hd].
  apply reshape_copy2 in H as (b' & s' & tl & tl' & Ex & Ey & El).
  rewrite Hs in Ex. inversion Ex; subst.
  destruct tl' as [|n [|d' [|]]]; cbn [length] in El; try discriminate.
  exists n, d'. rewrite Ey, Hs in Hp. split; [|exact Hp].
  destruct y as [shp dat]. cbn [shape data] in *. subst. reflexivity.
Qed.

Lemma dict_item_get {V : Type} (d : dict V) (k : string) (v : V) :
  dict_item d k = Ok v -> dict_get d k = Some v.
Proof. unfold dict_item. destruct (dict_get d k); intros H; inversion H; reflexivity. Qed.

(** What the call leaves in the cache under [key], from the concatenation
    [cat] of the earlier and the new time steps: [cat] with the shape that
    [__split_heads] has given it, which the reshape of the next call undoes. *)
Lemma cached_round_trip (cat kc : tensor R) (n_head d_model : Z) (b s : nat) :
  shape cat = [b; s; Z.to_nat d_model] -> (0 < d_model)%Z ->
  split_heads_reshaped cat n_head = Ok kc ->
  reshape kc [0; 0; d_model]%Z = Ok cat.
Proof.
  intros Hs Hm H.
  eapply split_heads_reshaped_inv in H as (n & d & -> & Hp); [|exact Hs].
  rewrite reshape_flatten with (b := b) (s := s) (tl := [n; d]).
  - cbn [data]. destruct cat as [shp dat]. cbn [shape data] in *. subst. reflexivity.
  - reflexivity.
  - exact Hm.
  - cbn [shape]. rewrite Hp. cbn [product fold_right]. lia.
Qed.

(** X11. When [multi_head_attention] returns with a cache, the cache had
    entries under ["k"] and ["v"], [d_key * n_head] and [d_value * n_head]
    are both [d_model], and the cache returned (the same dictionary,
    updated) holds under ["k"] and ["v"] tensors that
    [reshape(_, [0, 0, d_model])] turns back into the concatenation, along
    the time axis, of the reshaped earlier entry and the new projected keys
    and values; the other entries of the cache are kept. *)
Theorem multi_head_attention_cache (queries : tensor R)
  (keys values attn_bias : option (tensor R)) (d_key d_value d_model n_head : Z)
  (dropout_rate : Q) (c : dict (tensor R)) (cache' : option (dict (tensor R)))
  (param_initializer : option (@initializer R)) (seed : Z) (name : string)
  (out : tensor R) :
  multi_head_attention th queries keys values attn_bias d_key d_value d_model n_head
    dropout_rate (Some c) param_initializer seed name false = Ok (out, cache') ->
  (d_key * n_head = d_model)%Z /\ (d_value * n_head = d_model)%Z
  /\ exists c' ck cv q k v rk rv kcat vcat kc vc,
      cache' = Some c'
      /\ dict_get c "k" = Some ck /\ dict_get c "v" = Some cv
      /\ __compute_qkv th param_initializer name queries
           (match keys with None => queries | Some k => k end)
           (match values with
            | None => match keys with None => queries | Some k => k end
            | Some v => v
            end) n_head d_key d_value = Ok (q, k, v)
      /\ reshape ck [0; 0; d_model]%Z = Ok rk /\ concat2 rk k 1 = Ok kcat
      /\ reshape cv [0; 0; d_model]%Z = Ok rv /\ concat2 rv v 1 = Ok vcat
      /\ dict_get c' "k" = Some kc /\ reshape kc [0; 0; d_model]%Z = Ok kcat
      /\ dict_get c' "v" = Some vc /\ reshape vc [0; 0; d_model]%Z = Ok vcat
      /\ (forall key, key <> "k"%string -> key <> "v"%string ->
                      dict_get c' key = dict_get c key).
Proof.
  unfold multi_head_attention. intros H.
  set (ks := match keys with None => queries | Some k => k end) in *.
  set (vs := match values with None => ks | Some v => v end) in *.
  destruct ((rank queries =? 3) && (rank ks =? 3) && (rank vs =? 3)) eqn:Er;
    [|discriminate].
  apply andb_true_iff in Er as [Er Er3]. apply andb_true_iff in Er as [Er1 Er2].
  apply Nat.eqb_eq, rank3_shape in Er1 as (B & Sq & Dq & Hq).
  apply Nat.eqb_eq, rank3_shape in Er2 as (Bk & Sk & Dk & Hk).
  apply Nat.eqb_eq, rank3_shape in Er3 as (Bv & Sv & Dv & Hv).
  cbn [negb] in H.
  apply bind_Ok_inv in H as ([[q k] v] & Eqkv & H).
  apply bind_Ok_inv in H as ([[k1 v1] c1] & Euse & H).
  apply bind_Ok_inv in H as (_q & _ & H).
  apply bind_Ok_inv in H as (_k & _ & H).
  apply bind_Ok_inv in H as (_v & _ & H).
  apply bind_Ok_inv in H as (c2 & Eafter & H).
  apply bind_Ok_inv in H as (ctx & _ & H).
  apply bind_Ok_inv in H as (o & _ & H).
  apply bind_Ok_inv in H as (p & Ep & H).
  inversion H; subst; clear H.
  apply shape_fc in Ep as (_ & Hdm & _).
  pose proof Eqkv as Eqkv'. unfold __compute_qkv in Eqkv'.
  apply bind_Ok_inv in Eqkv' as (q0 & _ & Eqkv').
  apply bind_Ok_inv in Eqkv' as (k0 & Ek0 & Eqkv').
  apply bind_Ok_inv in Eqkv' as (v0 & Ev0 & Eqkv').
  inversion Eqkv'; subst; clear Eqkv'.
  apply shape_fc in Ek0 as (Eks & Hkk & _). rewrite Hk in Eks. cbn [firstn app] in Eks.
  apply shape_fc in Ev0 as (Evs & Hvv & _). rewrite Hv in Evs. cbn [firstn app] in Evs.
  unfold use_cache in Euse.
  apply bind_Ok_inv in Euse as (ck & Eck & Euse).
  apply bind_Ok_inv in Euse as (rk & Erk & Euse).
  apply bind_Ok_inv in Euse as (kcat & Ekcat & Euse).
  apply bind_Ok_inv in Euse as (cv & Ecv & Euse).
  apply bind_Ok_inv in Euse as (rv & Erv & Euse).
  apply bind_Ok_inv in Euse as (vcat & Evcat & Euse).
  inversion Euse; subst; clear Euse.
  apply dict_item_get in Eck, Ecv.
  rewrite dict_get_set_other in Ecv by discriminate.
  destruct (reshape_flatten_inv _ Erk Hdm) as (b1 & s1 & tl1 & Hck & ->).
  destruct (reshape_flatten_inv _ Erv Hdm) as (b2 & s2 & tl2 & Hcv & ->).
  destruct (concat2_time_inv _ _ Ekcat eq_refl Eks) as (-> & Em1 & Hkcat).
  destruct (concat2_time_inv _ _ Evcat eq_refl Evs) as (-> & Em2 & Hvcat).
  unfold cache_after in Eafter.
  apply bind_Ok_inv in Eafter as (kc & Ekc & Eafter).
  apply bind_Ok_inv in Eafter as (vc & Evc & Eafter).
  inversion Eafter; subst; clear Eafter.
  split; [lia|]. split; [lia|].
  exists (dict_set (dict_set (dict_set (dict_set c "k" k1) "v" v1) "k" kc) "v" vc).
  exists ck, cv, q, k, v.
  exists (mkT [Bk; s1; Z.to_nat d_model] (data ck)).
  exists (mkT [Bv; s2; Z.to_nat d_model] (data cv)).
  exists k1, v1, kc, vc.
  repeat split; try assumption.
  - rewrite dict_get_set_other by discriminate. apply dict_get_set.
  - eapply cached_round_trip; eassumption.
  - apply dict_get_set.
  - eapply cached_round_trip; eassumption.
  - intros key H1 H2.
    rewrite !dict_get_set_other by congruence. reflexivity.
Qed.
(** The shape that [__split_heads] gives its input before the transpose:
    the reshape returns for a positive number of heads only. *)
Lemma split_heads_reshaped_shape (x y : tensor R) (n_head : Z) (b s hd : nat) :
  split_heads_reshaped x n_head = Ok y -> shape x = [b; s; hd] -> 0 < hd ->
  (0 < n_head)%Z
  /\ shape y = [b; s; Z.to_nat n_head; Z.to_nat (Z.of_nat hd / n_head)].
Proof.
  unfold split_heads_reshaped. intros H Hs Hhd.
  assert (Hi : shape_item x (-1) = Ok (Z.of_nat hd))
    by (unfold shape_item, rank; rewrite Hs; reflexivity).
  rewrite Hi in H. cbn [bind] in H. unfold floordiv in H.
  destruct (n_head =? 0)%Z eqn:E0; [discriminate H|]. apply Z.eqb_neq in E0.
  cbn [bind] in H. unfold reshape in H. rewrite Hs in H.
  cbn [resolve_dims] in H. unfold resolve_dim at 1 2 in H.
  cbn [Z.eqb nth_error bind] in H.
  set (d := (Z.of_nat hd / n_head)%Z) in *.
  unfold resolve_dim in H. rewrite (proj2 (Z.eqb_neq n_head 0) E0) in H.
  cbn [nth_error] in H.
  destruct (n_head =? -1)%Z eqn:E1.
  { apply Z.eqb_eq in E1.
    assert (Hd : (d = - Z.of_nat hd)%Z).
    { subst d. rewrite E1. change (-1)%Z with (- (1))%Z.
      rewrite Z.div_opp_r_z by (try lia; apply Z.mod_1_r). rewrite Z.div_1_r. reflexivity. }
    destruct (d =? 0)%Z eqn:D0; [apply Z.eqb_eq in D0; lia|].
    destruct (d =? -1)%Z eqn:D1.
    { cbn [bind] in H. unfold infer_dims in H.
      cbn [filter is_unknown length] in H. discriminate H. }
    destruct (0 <? d)%Z eqn:D2; [apply Z.ltb_lt in D2; lia|]. discriminate H. }
  destruct (0 <? n_head)%Z eqn:E2; [|discriminate H]. apply Z.ltb_lt in E2.
  cbn [bind] in H.
  assert (Hd0 : (0 <= d)%Z) by (subst d; apply Z.div_pos; lia).
  destruct (d =? 0)%Z eqn:D0; [discriminate H|].
  destruct (d =? -1)%Z eqn:D1; [apply Z.eqb_eq in D1; lia|].
  destruct (0 <? d)%Z eqn:D2; [|discriminate H].
  cbn [bind] in H. unfold infer_dims in H.
  cbn [filter is_unknown length map known_dim] in H.
  destruct (_ =? _); [|discriminate H]. cbn [bind] in H. inversion H; subst y.
  split; [exact E2|reflexivity].
Qed.

(** X12. When [multi_head_attention] returns with a cache whose entries
    under ["k"] and ["v"] have [S0] time steps, and the keys and values
    have [Sk], the entries of the cache returned have the shapes
    [B; S0 + Sk; n_head; d_key] and [B; S0 + Sk; n_head; d_value]: the
    cache grows by the time steps of the call, and [n_head] is positive. *)
Theorem multi_head_attention_cache_grows (queries : tensor R)
  (keys values attn_bias : option (tensor R)) (d_key d_value d_model n_head : Z)
  (dropout_rate : Q) (c : dict (tensor R)) (cache' : option (dict (tensor R)))
  (param_initializer : option (@initializer R)) (seed : Z) (name : string)
  (out : tensor R) :
  multi_head_attention th queries keys values attn_bias d_key d_value d_model n_head
    dropout_rate (Some c) param_initializer seed name false = Ok (out, cache') ->
  exists c' ck cv kc vc B S0 Sk Dk tlk B' S0' Sk' Dv tlv,
    cache' = Some c'
    /\ dict_get c "k" = Some ck /\ shape ck = B :: S0 :: tlk
    /\ shape (match keys with None => queries | Some k => k end) = [B; Sk; Dk]
    /\ dict_get c' "k" = Some kc
    /\ shape kc = [B; S0 + Sk; Z.to_nat n_head; Z.to_nat d_key]
    /\ dict_get c "v" = Some cv /\ shape cv = B' :: S0' :: tlv
    /\ shape (match values with
              | None => match keys with None => queries | Some k => k end
              | Some v => v
              end) = [B'; Sk'; Dv]
    /\ dict_get c' "v" = Some vc
    /\ shape vc = [B'; S0' + Sk'; Z.to_nat n_head; Z.to_nat d_value]
    /\ (0 < n_head)%Z.
Proof.
  unfold multi_head_attention. intros H.
  set (ks := match keys with None => queries | Some k => k end) in *.
  set (vs := match values with None => ks | Some v => v end) in *.
  destruct ((rank queries =? 3) && (rank ks =? 3) && (rank vs =? 3)) eqn:Er;
    [|discriminate].
  apply andb_true_iff in Er as [Er Er3]. apply andb_true_iff in Er as [Er1 Er2].
  apply Nat.eqb_eq, rank3_shape in Er2 as (Bk & Sk & Dk & Hk).
  apply Nat.eqb_eq, rank3_shape in Er3 as (Bv & Sv & Dv & Hv).
  cbn [negb] in H.
  apply bind_Ok_inv in H as ([[q k] v] & Eqkv & H).
  apply bind_Ok_inv in H as ([[k1 v1] c1] & Euse & H).
  apply bind_Ok_inv in H as (_q & _ & H).
  apply bind_Ok_inv in H as (_k & _ & H).
  apply bind_Ok_inv in H as (_v & _ & H).
  apply bind_Ok_inv in H as (c2 & Eafter & H).
  apply bind_Ok_inv in H as (ctx & _ & H).
  apply bind_Ok_inv in H as (o & _ & H).
  apply bind_Ok_inv in H as (p & Ep & H).
  inversion H; subst; clear H.
  apply shape_fc in Ep as (_ & Hdm & _).
  unfold __compute_qkv in Eqkv.
  apply bind_Ok_inv in Eqkv as (q0 & _ & Eqkv).
  apply bind_Ok_inv in Eqkv as (k0 & Ek0 & Eqkv).
  apply bind_Ok_inv in Eqkv as (v0 & Ev0 & Eqkv).
  inversion Eqkv; subst; clear Eqkv.
  apply shape_fc in Ek0 as (Eks & Hkk & _). rewrite Hk in Eks. cbn [firstn app] in Eks.
  apply shape_fc in Ev0 as (Evs & Hvv & _). rewrite Hv in Evs. cbn [firstn app] in Evs.
  unfold use_cache in Euse.
  apply bind_Ok_inv in Euse as (ck & Eck & Euse).
  apply bind_Ok_inv in Euse as (rk & Erk & Euse).
  apply bind_Ok_inv in Euse as (kcat & Ekcat & Euse).
  apply bind_Ok_inv in Euse as (cv & Ecv & Euse).
  apply bind_Ok_inv in Euse as (rv & Erv & Euse).
  apply bind_Ok_inv in Euse as (vcat & Evcat & Euse).
  inversion Euse; subst; clear Euse.
  apply dict_item_get in Eck, Ecv.
  rewrite dict_get_set_other in Ecv by discriminate.
  destruct (reshape_flatten_inv _ Erk Hdm) as (b1 & s1 & tl1 & Hck & ->).
  destruct (reshape_flatten_inv _ Erv Hdm) as (b2 & s2 & tl2 & Hcv & ->).
  destruct (concat2_time_inv _ _ Ekcat eq_refl Eks) as (-> & Em1 & Hkcat).
  destruct (concat2_time_inv _ _ Evcat eq_refl Evs) as (-> & Em2 & Hvcat).
  unfold cache_after in Eafter.
  apply bind_Ok_inv in Eafter as (kc & Ekc & Eafter).
  apply bind_Ok_inv in Eafter as (vc & Evc & Eafter).
  inversion Eafter; subst; clear Eafter.
  eapply split_heads_reshaped_shape in Ekc as (Hn & Hkc); [|exact Hkcat|lia].
  eapply split_heads_reshaped_shape in Evc as (_ & Hvc); [|exact Hvcat|lia].
  rewrite Z2Nat.id in Hkc, Hvc by lia.
  assert (Hdk : (d_model / n_head = d_key)%Z) by (symmetry; apply Z.div_unique_exact; lia).
  assert (Hdv : (d_model / n_head = d_value)%Z) by (symmetry; apply Z.div_unique_exact; lia).
  rewrite Hdk in Hkc. rewrite Hdv in Hvc.
  exists (dict_set (dict_set (dict_set (dict_set c "k" k1) "v" v1) "k" kc) "v" vc).
  exists ck, cv, kc, vc, Bk, s1, Sk, Dk, tl1, Bv, s2, Sv, Dv, tl2.
  repeat split; try assumption.
  - rewrite dict_get_set_other by discriminate. apply dict_get_set.
  - apply dict_get_set.
Qed.
End CacheProperties.

Lemma multi_head_attention_cache_witness :
  exists out c' kc rk,
    multi_head_attention empty_scope (ones [1; 1; 2]) None None None 1 1 2 2 0
      (Some [("k"%string, ones [1; 1; 2; 1]); ("v"%string, ones [1; 1; 2; 1])])
      None 0 "att" false = Ok (out, Some c')
    /\ dict_get c' "k" = Some kc /\ reshape kc [0; 0; 2]%Z = Ok rk
    /\ shape rk = [1; 2; 2].
Proof.
  destruct (multi_head_attention empty_scope (ones [1; 1; 2]) None None None 1 1 2 2 0
      (Some [("k"%string, ones [1; 1; 2; 1]); ("v"%string, ones [1; 1; 2; 1])])
      None 0 "att" false) as [[out cache']|e] eqn:E;
    [|vm_compute in E; discriminate E].
  pose proof E as H.
  apply multi_head_attention_cache in H
    as (_ & _ & c' & ck & cv & q & k & v & rk & rv & kcat & vcat & kc & vc
        & -> & Hck & _ & _ & Hrk & Hcat & _ & _ & Hkc & Hr & _).
  exists out, c', kc, kcat. repeat split; try assumption.
  vm_compute in E. inversion E; subst. vm_compute in Hkc. inversion Hkc; subst.
  vm_compute in Hr. inversion Hr. reflexivity.
Defined.

Lemma multi_head_attention_cache_grows_witness :
  exists out c' kc vc,
    multi_head_attention empty_scope (ones [1; 1; 2]) None None None 1 1 2 2 0
      (Some [("k"%string, ones [1; 3; 2; 1]); ("v"%string, ones [1; 3; 2; 1])])
      None 0 "att" false = Ok (out, Some c')
    /\ dict_get c' "k" = Some kc /\ shape kc = [1; 4; 2; 1]
    /\ dict_get c' "v" = Some vc /\ shape vc = [1; 4; 2; 1].
Proof.
  destruct (multi_head_attention empty_scope (ones [1; 1; 2]) None None None 1 1 2 2 0
      (Some [("k"%string, ones [1; 3; 2; 1]); ("v"%string, ones [1; 3; 2; 1])])
      None 0 "att" false) as [[out cache']|e] eqn:E;
    [|vm_compute in E; discriminate E].
  pose proof E as H.
  apply multi_head_attention_cache_grows in H
    as (c' & ck & cv & kc & vc & B & S0 & Sk & Dk & tlk & B' & S0' & Sk' & Dv & tlv
        & -> & Hck & Hsk & Hk & Hkc & Hshk & Hcv & Hsv & Hv & Hvc & Hshv & _).
  exists out, c', kc, vc.
  inversion Hck; subst ck. inversion Hcv; subst cv.
  inversion Hsk; inversion Hk; inversion Hsv; inversion Hv; subst.
  auto.
Defined.

(** ** The exceptions of the layers *)

Lemma framework_raises_only (value zero negative : Prop) (key unbound : string -> Prop)
  {A : Type} (r : result A) :
  raises_in framework r -> raises_in (raises_only value zero negative key unbound) r.
Proof. apply raises_in_weaken. intros []; simpl; auto; contradiction. Qed.

Section Exceptions.
Context {R : Type} {K : Kernels R}.
Variable th : @scope R.

Lemma get_param_framework pa b shp : raises_in framework (get_param th pa b shp).
Proof. unfold get_param; raises. Qed.

Lemma resolve_dims_framework xs spec :
  forall i, raises_in framework (resolve_dims xs i spec).
Proof.
  induction spec as [|s spec IH]; intros i; simpl; [raises|].
  apply raises_in_bind; [unfold resolve_dim; raises|intros].
  apply raises_in_bind; [apply IH|intros; raises].
Qed.

Lemma reshape_framework (x : tensor R) spec : raises_in framework (reshape x spec).
Proof.
  unfold reshape. apply raises_in_bind; [apply resolve_dims_framework|intros].
  unfold infer_dims; raises.
Qed.

Lemma transpose_framework (x : tensor R) perm : raises_in framework (transpose x perm).
Proof. unfold transpose; raises. Qed.

Lemma matmul_framework (x y : tensor R) b : raises_in framework (matmul x y b).
Proof. unfold matmul; raises. Qed.

Lemma softmax_framework (x : tensor R) : raises_in framework (softmax x).
Proof. unfold softmax; raises. Qed.

Lemma elementwise_add_framework (x y : tensor R) :
  raises_in framework (elementwise_add x y).
Proof. unfold elementwise_add; raises. Qed.

#[local] Hint Resolve get_param_framework reshape_framework transpose_framework
  matmul_framework softmax_framework elementwise_add_framework : raises.

Lemma layer_norm_framework (x : tensor R) ax pa ba :
  raises_in framework (layer_norm th x ax pa ba).
Proof. unfold layer_norm; raises. Qed.

Lemma fc_framework (x : tensor R) size nfd act pa ba :
  raises_in framework (fc th x size nfd act pa ba).
Proof. unfold fc; raises. Qed.

Lemma concat2_framework (x y : tensor R) axis : raises_in framework (concat2 x y axis).
Proof. unfold concat2; raises. Qed.

#[local] Hint Resolve layer_norm_framework fc_framework concat2_framework : raises.

Lemma compute_qkv_framework pinit name (q k v : tensor R) nh dk dv :
  raises_in framework (__compute_qkv th pinit name q k v nh dk dv).
Proof. unfold __compute_qkv; raises. Qed.

Lemma positionwise_feed_forward_framework x di dh rate act pinit seed name debug :
  raises_in framework (positionwise_feed_forward th x di dh rate act pinit seed name debug).
Proof. unfold positionwise_feed_forward; raises. Qed.

Lemma process_cmd_loop_framework prev rate seed name debug cmds :
  forall out dd,
    raises_in framework (process_cmd_loop th prev rate seed name debug cmds out dd).
Proof.
  induction cmds as [|c cmds IH]; intros out dd; simpl; [raises|].
  apply raises_in_bind; [unfold process_cmd_step; raises|intros; apply IH].
Qed.

Lemma pre_post_process_layer_framework prev out cmds rate seed name debug :
  raises_in framework (pre_post_process_layer th prev out cmds rate seed name debug).
Proof.
  unfold pre_post_process_layer.
  apply raises_in_bind; [apply process_cmd_loop_framework|intros; raises].
Qed.

(** [x.shape[-1]] of a tensor with an axis. *)
Lemma shape_item_last (x : tensor R) :
  0 < rank x -> exists h, shape_item x (-1) = Ok h.
Proof.
  intros Hr. unfold shape_item. cbn [Z.ltb Z.compare].
  replace ((0 <=? Z.of_nat (rank x) + -1)%Z && (Z.of_nat (rank x) + -1 <? Z.of_nat (rank x))%Z)
    with true
    by (symmetry; apply andb_true_iff; split; [apply Z.leb_le|apply Z.ltb_lt]; lia).
  eauto.
Qed.

Section Attention.
Variables (n_head d_key : Z).

Lemma split_heads_reshaped_raises (x : tensor R) :
  0 < rank x -> raises_in (heads_raises n_head d_key) (split_heads_reshaped x n_head).
Proof.
  intros Hr. unfold split_heads_reshaped.
  destruct (shape_item_last x Hr) as [h ->]. cbn [bind].
  unfold floordiv. destruct (n_head =? 0)%Z eqn:E.
  - apply Z.eqb_eq in E. apply raises_in_Raise. left. exact E.
  - cbn [bind]. apply framework_raises_only, reshape_framework.
Qed.

Lemma split_heads_raises (x : tensor R) :
  0 < rank x -> raises_in (heads_raises n_head d_key) (__split_heads x n_head).
Proof.
  intros Hr. unfold __split_heads.
  apply raises_in_bind; [apply split_heads_reshaped_raises, Hr|intros].
  apply framework_raises_only, transpose_framework.
Qed.

Lemma scaled_dot_product_attention_raises seed (q k v : tensor R) bias rate :
  raises_in (heads_raises n_head d_key) (scaled_dot_product_attention seed q k v bias d_key rate).
Proof.
  unfold scaled_dot_product_attention, pow_neg_half_attr.
  destruct (d_key =? 0)%Z eqn:E0.
  { apply Z.eqb_eq in E0. apply raises_in_Raise. right. exact E0. }
  destruct (d_key <? 0)%Z eqn:E1.
  { apply Z.ltb_lt in E1. apply raises_in_Raise. exact E1. }
  cbn [bind]. apply framework_raises_only. raises.
Qed.

Lemma combine_heads_raises (x : tensor R) :
  rank x = 4 -> raises_in (heads_raises n_head d_key) (__combine_heads x).
Proof.
  intros Hr. unfold __combine_heads. rewrite Hr. cbn [Nat.eqb negb].
  apply raises_in_bind_eq; [apply framework_raises_only, transpose_framework|].
  intros t Et. apply rank_transpose in Et. rewrite Hr in Et.
  change 2%Z with (Z.of_nat 2). change 3%Z with (Z.of_nat 3).
  rewrite !shape_item_at by lia.
  cbn [bind]. apply framework_raises_only, reshape_framework.
Qed.
End Attention.

Lemma heads_raises_weaken (n_head d_key : Z) (value : Prop) (key unbound : string -> Prop)
  {A : Type} (r : result A) :
  raises_in (heads_raises n_head d_key) r ->
  raises_in (raises_only value (n_head = 0 \/ d_key = 0)%Z (d_key < 0)%Z key unbound) r.
Proof. apply raises_in_weaken. intros []; simpl; auto; contradiction. Qed.

Lemma rank_fc (x y : tensor R) size act pa ba :
  fc th x size 2 act pa ba = Ok y -> rank y = 3.
Proof.
  intros H. apply shape_fc in H as (H & _ & Hr). unfold rank in *.
  rewrite H, length_app, length_firstn. cbn [length]. lia.
Qed.

Lemma rank_concat2 (x y z : tensor R) axis : concat2 x y axis = Ok z -> 0 < rank z.
Proof.
  unfold concat2. destruct (skipn axis (shape x)) as [|a post]; [discriminate|].
  destruct (skipn axis (shape y)) as [|b post']; [discriminate|].
  destruct (_ && _); [|discriminate]. intros H; inversion H; subst.
  unfold rank. cbn [shape]. rewrite length_app. cbn [length]. lia.
Qed.

Lemma use_cache_raises cache dm (k v : tensor R) :
  raises_in (raises_only False False False (cache_lacks cache) (fun _ => False))
    (use_cache cache dm k v).
Proof.
  unfold use_cache. destruct cache as [c|]; [|apply raises_in_Ok].
  unfold dict_item at 1. destruct (dict_get c "k") as [ck|] eqn:Ek.
  2:{ apply raises_in_Raise. exists c. auto. }
  cbn [bind].
  apply raises_in_bind; [apply framework_raises_only, reshape_framework|intros rk].
  apply raises_in_bind; [apply framework_raises_only, concat2_framework|intros k'].
  unfold dict_item. rewrite dict_get_set_other by discriminate.
  destruct (dict_get c "v") as [cv|] eqn:Ev.
  2:{ apply raises_in_Raise. exists c. auto. }
  cbn [bind].
  apply raises_in_bind; [apply framework_raises_only, reshape_framework|intros rv].
  apply raises_in_bind; [apply framework_raises_only, concat2_framework|intros v'].
  apply raises_in_Ok.
Qed.

Lemma rank_use_cache cache dm (k v k' v' : tensor R) c' :
  use_cache cache dm k v = Ok (k', v', c') ->
  0 < rank k -> 0 < rank v -> 0 < rank k' /\ 0 < rank v'.
Proof.
  unfold use_cache. destruct cache as [c|].
  - intros H _ _.
    apply bind_Ok_inv in H as (ck & _ & H).
    apply bind_Ok_inv in H as (rk & _ & H).
    apply bind_Ok_inv in H as (k1 & Ek & H).
    apply bind_Ok_inv in H as (cv & _ & H).
    apply bind_Ok_inv in H as (rv & _ & H).
    apply bind_Ok_inv in H as (v1 & Ev & H).
    inversion H; subst. split; eapply rank_concat2; eassumption.
  - intros H; inversion H; subst. auto.
Qed.

Lemma multi_head_attention_raises (queries : tensor R)
  (keys values attn_bias : option (tensor R)) (d_key d_value d_model n_head : Z)
  (dropout_rate : Q) (cache : option (dict (tensor R)))
  (param_initializer : option (@initializer R)) (seed : Z) (name : string)
  (debug : bool) :
  raises_in
    (raises_only
       (~ (rank queries = 3
           /\ rank (match keys with None => queries | Some k => k end) = 3
           /\ rank (match values with
                    | None => match keys with None => queries | Some k => k end
                    | Some v => v
                    end) = 3))
       (n_head = 0 \/ d_key = 0)%Z (d_key < 0)%Z
       (cache_lacks cache) (fun _ => False))
    (multi_head_attention th queries keys values attn_bias d_key d_value d_model n_head
       dropout_rate cache param_initializer seed name debug).
Proof.
  unfold multi_head_attention.
  set (ks := match keys with None => queries | Some k => k end).
  set (vs := match values with None => ks | Some v => v end).
  destruct ((rank queries =? 3) && (rank ks =? 3) && (rank vs =? 3)) eqn:Er; cbn [negb].
  2:{ apply raises_in_Raise. intros (H1 & H2 & H3).
      rewrite H1, H2, H3 in Er. discriminate Er. }
  apply raises_in_bind_eq;
    [apply framework_raises_only, compute_qkv_framework|intros [[q k] v] Eqkv].
  unfold __compute_qkv in Eqkv.
  apply bind_Ok_inv in Eqkv as (q0 & Eq0 & Eqkv).
  apply bind_Ok_inv in Eqkv as (k0 & Ek0 & Eqkv).
  apply bind_Ok_inv in Eqkv as (v0 & Ev0 & Eqkv).
  inversion Eqkv; subst; clear Eqkv.
  apply rank_fc in Eq0, Ek0, Ev0.
  apply raises_in_bind_eq.
  { eapply raises_in_weaken; [|apply use_cache_raises].
    intros []; simpl; auto; contradiction. }
  intros [[k1 v1] c1] Euse.
  apply rank_use_cache in Euse as [Hk1 Hv1]; [|lia|lia].
  apply raises_in_bind_eq;
    [apply heads_raises_weaken, split_heads_raises; lia|intros _q Esq].
  apply raises_in_bind; [apply heads_raises_weaken, split_heads_raises; lia|intros _k].
  apply raises_in_bind; [apply heads_raises_weaken, split_heads_raises; lia|intros _v].
  apply raises_in_bind.
  { unfold cache_after. destruct c1 as [c1|]; [|apply raises_in_Ok].
    apply raises_in_bind;
      [apply heads_raises_weaken, split_heads_reshaped_raises; lia|intros].
    apply raises_in_bind;
      [apply heads_raises_weaken, split_heads_reshaped_raises; lia|intros].
    apply raises_in_Ok. }
  intros c2.
  apply raises_in_bind_eq;
    [apply heads_raises_weaken, scaled_dot_product_attention_raises|intros ctx Ectx].
  apply rank_scaled_dot_product_attention in Ectx.
  apply rank_split_heads in Esq.
  apply raises_in_bind;
    [apply heads_raises_weaken, combine_heads_raises; congruence|intros o].
  apply raises_in_bind; [apply framework_raises_only, fc_framework|intros p].
  apply raises_in_Ok.
Qed.

(** X13. The exceptions of [multi_head_attention]: a [ValueError] tells that
    the queries, keys and values are not all 3-D, a [ZeroDivisionError]
    that [n_head] or [d_key] is zero ([hidden_size // n_head] and
    [d_key ** -0.5]), a [TypeError] that [d_key] is negative (the float
    [d_key ** -0.5] given as an int attribute is then complex), a
    [KeyError] that the cache lacks the key, ["k"] or ["v"], that it names;
    the call raises no [IndexError] and no [UnboundLocalError]; the other
    exceptions are those of the layers of the framework. *)
Theorem multi_head_attention_exceptions (queries : tensor R)
  (keys values attn_bias : option (tensor R)) (d_key d_value d_model n_head : Z)
  (dropout_rate : Q) (cache : option (dict (tensor R)))
  (param_initializer : option (@initializer R)) (seed : Z) (name : string)
  (debug : bool) :
  raises_in
    (raises_only
       (~ (rank queries = 3
           /\ rank (match keys with None => queries | Some k => k end) = 3
           /\ rank (match values with
                    | None => match keys with None => queries | Some k => k end
                    | Some v => v
                    end) = 3))
       (n_head = 0 \/ d_key = 0)%Z (d_key < 0)%Z
       (cache_lacks cache) (fun _ => False))
    (multi_head_attention th queries keys values attn_bias d_key d_value d_model n_head
       dropout_rate cache param_initializer seed name debug).
Proof. apply multi_head_attention_raises. Qed.

Lemma encoder_layer_raises (enc_input : tensor R) (attn_bias : option (tensor R))
  (n_head d_key d_value d_model d_inner_hid : Z)
  (prepostprocess_dropout attention_dropout relu_dropout : Q)
  (hidden_act : option string) (preprocess_cmd postprocess_cmd : string)
  (param_initializer : option (@initializer R)) (seed : Z) (name : string)
  (debug : bool) :
  raises_in
    (raises_only (rank enc_input <> 3) (n_head = 0 \/ d_key = 0)%Z (d_key < 0)%Z
       (fun _ => False) (fun _ => False))
    (encoder_layer th enc_input attn_bias n_head d_key d_value d_model d_inner_hid
       prepostprocess_dropout attention_dropout relu_dropout hidden_act
       preprocess_cmd postprocess_cmd param_initializer seed name debug).
Proof.
  unfold encoder_layer, pre_process_layer, post_process_layer.
  apply raises_in_bind_eq;
    [apply framework_raises_only, pre_post_process_layer_framework|intros pre Epre].
  apply rank_pre_post_process_layer in Epre.
  apply raises_in_bind.
  { eapply raises_in_weaken;
      [|apply multi_head_attention_raises with (debug := false)].
    intros []; simpl; auto.
    - intros Hn Hr. apply Hn. rewrite Epre. auto.
    - intros (c & Hc & _). discriminate Hc. }
  intros [att c].
  apply raises_in_bind;
    [apply framework_raises_only, pre_post_process_layer_framework|intros].
  apply raises_in_bind;
    [apply framework_raises_only, pre_post_process_layer_framework|intros].
  apply raises_in_bind;
    [apply framework_raises_only, positionwise_feed_forward_framework|intros].
  apply raises_in_bind;
    [apply framework_raises_only, pre_post_process_layer_framework|intros].
  apply raises_in_Ok.
Qed.

Lemma encoder_co_layer_raises (enc_input enc_vl_input attn_vl_bias : tensor R)
  (co_head co_key co_value co_model d_model d_inner_hid v_model v_inner_hid : Z)
  (prepostprocess_dropout attention_dropout relu_dropout : Q)
  (hidden_act : option string) (preprocess_cmd postprocess_cmd : string)
  (param_initializer : option (@initializer R)) (seed : Z) (name : string)
  (debug : bool) :
  raises_in
    (raises_only (rank enc_input <> 3 \/ rank enc_vl_input <> 3)
       (co_head = 0 \/ co_key = 0)%Z (co_key < 0)%Z (fun _ => False) (fun _ => False))
    (encoder_co_layer th enc_input enc_vl_input attn_vl_bias co_head co_key co_value
       co_model d_model d_inner_hid v_model v_inner_hid prepostprocess_dropout
       attention_dropout relu_dropout hidden_act preprocess_cmd postprocess_cmd
       param_initializer seed name debug).
Proof.
  unfold encoder_co_layer, pre_process_layer, post_process_layer.
  apply raises_in_bind_eq;
    [apply framework_raises_only, pre_post_process_layer_framework|intros pre Epre].
  apply rank_pre_post_process_layer in Epre.
  apply raises_in_bind_eq;
    [apply framework_raises_only, pre_post_process_layer_framework|intros vpre Evpre].
  apply rank_pre_post_process_layer in Evpre.
  apply raises_in_bind; [apply framework_raises_only, transpose_framework|intros bt].
  assert (Hatt : forall q kv bias dm nm,
             (q = pre /\ kv = vpre) \/ (q = vpre /\ kv = pre) ->
             raises_in
               (raises_only (rank enc_input <> 3 \/ rank enc_vl_input <> 3)
                  (co_head = 0 \/ co_key = 0)%Z (co_key < 0)%Z
                  (fun _ => False) (fun _ => False))
               (multi_head_attention th q (Some kv) (Some kv) bias co_key co_value dm
                  co_head attention_dropout None param_initializer seed nm false)).
  { intros q kv bias dm nm Hq.
    eapply raises_in_weaken;
      [|apply multi_head_attention_raises with (debug := false)].
    intros []; simpl; auto.
    - intros Hn.
      destruct (Nat.eq_dec (rank enc_input) 3) as [E1|]; [|auto].
      destruct (Nat.eq_dec (rank enc_vl_input) 3) as [E2|]; [|auto].
      exfalso. apply Hn. destruct Hq as [[-> ->]|[-> ->]]; rewrite Epre, Evpre; auto.
    - intros (c & Hc & _). discriminate Hc. }
  apply raises_in_bind; [apply Hatt; auto|intros [att c]].
  apply raises_in_bind; [apply Hatt; auto|intros [vatt vc]].
  repeat (apply raises_in_bind;
          [first [apply framework_raises_only, pre_post_process_layer_framework
                 |apply framework_raises_only, positionwise_feed_forward_framework]
          |intros]).
  apply raises_in_Ok.
Qed.
End Exceptions.

Section StackExceptions.
Context {R : Type} {K : Kernels R}.
Variable th : @scope R.
Variables (attn_bias attn_image_bias : option (tensor R)) (attn_vl_bias : tensor R).
Variables (n_head d_key d_value d_model d_inner_hid : Z).
Variables (v_head v_key v_value v_model v_inner_hid : Z).
Variables (co_head co_key co_value co_model : Z).
Variables (prepostprocess_dropout attention_dropout relu_dropout : Q).
Variables (hidden_act : option string) (preprocess_cmd postprocess_cmd : string).
Variables (param_initializer : option (@initializer R)) (seed : Z) (name : string).
Variables (x vx : tensor R) (unbound : string -> Prop).

Let run := run_schedule th attn_bias attn_image_bias attn_vl_bias
             n_head d_key d_value d_model d_inner_hid
             v_head v_key v_value v_model v_inner_hid
             co_head co_key co_value co_model
             prepostprocess_dropout attention_dropout relu_dropout
             hidden_act preprocess_cmd postprocess_cmd param_initializer seed name.

Let stack_raises : exn -> Prop :=
  raises_only (rank x <> 3 \/ rank vx <> 3)
    (n_head = 0 \/ d_key = 0 \/ v_head = 0 \/ v_key = 0 \/ co_head = 0 \/ co_key = 0)%Z
    (d_key < 0 \/ v_key < 0 \/ co_key < 0)%Z (fun _ => False) unbound.

(** A stream is 3-D once a layer has returned it; before, it is the input. *)
Let streams_ok (s : tensor R * tensor R) : Prop :=
  (rank (fst s) = 3 \/ rank (fst s) = rank x)
  /\ (rank (snd s) = 3 \/ rank (snd s) = rank vx).

Lemma run_call_raises (c : layer_call) (s : tensor R * tensor R) :
  streams_ok s ->
  raises_in stack_raises (run [c] s)
  /\ forall s', run [c] s = Ok s' -> streams_ok s'.
Proof.
  intros [H1 H2]. unfold run. cbn [run_schedule]. split.
  - apply raises_in_bind; [|intros; apply raises_in_Ok].
    destruct c; cbn [run_call].
    + apply raises_in_bind; [|intros; apply raises_in_Ok].
      eapply raises_in_weaken; [|apply encoder_layer_raises with (debug := false)].
      intros []; simpl; try tauto. intros Hn. destruct H1; [contradiction|left; congruence].
    + apply raises_in_bind; [|intros; apply raises_in_Ok].
      eapply raises_in_weaken; [|apply encoder_layer_raises with (debug := false)].
      intros []; simpl; try tauto. intros Hn. destruct H2; [contradiction|right; congruence].
    + eapply raises_in_weaken; [|apply encoder_co_layer_raises with (debug := false)].
      intros []; simpl; try tauto.
      intros [Hn|Hn]; [destruct H1|destruct H2];
        try contradiction; [left|right]; congruence.
    + apply raises_in_bind; [|intros; apply raises_in_Ok].
      apply framework_raises_only, pre_post_process_layer_framework.
    + apply raises_in_bind; [|intros; apply raises_in_Ok].
      apply framework_raises_only, pre_post_process_layer_framework.
  - intros s' H. apply bind_Ok_inv in H as (s1 & H & E). inversion E; subst s1; clear E.
    unfold streams_ok.
    destruct c; cbn [run_call] in H.
    + apply bind_Ok_inv in H as (o & Eo & H). inversion H; subst; clear H. cbn [fst snd].
      apply rank_encoder_layer in Eo. auto.
    + apply bind_Ok_inv in H as (o & Eo & H). inversion H; subst; clear H. cbn [fst snd].
      apply rank_encoder_layer in Eo. auto.
    + destruct s' as [o vo]. unfold co_layer in H.
      apply rank_encoder_co_layer in H as [Hr Hr']. cbn [fst snd]. auto.
    + apply bind_Ok_inv in H as (o & Eo & H). inversion H; subst; clear H. cbn [fst snd].
      apply rank_pre_post_process_layer in Eo. rewrite Eo. auto.
    + apply bind_Ok_inv in H as (o & Eo & H). inversion H; subst; clear H. cbn [fst snd].
      apply rank_pre_post_process_layer in Eo. rewrite Eo. auto.
Qed.

Lemma run_raises (cs : list layer_call) :
  forall s, streams_ok s -> raises_in stack_raises (run cs s).
Proof.
  induction cs as [|c cs IH]; intros s Hs; [apply raises_in_Ok|].
  change (c :: cs) with ([c] ++ cs). unfold run. rewrite run_app.
  destruct (run_call_raises c Hs) as [Hr Hok].
  apply raises_in_bind_eq; [exact Hr|].
  intros s' Es. apply IH, Hok, Es.
Qed.
End StackExceptions.

Section EncoderExceptions.
Context {R : Type} {K : Kernels R}.
Variable th : @scope R.

(** X14. The exceptions of [encoder], [encoder_layer] and
    [encoder_co_layer]: a [ValueError] tells that an input stream is not
    3-D, a [ZeroDivisionError] that a number of heads or a key width is
    zero, a [TypeError] that a key width is negative; they raise no
    [KeyError] and no [IndexError], and only [encoder] raises an
    [UnboundLocalError], on [enc_output], when the zip of its id lists is
    empty. *)
Theorem encoder_exceptions (x vx : tensor R)
  (attn_bias attn_image_bias : option (tensor R)) (attn_vl_bias : tensor R)
  (n_layer n_head d_key d_value d_model d_inner_hid : Z)
  (v_head v_key v_value v_model v_inner_hid : Z)
  (co_head co_key co_value co_model co_inner_hid : Z)
  (prepostprocess_dropout attention_dropout relu_dropout : Q)
  (hidden_act : option string) (preprocess_cmd postprocess_cmd : string)
  (param_initializer : option (@initializer R))
  (v_biattention_id t_biattention_id : list Z) (seed : Z) (name : string)
  (debug : bool) :
  raises_in
    (raises_only (rank x <> 3 \/ rank vx <> 3)
       (n_head = 0 \/ d_key = 0 \/ v_head = 0 \/ v_key = 0 \/ co_head = 0 \/ co_key = 0)%Z
       (d_key < 0 \/ v_key < 0 \/ co_key < 0)%Z (fun _ => False)
       (fun v => v = "enc_output"%string
                 /\ combine v_biattention_id t_biattention_id = []))
    (encoder th x vx attn_bias attn_image_bias attn_vl_bias
       n_layer n_head d_key d_value d_model d_inner_hid
       v_head v_key v_value v_model v_inner_hid
       co_head co_key co_value co_model co_inner_hid
       prepostprocess_dropout attention_dropout relu_dropout
       hidden_act preprocess_cmd postprocess_cmd param_initializer
       v_biattention_id t_biattention_id seed name debug)
  /\ raises_in
       (raises_only (rank x <> 3) (n_head = 0 \/ d_key = 0)%Z (d_key < 0)%Z
          (fun _ => False) (fun _ => False))
       (encoder_layer th x attn_bias n_head d_key d_value d_model d_inner_hid
          prepostprocess_dropout attention_dropout relu_dropout hidden_act
          preprocess_cmd postprocess_cmd param_initializer seed name debug)
  /\ raises_in
       (raises_only (rank x <> 3 \/ rank vx <> 3)
          (co_head = 0 \/ co_key = 0)%Z (co_key < 0)%Z (fun _ => False) (fun _ => False))
       (encoder_co_layer th x vx attn_vl_bias co_head co_key co_value
          co_model d_model d_inner_hid v_model v_inner_hid prepostprocess_dropout
          attention_dropout relu_dropout hidden_act preprocess_cmd postprocess_cmd
          param_initializer seed name debug).
Proof.
  split; [|split; [apply encoder_layer_raises|apply encoder_co_layer_raises]].
  destruct (combine v_biattention_id t_biattention_id) as [|p ps] eqn:E.
  - unfold encoder. rewrite E. cbn [block_loop bind encoder_tail enc_output local].
    apply raises_in_Raise. cbn. auto.
  - rewrite encoder_run_schedule by (rewrite E; discriminate).
    apply raises_in_bind; [|intros; apply raises_in_Ok].
    rewrite E. apply run_raises. cbn [fst snd]. auto.
Qed.
End EncoderExceptions.

(** ** The layers of ascending id lists *)

Lemma range_nil (lo hi : Z) : (hi <= lo)%Z -> range lo hi = [].
Proof. intros H. unfold range. replace (Z.to_nat (hi - lo)) with 0 by lia. reflexivity. Qed.

Lemma seq_offset (a n : nat) : seq a n = map (Nat.add a) (seq 0 n).
Proof.
  revert a. induction n as [|n IH]; intros a; cbn [seq map]; [reflexivity|].
  f_equal; [lia|]. rewrite (IH (S a)), (IH 1), map_map.
  apply map_ext. intros i. lia.
Qed.

Lemma range_app (lo mid hi : Z) :
  (lo <= mid)%Z -> (mid <= hi)%Z -> range lo mid ++ range mid hi = range lo hi.
Proof.
  intros H1 H2. unfold range.
  replace (Z.to_nat (hi - lo)) with (Z.to_nat (mid - lo) + Z.to_nat (hi - mid)) by lia.
  rewrite seq_app, map_app. f_equal. cbn [Nat.add].
  rewrite (seq_offset (Z.to_nat (mid - lo))), map_map.
  apply map_ext. intros i. lia.
Qed.

Lemma range_snoc (hi : Z) : (0 <= hi)%Z -> range 0 (hi + 1) = range 0 hi ++ [hi].
Proof.
  intros H. rewrite <- (range_app (lo := 0) (mid := hi) (hi := hi + 1)) by lia.
  f_equal. unfold range. replace (Z.to_nat (hi + 1 - hi)) with 1 by lia.
  cbn. f_equal. lia.
Qed.

Lemma last_cons {A : Type} (a d : A) (l : list A) : last (a :: l) d = last l a.
Proof.
  revert a d. induction l as [|b l IH]; intros a d; [reflexivity|].
  change (last (a :: b :: l) d) with (last (b :: l) d). rewrite !IH. reflexivity.
Qed.

Lemma ascending_last (from : Z) (ids : list Z) :
  ascending from ids -> (from <= last ids from)%Z.
Proof.
  revert from. induction ids as [|i ids IH]; intros from H.
  - cbn [last]. lia.
  - destruct H as [H1 H2]. rewrite last_cons. apply IH in H2. lia.
Qed.

Lemma filter_text_text (l : list Z) : filter is_text_layer (map TextLayer l) = map TextLayer l.
Proof. induction l; cbn; congruence. Qed.

Lemma filter_text_vision (l : list Z) : filter is_text_layer (map VisionLayer l) = [].
Proof. induction l; cbn; congruence. Qed.

Lemma filter_vision_vision (l : list Z) :
  filter is_vision_layer (map VisionLayer l) = map VisionLayer l.
Proof. induction l; cbn; congruence. Qed.

Lemma filter_vision_text (l : list Z) : filter is_vision_layer (map TextLayer l) = [].
Proof. induction l; cbn; congruence. Qed.

Lemma filter_co_text (l : list Z) : filter is_co_layer (map TextLayer l) = [].
Proof. induction l; cbn; congruence. Qed.

Lemma filter_co_vision (l : list Z) : filter is_co_layer (map VisionLayer l) = [].
Proof. induction l; cbn; congruence. Qed.

Lemma last_map_snd (pairs : list (Z * Z)) (d : Z * Z) :
  last (map snd pairs) (snd d) = snd (last pairs d).
Proof.
  revert d. induction pairs as [|p pairs IH]; intros d; [reflexivity|].
  cbn [map]. rewrite !last_cons. apply IH.
Qed.

Lemma last_map_fst (pairs : list (Z * Z)) (d : Z * Z) :
  last (map fst pairs) (fst d) = fst (last pairs d).
Proof.
  revert d. induction pairs as [|p pairs IH]; intros d; [reflexivity|].
  cbn [map]. rewrite !last_cons. apply IH.
Qed.

Lemma text_layers_blocks (pairs : list (Z * Z)) :
  forall v_from t_from blk,
    ascending t_from (map snd pairs) ->
    filter is_text_layer (schedule_blocks pairs v_from t_from blk)
    = map TextLayer (range t_from (snd (last pairs (v_from, t_from)))).
Proof.
  induction pairs as [|[v t] pairs IH]; intros v_from t_from blk H.
  - cbn. rewrite range_nil by lia. reflexivity.
  - cbn [map snd ascending] in H. destruct H as [H1 H2].
    cbn [schedule_blocks]. rewrite !filter_app, filter_text_text, filter_text_vision.
    cbn [filter is_text_layer app]. rewrite IH by exact H2.
    rewrite <- map_app, last_cons. f_equal. apply range_app; [exact H1|].
    rewrite <- last_map_snd. apply ascending_last, H2.
Qed.

Lemma vision_layers_blocks (pairs : list (Z * Z)) :
  forall v_from t_from blk,
    ascending v_from (map fst pairs) ->
    filter is_vision_layer (schedule_blocks pairs v_from t_from blk)
    = map VisionLayer (range v_from (fst (last pairs (v_from, t_from)))).
Proof.
  induction pairs as [|[v t] pairs IH]; intros v_from t_from blk H.
  - cbn. rewrite range_nil by lia. reflexivity.
  - cbn [map fst ascending] in H. destruct H as [H1 H2].
    cbn [schedule_blocks]. rewrite !filter_app, filter_vision_vision, filter_vision_text.
    cbn [filter is_vision_layer app]. rewrite IH by exact H2.
    rewrite <- map_app, last_cons. f_equal. apply range_app; [exact H1|].
    rewrite <- last_map_fst. apply ascending_last, H2.
Qed.

Lemma co_layers_blocks (pairs : list (Z * Z)) :
  forall v_from t_from blk,
    filter is_co_layer (schedule_blocks pairs v_from t_from blk)
    = map CoLayer (range blk (blk + Z.of_nat (length pairs))).
Proof.
  induction pairs as [|[v t] pairs IH]; intros v_from t_from blk.
  - cbn. rewrite range_nil by lia. reflexivity.
  - cbn [schedule_blocks]. rewrite !filter_app, filter_co_text, filter_co_vision.
    cbn [filter is_co_layer app]. rewrite IH.
    rewrite <- (range_app (lo := blk) (mid := blk + 1)
                  (hi := blk + Z.of_nat (length ((v, t) :: pairs))))
      by (cbn [length]; lia).
    cbn [length]. rewrite map_app.
    replace (blk + 1 + Z.of_nat (length pairs))%Z
      with (blk + Z.of_nat (S (length pairs)))%Z by lia.
    f_equal. unfold range. replace (Z.to_nat (blk + 1 - blk)) with 1 by lia.
    cbn. do 2 f_equal. lia.
Qed.

Section AscendingIds.
Context {R : Type} {K : Kernels R}.
Variable th : @scope R.

(** X15. When the zip of the id lists has a pair and the ids of each list
    ascend from 0, [encoder] runs each text layer [0 .. t_last] and each
    image layer [0 .. v_last] once, in this order within its stream, and
    one co-attention layer for each pair, [0 .. len - 1]; [t_last] and
    [v_last] are the ids of the last pair. *)
Theorem encoder_ascending_layers (x vx : tensor R)
  (attn_bias attn_image_bias : option (tensor R)) (attn_vl_bias : tensor R)
  (n_layer n_head d_key d_value d_model d_inner_hid : Z)
  (v_head v_key v_value v_model v_inner_hid : Z)
  (co_head co_key co_value co_model co_inner_hid : Z)
  (prepostprocess_dropout attention_dropout relu_dropout : Q)
  (hidden_act : option string) (preprocess_cmd postprocess_cmd : string)
  (param_initializer : option (@initializer R))
  (v_biattention_id t_biattention_id : list Z) (seed : Z) (name : string)
  (debug : bool) :
  let pairs := combine v_biattention_id t_biattention_id in
  let v_last := fst (last pairs (0, 0)%Z) in
  let t_last := snd (last pairs (0, 0)%Z) in
  pairs <> [] ->
  ascending 0 (map fst pairs) -> ascending 0 (map snd pairs) ->
  encoder th x vx attn_bias attn_image_bias attn_vl_bias
    n_layer n_head d_key d_value d_model d_inner_hid
    v_head v_key v_value v_model v_inner_hid
    co_head co_key co_value co_model co_inner_hid
    prepostprocess_dropout attention_dropout relu_dropout
    hidden_act preprocess_cmd postprocess_cmd param_initializer
    v_biattention_id t_biattention_id seed name debug
  = (s <- run_schedule th attn_bias attn_image_bias attn_vl_bias
            n_head d_key d_value d_model d_inner_hid
            v_head v_key v_value v_model v_inner_hid
            co_head co_key co_value co_model
            prepostprocess_dropout attention_dropout relu_dropout
            hidden_act preprocess_cmd postprocess_cmd param_initializer seed name
            (schedule pairs) (x, vx) ;;
     Ok (ret2_of debug s))
  /\ filter is_text_layer (schedule pairs) = map TextLayer (range 0 (t_last + 1))
  /\ filter is_vision_layer (schedule pairs) = map VisionLayer (range 0 (v_last + 1))
  /\ filter is_co_layer (schedule pairs)
     = map CoLayer (range 0 (Z.of_nat (length pairs))).
Proof.
  intros pairs v_last t_last Hne Hv Ht.
  split; [apply encoder_run_schedule; exact Hne|].
  unfold schedule. fold pairs.
  destruct (last pairs (0, 0)%Z) as [v t] eqn:El.
  assert (Hv0 : (0 <= v)%Z).
  { apply ascending_last in Hv. change 0%Z with (fst (0, 0)%Z) in Hv at 2.
    rewrite last_map_fst, El in Hv. exact Hv. }
  assert (Ht0 : (0 <= t)%Z).
  { apply ascending_last in Ht. change 0%Z with (snd (0, 0)%Z) in Ht at 2.
    rewrite last_map_snd, El in Ht. exact Ht. }
  subst v_last t_last. cbn [fst snd].
  rewrite !filter_app, text_layers_blocks, vision_layers_blocks, co_layers_blocks
    by assumption.
  rewrite El. cbn [fst snd filter is_text_layer is_vision_layer is_co_layer].
  rewrite !range_snoc, !map_app, app_nil_r by assumption.
  repeat split; reflexivity.
Qed.
End AscendingIds.

Lemma encoder_ascending_layers_witness :
  filter is_text_layer
    (schedule (combine [0; 1; 2; 3; 4; 5] [18; 19; 20; 21; 22; 23])%Z)
  = map TextLayer (range 0 24)
  /\ filter is_vision_layer
       (schedule (combine [0; 1; 2; 3; 4; 5] [18; 19; 20; 21; 22; 23])%Z)
     = map VisionLayer (range 0 6)
  /\ filter is_co_layer
       (schedule (combine [0; 1; 2; 3; 4; 5] [18; 19; 20; 21; 22; 23])%Z)
     = map CoLayer (range 0 6).
Proof.
  refine (proj2 (@encoder_ascending_layers Z ZKernels empty_scope
                   (ones [1; 1; 2]) (ones [1; 2; 2])
                   (Some (ones [1; 2; 1; 1])) (Some (ones [1; 2; 2; 2]))
                   (ones [1; 2; 2; 1])
                   24 2 1 1 2 4 2 1 1 2 4 2 1 1 2 4 0 0 0 (Some "gelu"%string)
                   "n"%string "da"%string None
                   [0; 1; 2; 3; 4; 5]%Z [18; 19; 20; 21; 22; 23]%Z 0 "encoder"%string
                   false _ _ _)).
  - discriminate.
  - cbn. lia.
  - cbn. lia.
Defined.

(** ** The results depend on the parameters of the layer only *)

Lemma agree_on_app {R : Type} (l l' : list string) (th th' : @scope R) :
  agree_on (l ++ l') th th' <-> agree_on l th th' /\ agree_on l' th th'.
Proof.
  unfold agree_on. split.
  - intros H. split; intros n Hn; apply H, in_or_app; auto.
  - intros [H1 H2] n Hn. apply in_app_or in Hn as [Hn|Hn]; auto.
Qed.

Section Frame.
Context {R : Type} {K : Kernels R}.
Variables th th' : @scope R.

Lemma get_param_agree pa b shp :
  th (pname pa) = th' (pname pa) -> get_param th pa b shp = get_param th' pa b shp.
Proof. intros H. unfold get_param. rewrite H. reflexivity. Qed.

Lemma fc_agree (x : tensor R) size nfd act pa ba :
  th (pname pa) = th' (pname pa) -> th (pname ba) = th' (pname ba) ->
  fc th x size nfd act pa ba = fc th' x size nfd act pa ba.
Proof.
  intros H1 H2. unfold fc. destruct (_ && _); [|reflexivity].
  rewrite (get_param_agree _ _ _ H1), (get_param_agree _ _ _ H2). reflexivity.
Qed.

Lemma layer_norm_agree (x : tensor R) ax pa ba :
  th (pname pa) = th' (pname pa) -> th (pname ba) = th' (pname ba) ->
  layer_norm th x ax pa ba = layer_norm th' x ax pa ba.
Proof.
  intros H1 H2. unfold layer_norm. destruct (_ && _); [|reflexivity].
  rewrite (get_param_agree _ _ _ H1), (get_param_agree _ _ _ H2). reflexivity.
Qed.

Ltac names_agree H := apply H; cbn; tauto.

Lemma multi_head_attention_agree q k v bias dk dv dm nh rate cache pinit seed name debug
  Dq Dk Dv :
  agree_on (map fst (multi_head_attention_params name Dq Dk Dv dk dv dm nh)) th th' ->
  multi_head_attention th q k v bias dk dv dm nh rate cache pinit seed name debug
  = multi_head_attention th' q k v bias dk dv dm nh rate cache pinit seed name debug.
Proof.
  intros H. unfold multi_head_attention, __compute_qkv.
  destruct (negb _); [reflexivity|].
  rewrite (fc_agree _ _ _ _ (mkParamAttr (name +s "_query_fc.w_0") pinit)
             (mkParamAttr (name +s "_query_fc.b_0") None))
    by names_agree H.
  rewrite (fc_agree _ _ _ _ (mkParamAttr (name +s "_key_fc.w_0") pinit)
             (mkParamAttr (name +s "_key_fc.b_0") None))
    by names_agree H.
  rewrite (fc_agree _ _ _ _ (mkParamAttr (name +s "_value_fc.w_0") pinit)
             (mkParamAttr (name +s "_value_fc.b_0") None))
    by names_agree H.
  repeat (apply bind_ext; intros;
          repeat match goal with |- context [match ?p with (_, _) => _ end] => destruct p end).
  apply bind_cong; [|reflexivity].
  apply fc_agree; names_agree H.
Qed.

Lemma positionwise_feed_forward_agree x di dh rate act pinit seed name debug d_in :
  agree_on (map fst (positionwise_feed_forward_params name d_in di dh)) th th' ->
  positionwise_feed_forward th x di dh rate act pinit seed name debug
  = positionwise_feed_forward th' x di dh rate act pinit seed name debug.
Proof.
  intros H. unfold positionwise_feed_forward.
  apply bind_cong; [apply fc_agree; names_agree H|intros hidden].
  apply bind_cong; [apply fc_agree; names_agree H|reflexivity].
Qed.

Lemma has_cmd_cons (c c' : ascii) (cmds : string) :
  has_cmd c (String c' cmds) = Ascii.eqb c c' || has_cmd c cmds.
Proof. reflexivity. Qed.

Lemma process_cmd_loop_agree prev rate seed name debug cmds :
  (has_cmd "n" cmds = true ->
   th (name +s "_layer_norm_scale") = th' (name +s "_layer_norm_scale")
   /\ th (name +s "_layer_norm_bias") = th' (name +s "_layer_norm_bias")) ->
  forall out dd,
    process_cmd_loop th prev rate seed name debug cmds out dd
    = process_cmd_loop th' prev rate seed name debug cmds out dd.
Proof.
  induction cmds as [|c cmds IH]; intros H out dd; [reflexivity|].
  cbn [process_cmd_loop]. rewrite has_cmd_cons in H. apply bind_cong.
  - unfold process_cmd_step. destruct (Ascii.eqb c "a"); [reflexivity|].
    destruct (Ascii.eqb c "n") eqn:En; [|reflexivity].
    rewrite Ascii.eqb_sym, En in H. destruct (H eq_refl) as [H1 H2].
    apply layer_norm_agree; assumption.
  - intros o. apply IH. intros Hc. apply H. rewrite Hc. apply orb_true_r.
Qed.

Lemma pre_post_process_layer_agree prev out cmds rate seed name debug w :
  agree_on (map fst (pre_post_process_layer_params cmds name w)) th th' ->
  pre_post_process_layer th prev out cmds rate seed name debug
  = pre_post_process_layer th' prev out cmds rate seed name debug.
Proof.
  intros H. unfold pre_post_process_layer.
  apply bind_cong; [|reflexivity]. apply process_cmd_loop_agree.
  intros Hc. unfold pre_post_process_layer_params in H. rewrite Hc in H.
  split; names_agree H.
Qed.

Ltac agree_calls :=
  repeat first
    [ apply bind_cong;
      [ first [ eapply pre_post_process_layer_agree with (debug := false); eassumption
              | eapply multi_head_attention_agree with (debug := false); eassumption
              | eapply positionwise_feed_forward_agree with (debug := false); eassumption
              | reflexivity ]
      | intros ]
    | match goal with |- context [match ?p with (_, _) => _ end] => destruct p end ].

Ltac split_agree H :=
  unfold encoder_layer_params, encoder_co_layer_params in H; cbv zeta in H;
  rewrite ?map_app in H;
  repeat match type of H with
         | agree_on (_ ++ _) _ _ =>
             let H1 := fresh "Ha" in
             apply agree_on_app in H as [H1 H]
         end.

Lemma encoder_layer_agree x bias nh dk dv dm di r1 r2 r3 act pre post pinit seed name debug :
  agree_on (map fst (encoder_layer_params name pre post nh dk dv dm di)) th th' ->
  encoder_layer th x bias nh dk dv dm di r1 r2 r3 act pre post pinit seed name debug
  = encoder_layer th' x bias nh dk dv dm di r1 r2 r3 act pre post pinit seed name debug.
Proof.
  intros H. split_agree H.
  unfold encoder_layer, pre_process_layer, post_process_layer.
  agree_calls. reflexivity.
Qed.

Lemma encoder_co_layer_agree x vx bias ch ck cv cm dm di vm vi r1 r2 r3 act pre post
  pinit seed name debug :
  agree_on (map fst (encoder_co_layer_params name pre post ch ck cv dm di vm vi)) th th' ->
  encoder_co_layer th x vx bias ch ck cv cm dm di vm vi r1 r2 r3 act pre post
    pinit seed name debug
  = encoder_co_layer th' x vx bias ch ck cv cm dm di vm vi r1 r2 r3 act pre post
      pinit seed name debug.
Proof.
  intros H. split_agree H.
  unfold encoder_co_layer, pre_process_layer, post_process_layer.
  agree_calls. reflexivity.
Qed.
End Frame.

Section StackFrame.
Context {R : Type} {K : Kernels R}.
Variables th th' : @scope R.
Variables (attn_bias attn_image_bias : option (tensor R)) (attn_vl_bias : tensor R).
Variables (n_head d_key d_value d_model d_inner_hid : Z).
Variables (v_head v_key v_value v_model v_inner_hid : Z).
Variables (co_head co_key co_value co_model : Z).
Variables (prepostprocess_dropout attention_dropout relu_dropout : Q).
Variables (hidden_act : option string) (preprocess_cmd postprocess_cmd : string).
Variables (param_initializer : option (@initializer R)) (seed : Z) (name : string).

Let params := call_params n_head d_key d_value d_model d_inner_hid
                v_head v_key v_value v_model v_inner_hid co_head co_key co_value
                preprocess_cmd postprocess_cmd name.

Lemma run_schedule_agree (cs : list layer_call) :
  agree_on (map fst (flat_map params cs)) th th' ->
  forall s,
    run_schedule th attn_bias attn_image_bias attn_vl_bias
      n_head d_key d_value d_model d_inner_hid
      v_head v_key v_value v_model v_inner_hid
      co_head co_key co_value co_model
      prepostprocess_dropout attention_dropout relu_dropout
      hidden_act preprocess_cmd postprocess_cmd param_initializer seed name cs s
    = run_schedule th' attn_bias attn_image_bias attn_vl_bias
        n_head d_key d_value d_model d_inner_hid
        v_head v_key v_value v_model v_inner_hid
        co_head co_key co_value co_model
        prepostprocess_dropout attention_dropout relu_dropout
        hidden_act preprocess_cmd postprocess_cmd param_initializer seed name cs s.
Proof.
  induction cs as [|c cs IH]; intros H s; [reflexivity|].
  cbn [flat_map] in H. rewrite map_app in H. apply agree_on_app in H as [Hc H].
  cbn [run_schedule]. apply bind_cong; [|intros; apply IH, H].
  destruct c; unfold params in Hc; cbn [call_params] in Hc;
    unfold run_call, text_layer, vision_layer, co_layer, pre_process_layer.
  - apply bind_cong; [apply encoder_layer_agree with (debug := false), Hc|reflexivity].
  - apply bind_cong; [apply encoder_layer_agree with (debug := false), Hc|reflexivity].
  - apply encoder_co_layer_agree with (debug := false), Hc.
  - apply bind_cong; [|reflexivity].
    eapply pre_post_process_layer_agree with (debug := false), Hc.
  - apply bind_cong; [|reflexivity].
    eapply pre_post_process_layer_agree with (debug := false), Hc.
Qed.

(** X16. The result of [encoder] depends on the scope only through the
    parameters of the inventory of its schedule: two scopes that hold the
    same values under these names give the same result. *)
Theorem encoder_reads_its_parameters (x vx : tensor R) (n_layer co_inner_hid : Z)
  (v_biattention_id t_biattention_id : list Z) (debug : bool) :
  agree_on
    (map fst (encoder_params n_head d_key d_value d_model d_inner_hid
                v_head v_key v_value v_model v_inner_hid co_head co_key co_value
                preprocess_cmd postprocess_cmd name v_biattention_id t_biattention_id))
    th th' ->
  encoder th x vx attn_bias attn_image_bias attn_vl_bias
    n_layer n_head d_key d_value d_model d_inner_hid
    v_head v_key v_value v_model v_inner_hid
    co_head co_key co_value co_model co_inner_hid
    prepostprocess_dropout attention_dropout relu_dropout
    hidden_act preprocess_cmd postprocess_cmd param_initializer
    v_biattention_id t_biattention_id seed name debug
  = encoder th' x vx attn_bias attn_image_bias attn_vl_bias
      n_layer n_head d_key d_value d_model d_inner_hid
      v_head v_key v_value v_model v_inner_hid
      co_head co_key co_value co_model co_inner_hid
      prepostprocess_dropout attention_dropout relu_dropout
      hidden_act preprocess_cmd postprocess_cmd param_initializer
      v_biattention_id t_biattention_id seed name debug.
Proof.
  intros H. unfold encoder_params in H.
  destruct (combine v_biattention_id t_biattention_id) as [|p ps] eqn:E.
  - unfold encoder. rewrite E. reflexivity.
  - rewrite !encoder_run_schedule by (rewrite E; discriminate).
    apply bind_cong; [|reflexivity]. rewrite E. apply run_schedule_agree, H.
Qed.
End StackFrame.

(** The names of a concrete inventory differ from the name of [other_scope]. *)
Ltac agree_other :=
  let n := fresh "n" in
  let Hin := fresh "Hin" in
  intros n Hin; unfold other_scope, empty_scope;
  destruct (String.eqb_spec n "unused") as [->|_];
  [exfalso; vm_compute in Hin;
   repeat (destruct Hin as [Hin|Hin]; [discriminate Hin|]); exact Hin
  |reflexivity].

Lemma encoder_reads_its_parameters_witness :
  small_encoder 24 [0%Z] [1%Z] false
  = encoder other_scope (ones [1; 1; 2]) (ones [1; 2; 2])
      (Some (ones [1; 2; 1; 1])) (Some (ones [1; 2; 2; 2])) (ones [1; 2; 2; 1])
      24 2 1 1 2 4 2 1 1 2 4 2 1 1 2 4 0 0 0 (Some "gelu"%string)
      "n"%string "da"%string None [0%Z] [1%Z] 0 "encoder"%string false.
Proof.
  apply (@encoder_reads_its_parameters Z ZKernels empty_scope other_scope).
  agree_other.
Defined.

Section LayerFrame.
Context {R : Type} {K : Kernels R}.
Variables th th' : @scope R.

(** X17. The result of each layer depends on the scope only through the
    parameters that the layer names: eight for [multi_head_attention],
    four for [positionwise_feed_forward], the scale and the bias of the
    layer normalization for [pre_post_process_layer] when it has the
    command ["n"], and those of their parts for [encoder_layer] and
    [encoder_co_layer]. *)
Theorem layers_read_their_parameters (queries x vx out : tensor R)
  (keys values attn_bias prev_out : option (tensor R)) (attn_vl_bias : tensor R)
  (n_head d_key d_value d_model d_inner_hid : Z)
  (co_head co_key co_value co_model v_model v_inner_hid : Z)
  (prepostprocess_dropout attention_dropout relu_dropout : Q)
  (cache : option (dict (tensor R)))
  (hidden_act : option string) (preprocess_cmd postprocess_cmd : string)
  (param_initializer : option (@initializer R)) (seed : Z) (name : string)
  (debug : bool) (Dq Dk Dv d_in w : nat) :
  (agree_on (map fst (multi_head_attention_params name Dq Dk Dv d_key d_value d_model
                        n_head)) th th' ->
   multi_head_attention th queries keys values attn_bias d_key d_value d_model n_head
     attention_dropout cache param_initializer seed name debug
   = multi_head_attention th' queries keys values attn_bias d_key d_value d_model n_head
       attention_dropout cache param_initializer seed name debug)
  /\ (agree_on (map fst (positionwise_feed_forward_params name d_in d_inner_hid d_model))
        th th' ->
      positionwise_feed_forward th x d_inner_hid d_model relu_dropout hidden_act
        param_initializer seed name debug
      = positionwise_feed_forward th' x d_inner_hid d_model relu_dropout hidden_act
          param_initializer seed name debug)
  /\ (agree_on (map fst (pre_post_process_layer_params preprocess_cmd name w)) th th' ->
      pre_post_process_layer th prev_out out preprocess_cmd prepostprocess_dropout
        seed name debug
      = pre_post_process_layer th' prev_out out preprocess_cmd prepostprocess_dropout
          seed name debug)
  /\ (agree_on (map fst (encoder_layer_params name preprocess_cmd postprocess_cmd
                           n_head d_key d_value d_model d_inner_hid)) th th' ->
      encoder_layer th x attn_bias n_head d_key d_value d_model d_inner_hid
        prepostprocess_dropout attention_dropout relu_dropout hidden_act
        preprocess_cmd postprocess_cmd param_initializer seed name debug
      = encoder_layer th' x attn_bias n_head d_key d_value d_model d_inner_hid
          prepostprocess_dropout attention_dropout relu_dropout hidden_act
          preprocess_cmd postprocess_cmd param_initializer seed name debug)
  /\ (agree_on (map fst (encoder_co_layer_params name preprocess_cmd postprocess_cmd
                           co_head co_key co_value d_model d_inner_hid v_model
                           v_inner_hid)) th th' ->
      encoder_co_layer th x vx attn_vl_bias co_head co_key co_value co_model d_model
        d_inner_hid v_model v_inner_hid prepostprocess_dropout attention_dropout
        relu_dropout hidden_act preprocess_cmd postprocess_cmd param_initializer
        seed name debug
      = encoder_co_layer th' x vx attn_vl_bias co_head co_key co_value co_model d_model
          d_inner_hid v_model v_inner_hid prepostprocess_dropout attention_dropout
          relu_dropout hidden_act preprocess_cmd postprocess_cmd param_initializer
          seed name debug).
Proof.
  split; [apply multi_head_attention_agree|].
  split; [apply positionwise_feed_forward_agree|].
  split; [apply pre_post_process_layer_agree|].
  split; [apply encoder_layer_agree|apply encoder_co_layer_agree].
Qed.
End LayerFrame.

Lemma layers_read_their_parameters_witness :
  multi_head_attention empty_scope (ones [1; 2; 3]) None None None 1 1 3 2 0 None None
    0 "att" false
  = multi_head_attention other_scope (ones [1; 2; 3]) None None None 1 1 3 2 0 None
      None 0 "att" false
  /\ encoder_layer empty_scope (ones [1; 1; 2]) None 2 1 1 2 4 0 0 0
       (Some "gelu"%string) "n" "da" None 0 "encoder_layer_0" false
     = encoder_layer other_scope (ones [1; 1; 2]) None 2 1 1 2 4 0 0 0
         (Some "gelu"%string) "n" "da" None 0 "encoder_layer_0" false.
Proof.
  split.
  - refine (proj1 (@layers_read_their_parameters Z ZKernels empty_scope other_scope
                     (ones [1; 2; 3]) (ones [1; 2; 3]) (ones [1; 2; 3]) (ones [1; 2; 3])
                     None None None None (ones [1; 2; 3]) 2 1 1 3 4 2 1 1 3 3 4 0 0 0
                     None None "" "" None 0 "att" false 3 3 3 3 3) _).
    agree_other.
  - refine (proj1 (proj2 (proj2 (proj2
              (@layers_read_their_parameters Z ZKernels empty_scope other_scope
                 (ones [1; 1; 2]) (ones [1; 1; 2]) (ones [1; 1; 2]) (ones [1; 1; 2])
                 None None None None (ones [1; 1; 2]) 2 1 1 2 4 2 1 1 2 2 4 0 0 0
                 None (Some "gelu"%string) "n" "da" None 0 "encoder_layer_0" false
                 2 2 2 2 2)))) _).
    agree_other.
Defined.

(** ** Calls that return *)

Lemma fits_app {R : Type} (th : @scope R) (l l' : list (string * list nat)) :
  fits th (l ++ l') <-> fits th l /\ fits th l'.
Proof.
  unfold fits. split.
  - intros H. split; intros n shp t Hn; apply H, in_or_app; auto.
  - intros [H1 H2] n shp t Hn. apply in_app_or in Hn as [Hn|Hn]; eauto.
Qed.

Section Returns.
Context {R : Type} {K : Kernels R}.
Variable th : @scope R.

Lemma get_param_fits (name : string) (i : option (@initializer R)) (b : bool)
  (shp : list nat) :
  (forall t, th name = Some t -> shape t = shp) ->
  exists t, get_param th (mkParamAttr name i) b shp = Ok t.
Proof.
  intros H. unfold get_param. cbn [pname pinit].
  destruct (th name) as [t|]; [|eauto].
  rewrite (H t eq_refl), shape_eqb_refl. eauto.
Qed.

Lemma fc_returns (x : tensor R) (b s w : nat) (size : Z) (act : option string)
  (wn bn : string) (i i' : option (@initializer R)) :
  shape x = [b; s; w] -> (0 < size)%Z ->
  fits th [(wn, [w; Z.to_nat size]); (bn, [Z.to_nat size])] ->
  exists y, fc th x size 2 act (mkParamAttr wn i) (mkParamAttr bn i') = Ok y
            /\ shape y = [b; s; Z.to_nat size].
Proof.
  intros Hs Hsz Hf. rewrite fc_rows with (b := b) (s := s) (w := w) by exact Hs.
  replace (0 <? size)%Z with true by (symmetry; apply Z.ltb_lt; exact Hsz).
  destruct (@get_param_fits wn i false [w; Z.to_nat size]) as [W ->].
  { intros t Ht. eapply Hf; [|exact Ht]. cbn; auto. }
  destruct (@get_param_fits bn i' true [Z.to_nat size]) as [bb ->].
  { intros t Ht. eapply Hf; [|exact Ht]. cbn; auto. }
  cbn [bind]. eauto.
Qed.

Lemma layer_norm_returns (x : tensor R) (b s w : nat) (sn bn : string)
  (i i' : option (@initializer R)) :
  shape x = [b; s; w] -> fits th [(sn, [w]); (bn, [w])] ->
  exists y, layer_norm th x (Z.of_nat (rank x) - 1) (mkParamAttr sn i) (mkParamAttr bn i')
            = Ok y
            /\ shape y = [b; s; w].
Proof.
  intros Hs Hf. unfold layer_norm, rank. rewrite Hs.
  change (Z.of_nat (length [b; s; w]) - 1)%Z with 2%Z.
  change ((0 <=? 2)%Z && (2 <? Z.of_nat (length [b; s; w]))%Z) with true. cbv iota.
  change (Z.to_nat 2) with 2. cbn [skipn].
  change (product [w]) with (w * 1). rewrite Nat.mul_1_r.
  destruct (@get_param_fits sn i false [w]) as [sc ->].
  { intros t Ht. eapply Hf; [|exact Ht]. cbn; auto. }
  destruct (@get_param_fits bn i' true [w]) as [bi ->].
  { intros t Ht. eapply Hf; [|exact Ht]. cbn; auto. }
  cbn [bind]. eexists. split; reflexivity.
Qed.

Lemma process_cmd_loop_returns (prev : option (tensor R)) rate seed name debug cmds
  (b s w : nat) :
  bias_fits prev [b; s; w] ->
  (has_cmd "n" cmds = true ->
   fits th [(name +s "_layer_norm_scale", [w]); (name +s "_layer_norm_bias", [w])]) ->
  forall out dd,
    shape out = [b; s; w] ->
    exists o dd', process_cmd_loop th prev rate seed name debug cmds out dd = Ok (o, dd')
                  /\ shape o = [b; s; w].
Proof.
  intros Hp. induction cmds as [|c cmds IH]; intros Hf out dd Hs.
  - cbn. eauto.
  - cbn [process_cmd_loop]. rewrite has_cmd_cons in Hf.
    assert (Hstep : exists o, process_cmd_step th prev rate seed name c out = Ok o
                              /\ shape o = [b; s; w]).
    { unfold process_cmd_step. destruct (Ascii.eqb c "a").
      { destruct prev as [p|]; [|eauto]. unfold elementwise_add.
        cbn [bias_fits] in Hp. rewrite Hs, Hp, shape_eqb_refl. eauto. }
      destruct (Ascii.eqb c "n") eqn:En.
      { apply layer_norm_returns; [exact Hs|].
        apply Hf. rewrite Ascii.eqb_sym, En. reflexivity. }
      destruct (Ascii.eqb c "d"); [|eauto].
      destruct (truthy rate); eauto. }
    destruct Hstep as (o & -> & Ho). cbn [bind].
    apply IH; [|exact Ho]. intros Hc. apply Hf. rewrite Hc. apply orb_true_r.
Qed.

Lemma pre_post_process_layer_returns (prev : option (tensor R)) (out : tensor R)
  cmds rate seed name (b s w : nat) :
  bias_fits prev [b; s; w] -> shape out = [b; s; w] ->
  fits th (pre_post_process_layer_params cmds name w) ->
  exists o, pre_post_process_layer th prev out cmds rate seed name false = Ok o
            /\ shape o = [b; s; w].
Proof.
  intros Hp Hs Hf. unfold pre_post_process_layer.
  destruct (@process_cmd_loop_returns prev rate seed name false cmds b s w Hp)
    with (out := out) (dd := @nil (string * tensor R)) as (o & dd' & -> & Ho).
  - intros Hc. unfold pre_post_process_layer_params in Hf. rewrite Hc in Hf. exact Hf.
  - exact Hs.
  - cbn [bind]. eauto.
Qed.

Lemma matmul_returns (x y : tensor R) (t : bool) (B H m k n : nat) :
  shape x = [B; H; m; k] ->
  shape y = (if t then [B; H; n; k] else [B; H; k; n]) ->
  exists z, matmul x y t = Ok z /\ shape z = [B; H; m; n].
Proof.
  intros Hx Hy. unfold matmul, rank. rewrite Hx, Hy.
  destruct t; cbn [length Nat.sub firstn skipn];
    rewrite shape_eqb_refl, Nat.eqb_refl; cbn [andb app]; eauto.
Qed.

Lemma scaled_dot_product_attention_returns (seed : Z) (q k v : tensor R)
  (attn_bias : option (tensor R)) (d_key : Z) (dropout_rate : Q)
  (B H Sq Sk dk dv : nat) :
  shape q = [B; H; Sq; dk] -> shape k = [B; H; Sk; dk] -> shape v = [B; H; Sk; dv] ->
  (0 < d_key)%Z -> bias_fits attn_bias [B; H; Sq; Sk] ->
  exists ctx, scaled_dot_product_attention seed q k v attn_bias d_key dropout_rate = Ok ctx
              /\ shape ctx = [B; H; Sq; dv].
Proof.
  intros Hq Hk Hv Hd Hb. unfold scaled_dot_product_attention, pow_neg_half_attr.
  replace (d_key =? 0)%Z with false by (symmetry; apply Z.eqb_neq; lia).
  replace (d_key <? 0)%Z with false by (symmetry; apply Z.ltb_ge; lia).
  cbn [bind].
  destruct (@matmul_returns (scale q (pow_neg_half d_key)) k true B H Sq dk Sk)
    as (p & -> & Hp); [exact Hq|exact Hk|].
  cbn [bind].
  assert (Hadd : exists p', match attn_bias with
                            | Some b => elementwise_add p b
                            | None => Ok p
                            end = Ok p' /\ shape p' = [B; H; Sq; Sk]).
  { destruct attn_bias as [b|]; [|eauto]. cbn [bias_fits] in Hb.
    unfold elementwise_add. rewrite Hp, Hb, shape_eqb_refl. eauto. }
  destruct Hadd as (p' & -> & Hp'). cbn [bind].
  unfold softmax, rank. rewrite Hp'. cbn [length bind].
  apply (@matmul_returns _ v false B H Sq Sk dv); [|exact Hv].
  destruct (truthy dropout_rate); reflexivity.
Qed.

Lemma combine_heads_returns (x : tensor R) (B H S d : nat) :
  shape x = [B; H; S; d] -> 0 < H * d ->
  exists y, __combine_heads x = Ok y /\ shape y = [B; S; H * d].
Proof.
  intros Hs Hp. unfold __combine_heads, rank. rewrite Hs. cbn [length Nat.eqb negb].
  rewrite transpose_0213 with (b := B) (s := H) (h := S) (d := d) by exact Hs.
  cbn [bind].
  pose proof (@swap_axes_at R x [B] H S [d] Hs) as E. cbn [length app] in E.
  rewrite E. set (t := mkT [B; S; H; d] _).
  change 2%Z with (Z.of_nat 2). change 3%Z with (Z.of_nat 3).
  rewrite !shape_item_at by (unfold rank; cbn; lia).
  cbn [t shape nth bind].
  rewrite reshape_merge with (b := B) (s := S) (n := H) (d := d);
    [eauto|reflexivity|lia|apply eq_sym, Nat2Z.inj_mul].
Qed.

Lemma split_heads_returns (x : tensor R) (B S : nat) (n_head d : Z) :
  shape x = [B; S; Z.to_nat (d * n_head)] -> (0 < n_head)%Z -> (0 < d)%Z ->
  exists y, __split_heads x n_head = Ok y
            /\ shape y = [B; Z.to_nat n_head; S; Z.to_nat d].
Proof.
  intros Hs Hn Hd. rewrite split_heads_nested with (B := B) (S := S) (d := d)
    by assumption.
  eauto.
Qed.

Lemma multi_head_attention_ok (queries : tensor R)
  (keys values attn_bias : option (tensor R)) (d_key d_value d_model n_head : Z)
  (dropout_rate : Q) (param_initializer : option (@initializer R)) (seed : Z)
  (name : string) (B Sq Sk Dq Dk Dv : nat) :
  shape queries = [B; Sq; Dq] ->
  shape (match keys with None => queries | Some k => k end) = [B; Sk; Dk] ->
  shape (match values with
         | None => match keys with None => queries | Some k => k end
         | Some v => v
         end) = [B; Sk; Dv] ->
  (0 < n_head)%Z -> (0 < d_key)%Z -> (0 < d_value)%Z -> (0 < d_model)%Z ->
  bias_fits attn_bias [B; Z.to_nat n_head; Sq; Sk] ->
  fits th (multi_head_attention_params name Dq Dk Dv d_key d_value d_model n_head) ->
  exists out,
    multi_head_attention th queries keys values attn_bias d_key d_value
      d_model n_head dropout_rate None param_initializer seed name false
    = Ok (out, None)
    /\ shape out = [B; Sq; Z.to_nat d_model].
Proof.
  intros Hq Hk Hv Hn Hdk Hdv Hdm Hb Hf.
  unfold multi_head_attention, __compute_qkv.
  set (ks := match keys with None => queries | Some k => k end) in *.
  set (vs := match values with None => ks | Some v => v end) in *.
  unfold rank. rewrite Hq, Hk, Hv.
  cbn [length Nat.eqb andb negb].
  destruct (@fc_returns queries B Sq Dq (d_key * n_head) None
              (name +s "_query_fc.w_0") (name +s "_query_fc.b_0")
              param_initializer None Hq) as (q & -> & Hqs); [lia| |].
  { intros n shp t Hin. apply Hf. cbn in Hin |- *. tauto. }
  cbn [bind].
  destruct (@fc_returns ks B Sk Dk (d_key * n_head) None
              (name +s "_key_fc.w_0") (name +s "_key_fc.b_0")
              param_initializer None Hk) as (k & -> & Hks); [lia| |].
  { intros n shp t Hin. apply Hf. cbn in Hin |- *. tauto. }
  cbn [bind].
  destruct (@fc_returns vs B Sk Dv (d_value * n_head) None
              (name +s "_value_fc.w_0") (name +s "_value_fc.b_0")
              param_initializer None Hv) as (v & -> & Hvs); [lia| |].
  { intros n shp t Hin. apply Hf. cbn in Hin |- *. tauto. }
  cbn [bind use_cache].
  destruct (@split_heads_returns q B Sq n_head d_key Hqs Hn Hdk) as (_q & -> & Hq4).
  destruct (@split_heads_returns k B Sk n_head d_key Hks Hn Hdk) as (_k & -> & Hk4).
  destruct (@split_heads_returns v B Sk n_head d_value Hvs Hn Hdv) as (_v & -> & Hv4).
  cbn [bind cache_after].
  destruct (@scaled_dot_product_attention_returns seed _q _k _v attn_bias d_key
              dropout_rate _ _ _ _ _ _ Hq4 Hk4 Hv4 Hdk Hb) as (ctx & -> & Hctx).
  cbn [bind].
  destruct (@combine_heads_returns ctx _ _ _ _ Hctx) as (o & -> & Ho); [nia|].
  cbn [bind].
  destruct (@fc_returns o _ _ _ d_model None
              (name +s "_output_fc.w_0") (name +s "_output_fc.b_0")
              param_initializer None Ho) as (p & -> & Hp); [lia| |].
  { intros n shp t Hin. apply Hf. cbn in Hin |- *. tauto. }
  cbn [bind]. eauto.
Qed.

Lemma positionwise_feed_forward_returns (x : tensor R) (d_inner_hid d_hid : Z)
  (dropout_rate : Q) (hidden_act : option string)
  (param_initializer : option (@initializer R)) (seed : Z) (name : string)
  (b s d_in : nat) :
  shape x = [b; s; d_in] -> (0 < d_inner_hid)%Z -> (0 < d_hid)%Z ->
  fits th (positionwise_feed_forward_params name d_in d_inner_hid d_hid) ->
  exists out,
    positionwise_feed_forward th x d_inner_hid d_hid dropout_rate hidden_act
      param_initializer seed name false = Ok out
    /\ shape out = [b; s; Z.to_nat d_hid].
Proof.
  intros Hs Hi Hh Hf. unfold positionwise_feed_forward.
  destruct (@fc_returns x _ _ _ d_inner_hid hidden_act
              (name +s "_fc_0.w_0") (name +s "_fc_0.b_0")
              param_initializer None Hs) as (h & -> & Hhs); [lia| |].
  { intros n shp t Hin. apply Hf. cbn in Hin |- *. tauto. }
  cbn [bind].
  assert (Hd : shape (if truthy dropout_rate then dropout h dropout_rate seed else h)
               = [b; s; Z.to_nat d_inner_hid])
    by (destruct (truthy dropout_rate); exact Hhs).
  destruct (@fc_returns _ _ _ _ d_hid None
              (name +s "_fc_1.w_0") (name +s "_fc_1.b_0")
              param_initializer None Hd) as (o & -> & Ho); [lia| |].
  { intros n shp t Hin. apply Hf. cbn in Hin |- *. tauto. }
  cbn [bind]. eauto.
Qed.

Ltac split_fits H :=
  unfold encoder_layer_params, encoder_co_layer_params in H; cbv zeta in H;
  repeat match type of H with
         | fits _ (_ ++ _) =>
             let H1 := fresh "Hf" in
             apply fits_app in H as [H1 H]
         end.

Lemma encoder_layer_ok (enc_input : tensor R) (attn_bias : option (tensor R))
  (n_head d_key d_value d_model d_inner_hid : Z)
  (prepostprocess_dropout attention_dropout relu_dropout : Q)
  (hidden_act : option string) (preprocess_cmd postprocess_cmd : string)
  (param_initializer : option (@initializer R)) (seed : Z) (name : string)
  (B S : nat) :
  shape enc_input = [B; S; Z.to_nat d_model] ->
  bias_fits attn_bias [B; Z.to_nat n_head; S; S] ->
  (0 < n_head)%Z -> (0 < d_key)%Z -> (0 < d_value)%Z -> (0 < d_model)%Z ->
  (0 < d_inner_hid)%Z ->
  fits th (encoder_layer_params name preprocess_cmd postprocess_cmd
             n_head d_key d_value d_model d_inner_hid) ->
  exists out,
    encoder_layer th enc_input attn_bias n_head d_key d_value d_model d_inner_hid
      prepostprocess_dropout attention_dropout relu_dropout hidden_act
      preprocess_cmd postprocess_cmd param_initializer seed name false = Ok out
    /\ shape out = [B; S; Z.to_nat d_model].
Proof.
  intros Hs Hb Hn Hdk Hdv Hdm Hdi Hf. split_fits Hf.
  unfold encoder_layer, pre_process_layer, post_process_layer.
  destruct (@pre_post_process_layer_returns None enc_input preprocess_cmd
              prepostprocess_dropout seed (name +s "_pre_att") B S (Z.to_nat d_model)
              I Hs Hf0) as (pre & -> & Hpre).
  cbn [bind].
  destruct (@multi_head_attention_ok pre None None attn_bias d_key d_value d_model
              n_head attention_dropout param_initializer seed (name +s "_multi_head_att")
              B S S _ _ _ Hpre Hpre Hpre Hn Hdk Hdv Hdm Hb Hf1) as (att & -> & Hatt).
  cbn [bind].
  destruct (@pre_post_process_layer_returns (Some enc_input) att postprocess_cmd
              prepostprocess_dropout seed (name +s "_post_att") B S (Z.to_nat d_model)
              Hs Hatt Hf2) as (att' & -> & Hatt').
  cbn [bind].
  destruct (@pre_post_process_layer_returns None att' preprocess_cmd
              prepostprocess_dropout seed (name +s "_pre_ffn") B S (Z.to_nat d_model)
              I Hatt' Hf3) as (pre' & -> & Hpre').
  cbn [bind].
  destruct (@positionwise_feed_forward_returns pre' d_inner_hid d_model relu_dropout
              hidden_act param_initializer seed (name +s "_ffn") B S _
              Hpre' Hdi Hdm Hf4) as (ffd & -> & Hffd).
  cbn [bind].
  destruct (@pre_post_process_layer_returns (Some att') ffd postprocess_cmd
              prepostprocess_dropout seed (name +s "_post_ffn") B S (Z.to_nat d_model)
              Hatt' Hffd Hf) as (post & -> & Hpost).
  cbn [bind]. eauto.
Qed.

Lemma transpose_0132_returns (x : tensor R) (b h s d : nat) :
  shape x = [b; h; s; d] ->
  exists y, transpose x [0; 1; 3; 2] = Ok y /\ shape y = [b; h; d; s].
Proof.
  intros Hs. rewrite transpose_0132 with (b := b) (h := h) (s := s) (d := d) by exact Hs.
  pose proof (@swap_axes_at R x [b; h] s d [] Hs) as E. cbn [length app] in E.
  rewrite E. eauto.
Qed.

Lemma encoder_co_layer_ok (enc_input enc_vl_input attn_vl_bias : tensor R)
  (co_head co_key co_value co_model d_model d_inner_hid v_model v_inner_hid : Z)
  (prepostprocess_dropout attention_dropout relu_dropout : Q)
  (hidden_act : option string) (preprocess_cmd postprocess_cmd : string)
  (param_initializer : option (@initializer R)) (seed : Z) (name : string)
  (B S Sv : nat) :
  shape enc_input = [B; S; Z.to_nat d_model] ->
  shape enc_vl_input = [B; Sv; Z.to_nat v_model] ->
  shape attn_vl_bias = [B; Z.to_nat co_head; Sv; S] ->
  (0 < co_head)%Z -> (0 < co_key)%Z -> (0 < co_value)%Z ->
  (0 < d_model)%Z -> (0 < d_inner_hid)%Z -> (0 < v_model)%Z -> (0 < v_inner_hid)%Z ->
  fits th (encoder_co_layer_params name preprocess_cmd postprocess_cmd
             co_head co_key co_value d_model d_inner_hid v_model v_inner_hid) ->
  exists out vl_out,
    encoder_co_layer th enc_input enc_vl_input attn_vl_bias co_head co_key co_value
      co_model d_model d_inner_hid v_model v_inner_hid prepostprocess_dropout
      attention_dropout relu_dropout hidden_act preprocess_cmd postprocess_cmd
      param_initializer seed name false = Ok (out, vl_out)
    /\ shape out = [B; S; Z.to_nat d_model]
    /\ shape vl_out = [B; Sv; Z.to_nat v_model].
Proof.
  intros Hs Hvs Hbias Hn Hdk Hdv Hdm Hdi Hvm Hvi Hf. split_fits Hf.
  unfold encoder_co_layer, pre_process_layer, post_process_layer.
  destruct (@pre_post_process_layer_returns None enc_input preprocess_cmd
              prepostprocess_dropout seed (name +s "_pre_att") B S (Z.to_nat d_model)
              I Hs Hf0) as (pre & -> & Hpre).
  cbn [bind].
  destruct (@pre_post_process_layer_returns None enc_vl_input preprocess_cmd
              prepostprocess_dropout seed (name +s "_vl_pre_att") B Sv (Z.to_nat v_model)
              I Hvs Hf1) as (vpre & -> & Hvpre).
  cbn [bind].
  destruct (transpose_0132_returns attn_vl_bias Hbias) as (bt & -> & Hbt).
  cbn [bind].
  destruct (@multi_head_attention_ok pre (Some vpre) (Some vpre) (Some bt)
              co_key co_value d_model co_head attention_dropout param_initializer seed
              (name +s "_multi_head_att") B S Sv _ _ _ Hpre Hvpre Hvpre
              Hn Hdk Hdv Hdm Hbt Hf2) as (att & -> & Hatt).
  cbn [bind].
  destruct (@multi_head_attention_ok vpre (Some pre) (Some pre) (Some attn_vl_bias)
              co_key co_value v_model co_head attention_dropout param_initializer seed
              (name +s "_vl_multi_head_att") B Sv S _ _ _ Hvpre Hpre Hpre
              Hn Hdk Hdv Hvm Hbias Hf3) as (vatt & -> & Hvatt).
  cbn [bind].
  destruct (@pre_post_process_layer_returns (Some enc_input) att postprocess_cmd
              prepostprocess_dropout seed (name +s "_post_att") B S (Z.to_nat d_model)
              Hs Hatt Hf4) as (att' & -> & Hatt').
  cbn [bind].
  destruct (@pre_post_process_layer_returns (Some enc_vl_input) vatt postprocess_cmd
              prepostprocess_dropout seed (name +s "_vl_post_att") B Sv
              (Z.to_nat v_model) Hvs Hvatt Hf5) as (vatt' & -> & Hvatt').
  cbn [bind].
  destruct (@pre_post_process_layer_returns None att' preprocess_cmd
              prepostprocess_dropout seed (name +s "_pre_ffn") B S (Z.to_nat d_model)
              I Hatt' Hf6) as (pre' & -> & Hpre').
  cbn [bind].
  destruct (@positionwise_feed_forward_returns pre' d_inner_hid d_model relu_dropout
              hidden_act param_initializer seed (name +s "_ffn") B S _
              Hpre' Hdi Hdm Hf7) as (ffd & -> & Hffd).
  cbn [bind].
  destruct (@pre_post_process_layer_returns None vatt' preprocess_cmd
              prepostprocess_dropout seed (name +s "_pre_vl_ffn") B Sv (Z.to_nat v_model)
              I Hvatt' Hf8) as (vpre' & -> & Hvpre').
  cbn [bind].
  destruct (@positionwise_feed_forward_returns vpre' v_inner_hid v_model relu_dropout
              hidden_act param_initializer seed (name +s "_vl_ffn") B Sv _
              Hvpre' Hvi Hvm Hf9) as (vffd & -> & Hvffd).
  cbn [bind].
  destruct (@pre_post_process_layer_returns (Some att') ffd postprocess_cmd
              prepostprocess_dropout seed (name +s "_post_ffn") B S (Z.to_nat d_model)
              Hatt' Hffd Hf10) as (post & -> & Hpost).
  cbn [bind].
  destruct (@pre_post_process_layer_returns (Some vatt') vffd postprocess_cmd
              prepostprocess_dropout seed (name +s "_vl_post_ffn") B Sv
              (Z.to_nat v_model) Hvatt' Hvffd Hf) as (vpost & -> & Hvpost).
  cbn [bind]. eauto.
Qed.
End Returns.

Section StackReturns.
Context {R : Type} {K : Kernels R}.
Variable th : @scope R.
Variables (attn_bias attn_image_bias : option (tensor R)) (attn_vl_bias : tensor R).
Variables (n_head d_key d_value d_model d_inner_hid : Z).
Variables (v_head v_key v_value v_model v_inner_hid : Z).
Variables (co_head co_key co_value co_model : Z).
Variables (prepostprocess_dropout attention_dropout relu_dropout : Q).
Variables (hidden_act : option string) (preprocess_cmd postprocess_cmd : string).
Variables (param_initializer : option (@initializer R)) (seed : Z) (name : string).
Variables (B S Sv : nat).

Hypothesis text_bias : bias_fits attn_bias [B; Z.to_nat n_head; S; S].
Hypothesis image_bias : bias_fits attn_image_bias [B; Z.to_nat v_head; Sv; Sv].
Hypothesis co_bias : shape attn_vl_bias = [B; Z.to_nat co_head; Sv; S].
Hypothesis text_sizes :
  (0 < n_head /\ 0 < d_key /\ 0 < d_value /\ 0 < d_model /\ 0 < d_inner_hid)%Z.
Hypothesis vision_sizes :
  (0 < v_head /\ 0 < v_key /\ 0 < v_value /\ 0 < v_model /\ 0 < v_inner_hid)%Z.
Hypothesis co_sizes : (0 < co_head /\ 0 < co_key /\ 0 < co_value)%Z.

Let params := call_params n_head d_key d_value d_model d_inner_hid
                v_head v_key v_value v_model v_inner_hid co_head co_key co_value
                preprocess_cmd postprocess_cmd name.

Lemma run_schedule_returns (cs : list layer_call) :
  fits th (flat_map params cs) ->
  forall s,
    shape (fst s) = [B; S; Z.to_nat d_model] ->
    shape (snd s) = [B; Sv; Z.to_nat v_model] ->
    exists s',
      run_schedule th attn_bias attn_image_bias attn_vl_bias
        n_head d_key d_value d_model d_inner_hid
        v_head v_key v_value v_model v_inner_hid
        co_head co_key co_value co_model
        prepostprocess_dropout attention_dropout relu_dropout
        hidden_act preprocess_cmd postprocess_cmd param_initializer seed name cs s
      = Ok s'
      /\ shape (fst s') = [B; S; Z.to_nat d_model]
      /\ shape (snd s') = [B; Sv; Z.to_nat v_model].
Proof.
  destruct text_sizes as (Hn & Hdk & Hdv & Hdm & Hdi).
  destruct vision_sizes as (Hvn & Hvk & Hvv & Hvm & Hvi).
  destruct co_sizes as (Hcn & Hck & Hcv).
  induction cs as [|c cs IH]; intros Hf s H1 H2; [cbn; eauto|].
  cbn [flat_map] in Hf. apply fits_app in Hf as [Hc Hf].
  cbn [run_schedule].
  assert (Hcall : exists s1,
             run_call th attn_bias attn_image_bias attn_vl_bias
               n_head d_key d_value d_model d_inner_hid
               v_head v_key v_value v_model v_inner_hid
               co_head co_key co_value co_model
               prepostprocess_dropout attention_dropout relu_dropout
               hidden_act preprocess_cmd postprocess_cmd param_initializer seed name c s
             = Ok s1
             /\ shape (fst s1) = [B; S; Z.to_nat d_model]
             /\ shape (snd s1) = [B; Sv; Z.to_nat v_model]).
  { destruct c; unfold params in Hc; cbn [call_params] in Hc;
      unfold run_call, text_layer, vision_layer, co_layer, pre_process_layer.
    - destruct (@encoder_layer_ok R K th (fst s) attn_bias n_head d_key d_value d_model
                  d_inner_hid prepostprocess_dropout attention_dropout relu_dropout
                  hidden_act preprocess_cmd postprocess_cmd param_initializer seed
                  (name +s "_layer_" +s str idx) B S H1 text_bias Hn Hdk Hdv Hdm Hdi Hc)
        as (o & -> & Ho).
      cbn [bind]. eauto.
    - destruct (@encoder_layer_ok R K th (snd s) attn_image_bias v_head v_key v_value
                  v_model v_inner_hid prepostprocess_dropout attention_dropout
                  relu_dropout hidden_act preprocess_cmd postprocess_cmd
                  param_initializer seed (name +s "_vlayer_" +s str idx) B Sv H2
                  image_bias Hvn Hvk Hvv Hvm Hvi Hc)
        as (o & -> & Ho).
      cbn [bind]. eauto.
    - destruct (@encoder_co_layer_ok R K th (fst s) (snd s) attn_vl_bias co_head co_key
                  co_value co_model d_model d_inner_hid v_model v_inner_hid
                  prepostprocess_dropout attention_dropout relu_dropout hidden_act
                  preprocess_cmd postprocess_cmd param_initializer seed
                  (name +s "_colayer_" +s str blk) B S Sv H1 H2 co_bias
                  Hcn Hck Hcv Hdm Hdi Hvm Hvi Hc)
        as (o & vo & -> & Ho & Hvo).
      eauto.
    - destruct (@pre_post_process_layer_returns R K th None (fst s) preprocess_cmd
                  prepostprocess_dropout seed "post_encoder" B S (Z.to_nat d_model)
                  I H1 Hc) as (o & -> & Ho).
      cbn [bind]. eauto.
    - destruct (@pre_post_process_layer_returns R K th None (snd s) preprocess_cmd
                  prepostprocess_dropout seed "vl_post_encoder" B Sv (Z.to_nat v_model)
                  I H2 Hc) as (o & -> & Ho).
      cbn [bind]. eauto. }
  destruct Hcall as (s1 & -> & Hs1 & Hs2). cbn [bind].
  apply IH; assumption.
Qed.

Lemma encoder_ok (x vx : tensor R) (n_layer co_inner_hid : Z)
  (v_biattention_id t_biattention_id : list Z) :
  shape x = [B; S; Z.to_nat d_model] ->
  shape vx = [B; Sv; Z.to_nat v_model] ->
  combine v_biattention_id t_biattention_id <> [] ->
  fits th (encoder_params n_head d_key d_value d_model d_inner_hid
             v_head v_key v_value v_model v_inner_hid co_head co_key co_value
             preprocess_cmd postprocess_cmd name v_biattention_id t_biattention_id) ->
  exists out vl_out,
    encoder th x vx attn_bias attn_image_bias attn_vl_bias
      n_layer n_head d_key d_value d_model d_inner_hid
      v_head v_key v_value v_model v_inner_hid
      co_head co_key co_value co_model co_inner_hid
      prepostprocess_dropout attention_dropout relu_dropout
      hidden_act preprocess_cmd postprocess_cmd param_initializer
      v_biattention_id t_biattention_id seed name false = Ok (out, vl_out)
    /\ shape out = [B; S; Z.to_nat d_model]
    /\ shape vl_out = [B; Sv; Z.to_nat v_model].
Proof.
  intros Hx Hvx Hne Hf.
  rewrite encoder_run_schedule by exact Hne.
  destruct (run_schedule_returns _ Hf (x, vx) Hx Hvx) as ([o vo] & -> & Ho & Hvo).
  cbn [bind ret2_of]. eauto.
Qed.
End StackReturns.

Section LayersReturn.
Context {R : Type} {K : Kernels R}.
Variable th : @scope R.

(** X18. [multi_head_attention] without a cache returns, with a result of
    the shape [B; Sq; d_model], when the queries, keys and values are 3-D
    with one batch size [B] and no empty axis, the keys and the values
    have one length [Sk], the number of heads and the three widths are
    positive, the dropout rate is a probability, the bias, if any, has the
    shape [B; n_head; Sq; Sk], and the parameters that the scope holds
    under the names of the call have the shapes of the inventory. *)
Theorem multi_head_attention_returns (queries : tensor R)
  (keys values attn_bias : option (tensor R)) (d_key d_value d_model n_head : Z)
  (dropout_rate : Q) (param_initializer : option (@initializer R)) (seed : Z)
  (name : string) (B Sq Sk Dq Dk Dv : nat) :
  shape queries = [B; Sq; Dq] ->
  shape (match keys with None => queries | Some k => k end) = [B; Sk; Dk] ->
  shape (match values with
         | None => match keys with None => queries | Some k => k end
         | Some v => v
         end) = [B; Sk; Dv] ->
  0 < B /\ 0 < Sq /\ 0 < Sk -> 0 < Dq /\ 0 < Dk /\ 0 < Dv ->
  (0 < n_head)%Z -> (0 < d_key)%Z -> (0 < d_value)%Z -> (0 < d_model)%Z ->
  valid_rate dropout_rate ->
  bias_fits attn_bias [B; Z.to_nat n_head; Sq; Sk] ->
  fits th (multi_head_attention_params name Dq Dk Dv d_key d_value d_model n_head) ->
  exists out,
    multi_head_attention th queries keys values attn_bias d_key d_value
      d_model n_head dropout_rate None param_initializer seed name false
    = Ok (out, None)
    /\ shape out = [B; Sq; Z.to_nat d_model].
Proof. intros. eapply multi_head_attention_ok; eassumption. Qed.

(** X19. [encoder_layer] returns, with a result of the shape of its input,
    when the input has the shape [B; S; d_model] and no empty axis, the
    sizes are positive, the three dropout rates are probabilities, the
    activation, if any, is one of ["relu"], ["gelu"], ["tanh"] and
    ["sigmoid"], the bias, if any, has the shape [B; n_head; S; S], and
    the parameters that the scope holds under the names of the layer have
    the shapes of the inventory; this for every command string. *)
Theorem encoder_layer_returns (enc_input : tensor R) (attn_bias : option (tensor R))
  (n_head d_key d_value d_model d_inner_hid : Z)
  (prepostprocess_dropout attention_dropout relu_dropout : Q)
  (hidden_act : option string) (preprocess_cmd postprocess_cmd : string)
  (param_initializer : option (@initializer R)) (seed : Z) (name : string)
  (B S : nat) :
  shape enc_input = [B; S; Z.to_nat d_model] -> 0 < B /\ 0 < S ->
  bias_fits attn_bias [B; Z.to_nat n_head; S; S] ->
  (0 < n_head)%Z -> (0 < d_key)%Z -> (0 < d_value)%Z -> (0 < d_model)%Z ->
  (0 < d_inner_hid)%Z ->
  valid_rate prepostprocess_dropout -> valid_rate attention_dropout ->
  valid_rate relu_dropout -> known_act hidden_act ->
  fits th (encoder_layer_params name preprocess_cmd postprocess_cmd
             n_head d_key d_value d_model d_inner_hid) ->
  exists out,
    encoder_layer th enc_input attn_bias n_head d_key d_value d_model d_inner_hid
      prepostprocess_dropout attention_dropout relu_dropout hidden_act
      preprocess_cmd postprocess_cmd param_initializer seed name false = Ok out
    /\ shape out = [B; S; Z.to_nat d_model].
Proof. intros. eapply encoder_layer_ok; eassumption. Qed.

(** X20. [encoder_co_layer] returns, with two results of the shapes of its
    two inputs, when the inputs have the shapes [B; S; d_model] and
    [B; Sv; v_model] and no empty axis, the bias has the shape
    [B; co_head; Sv; S], the sizes are positive, the three dropout rates
    are probabilities, the activation, if any, is one of ["relu"],
    ["gelu"], ["tanh"] and ["sigmoid"], and the parameters that the scope
    holds under the names of the layer have the shapes of the inventory. *)
Theorem encoder_co_layer_returns (enc_input enc_vl_input attn_vl_bias : tensor R)
  (co_head co_key co_value co_model d_model d_inner_hid v_model v_inner_hid : Z)
  (prepostprocess_dropout attention_dropout relu_dropout : Q)
  (hidden_act : option string) (preprocess_cmd postprocess_cmd : string)
  (param_initializer : option (@initializer R)) (seed : Z) (name : string)
  (B S Sv : nat) :
  shape enc_input = [B; S; Z.to_nat d_model] ->
  shape enc_vl_input = [B; Sv; Z.to_nat v_model] ->
  shape attn_vl_bias = [B; Z.to_nat co_head; Sv; S] ->
  0 < B /\ 0 < S /\ 0 < Sv ->
  (0 < co_head)%Z -> (0 < co_key)%Z -> (0 < co_value)%Z ->
  (0 < d_model)%Z -> (0 < d_inner_hid)%Z -> (0 < v_model)%Z -> (0 < v_inner_hid)%Z ->
  valid_rate prepostprocess_dropout -> valid_rate attention_dropout ->
  valid_rate relu_dropout -> known_act hidden_act ->
  fits th (encoder_co_layer_params name preprocess_cmd postprocess_cmd
             co_head co_key co_value d_model d_inner_hid v_model v_inner_hid) ->
  exists out vl_out,
    encoder_co_layer th enc_input enc_vl_input attn_vl_bias co_head co_key co_value
      co_model d_model d_inner_hid v_model v_inner_hid prepostprocess_dropout
      attention_dropout relu_dropout hidden_act preprocess_cmd postprocess_cmd
      param_initializer seed name false = Ok (out, vl_out)
    /\ shape out = [B; S; Z.to_nat d_model]
    /\ shape vl_out = [B; Sv; Z.to_nat v_model].
Proof. intros. eapply encoder_co_layer_ok; eassumption. Qed.

(** X21. [encoder] returns, with two results of the shapes of its two
    inputs, when the zip of the id lists has a pair, the inputs have the
    shapes [B; S; d_model] and [B; Sv; v_model] and no empty axis, the
    biases, where given, have the shapes [B; n_head; S; S],
    [B; v_head; Sv; Sv] and [B; co_head; Sv; S], the sizes are positive,
    the three dropout rates are probabilities, the activation, if any, is
    one of ["relu"], ["gelu"], ["tanh"] and ["sigmoid"], and the
    parameters that the scope holds under the names of the layers of the
    schedule have the shapes of the inventory. *)
Theorem encoder_returns (x vx : tensor R)
  (attn_bias attn_image_bias : option (tensor R)) (attn_vl_bias : tensor R)
  (n_layer n_head d_key d_value d_model d_inner_hid : Z)
  (v_head v_key v_value v_model v_inner_hid : Z)
  (co_head co_key co_value co_model co_inner_hid : Z)
  (prepostprocess_dropout attention_dropout relu_dropout : Q)
  (hidden_act : option string) (preprocess_cmd postprocess_cmd : string)
  (param_initializer : option (@initializer R))
  (v_biattention_id t_biattention_id : list Z) (seed : Z) (name : string)
  (B S Sv : nat) :
  combine v_biattention_id t_biattention_id <> [] ->
  shape x = [B; S; Z.to_nat d_model] ->
  shape vx = [B; Sv; Z.to_nat v_model] ->
  0 < B /\ 0 < S /\ 0 < Sv ->
  bias_fits attn_bias [B; Z.to_nat n_head; S; S] ->
  bias_fits attn_image_bias [B; Z.to_nat v_head; Sv; Sv] ->
  shape attn_vl_bias = [B; Z.to_nat co_head; Sv; S] ->
  (0 < n_head /\ 0 < d_key /\ 0 < d_value /\ 0 < d_model /\ 0 < d_inner_hid)%Z ->
  (0 < v_head /\ 0 < v_key /\ 0 < v_value /\ 0 < v_model /\ 0 < v_inner_hid)%Z ->
  (0 < co_head /\ 0 < co_key /\ 0 < co_value)%Z ->
  valid_rate prepostprocess_dropout -> valid_rate attention_dropout ->
  valid_rate relu_dropout -> known_act hidden_act ->
  fits th (encoder_params n_head d_key d_value d_model d_inner_hid
             v_head v_key v_value v_model v_inner_hid co_head co_key co_value
             preprocess_cmd postprocess_cmd name v_biattention_id t_biattention_id) ->
  exists out vl_out,
    encoder th x vx attn_bias attn_image_bias attn_vl_bias
      n_layer n_head d_key d_value d_model d_inner_hid
      v_head v_key v_value v_model v_inner_hid
      co_head co_key co_value co_model co_inner_hid
      prepostprocess_dropout attention_dropout relu_dropout
      hidden_act preprocess_cmd postprocess_cmd param_initializer
      v_biattention_id t_biattention_id seed name false = Ok (out, vl_out)
    /\ shape out = [B; S; Z.to_nat d_model]
    /\ shape vl_out = [B; Sv; Z.to_nat v_model].
Proof.
  intros Hne Hx Hvx Hpos Hb Hib Hcb Ht Hv Hc Hr1 Hr2 Hr3 Hact Hf.
  eapply encoder_ok; eassumption.
Qed.
End LayersReturn.

Lemma multi_head_attention_returns_witness :
  exists out,
    multi_head_attention empty_scope (ones [1; 2; 3]) None None
      (Some (ones [1; 2; 2; 2])) 1 1 3 2 (1 # 10) None None 0 "att" false
    = Ok (out, None)
    /\ shape out = [1; 2; 3].
Proof.
  apply (@multi_head_attention_returns Z ZKernels empty_scope (ones [1; 2; 3]) None None
           (Some (ones [1; 2; 2; 2])) 1 1 3 2 (1 # 10) None 0 "att" 1 2 2 3 3 3);
    try reflexivity; try lia.
  - split; unfold Qle; cbn; lia.
  - intros n shp t _ H. discriminate H.
Defined.

Lemma encoder_layer_returns_witness :
  exists out,
    encoder_layer empty_scope (ones [1; 1; 2]) None 2 1 1 2 4 (1 # 10) 0 1
      (Some "gelu"%string) "n" "da" None 0 "encoder_layer_0" false = Ok out
    /\ shape out = [1; 1; 2].
Proof.
  apply (@encoder_layer_returns Z ZKernels empty_scope (ones [1; 1; 2]) None 2 1 1 2 4
           (1 # 10) 0 1 (Some "gelu"%string) "n" "da" None 0 "encoder_layer_0" 1 1);
    try reflexivity; try lia;
    try (split; unfold Qle; cbn; lia).
  - cbn. tauto.
  - intros n shp t _ H. discriminate H.
Defined.

Lemma encoder_co_layer_returns_witness :
  exists out vl_out,
    encoder_co_layer empty_scope (ones [1; 1; 2]) (ones [1; 2; 2]) (ones [1; 2; 2; 1])
      2 1 1 2 2 4 2 4 (1 # 10) 0 1 (Some "relu"%string) "n" "da" None 0
      "encoder_colayer_0" false = Ok (out, vl_out)
    /\ shape out = [1; 1; 2] /\ shape vl_out = [1; 2; 2].
Proof.
  apply (@encoder_co_layer_returns Z ZKernels empty_scope (ones [1; 1; 2])
           (ones [1; 2; 2]) (ones [1; 2; 2; 1]) 2 1 1 2 2 4 2 4 (1 # 10) 0 1
           (Some "relu"%string) "n" "da" None 0 "encoder_colayer_0" 1 1 2);
    try reflexivity; try lia;
    try (split; unfold Qle; cbn; lia).
  - cbn. tauto.
  - intros n shp t _ H. discriminate H.
Defined.

Lemma encoder_returns_witness :
  exists out vl_out,
    small_encoder 24 [0%Z] [1%Z] false = Ok (out, vl_out)
    /\ shape out = [1; 1; 2] /\ shape vl_out = [1; 2; 2].
Proof.
  apply (@encoder_returns Z ZKernels empty_scope (ones [1; 1; 2]) (ones [1; 2; 2])
           (Some (ones [1; 2; 1; 1])) (Some (ones [1; 2; 2; 2])) (ones [1; 2; 2; 1])
           24 2 1 1 2 4 2 1 1 2 4 2 1 1 2 4 0 0 0 (Some "gelu"%string)
           "n"%string "da"%string None [0%Z] [1%Z] 0 "encoder"%string 1 1 2);
    try reflexivity; try lia;
    try (split; unfold Qle; cbn; lia).
  - discriminate.
  - cbn. tauto.
  - intros n shp t _ H. discriminate H.
Defined.

(** ** Loaded parameters and the initializer *)

Lemma loaded_app {R : Type} (th : @scope R) (l l' : list string) :
  loaded th (l ++ l') <-> loaded th l /\ loaded th l'.
Proof.
  unfold loaded. split.
  - intros H. split; intros n Hn; apply H, in_or_app; auto.
  - intros [H1 H2] n Hn. apply in_app_or in Hn as [Hn|Hn]; auto.
Qed.

Section Initializer.
Context {R : Type} {K : Kernels R}.
Variable th : @scope R.
Variables init init' : option (@initializer R).

Lemma get_param_loaded name b shp :
  th name <> None ->
  get_param th (mkParamAttr name init) b shp
  = get_param th (mkParamAttr name init') b shp.
Proof.
  intros H. unfold get_param. cbn [pname].
  destruct (th name); [reflexivity|contradiction].
Qed.

Lemma fc_loaded (x : tensor R) size nfd act name ba :
  th name <> None ->
  fc th x size nfd act (mkParamAttr name init) ba
  = fc th x size nfd act (mkParamAttr name init') ba.
Proof.
  intros H. unfold fc. destruct (_ && _); [|reflexivity].
  rewrite (get_param_loaded _ _ H). reflexivity.
Qed.

Ltac name_loaded H := apply H; cbn; tauto.

Lemma multi_head_attention_loaded q k v bias dk dv dm nh rate cache seed name debug
  Dq Dk Dv :
  loaded th (map fst (multi_head_attention_params name Dq Dk Dv dk dv dm nh)) ->
  multi_head_attention th q k v bias dk dv dm nh rate cache init seed name debug
  = multi_head_attention th q k v bias dk dv dm nh rate cache init' seed name debug.
Proof.
  intros H. unfold multi_head_attention, __compute_qkv.
  destruct (negb _); [reflexivity|].
  rewrite (fc_loaded _ _ _ _ (name := name +s "_query_fc.w_0")) by name_loaded H.
  rewrite (fc_loaded _ _ _ _ (name := name +s "_key_fc.w_0")) by name_loaded H.
  rewrite (fc_loaded _ _ _ _ (name := name +s "_value_fc.w_0")) by name_loaded H.
  repeat (apply bind_ext; intros;
          repeat match goal with |- context [match ?p with (_, _) => _ end] => destruct p end).
  apply bind_cong; [|reflexivity].
  apply fc_loaded; name_loaded H.
Qed.

Lemma positionwise_feed_forward_loaded x di dh rate act seed name debug d_in :
  loaded th (map fst (positionwise_feed_forward_params name d_in di dh)) ->
  positionwise_feed_forward th x di dh rate act init seed name debug
  = positionwise_feed_forward th x di dh rate act init' seed name debug.
Proof.
  intros H. unfold positionwise_feed_forward.
  apply bind_cong; [apply fc_loaded; name_loaded H|intros hidden].
  apply bind_cong; [apply fc_loaded; name_loaded H|reflexivity].
Qed.

Ltac loaded_calls :=
  repeat first
    [ apply bind_cong;
      [ first [ eapply multi_head_attention_loaded with (debug := false); eassumption
              | eapply positionwise_feed_forward_loaded with (debug := false); eassumption
              | reflexivity ]
      | intros ]
    | match goal with |- context [match ?p with (_, _) => _ end] => destruct p end ].

Ltac split_loaded H :=
  unfold encoder_layer_params, encoder_co_layer_params in H; cbv zeta in H;
  rewrite ?map_app in H;
  repeat match type of H with
         | loaded _ (_ ++ _) =>
             let H1 := fresh "Hl" in
             apply loaded_app in H as [H1 H]
         end.

Lemma encoder_layer_loaded x bias nh dk dv dm di r1 r2 r3 act pre post seed name debug :
  loaded th (map fst (encoder_layer_params name pre post nh dk dv dm di)) ->
  encoder_layer th x bias nh dk dv dm di r1 r2 r3 act pre post init seed name debug
  = encoder_layer th x bias nh dk dv dm di r1 r2 r3 act pre post init' seed name debug.
Proof.
  intros H. split_loaded H.
  unfold encoder_layer, pre_process_layer, post_process_layer.
  loaded_calls. reflexivity.
Qed.

Lemma encoder_co_layer_loaded x vx bias ch ck cv cm dm di vm vi r1 r2 r3 act pre post
  seed name debug :
  loaded th (map fst (encoder_co_layer_params name pre post ch ck cv dm di vm vi)) ->
  encoder_co_layer th x vx bias ch ck cv cm dm di vm vi r1 r2 r3 act pre post
    init seed name debug
  = encoder_co_layer th x vx bias ch ck cv cm dm di vm vi r1 r2 r3 act pre post
      init' seed name debug.
Proof.
  intros H. split_loaded H.
  unfold encoder_co_layer, pre_process_layer, post_process_layer.
  loaded_calls. reflexivity.
Qed.
End Initializer.

Section StackInitializer.
Context {R : Type} {K : Kernels R}.
Variable th : @scope R.
Variables (attn_bias attn_image_bias : option (tensor R)) (attn_vl_bias : tensor R).
Variables (n_head d_key d_value d_model d_inner_hid : Z).
Variables (v_head v_key v_value v_model v_inner_hid : Z).
Variables (co_head co_key co_value co_model : Z).
Variables (prepostprocess_dropout attention_dropout relu_dropout : Q).
Variables (hidden_act : option string) (preprocess_cmd postprocess_cmd : string).
Variables (init init' : option (@initializer R)) (seed : Z) (name : string).

Let params := call_params n_head d_key d_value d_model d_inner_hid
                v_head v_key v_value v_model v_inner_hid co_head co_key co_value
                preprocess_cmd postprocess_cmd name.

Lemma run_schedule_loaded (cs : list layer_call) :
  loaded th (map fst (flat_map params cs)) ->
  forall s,
    run_schedule th attn_bias attn_image_bias attn_vl_bias
      n_head d_key d_value d_model d_inner_hid
      v_head v_key v_value v_model v_inner_hid
      co_head co_key co_value co_model
      prepostprocess_dropout attention_dropout relu_dropout
      hidden_act preprocess_cmd postprocess_cmd init seed name cs s
    = run_schedule th attn_bias attn_image_bias attn_vl_bias
        n_head d_key d_value d_model d_inner_hid
        v_head v_key v_value v_model v_inner_hid
        co_head co_key co_value co_model
        prepostprocess_dropout attention_dropout relu_dropout
        hidden_act preprocess_cmd postprocess_cmd init' seed name cs s.
Proof.
  induction cs as [|c cs IH]; intros H s; [reflexivity|].
  cbn [flat_map] in H. rewrite map_app in H. apply loaded_app in H as [Hc H].
  cbn [run_schedule]. apply bind_cong; [|intros; apply IH, H].
  destruct c; unfold params in Hc; cbn [call_params] in Hc;
    unfold run_call, text_layer, vision_layer, co_layer, pre_process_layer.
  - apply bind_cong; [apply encoder_layer_loaded with (debug := false), Hc|reflexivity].
  - apply bind_cong; [apply encoder_layer_loaded with (debug := false), Hc|reflexivity].
  - apply encoder_co_layer_loaded with (debug := false), Hc.
  - reflexivity.
  - reflexivity.
Qed.

(** X22. When the scope holds a value under the name of each parameter of
    the inventory, the result of [encoder] does not depend on
    [param_initializer]. *)
Theorem encoder_initializer_of_loaded_parameters (x vx : tensor R)
  (n_layer co_inner_hid : Z) (v_biattention_id t_biattention_id : list Z)
  (debug : bool) :
  loaded th
    (map fst (encoder_params n_head d_key d_value d_model d_inner_hid
                v_head v_key v_value v_model v_inner_hid co_head co_key co_value
                preprocess_cmd postprocess_cmd name v_biattention_id t_biattention_id)) ->
  encoder th x vx attn_bias attn_image_bias attn_vl_bias
    n_layer n_head d_key d_value d_model d_inner_hid
    v_head v_key v_value v_model v_inner_hid
    co_head co_key co_value co_model co_inner_hid
    prepostprocess_dropout attention_dropout relu_dropout
    hidden_act preprocess_cmd postprocess_cmd init
    v_biattention_id t_biattention_id seed name debug
  = encoder th x vx attn_bias attn_image_bias attn_vl_bias
      n_layer n_head d_key d_value d_model d_inner_hid
      v_head v_key v_value v_model v_inner_hid
      co_head co_key co_value co_model co_inner_hid
      prepostprocess_dropout attention_dropout relu_dropout
      hidden_act preprocess_cmd postprocess_cmd init'
      v_biattention_id t_biattention_id seed name debug.
Proof.
  intros H. unfold encoder_params in H.
  destruct (combine v_biattention_id t_biattention_id) as [|p ps] eqn:E.
  - unfold encoder. rewrite E. reflexivity.
  - rewrite !encoder_run_schedule by (rewrite E; discriminate).
    apply bind_cong; [|reflexivity]. rewrite E. apply run_schedule_loaded, H.
Qed.
End StackInitializer.

Lemma encoder_initializer_of_loaded_parameters_witness :
  encoder
    (scope_of (encoder_params 2 1 1 2 4 2 1 1 2 4 2 1 1 "n" "da" "encoder" [0%Z] [1%Z]))
    (ones [1; 1; 2]) (ones [1; 2; 2])
    (Some (ones [1; 2; 1; 1])) (Some (ones [1; 2; 2; 2])) (ones [1; 2; 2; 1])
    24 2 1 1 2 4 2 1 1 2 4 2 1 1 2 4 0 0 0 (Some "gelu"%string)
    "n"%string "da"%string None [0%Z] [1%Z] 0 "encoder"%string false
  = encoder
      (scope_of (encoder_params 2 1 1 2 4 2 1 1 2 4 2 1 1 "n" "da" "encoder" [0%Z] [1%Z]))
      (ones [1; 1; 2]) (ones [1; 2; 2])
      (Some (ones [1; 2; 1; 1])) (Some (ones [1; 2; 2; 2])) (ones [1; 2; 2; 1])
      24 2 1 1 2 4 2 1 1 2 4 2 1 1 2 4 0 0 0 (Some "gelu"%string)
      "n"%string "da"%string (Some (Constant 0%Z)) [0%Z] [1%Z] 0 "encoder"%string false.
Proof.
  apply (@encoder_initializer_of_loaded_parameters Z ZKernels
           (scope_of (encoder_params 2 1 1 2 4 2 1 1 2 4 2 1 1 "n" "da" "encoder"
                        [0%Z] [1%Z]))).
  intros n Hin. vm_compute in Hin.
  repeat (destruct Hin as [<-|Hin]; [vm_compute; discriminate|]).
  contradiction.
Defined.

(** ** The names of the parameters *)

Lemma length_append (a b : string) :
  String.length (a +s b) = String.length a + String.length b.
Proof. induction a as [|c a IH]; cbn [append String.length]; [reflexivity|]. rewrite IH. reflexivity. Qed.

Lemma append_assoc (a b c : string) : a +s b +s c = a +s (b +s c).
Proof. induction a as [|x a IH]; cbn [append]; [reflexivity|]. rewrite IH. reflexivity. Qed.

Lemma append_cancel_l (a b c : string) : a +s b = a +s c -> b = c.
Proof.
  induction a as [|x a IH]; cbn [append]; intros H; [exact H|].
  inversion H. auto.
Qed.

(** The last character of a string that ends with [s]. *)
Lemma last_of_append (a s : string) :
  s <> ""%string ->
  get (String.length (a +s s) - 1) (a +s s) = get (String.length s - 1) s.
Proof.
  intros Hs. rewrite length_append. destruct s as [|c s]; [contradiction|].
  cbn [String.length].
  replace (String.length a + S (String.length s) - 1)
    with (String.length s + String.length a) by lia.
  replace (S (String.length s) - 1) with (String.length s) by lia.
  symmetry. apply append_correct2.
Qed.

(** [str(i)] is a sign and digits: it has a character, and no ["_"]. *)
Lemma digits_no_underscore (d : Decimal.uint) :
  ~ In "_"%char (list_ascii_of_string (NilEmpty.string_of_uint d)).
Proof.
  induction d; cbn [NilEmpty.string_of_uint list_ascii_of_string In];
    intros H; try (destruct H as [H|H]; [discriminate H|]); auto.
Qed.

Lemma str_no_underscore (i : Z) : ~ In "_"%char (list_ascii_of_string (str i)).
Proof.
  unfold str, NilZero.string_of_int, NilZero.string_of_uint.
  destruct (Z.to_int i) as [d|d].
  - destruct d; try apply digits_no_underscore.
    cbn. intros [H|[]]. discriminate H.
  - cbn [list_ascii_of_string In]. intros [H|H]; [discriminate H|].
    destruct d; try (eapply digits_no_underscore; exact H).
    cbn in H. destruct H as [H|[]]. discriminate H.
Qed.

Lemma str_length (i : Z) : 1 <= String.length (str i).
Proof.
  unfold str, NilZero.string_of_int, NilZero.string_of_uint.
  destruct (Z.to_int i) as [d|d]; destruct d; cbn; lia.
Qed.

Lemma str_inj (i j : Z) : str i = str j -> i = j.
Proof.
  unfold str. intros H.
  apply (f_equal NilZero.int_of_string) in H.
  assert (Hn : forall z, Z.to_int z <> Decimal.Pos Decimal.Nil
                         /\ Z.to_int z <> Decimal.Neg Decimal.Nil).
  { intros [|p|p]; cbn; split; try discriminate;
      intros E; inversion E as [E']; exact (Unsigned.to_uint_nonnil _ E'). }
  rewrite !NilZero.isi in H by apply Hn.
  inversion H as [H']. apply DecimalZ.to_int_inj, H'.
Qed.

(** A string without ["_"] ends where the first ["_"] is. *)
Lemma append_underscore_inj (a b s t : string) :
  ~ In "_"%char (list_ascii_of_string a) -> ~ In "_"%char (list_ascii_of_string b) ->
  a +s String "_" s = b +s String "_" t -> a = b.
Proof.
  revert b. induction a as [|x a IH]; intros [|y b] Ha Hb H;
    cbn [append list_ascii_of_string In] in *.
  - reflexivity.
  - inversion H; subst. exfalso. apply Hb. auto.
  - inversion H; subst. exfalso. apply Ha. auto.
  - inversion H; subst. f_equal. apply IH with (b := b); auto.
Qed.

Lemma name_index_inj (p : string) (i j : Z) (s t : string) :
  p +s str i +s String "_" s = p +s str j +s String "_" t -> i = j.
Proof.
  rewrite !append_assoc. intros H. apply append_cancel_l in H.
  apply str_inj. eapply append_underscore_inj; [| |exact H]; apply str_no_underscore.
Qed.

Section ParameterNames.

(** What tells the name of a parameter of a layer from the names of the
    last two normalizations is its end: a digit, or the ["e"] of
    [_layer_norm_scale] or the ["s"] of [_layer_norm_bias] after more
    characters than the latter have. *)
Let ends (c : ascii) (s : string) : Prop := get (String.length s - 1) s = Some c.

Let own_suffix (s : string) : Prop :=
  ends "0" s
  \/ (ends "e" s /\ 24 <= String.length s)
  \/ (ends "s" s /\ 23 <= String.length s).

Ltac own_name :=
  rewrite ?append_assoc; cbn [append]; eexists; split; [reflexivity|];
  unfold own_suffix, ends;
  first [left; reflexivity
        |right; left; split; [reflexivity|cbn [String.length]; lia]
        |right; right; split; [reflexivity|cbn [String.length]; lia]].

Lemma encoder_layer_names (p pre post : string) (n_head d_key d_value d_model d_inner_hid : Z)
  (n : string) :
  In n (map fst (encoder_layer_params p pre post n_head d_key d_value d_model
                   d_inner_hid)) ->
  exists s, n = p +s String "_" s /\ own_suffix s.
Proof.
  unfold encoder_layer_params, pre_post_process_layer_params,
    multi_head_attention_params, positionwise_feed_forward_params. cbv zeta.
  destruct (has_cmd "n" pre), (has_cmd "n" post); cbn [map fst app]; intros H;
    repeat (destruct H as [<-|H]; [own_name|]); contradiction.
Qed.

Lemma encoder_co_layer_names (p pre post : string)
  (co_head co_key co_value d_model d_inner_hid v_model v_inner_hid : Z) (n : string) :
  In n (map fst (encoder_co_layer_params p pre post co_head co_key co_value d_model
                   d_inner_hid v_model v_inner_hid)) ->
  exists s, n = p +s String "_" s /\ own_suffix s.
Proof.
  unfold encoder_co_layer_params, pre_post_process_layer_params,
    multi_head_attention_params, positionwise_feed_forward_params. cbv zeta.
  destruct (has_cmd "n" pre), (has_cmd "n" post); cbn [map fst app]; intros H;
    repeat (destruct H as [<-|H]; [own_name|]); contradiction.
Qed.

Lemma post_names (cmd p : string) (w : nat) (n : string) :
  In n (map fst (pre_post_process_layer_params cmd p w)) ->
  n = p +s "_layer_norm_scale" \/ n = p +s "_layer_norm_bias".
Proof.
  unfold pre_post_process_layer_params. destruct (has_cmd "n" cmd); cbn [map fst In];
    intros H; [|contradiction].
  destruct H as [<-|[<-|[]]]; auto.
Qed.

Lemma own_not_post (p s t n : string) :
  8 <= String.length p -> own_suffix s ->
  t = "post_encoder"%string \/ t = "vl_post_encoder"%string ->
  n = t +s "_layer_norm_scale" \/ n = t +s "_layer_norm_bias" ->
  p +s String "_" s <> n.
Proof.
  intros Hp Hs Ht Hn E.
  assert (Hne : s <> ""%string)
    by (destruct Hs as [H|[[H _]|[H _]]]; intros ->; discriminate H).
  assert (Hlast : forall c, ends c s -> ends c n).
  { intros c Hc. unfold ends in *. rewrite <- E.
    change (String "_" s) with ("_" +s s). rewrite <- append_assoc.
    rewrite last_of_append by exact Hne. exact Hc. }
  assert (Hlen : String.length n = String.length p + S (String.length s))
    by (rewrite <- E, length_append; reflexivity).
  unfold ends in Hlast.
  destruct Ht as [-> | ->]; destruct Hn as [-> | ->]; cbn in Hlast, Hlen;
    destruct Hs as [H|[[H Hl]|[H Hl]]]; apply Hlast in H;
    first [discriminate H|lia].
Qed.

Variables (n_head d_key d_value d_model d_inner_hid : Z).
Variables (v_head v_key v_value v_model v_inner_hid : Z).
Variables (co_head co_key co_value : Z).
Variables (preprocess_cmd postprocess_cmd name : string).

Let names (c : layer_call) : list string :=
  map fst (call_params n_head d_key d_value d_model d_inner_hid
             v_head v_key v_value v_model v_inner_hid co_head co_key co_value
             preprocess_cmd postprocess_cmd name c).

Ltac other_kind E :=
  exfalso; rewrite !append_assoc in E; apply append_cancel_l in E;
  cbn [append] in E; discriminate E.

Ltac not_post Hs E :=
  exfalso; eapply own_not_post; [|exact Hs| |exact E|reflexivity]; [|auto];
  rewrite !length_append; cbn [String.length];
  match goal with |- context [str ?i] => pose proof (str_length i) end; lia.

Lemma call_params_inj (c c' : layer_call) (n : string) :
  In n (names c) -> In n (names c') -> c = c'.
Proof.
  unfold names.
  destruct c as [i|i|i| |], c' as [j|j|j| |]; cbn [call_params]; intros H1 H2;
    try reflexivity;
    try apply encoder_layer_names in H1 as (s & -> & Hs);
    try apply encoder_co_layer_names in H1 as (s & -> & Hs);
    try apply encoder_layer_names in H2 as (t & E & Ht);
    try apply encoder_co_layer_names in H2 as (t & E & Ht);
    try apply post_names in H1;
    try apply post_names in H2.
  all: try match goal with
           | E : _ = _ |- _ = _ =>
               first [f_equal; eapply name_index_inj; exact E|other_kind E]
           end.
  all: try match goal with
           | Hs : own_suffix ?s, H : _ +s String "_" ?s = _ \/ _ |- _ => not_post Hs H
           end.
  all: try match goal with
           | Ht : own_suffix ?t, E : ?m = _ +s String "_" ?t, H : ?m = _ \/ _ |- _ =>
               rewrite E in H; not_post Ht H
           end.
  all: destruct H1 as [-> | ->]; destruct H2 as [E|E]; cbn in E; discriminate E.
Qed.

(** X23. Two calls of the schedule that differ (two layers of different
    indices or of different streams, a co-attention layer, one of the two
    last normalizations) have no parameter in common: no name is in the
    inventories of both, whatever [name], the indices and the command
    strings are. *)
Theorem layers_share_no_parameter (c c' : layer_call) (n : string) :
  c <> c' ->
  In n (map fst (call_params n_head d_key d_value d_model d_inner_hid
                   v_head v_key v_value v_model v_inner_hid co_head co_key co_value
                   preprocess_cmd postprocess_cmd name c)) ->
  ~ In n (map fst (call_params n_head d_key d_value d_model d_inner_hid
                     v_head v_key v_value v_model v_inner_hid co_head co_key co_value
                     preprocess_cmd postprocess_cmd name c')).
Proof. intros Hne H1 H2. apply Hne. eapply call_params_inj; eassumption. Qed.
End ParameterNames.

Lemma layers_share_no_parameter_witness :
  ~ In "encoder_layer_0_ffn_fc_0.w_0"%string
      (map fst (call_params 2 1 1 2 4 2 1 1 2 4 2 1 1 "n" "da" "encoder" (TextLayer 1))).
Proof.
  apply (@layers_share_no_parameter 2 1 1 2 4 2 1 1 2 4 2 1 1 "n" "da" "encoder"
           (TextLayer 0) (TextLayer 1)).
  - discriminate.
  - vm_compute. repeat (first [left; reflexivity|right]).
Defined.
